(** * Demo data generator and schema validator (demo_data.py)

    A shallow embedding of the generation pipeline and of [validate_table].

    Conventions of the embedding.
    - Python [float] values are idealised as exact rationals ([Q]); [round]
      rounds half to even on the exact value, [int] truncates toward zero.
    - The [random] module is a cursor over a sequence of raw draws.  The
      sequence installed by [random.seed(s)] is a parameter of the pipeline;
      every primitive consumes one raw draw and maps it into its range.
    - A generator's table is kept as the list of its records; [DataFrame]
      builds the pandas frame (column-major) from the dict view of the rows.
    - [validate_table] mutates its argument: frames live in a store and are
      passed by location. *)

From Stdlib Require Import ZArith QArith Qround Qabs String Ascii List Lia Lqa DecimalString DecimalN DecimalPos.
From stdpp Require Import base gmap strings list.

Open Scope Z_scope.

(** ** Python strings *)

Module Py.

Definition str_of_N (n : N) : string := NilEmpty.string_of_uint (N.to_uint n).

(** [str(n)] for an integer. *)
Definition str_of_int (z : Z) : string :=
  match z with
  | Zneg p => "-" +:+ str_of_N (Npos p)
  | _ => str_of_N (Z.to_N z)
  end.

Fixpoint zeros (k : nat) : string :=
  match k with O => EmptyString | S k' => String "0" (zeros k') end.

(** [f"{z:0{w}d}"]: zero padding to width [w], the sign counted in the width. *)
Definition fmt_0d (w : nat) (z : Z) : string :=
  match z with
  | Zneg p =>
      let digits := str_of_N (Npos p) in
      "-" +:+ zeros (w - 1 - String.length digits) +:+ digits
  | _ =>
      let digits := str_of_N (Z.to_N z) in
      zeros (w - String.length digits) +:+ digits
  end.

Definition lower_ascii (c : ascii) : ascii :=
  let n := nat_of_ascii c in
  if (65 <=? n)%nat && (n <=? 90)%nat then ascii_of_nat (n + 32) else c.

Definition upper_ascii (c : ascii) : ascii :=
  let n := nat_of_ascii c in
  if (97 <=? n)%nat && (n <=? 122)%nat then ascii_of_nat (n - 32) else c.

Fixpoint map_string (f : ascii -> ascii) (s : string) : string :=
  match s with
  | EmptyString => EmptyString
  | String c s' => String (f c) (map_string f s')
  end.

Definition lower : string -> string := map_string lower_ascii.
Definition upper : string -> string := map_string upper_ascii.

(** [s.replace(c, '')] for a single character [c]. *)
Fixpoint remove_char (c : ascii) (s : string) : string :=
  match s with
  | EmptyString => EmptyString
  | String d s' => if Ascii.eqb c d then remove_char c s' else String d (remove_char c s')
  end.

(** [s[:n]] *)
Fixpoint take (n : nat) (s : string) : string :=
  match n, s with
  | S n', String c s' => String c (take n' s')
  | _, _ => EmptyString
  end.

Definition is_space (c : ascii) : bool :=
  let n := nat_of_ascii c in
  (n =? 32)%nat || ((9 <=? n)%nat && (n <=? 13)%nat).

(** [s.split()]: the maximal runs of non-blank characters. *)
Fixpoint split_go (cur : string) (s : string) : list string :=
  match s with
  | EmptyString => match cur with EmptyString => [] | _ => [cur] end
  | String c s' =>
      if is_space c
      then match cur with
           | EmptyString => split_go EmptyString s'
           | _ => cur :: split_go EmptyString s'
           end
      else split_go (cur +:+ String c EmptyString) s'
  end.

Definition split (s : string) : list string := split_go EmptyString s.

Fixpoint concat_strings (l : list string) : string :=
  match l with
  | [] => EmptyString
  | s :: l' => s +:+ concat_strings l'
  end.

Fixpoint is_prefix (p s : string) : bool :=
  match p, s with
  | EmptyString, _ => true
  | String a p', String b s' => Ascii.eqb a b && is_prefix p' s'
  | String _ _, EmptyString => false
  end.

(** [p in s] for strings. *)
Fixpoint contains (p s : string) : bool :=
  is_prefix p s ||
  match s with
  | EmptyString => false
  | String _ s' => contains p s'
  end.

(** ** Python numbers *)

(** [int(x)] on a float: truncation toward zero. *)
Definition int_of_float (x : Q) : Z := Z.quot (Qnum x) (Zpos (Qden x)).

Definition round_half_even (x : Q) : Z :=
  let f := Qfloor x in
  match Qcompare (x - inject_Z f) (1 # 2) with
  | Lt => f
  | Gt => f + 1
  | Eq => if Z.even f then f else f + 1
  end.

Definition pow10 (n : nat) : positive := Pos.pow 10 (Pos.of_nat n).

(** [round(x, ndigits)] for [ndigits >= 1]. *)
Definition round (x : Q) (ndigits : nat) : Q :=
  Qred (Qmake (round_half_even (x * inject_Z (Zpos (pow10 ndigits)))) (pow10 ndigits)).

Definition float_of_int (z : Z) : Q := inject_Z z.

Definition Qmin (a b : Q) : Q := if Qle_bool a b then a else b.
Definition Qmax (a b : Q) : Q := if Qle_bool a b then b else a.
Definition Qltb (a b : Q) : bool := negb (Qle_bool b a).

End Py.

(** ** Dates and times (datetime module) *)

Record date := mk_date { year : Z; month : Z; day : Z }.
Record time := mk_time { hour : Z; minute : Z; second : Z }.
Record datetime := mk_datetime { dt_date : date; dt_time : time }.

Module Datetime.

(** Days since 1970-01-01 in the proleptic Gregorian calendar. *)
Definition days_from_civil (d : date) : Z :=
  let y := if month d <=? 2 then year d - 1 else year d in
  let era := y / 400 in
  let yoe := y - era * 400 in
  let mp := if month d >? 2 then month d - 3 else month d + 9 in
  let doy := (153 * mp + 2) / 5 + day d - 1 in
  let doe := yoe * 365 + yoe / 4 - yoe / 100 + doy in
  era * 146097 + doe - 719468.

Definition civil_from_days (z : Z) : date :=
  let z := z + 719468 in
  let era := z / 146097 in
  let doe := z - era * 146097 in
  let yoe := (doe - doe / 1460 + doe / 36524 - doe / 146096) / 365 in
  let doy := doe - (365 * yoe + yoe / 4 - yoe / 100) in
  let mp := (5 * doy + 2) / 153 in
  let d := doy - (153 * mp + 2) / 5 + 1 in
  let m := if mp <? 10 then mp + 3 else mp - 9 in
  mk_date (if m <=? 2 then yoe + era * 400 + 1 else yoe + era * 400) m d.

(** [d + timedelta(days=n)] *)
Definition add_days (d : date) (n : Z) : date := civil_from_days (days_from_civil d + n).

(** [d.weekday()]: Monday is 0. *)
Definition weekday (d : date) : Z := (days_from_civil d + 3) mod 7.

Definition date_leb (a b : date) : bool := days_from_civil a <=? days_from_civil b.

Definition seconds_of_time (t : time) : Z := hour t * 3600 + minute t * 60 + second t.

Definition time_of_seconds (s : Z) : time :=
  mk_time (s / 3600) ((s mod 3600) / 60) (s mod 60).

(** [datetime.combine(d, t)] *)
Definition combine (d : date) (t : time) : datetime := mk_datetime d t.

(** [dt + timedelta(seconds=n)] *)
Definition add_seconds (dt : datetime) (n : Z) : datetime :=
  let total := seconds_of_time (dt_time dt) + n in
  mk_datetime (add_days (dt_date dt) (total / 86400)) (time_of_seconds (total mod 86400)).

(** [(a - b).seconds]: the seconds field of the normalised difference. *)
Definition diff_seconds (a b : datetime) : Z :=
  ((days_from_civil (dt_date a) - days_from_civil (dt_date b)) * 86400
   + seconds_of_time (dt_time a) - seconds_of_time (dt_time b)) mod 86400.

Definition isoformat_date (d : date) : string :=
  Py.fmt_0d 4 (year d) +:+ "-" +:+ Py.fmt_0d 2 (month d) +:+ "-" +:+ Py.fmt_0d 2 (day d).

Definition isoformat_time (t : time) : string :=
  Py.fmt_0d 2 (hour t) +:+ ":" +:+ Py.fmt_0d 2 (minute t) +:+ ":" +:+ Py.fmt_0d 2 (second t).

End Datetime.

(** ** Exceptions and the global random generator *)

Inductive exn :=
| IndexError (msg : string)
| ValueError (msg : string)
| KeyError (msg : string)
| StopIteration
| Exception (msg : string).

(** [str(e)] *)
Definition str_of_exn (e : exn) : string :=
  match e with
  | IndexError msg | ValueError msg | KeyError msg | Exception msg => msg
  | StopIteration => EmptyString
  end.

(** State of the module-level generator of [random]: the sequence of raw
    draws fixed by the last seeding, and how many of them were consumed. *)
Record rng_state := mk_rng { source : N -> N; cursor : N }.

Inductive outcome (A : Type) :=
| Ok (a : A)
| Raise (e : exn).
Arguments Ok {A} a.
Arguments Raise {A} e.

(** Computations that read the global generator and may raise. *)
Definition M (A : Type) : Type := rng_state -> outcome A * rng_state.

#[global] Instance M_ret : MRet M := fun A a s => (Ok a, s).
#[global] Instance M_bind : MBind M := fun A B f m s =>
  match m s with
  | (Ok a, s') => f a s'
  | (Raise e, s') => (Raise e, s')
  end.

Definition raise {A} (e : exn) : M A := fun s => (Raise e, s).

(** One raw draw. *)
Definition draw : M N := fun s => (Ok (source s (cursor s)), mk_rng (source s) (N.succ (cursor s))).

Module Random.

(** [random.seed(a)]: [gen a] is the raw sequence the seed [a] stands for. *)
Definition seed (gen : Z -> N -> N) (a : Z) : M unit := fun _ => (Ok tt, mk_rng (gen a) 0%N).

(** [random.random()]: a float in [0, 1) on the 2^-53 grid. *)
Definition random : M Q :=
  n ← draw; mret (Qred (Qmake (Z.of_N (n mod 2 ^ 53)) (2 ^ 53))).

(** [random.uniform(a, b)] is [a + (b - a) * random()]. *)
Definition uniform (a b : Q) : M Q :=
  r ← random; mret (Qred (a + (b - a) * r)).

(** [random.randint(a, b)]: an integer of [a .. b], both ends included. *)
Definition randint (a b : Z) : M Z :=
  if b <? a then raise (ValueError "empty range for randrange()")
  else n ← draw; mret (a + Z.of_N n mod (b - a + 1)).

(** [random.choice(seq)] *)
Definition choice {A} (seq : list A) : M A :=
  match seq with
  | [] => raise (IndexError "Cannot choose from an empty sequence")
  | x :: _ => n ← draw; mret (nth (N.to_nat (n mod N.of_nat (length seq))) seq x)
  end.

End Random.

(** ** Loops *)

(** [for x in xs: body], the body appending rows to a list and updating the
    loop-carried variables [S]. *)
Fixpoint for_each {S A B} (xs : list A) (body : S -> A -> M (list B * S)) (s : S)
  : M (list B * S) :=
  match xs with
  | [] => mret ([], s)
  | x :: xs' =>
      '(rows, s1) ← body s x;
      '(rest, s2) ← for_each xs' body s1;
      mret (rows ++ rest, s2)
  end.

(** [range(n)] *)
Definition range (n : nat) : list Z := map Z.of_nat (seq 0 n).

(** ** Cell values and frames (pandas) *)

Inductive value :=
| VNull
| VStr (s : string)
| VInt (z : Z)
| VFloat (q : Q)
| VBool (b : bool)
| VDate (d : date)
| VDateTime (dt : datetime)
| VTime (t : time).

(** A dict with string keys, in insertion order. *)
Definition dict := list (string * value).

Fixpoint dict_get (k : string) (d : dict) : option value :=
  match d with
  | [] => None
  | (k', v) :: d' => if String.eqb k k' then Some v else dict_get k d'
  end.

(** A frame: its columns in order, each with one cell per row. *)
Record DataFrame := mk_frame { frame_len : nat; frame_cols : list (string * list value) }.

Definition columns (df : DataFrame) : list string := map fst (frame_cols df).

Fixpoint assoc_get {A} (k : string) (l : list (string * A)) : option A :=
  match l with
  | [] => None
  | (k', v) :: l' => if String.eqb k k' then Some v else assoc_get k l'
  end.

(** [df[col]] for a column that is present. *)
Definition get_column (col : string) (df : DataFrame) : list value :=
  default [] (assoc_get col (frame_cols df)).

Fixpoint assoc_set {A} (k : string) (v : A) (l : list (string * A)) : list (string * A) :=
  match l with
  | [] => [(k, v)]
  | (k', v') :: l' => if String.eqb k k' then (k, v) :: l' else (k', v') :: assoc_set k v l'
  end.

(** [df[col] = cells] *)
Definition set_column (col : string) (cells : list value) (df : DataFrame) : DataFrame :=
  mk_frame (frame_len df) (assoc_set col cells (frame_cols df)).

Definition mem_string (s : string) (l : list string) : bool := existsb (String.eqb s) l.

(** Keys of the records in order of first appearance. *)
Fixpoint union_keys (seen : list string) (records : list dict) : list string :=
  match records with
  | [] => seen
  | r :: rs =>
      union_keys
        (fold_left (fun acc k => if mem_string k acc then acc else acc ++ [k]) (map fst r) seen)
        rs
  end.

Definition is_int (v : value) : bool := match v with VInt _ => true | _ => false end.
Definition is_float (v : value) : bool := match v with VFloat _ => true | _ => false end.
Definition is_number (v : value) : bool := is_int v || is_float v.

(** Column type inference of the constructor: a numeric column that holds a
    float is a float column, its integers become floats. *)
Definition infer_column (cells : list value) : list value :=
  if forallb is_number cells && existsb is_float cells
  then map (fun v => match v with VInt z => VFloat (Py.float_of_int z) | _ => v end) cells
  else cells.

(** [pd.DataFrame(records)] for a list of dicts; a key a record lacks is null there.
    The empty list gives the frame without columns. *)
Definition DataFrame_of (records : list dict) : DataFrame :=
  mk_frame (length records)
    (map (fun k => (k, infer_column (map (fun r => default VNull (dict_get k r)) records)))
         (union_keys [] records)).

(** The row at position [i], as a dict. *)
Definition row_at (df : DataFrame) (i : nat) : dict :=
  omap (fun '(k, cells) => (fun v => (k, v)) <$> (cells !! i)) (frame_cols df).

(** ** The pandas conversions used by the validator

    Each conversion acts on a whole column and either yields the new column
    or raises.  On cells of the kind the schema declares they follow pandas
    exactly; text is parsed in its ISO-8601 and decimal-literal forms (what
    a CSV export of these tables contains), other text counts as unparseable. *)

Module Pandas.

Definition digit_of (c : ascii) : option Z :=
  let n := nat_of_ascii c in
  if (48 <=? n)%nat && (n <=? 57)%nat then Some (Z.of_nat (n - 48)) else None.

(** Reads exactly [n] decimal digits. *)
Fixpoint digits (n : nat) (acc : Z) (s : string) : option (Z * string) :=
  match n with
  | O => Some (acc, s)
  | S n' =>
      match s with
      | String c s' => d ← digit_of c; digits n' (10 * acc + d) s'
      | EmptyString => None
      end
  end.

Definition expect (c : ascii) (s : string) : option string :=
  match s with
  | String d s' => if Ascii.eqb c d then Some s' else None
  | EmptyString => None
  end.

Definition is_leap (y : Z) : bool :=
  ((y mod 4 =? 0) && negb (y mod 100 =? 0)) || (y mod 400 =? 0).

Definition days_in_month (y m : Z) : Z :=
  if m =? 2 then (if is_leap y then 29 else 28)
  else if (m =? 4) || (m =? 6) || (m =? 9) || (m =? 11) then 30 else 31.

Definition parse_time (s : string) : option time :=
  '(h, s) ← digits 2 0 s;
  s ← expect ":" s;
  '(m, s) ← digits 2 0 s;
  if (h <? 24) && (m <? 60) then
    match s with
    | EmptyString => Some (mk_time h m 0)
    | _ =>
        s ← expect ":" s;
        '(sec, s) ← digits 2 0 s;
        match s with
        | EmptyString => if sec <? 60 then Some (mk_time h m sec) else None
        | _ => None
        end
    end
  else None.

(** [YYYY-MM-DD], optionally followed by a blank or [T] and [HH:MM[:SS]]. *)
Definition parse_datetime (s : string) : option datetime :=
  '(y, s) ← digits 4 0 s;
  s ← expect "-" s;
  '(m, s) ← digits 2 0 s;
  s ← expect "-" s;
  '(d, s) ← digits 2 0 s;
  if (1 <=? m) && (m <=? 12) && (1 <=? d) && (d <=? days_in_month y m) then
    match s with
    | EmptyString => Some (mk_datetime (mk_date y m d) (mk_time 0 0 0))
    | String c s' =>
        if Ascii.eqb c " " || Ascii.eqb c "T"
        then t ← parse_time s'; Some (mk_datetime (mk_date y m d) t)
        else None
    end
  else None.

(** A count of nanoseconds since the epoch, as a timestamp. *)
Definition of_epoch_ns (ns : Z) : datetime :=
  let secs := ns / 1000000000 in
  mk_datetime (Datetime.civil_from_days (secs / 86400)) (Datetime.time_of_seconds (secs mod 86400)).

Definition epoch_ns (dt : datetime) : Z :=
  (Datetime.days_from_civil (dt_date dt) * 86400 + Datetime.seconds_of_time (dt_time dt)) * 1000000000.

(** One cell of [pd.to_datetime]; [None] is NaT. *)
Definition to_datetime1 (v : value) : exn + option datetime :=
  match v with
  | VNull => inr None
  | VDate d => inr (Some (mk_datetime d (mk_time 0 0 0)))
  | VDateTime dt => inr (Some dt)
  | VStr s =>
      match parse_datetime s with
      | Some dt => inr (Some dt)
      | None => inl (ValueError ("Unknown datetime string format, unable to parse: " +:+ s))
      end
  | VInt z => inr (Some (of_epoch_ns z))
  | VFloat q => inr (Some (of_epoch_ns (Qfloor q)))
  | VBool _ => inl (Exception "<class 'bool'> is not convertible to datetime")
  | VTime _ => inl (Exception "<class 'datetime.time'> is not convertible to datetime")
  end.

(** Applies a cell conversion along a column; the first failure is raised. *)
Fixpoint traverse {A} (f : value -> exn + A) (cells : list value) : exn + list A :=
  match cells with
  | [] => inr []
  | v :: cells' =>
      match f v with
      | inl e => inl e
      | inr a => match traverse f cells' with inl e => inl e | inr l => inr (a :: l) end
      end
  end.

(** [pd.to_datetime(col)] *)
Definition to_datetime (cells : list value) : exn + list value :=
  match traverse to_datetime1 cells with
  | inl e => inl e
  | inr l => inr (map (fun o => match o with Some dt => VDateTime dt | None => VNull end) l)
  end.

(** [pd.to_datetime(col).dt.date] *)
Definition to_datetime_date (cells : list value) : exn + list value :=
  match traverse to_datetime1 cells with
  | inl e => inl e
  | inr l => inr (map (fun o => match o with Some dt => VDate (dt_date dt) | None => VNull end) l)
  end.

(** [bool(v)] as [astype(bool)] takes it; a missing cell is a NaN, which is true. *)
Definition truth (v : value) : bool :=
  match v with
  | VStr s => negb (String.eqb s EmptyString)
  | VInt z => negb (z =? 0)
  | VFloat q => negb (Qeq_bool q 0)
  | VBool b => b
  | VNull | VDate _ | VDateTime _ | VTime _ => true
  end.

Definition astype_bool (cells : list value) : exn + list value :=
  inr (map (fun v => VBool (truth v)) cells).

Fixpoint digit_run (acc : Z) (n : nat) (s : string) : Z * nat * string :=
  match s with
  | String c s' =>
      match digit_of c with
      | Some d => digit_run (10 * acc + d) (S n) s'
      | None => (acc, n, s)
      end
  | EmptyString => (acc, n, s)
  end.

(** Decimal literals: an optional sign, digits, an optional fraction. *)
Definition parse_number (s : string) : option Q :=
  let '(neg, s) :=
    match s with
    | String "-" s' => (true, s')
    | String "+" s' => (false, s')
    | _ => (false, s)
    end in
  let '(ip, n, s) := digit_run 0 0 s in
  if (n =? 0)%nat then None
  else
    let sign (q : Q) := if neg then Qopp q else q in
    match s with
    | EmptyString => Some (sign (inject_Z ip))
    | String "." s' =>
        let '(fp, k, s'') := digit_run 0 0 s' in
        match s'' with
        | EmptyString =>
            Some (sign (Qred (inject_Z ip + Qmake fp (Pos.pow 10 (Pos.of_nat k))))%Q)
        | _ => None
        end
    | _ => None
    end.

(** One cell of [pd.to_numeric(col, errors='coerce')]; [None] is NaN. *)
Definition to_numeric1 (v : value) : option Q :=
  match v with
  | VInt z => Some (inject_Z z)
  | VFloat q => Some q
  | VBool b => Some (if b then 1 else 0)%Q
  | VStr s => parse_number s
  | VDateTime dt => Some (inject_Z (epoch_ns dt))
  | VNull | VDate _ | VTime _ => None
  end.

(** [pd.to_numeric(col, errors='coerce').fillna(0).astype(int)] *)
Definition to_numeric_int (cells : list value) : exn + list value :=
  inr (map (fun v => VInt (Py.int_of_float (default 0%Q (to_numeric1 v)))) cells).

(** [pd.to_numeric(col, errors='coerce').fillna(0.0).astype(float)] *)
Definition to_numeric_float (cells : list value) : exn + list value :=
  inr (map (fun v => VFloat (default 0%Q (to_numeric1 v))) cells).

Fixpoint fraction_digits (fuel : nat) (num : Z) (den : Z) : string :=
  match fuel with
  | O => EmptyString
  | S fuel' =>
      if num =? 0 then EmptyString
      else Py.str_of_int ((10 * num) / den) +:+ fraction_digits fuel' ((10 * num) mod den) den
  end.

(** [str(x)] for a float: the decimal expansion, cut after 17 places. *)
Definition str_of_float (q : Q) : string :=
  let a := Qabs q in
  let ip := Qfloor a in
  let frac := fraction_digits 17 (Qnum a - ip * Zpos (Qden a)) (Zpos (Qden a)) in
  (if Qle_bool 0 q then EmptyString else "-"%string) +:+ Py.str_of_int ip +:+ "." +:+
  (match frac with EmptyString => "0"%string | _ => frac end).

(** [str(v)] *)
Definition str_of_value (v : value) : string :=
  match v with
  | VNull => "nan"
  | VStr s => s
  | VInt z => Py.str_of_int z
  | VFloat q => str_of_float q
  | VBool b => if b then "True" else "False"
  | VDate d => Datetime.isoformat_date d
  | VDateTime dt =>
      Datetime.isoformat_date (dt_date dt) +:+ " " +:+ Datetime.isoformat_time (dt_time dt)
  | VTime t => Datetime.isoformat_time t
  end.

Definition astype_str (cells : list value) : exn + list value :=
  inr (map (fun v => VStr (str_of_value v)) cells).

(** [col.isnull()] *)
Definition isnull (v : value) : bool := match v with VNull => true | _ => false end.

End Pandas.

(** ** Data schemas *)

(** The value of one entry of [SCHEMAS]: under ["required"], the column names
    with their declared types, in the order of the dict. *)
Record schema := mk_schema { required : list (string * string) }.

Definition SCHEMAS : list (string * schema) :=
 [("dim_formulations", mk_schema
       [("formulation_id", "str");
        ("product_name", "str");
        ("product_category", "str");
        ("version", "str");
        ("status", "str");
        ("created_date", "date");
        ("expected_yield_percentage", "float");
        ("production_cost_per_unit", "float");
        ("target_cycle_time_hours", "float");
        ("quality_standards", "str")]);
  ("fact_production_batches", mk_schema
       [("batch_id", "str");
        ("formulation_id", "str");
        ("production_date", "date");
        ("planned_quantity", "int");
        ("actual_quantity", "int");
        ("yield_percentage", "float");
        ("status", "str");
        ("equipment_id", "str");
        ("supervisor_id", "str");
        ("quality_score", "float");
        ("total_cost", "float");
        ("completion_time_hours", "float")]);
  ("dim_raw_materials", mk_schema
       [("material_id", "str");
        ("material_name", "str");
        ("category", "str");
        ("supplier_id", "str");
        ("unit_of_measure", "str");
        ("unit_cost", "float");
        ("min_stock_level", "int");
        ("current_stock", "int");
        ("shelf_life_days", "int");
        ("storage_requirements", "str")]);
  ("fact_inventory_transactions", mk_schema
       [("transaction_id", "str");
        ("transaction_date", "date");
        ("transaction_type", "str");
        ("sku", "str");
        ("batch_id", "str");
        ("quantity", "int");
        ("unit_cost", "float");
        ("total_value", "float");
        ("location_id", "str");
        ("reference_document", "str");
        ("employee_id", "str")]);
  ("dim_inventory_items", mk_schema
       [("sku", "str");
        ("item_name", "str");
        ("category", "str");
        ("unit_of_measure", "str");
        ("current_stock", "int");
        ("min_stock_level", "int");
        ("max_stock_level", "int");
        ("average_unit_cost", "float");
        ("total_value", "float");
        ("last_restock_date", "date");
        ("expiry_date", "date");
        ("storage_location", "str")]);
  ("fact_sales_transactions", mk_schema
       [("transaction_id", "str");
        ("transaction_date", "datetime");
        ("customer_id", "str");
        ("sku", "str");
        ("quantity", "int");
        ("unit_price", "float");
        ("total_amount", "float");
        ("discount_amount", "float");
        ("tax_amount", "float");
        ("net_amount", "float");
        ("payment_method", "str");
        ("payment_status", "str");
        ("sales_channel", "str");
        ("employee_id", "str")]);
  ("dim_customers", mk_schema
       [("customer_id", "str");
        ("customer_name", "str");
        ("customer_type", "str");
        ("email", "str");
        ("phone", "str");
        ("address", "str");
        ("city", "str");
        ("country", "str");
        ("customer_since", "date");
        ("loyalty_points", "int");
        ("total_purchases", "float");
        ("last_purchase_date", "date")]);
  ("dim_employees", mk_schema
       [("employee_id", "str");
        ("first_name", "str");
        ("last_name", "str");
        ("email", "str");
        ("phone", "str");
        ("department", "str");
        ("position", "str");
        ("hire_date", "date");
        ("salary", "float");
        ("employment_type", "str");
        ("supervisor_id", "str");
        ("shift_pattern", "str");
        ("active", "bool")]);
  ("fact_attendance", mk_schema
       [("attendance_id", "str");
        ("employee_id", "str");
        ("date", "date");
        ("shift_start", "time");
        ("shift_end", "time");
        ("actual_start", "time");
        ("actual_end", "time");
        ("hours_worked", "float");
        ("overtime_hours", "float");
        ("attendance_status", "str");
        ("remarks", "str")]);
  ("fact_financial_transactions", mk_schema
       [("transaction_id", "str");
        ("transaction_date", "date");
        ("transaction_type", "str");
        ("account_code", "str");
        ("description", "str");
        ("debit_amount", "float");
        ("credit_amount", "float");
        ("balance", "float");
        ("reference_number", "str");
        ("vendor_customer_id", "str");
        ("payment_method", "str");
        ("status", "str")]);
  ("dim_accounts", mk_schema
       [("account_code", "str");
        ("account_name", "str");
        ("account_type", "str");
        ("category", "str");
        ("normal_balance", "str");
        ("opening_balance", "float");
        ("current_balance", "float");
        ("parent_account", "str");
        ("is_active", "bool")]);
  ("fact_ecommerce_orders", mk_schema
       [("order_id", "str");
        ("order_date", "datetime");
        ("customer_id", "str");
        ("total_amount", "float");
        ("shipping_amount", "float");
        ("tax_amount", "float");
        ("discount_amount", "float");
        ("net_amount", "float");
        ("payment_status", "str");
        ("order_status", "str");
        ("shipping_method", "str");
        ("tracking_number", "str");
        ("website_session_id", "str")]);
  ("fact_website_traffic", mk_schema
       [("session_id", "str");
        ("timestamp", "datetime");
        ("page_url", "str");
        ("referrer", "str");
        ("device_type", "str");
        ("location", "str");
        ("session_duration_seconds", "int");
        ("page_views", "int");
        ("converted", "bool");
        ("customer_id", "str")]);
  ("fact_production_analytics", mk_schema
       [("analytics_id", "str");
        ("date", "date");
        ("batch_id", "str");
        ("equipment_id", "str");
        ("oee_percentage", "float");
        ("yield_rate", "float");
        ("cycle_time_hours", "float");
        ("downtime_hours", "float");
        ("quality_score", "float");
        ("cost_variance", "float");
        ("energy_consumption", "float");
        ("scrap_percentage", "float")]);
  ("fact_inventory_analytics", mk_schema
       [("analytics_id", "str");
        ("date", "date");
        ("sku", "str");
        ("category", "str");
        ("stock_turnover_rate", "float");
        ("days_inventory_outstanding", "float");
        ("stockout_frequency", "float");
        ("holding_cost_percentage", "float");
        ("abc_classification", "str");
        ("excess_stock_value", "float");
        ("stockout_value", "float");
        ("forecast_accuracy", "float")]);
  ("dim_tenants", mk_schema
       [("tenant_id", "str");
        ("tenant_name", "str");
        ("business_type", "str");
        ("industry", "str");
        ("subscription_plan", "str");
        ("subscription_start", "date");
        ("subscription_end", "date");
        ("max_users", "int");
        ("active_users", "int");
        ("monthly_fee", "float");
        ("status", "str");
        ("contact_email", "str");
        ("contact_phone", "str")]);
  ("fact_audit_logs", mk_schema
       [("log_id", "str");
        ("timestamp", "datetime");
        ("tenant_id", "str");
        ("user_id", "str");
        ("user_role", "str");
        ("module", "str");
        ("action", "str");
        ("resource", "str");
        ("resource_id", "str");
        ("ip_address", "str");
        ("success", "bool");
        ("details", "str")])].

(** ** Validation *)

(** The texts appended to a report, kept structured: the sets of columns and
    the cause of a failed conversion are the payload of the f-strings. *)
Inductive message :=
| UnknownTable
| MissingColumns (cols : gset string)
| ExtraColumns (cols : gset string)
| ConversionFailed (col : string) (cause : string)
| NullValues (col : string) (count : nat).

(** The report dict; the report of an unknown table has no ["row_count"]. *)
Record report := mk_report {
  row_count : option nat;
  errors : list message;
  warnings : list message;
  ok : bool
}.

(** Frames are objects: a location names one, the store holds its content. *)
Abbreviation loc := nat.
Abbreviation store := (gmap loc DataFrame).

#[global] Instance DataFrame_inhabited : Inhabited DataFrame := populate (mk_frame 0 []).

(** The conversion selected by the declared type (the body of the [try]). *)
Definition coerce_column (expected_type : string) (cells : list value) : exn + list value :=
  if String.eqb expected_type "date" then Pandas.to_datetime_date cells
  else if String.eqb expected_type "datetime" then Pandas.to_datetime cells
  else if String.eqb expected_type "bool" then Pandas.astype_bool cells
  else if String.eqb expected_type "int" then Pandas.to_numeric_int cells
  else if String.eqb expected_type "float" then Pandas.to_numeric_float cells
  else Pandas.astype_str cells.

(** One round of the loop over [schema["required"].items()]: the column is
    replaced in the frame object when its conversion succeeds, and left as
    it is, with an error recorded, when the conversion raises. *)
Definition check_type (df : loc) (acc : store * list message) (entry : string * string)
  : store * list message :=
  let '(h, errs) := acc in
  let '(col, expected_type) := entry in
  if mem_string col (columns (h !!! df)) then
    match coerce_column expected_type (get_column col (h !!! df)) with
    | inr cells => (<[df := set_column col cells (h !!! df)]> h, errs)
    | inl e => (h, errs ++ [ConversionFailed col (str_of_exn e)])
    end
  else (h, errs).

(** One round of the loop over [required_cols]. *)
Definition check_nulls (t : DataFrame) (warns : list message) (col : string) : list message :=
  if mem_string col (columns t) && existsb Pandas.isnull (get_column col t)
  then warns ++ [NullValues col (length (filter (fun v => Pandas.isnull v = true) (get_column col t)))]
  else warns.

(** [validate_table(table_name, df)].  The loop over the set [required_cols]
    visits it in the order of [elements]; Python leaves that order open. *)
Definition validate_table (table_name : string) (df : loc) (h : store)
  : (loc * report) * store :=
  match assoc_get table_name SCHEMAS with
  | None => ((df, mk_report None [UnknownTable] [] false), h)
  | Some schema =>
      let required_cols : gset string := list_to_set (map fst (required schema)) in
      let actual_cols : gset string := list_to_set (columns (h !!! df)) in
      let missing_cols := required_cols ∖ actual_cols in
      let extra_cols := actual_cols ∖ required_cols in
      let errs := if bool_decide (missing_cols ≠ ∅) then [MissingColumns missing_cols] else [] in
      let warns := if bool_decide (extra_cols ≠ ∅) then [ExtraColumns extra_cols] else [] in
      let '(h', errs) := fold_left (check_type df) (required schema) (h, errs) in
      let warns := fold_left (check_nulls (h' !!! df)) (elements required_cols) warns in
      ((df, mk_report (Some (frame_len (h' !!! df))) errs warns
              (bool_decide (length errs = 0%nat))), h')
  end.

(** ** Records of the generated tables

    One record type per table; the field prefix names the table, the dict
    view below restores the column names. *)

Arguments Random.uniform (a b)%_Q.

(** A number as a dict literal holds it: an [int] literal stays an int next
    to float values of the same column. *)
Inductive number :=
| Int (z : Z)
| Float (q : Q).

Definition value_of_number (n : number) : value :=
  match n with Int z => VInt z | Float q => VFloat q end.


(** [round(n, ndigits)]: an int is returned as it is. *)
Definition round_number (n : number) (ndigits : nat) : number :=
  match n with Int z => Int z | Float q => Float (Py.round q ndigits) end.

Record tenant := mk_tenant {
  tn_tenant_id : string; tn_tenant_name : string; tn_business_type : string;
  tn_industry : string; tn_subscription_plan : string;
  tn_subscription_start : date; tn_subscription_end : date;
  tn_max_users : Z; tn_active_users : Z; tn_monthly_fee : Q;
  tn_status : string; tn_contact_email : string; tn_contact_phone : string
}.

Definition tenant_row (r : tenant) : dict :=
  [("tenant_id", VStr (tn_tenant_id r)); ("tenant_name", VStr (tn_tenant_name r));
   ("business_type", VStr (tn_business_type r)); ("industry", VStr (tn_industry r));
   ("subscription_plan", VStr (tn_subscription_plan r));
   ("subscription_start", VDate (tn_subscription_start r));
   ("subscription_end", VDate (tn_subscription_end r));
   ("max_users", VInt (tn_max_users r)); ("active_users", VInt (tn_active_users r));
   ("monthly_fee", VFloat (tn_monthly_fee r)); ("status", VStr (tn_status r));
   ("contact_email", VStr (tn_contact_email r)); ("contact_phone", VStr (tn_contact_phone r))].

Record formulation := mk_formulation {
  fm_formulation_id : string; fm_product_name : string; fm_product_category : string;
  fm_version : string; fm_status : string; fm_created_date : date;
  fm_expected_yield_percentage : Q; fm_production_cost_per_unit : Q;
  fm_target_cycle_time_hours : Q; fm_quality_standards : string
}.

Definition formulation_row (r : formulation) : dict :=
  [("formulation_id", VStr (fm_formulation_id r)); ("product_name", VStr (fm_product_name r));
   ("product_category", VStr (fm_product_category r)); ("version", VStr (fm_version r));
   ("status", VStr (fm_status r)); ("created_date", VDate (fm_created_date r));
   ("expected_yield_percentage", VFloat (fm_expected_yield_percentage r));
   ("production_cost_per_unit", VFloat (fm_production_cost_per_unit r));
   ("target_cycle_time_hours", VFloat (fm_target_cycle_time_hours r));
   ("quality_standards", VStr (fm_quality_standards r))].

Record raw_material := mk_raw_material {
  rm_material_id : string; rm_material_name : string; rm_category : string;
  rm_supplier_id : string; rm_unit_of_measure : string; rm_unit_cost : Q;
  rm_min_stock_level : Z; rm_current_stock : Z; rm_shelf_life_days : Z;
  rm_storage_requirements : string
}.

Definition raw_material_row (r : raw_material) : dict :=
  [("material_id", VStr (rm_material_id r)); ("material_name", VStr (rm_material_name r));
   ("category", VStr (rm_category r)); ("supplier_id", VStr (rm_supplier_id r));
   ("unit_of_measure", VStr (rm_unit_of_measure r)); ("unit_cost", VFloat (rm_unit_cost r));
   ("min_stock_level", VInt (rm_min_stock_level r)); ("current_stock", VInt (rm_current_stock r));
   ("shelf_life_days", VInt (rm_shelf_life_days r));
   ("storage_requirements", VStr (rm_storage_requirements r))].

Record employee := mk_employee {
  em_employee_id : string; em_first_name : string; em_last_name : string;
  em_email : string; em_phone : string; em_department : string; em_position : string;
  em_hire_date : date; em_salary : Q; em_employment_type : string;
  em_supervisor_id : string; em_shift_pattern : string; em_active : bool
}.

Definition employee_row (r : employee) : dict :=
  [("employee_id", VStr (em_employee_id r)); ("first_name", VStr (em_first_name r));
   ("last_name", VStr (em_last_name r)); ("email", VStr (em_email r));
   ("phone", VStr (em_phone r)); ("department", VStr (em_department r));
   ("position", VStr (em_position r)); ("hire_date", VDate (em_hire_date r));
   ("salary", VFloat (em_salary r)); ("employment_type", VStr (em_employment_type r));
   ("supervisor_id", VStr (em_supervisor_id r)); ("shift_pattern", VStr (em_shift_pattern r));
   ("active", VBool (em_active r))].

Record customer := mk_customer {
  cu_customer_id : string; cu_customer_name : string; cu_customer_type : string;
  cu_email : string; cu_phone : string; cu_address : string; cu_city : string;
  cu_country : string; cu_customer_since : date; cu_loyalty_points : Z;
  cu_total_purchases : Q; cu_last_purchase_date : date
}.

Definition customer_row (r : customer) : dict :=
  [("customer_id", VStr (cu_customer_id r)); ("customer_name", VStr (cu_customer_name r));
   ("customer_type", VStr (cu_customer_type r)); ("email", VStr (cu_email r));
   ("phone", VStr (cu_phone r)); ("address", VStr (cu_address r)); ("city", VStr (cu_city r));
   ("country", VStr (cu_country r)); ("customer_since", VDate (cu_customer_since r));
   ("loyalty_points", VInt (cu_loyalty_points r));
   ("total_purchases", VFloat (cu_total_purchases r));
   ("last_purchase_date", VDate (cu_last_purchase_date r))].

Record batch := mk_batch {
  pb_batch_id : string; pb_formulation_id : string; pb_production_date : date;
  pb_planned_quantity : Z; pb_actual_quantity : Z; pb_yield_percentage : Q;
  pb_status : string; pb_equipment_id : string; pb_supervisor_id : string;
  pb_quality_score : Q; pb_total_cost : Q; pb_completion_time_hours : Q
}.

Definition batch_row (r : batch) : dict :=
  [("batch_id", VStr (pb_batch_id r)); ("formulation_id", VStr (pb_formulation_id r));
   ("production_date", VDate (pb_production_date r));
   ("planned_quantity", VInt (pb_planned_quantity r));
   ("actual_quantity", VInt (pb_actual_quantity r));
   ("yield_percentage", VFloat (pb_yield_percentage r)); ("status", VStr (pb_status r));
   ("equipment_id", VStr (pb_equipment_id r)); ("supervisor_id", VStr (pb_supervisor_id r));
   ("quality_score", VFloat (pb_quality_score r)); ("total_cost", VFloat (pb_total_cost r));
   ("completion_time_hours", VFloat (pb_completion_time_hours r))].

Record inventory_item := mk_inventory_item {
  it_sku : string; it_item_name : string; it_category : string; it_unit_of_measure : string;
  it_current_stock : Z; it_min_stock_level : Z; it_max_stock_level : Z;
  it_average_unit_cost : Q; it_total_value : Q; it_last_restock_date : date;
  it_expiry_date : date; it_storage_location : string
}.

Definition inventory_item_row (r : inventory_item) : dict :=
  [("sku", VStr (it_sku r)); ("item_name", VStr (it_item_name r));
   ("category", VStr (it_category r)); ("unit_of_measure", VStr (it_unit_of_measure r));
   ("current_stock", VInt (it_current_stock r)); ("min_stock_level", VInt (it_min_stock_level r));
   ("max_stock_level", VInt (it_max_stock_level r));
   ("average_unit_cost", VFloat (it_average_unit_cost r));
   ("total_value", VFloat (it_total_value r));
   ("last_restock_date", VDate (it_last_restock_date r));
   ("expiry_date", VDate (it_expiry_date r)); ("storage_location", VStr (it_storage_location r))].

Record inventory_transaction := mk_inventory_transaction {
  tx_transaction_id : string; tx_transaction_date : date; tx_transaction_type : string;
  tx_sku : string; tx_batch_id : string; tx_quantity : Z; tx_unit_cost : Q;
  tx_total_value : Q; tx_location_id : string; tx_reference_document : string;
  tx_employee_id : string
}.

Definition inventory_transaction_row (r : inventory_transaction) : dict :=
  [("transaction_id", VStr (tx_transaction_id r));
   ("transaction_date", VDate (tx_transaction_date r));
   ("transaction_type", VStr (tx_transaction_type r)); ("sku", VStr (tx_sku r));
   ("batch_id", VStr (tx_batch_id r)); ("quantity", VInt (tx_quantity r));
   ("unit_cost", VFloat (tx_unit_cost r)); ("total_value", VFloat (tx_total_value r));
   ("location_id", VStr (tx_location_id r));
   ("reference_document", VStr (tx_reference_document r));
   ("employee_id", VStr (tx_employee_id r))].

Record sale := mk_sale {
  sa_transaction_id : string; sa_transaction_date : datetime; sa_customer_id : string;
  sa_sku : string; sa_quantity : Z; sa_unit_price : Q; sa_total_amount : Q;
  sa_discount_amount : Q; sa_tax_amount : Q; sa_net_amount : Q;
  sa_payment_method : string; sa_payment_status : string; sa_sales_channel : string;
  sa_employee_id : string
}.

Definition sale_row (r : sale) : dict :=
  [("transaction_id", VStr (sa_transaction_id r));
   ("transaction_date", VDateTime (sa_transaction_date r));
   ("customer_id", VStr (sa_customer_id r)); ("sku", VStr (sa_sku r));
   ("quantity", VInt (sa_quantity r)); ("unit_price", VFloat (sa_unit_price r));
   ("total_amount", VFloat (sa_total_amount r));
   ("discount_amount", VFloat (sa_discount_amount r));
   ("tax_amount", VFloat (sa_tax_amount r)); ("net_amount", VFloat (sa_net_amount r));
   ("payment_method", VStr (sa_payment_method r));
   ("payment_status", VStr (sa_payment_status r));
   ("sales_channel", VStr (sa_sales_channel r)); ("employee_id", VStr (sa_employee_id r))].

Record ecommerce_order := mk_ecommerce_order {
  eo_order_id : string; eo_order_date : datetime; eo_customer_id : string;
  eo_total_amount : Q; eo_shipping_amount : Q; eo_tax_amount : Q; eo_discount_amount : Q;
  eo_net_amount : Q; eo_payment_status : string; eo_order_status : string;
  eo_shipping_method : string; eo_tracking_number : string; eo_website_session_id : string
}.

Definition ecommerce_order_row (r : ecommerce_order) : dict :=
  [("order_id", VStr (eo_order_id r)); ("order_date", VDateTime (eo_order_date r));
   ("customer_id", VStr (eo_customer_id r)); ("total_amount", VFloat (eo_total_amount r));
   ("shipping_amount", VFloat (eo_shipping_amount r)); ("tax_amount", VFloat (eo_tax_amount r));
   ("discount_amount", VFloat (eo_discount_amount r)); ("net_amount", VFloat (eo_net_amount r));
   ("payment_status", VStr (eo_payment_status r)); ("order_status", VStr (eo_order_status r));
   ("shipping_method", VStr (eo_shipping_method r));
   ("tracking_number", VStr (eo_tracking_number r));
   ("website_session_id", VStr (eo_website_session_id r))].

Record attendance := mk_attendance {
  at_attendance_id : string; at_employee_id : string; at_date : date;
  at_shift_start : time; at_shift_end : time; at_actual_start : time; at_actual_end : time;
  at_hours_worked : Q; at_overtime_hours : Q; at_attendance_status : string;
  at_remarks : string
}.

Definition attendance_row (r : attendance) : dict :=
  [("attendance_id", VStr (at_attendance_id r)); ("employee_id", VStr (at_employee_id r));
   ("date", VDate (at_date r)); ("shift_start", VTime (at_shift_start r));
   ("shift_end", VTime (at_shift_end r)); ("actual_start", VTime (at_actual_start r));
   ("actual_end", VTime (at_actual_end r)); ("hours_worked", VFloat (at_hours_worked r));
   ("overtime_hours", VFloat (at_overtime_hours r));
   ("attendance_status", VStr (at_attendance_status r)); ("remarks", VStr (at_remarks r))].

Record account := mk_account {
  ac_account_code : string; ac_account_name : string; ac_account_type : string;
  ac_category : string; ac_normal_balance : string; ac_opening_balance : Q;
  ac_current_balance : Q; ac_parent_account : string; ac_is_active : bool
}.

Definition account_row (r : account) : dict :=
  [("account_code", VStr (ac_account_code r)); ("account_name", VStr (ac_account_name r));
   ("account_type", VStr (ac_account_type r)); ("category", VStr (ac_category r));
   ("normal_balance", VStr (ac_normal_balance r));
   ("opening_balance", VFloat (ac_opening_balance r));
   ("current_balance", VFloat (ac_current_balance r));
   ("parent_account", VStr (ac_parent_account r)); ("is_active", VBool (ac_is_active r))].

Record financial_transaction := mk_financial_transaction {
  ft_transaction_id : string; ft_transaction_date : date; ft_transaction_type : string;
  ft_account_code : string; ft_description : string; ft_debit_amount : number;
  ft_credit_amount : number; ft_balance : Q; ft_reference_number : string;
  ft_vendor_customer_id : string; ft_payment_method : string; ft_status : string
}.

Definition financial_transaction_row (r : financial_transaction) : dict :=
  [("transaction_id", VStr (ft_transaction_id r));
   ("transaction_date", VDate (ft_transaction_date r));
   ("transaction_type", VStr (ft_transaction_type r));
   ("account_code", VStr (ft_account_code r)); ("description", VStr (ft_description r));
   ("debit_amount", value_of_number (ft_debit_amount r));
   ("credit_amount", value_of_number (ft_credit_amount r));
   ("balance", VFloat (ft_balance r)); ("reference_number", VStr (ft_reference_number r));
   ("vendor_customer_id", VStr (ft_vendor_customer_id r));
   ("payment_method", VStr (ft_payment_method r)); ("status", VStr (ft_status r))].

Record page_view := mk_page_view {
  wt_session_id : string; wt_timestamp : datetime; wt_page_url : string;
  wt_referrer : string; wt_device_type : string; wt_location : string;
  wt_session_duration_seconds : Z; wt_page_views : Z; wt_converted : bool;
  wt_customer_id : string
}.

Definition page_view_row (r : page_view) : dict :=
  [("session_id", VStr (wt_session_id r)); ("timestamp", VDateTime (wt_timestamp r));
   ("page_url", VStr (wt_page_url r)); ("referrer", VStr (wt_referrer r));
   ("device_type", VStr (wt_device_type r)); ("location", VStr (wt_location r));
   ("session_duration_seconds", VInt (wt_session_duration_seconds r));
   ("page_views", VInt (wt_page_views r)); ("converted", VBool (wt_converted r));
   ("customer_id", VStr (wt_customer_id r))].

Record production_analytic := mk_production_analytic {
  pa_analytics_id : string; pa_date : date; pa_batch_id : string; pa_equipment_id : string;
  pa_oee_percentage : Q; pa_yield_rate : Q; pa_cycle_time_hours : Q; pa_downtime_hours : Q;
  pa_quality_score : Q; pa_cost_variance : Q; pa_energy_consumption : Q;
  pa_scrap_percentage : Q
}.

Definition production_analytic_row (r : production_analytic) : dict :=
  [("analytics_id", VStr (pa_analytics_id r)); ("date", VDate (pa_date r));
   ("batch_id", VStr (pa_batch_id r)); ("equipment_id", VStr (pa_equipment_id r));
   ("oee_percentage", VFloat (pa_oee_percentage r)); ("yield_rate", VFloat (pa_yield_rate r));
   ("cycle_time_hours", VFloat (pa_cycle_time_hours r));
   ("downtime_hours", VFloat (pa_downtime_hours r));
   ("quality_score", VFloat (pa_quality_score r));
   ("cost_variance", VFloat (pa_cost_variance r));
   ("energy_consumption", VFloat (pa_energy_consumption r));
   ("scrap_percentage", VFloat (pa_scrap_percentage r))].

Record inventory_analytic := mk_inventory_analytic {
  ia_analytics_id : string; ia_date : date; ia_sku : string; ia_category : string;
  ia_stock_turnover_rate : number; ia_days_inventory_outstanding : number;
  ia_stockout_frequency : Q; ia_holding_cost_percentage : Q;
  ia_abc_classification : string; ia_excess_stock_value : Q; ia_stockout_value : Q;
  ia_forecast_accuracy : Q
}.

Definition inventory_analytic_row (r : inventory_analytic) : dict :=
  [("analytics_id", VStr (ia_analytics_id r)); ("date", VDate (ia_date r));
   ("sku", VStr (ia_sku r)); ("category", VStr (ia_category r));
   ("stock_turnover_rate", value_of_number (ia_stock_turnover_rate r));
   ("days_inventory_outstanding", value_of_number (ia_days_inventory_outstanding r));
   ("stockout_frequency", VFloat (ia_stockout_frequency r));
   ("holding_cost_percentage", VFloat (ia_holding_cost_percentage r));
   ("abc_classification", VStr (ia_abc_classification r));
   ("excess_stock_value", VFloat (ia_excess_stock_value r));
   ("stockout_value", VFloat (ia_stockout_value r));
   ("forecast_accuracy", VFloat (ia_forecast_accuracy r))].

Record audit_log := mk_audit_log {
  al_log_id : string; al_timestamp : datetime; al_tenant_id : string; al_user_id : string;
  al_user_role : string; al_module : string; al_action : string; al_resource : string;
  al_resource_id : string; al_ip_address : string; al_success : bool; al_details : string
}.

Definition audit_log_row (r : audit_log) : dict :=
  [("log_id", VStr (al_log_id r)); ("timestamp", VDateTime (al_timestamp r));
   ("tenant_id", VStr (al_tenant_id r)); ("user_id", VStr (al_user_id r));
   ("user_role", VStr (al_user_role r)); ("module", VStr (al_module r));
   ("action", VStr (al_action r)); ("resource", VStr (al_resource r));
   ("resource_id", VStr (al_resource_id r)); ("ip_address", VStr (al_ip_address r));
   ("success", VBool (al_success r)); ("details", VStr (al_details r))].

(** ** Generators of the dimension tables *)

Definition generate_tenants_data : list tenant :=
  [mk_tenant "cinta_beauty" "Cinta Beauty Ltd" "Manufacturing" "Cosmetics & Beauty Products"
     "Enterprise" (mk_date 2023 1 1) (mk_date 2025 12 31) 50 35 250000%Q "Active"
     "admin@cintabeauty.co.ke" "+254 700 123 456";
   mk_tenant "virtual_analytics" "Virtual Analytics Demo" "Consulting" "Technology Services"
     "Growth" (mk_date 2024 6 1) (mk_date 2024 12 31) 20 15 150000%Q "Active"
     "demo@virtualanalytics.com" "+254 711 987 654";
   mk_tenant "sme_demo_01" "SME Manufacturing Demo" "Manufacturing" "FMCG"
     "Starter" (mk_date 2024 3 15) (mk_date 2024 9 14) 10 8 75000%Q "Active"
     "info@smedemo.co.ke" "+254 722 456 789"].

Definition product_categories : list (string * list string) :=
  [("Skincare", ["Vitamin C Serum"; "Hyaluronic Acid Serum"; "Retinol Night Cream";
                 "SPF 50 Sunscreen"; "Tea Tree Face Wash"; "Niacinamide Toner";
                 "Ceramide Moisturizer"; "AHA/BHA Exfoliant"]);
   ("Haircare", ["Argan Oil Shampoo"; "Biotin Conditioner"; "Hair Growth Serum";
                 "Scalp Treatment"; "Leave-in Conditioner"; "Hair Mask"; "Heat Protectant";
                 "Color Protection Serum"]);
   ("Bodycare", ["Body Lotion"; "Body Butter"; "Body Scrub"; "Body Oil"; "Hand Cream";
                 "Foot Cream"; "Deodorant"; "Body Mist"]);
   ("Makeup", ["Foundation"; "Concealer"; "Lipstick"; "Mascara"; "Blush"; "Highlighter";
               "Eyeshadow"; "Setting Spray"])].

Definition generate_formulations_data : M (list formulation) :=
  '(formulations, _) ←
    for_each product_categories (fun formulation_id '(category, products) =>
      for_each products (fun formulation_id product =>
        v1 ← Random.randint 1 3;
        v2 ← Random.randint 0 9;
        status ← Random.choice ["Active"; "Active"; "Active"; "Archived"];
        cm ← Random.randint 1 12;
        cd ← Random.randint 1 28;
        ey ← Random.uniform 85 98;
        cost ← Random.uniform 150 5000;
        cycle ← Random.uniform 2 48;
        quality ← Random.choice ["KEBS"; "FDA"; "ISO 22716"; "EU Regulations"];
        mret ([mk_formulation
                 ("FMT-" +:+ Py.fmt_0d 4 formulation_id)
                 product
                 category
                 ("v" +:+ Py.str_of_int v1 +:+ "." +:+ Py.str_of_int v2)
                 status
                 (mk_date 2023 cm cd)
                 (Py.round ey 2)
                 (Py.round cost 2)
                 (Py.round cycle 1)
                 quality],
              formulation_id + 1)) formulation_id) 1;
  mret formulations.

Definition material_categories : list (string * list string) :=
  [("Active Ingredients", ["Vitamin C (Ascorbic Acid)"; "Hyaluronic Acid"; "Retinol";
                           "Niacinamide"; "Salicylic Acid"; "Glycolic Acid"; "Ceramides";
                           "Peptides"; "Coenzyme Q10"]);
   ("Base Oils", ["Jojoba Oil"; "Argan Oil"; "Rosehip Oil"; "Coconut Oil"; "Almond Oil";
                  "Olive Oil"; "Grapeseed Oil"; "Sunflower Oil"; "Shea Butter"]);
   ("Emulsifiers", ["Cetearyl Alcohol"; "Glyceryl Stearate"; "Polysorbate 80"; "Lecithin";
                    "Cetyl Alcohol"; "Stearic Acid"]);
   ("Preservatives", ["Phenoxyethanol"; "Potassium Sorbate"; "Sodium Benzoate";
                      "Benzyl Alcohol"]);
   ("Fragrances", ["Rose Essential Oil"; "Lavender Oil"; "Tea Tree Oil"; "Peppermint Oil";
                   "Citrus Blend"; "Unscented"]);
   ("Packaging", ["Glass Bottle 30ml"; "Plastic Tube 50ml"; "Airless Pump"; "Dropper";
                  "Jar 60ml"; "Spray Bottle"; "Box Packaging"; "Labels"])].

Definition generate_raw_materials_data : M (list raw_material) :=
  let suppliers := map (fun i => "SUP-" +:+ Py.fmt_0d 3 (i + 1)) (range 20) in
  '(materials, _) ←
    for_each material_categories (fun material_id '(category, items) =>
      for_each items (fun material_id item =>
        unit_cost ← Random.uniform 50 5000;
        supplier ← Random.choice suppliers;
        uom ← Random.choice ["kg"; "liters"; "pieces"; "grams"];
        min_stock ← Random.randint 10 100;
        current_stock ← Random.randint 50 500;
        shelf_life ← Random.choice [180; 365; 730; 1095];
        storage ← Random.choice ["Room Temp"; "Cool Dry Place"; "Refrigerated"; "Air Tight"];
        mret ([mk_raw_material
                 ("MAT-" +:+ Py.fmt_0d 4 material_id)
                 item category supplier uom
                 (Py.round unit_cost 2)
                 min_stock current_stock shelf_life storage],
              material_id + 1)) material_id) 1;
  mret materials.

Definition departments : list (string * list string) :=
  [("Production", ["Production Manager"; "Line Supervisor"; "Machine Operator";
                   "Quality Technician"; "Production Worker"; "Maintenance Technician"]);
   ("Quality Control", ["QC Manager"; "Lab Technician"; "Quality Inspector";
                        "Compliance Officer"]);
   ("Research & Development", ["R&D Manager"; "Formulation Scientist"; "Product Developer";
                               "Lab Assistant"]);
   ("Sales & Marketing", ["Sales Manager"; "Marketing Executive"; "Account Manager";
                          "Customer Service"]);
   ("Finance & Admin", ["Finance Manager"; "Accountant"; "HR Manager"; "Admin Assistant"]);
   ("Supply Chain", ["Procurement Manager"; "Inventory Controller"; "Logistics Coordinator";
                     "Warehouse Supervisor"])].

Definition employee_first_names : list string :=
  ["John"; "Mary"; "James"; "Elizabeth"; "Robert"; "Sarah"; "Michael"; "Susan";
   "David"; "Margaret"; "William"; "Dorothy"; "Richard"; "Lisa"; "Charles"; "Nancy";
   "Joseph"; "Karen"; "Thomas"; "Betty"; "Daniel"; "Helen"; "Paul"; "Sandra";
   "Mark"; "Ashley"; "Donald"; "Kimberly"; "George"; "Emily"; "Kenneth"; "Donna"].

Definition employee_last_names : list string :=
  ["Smith"; "Johnson"; "Williams"; "Jones"; "Brown"; "Davis"; "Miller"; "Wilson";
   "Moore"; "Taylor"; "Anderson"; "Thomas"; "Jackson"; "White"; "Harris"; "Martin";
   "Thompson"; "Garcia"; "Martinez"; "Robinson"; "Clark"; "Rodriguez"; "Lewis"; "Lee"].

Definition generate_employees_data : M (list employee) :=
  '(employees, _) ←
    for_each departments (fun employee_id '(dept, positions) =>
      for_each positions (fun employee_id position =>
        first_name ← Random.choice employee_first_names;
        last_name ← Random.choice employee_last_names;
        let email := Py.lower first_name +:+ "." +:+ Py.lower last_name +:+ "@cintabeauty.co.ke" in
        hy ← Random.randint 0 4;
        hm ← Random.randint 1 12;
        hd ← Random.randint 1 28;
        salary ←
          (if Py.contains "Manager" position then Random.uniform 150000 300000
           else if Py.contains "Senior" position || Py.contains "Lead" position
                then Random.uniform 80000 150000
                else Random.uniform 30000 80000);
        p1 ← Random.randint 10 99;
        p2 ← Random.randint 100000 999999;
        employment_type ← Random.choice ["Permanent"; "Contract"; "Temporary"];
        supervisor_id ←
          (if employee_id >? 5
           then s ← Random.randint 1 5; mret ("EMP-" +:+ Py.fmt_0d 4 s)
           else mret EmptyString);
        shift_pattern ← Random.choice ["Morning"; "Evening"; "Night"; "Flexible"];
        active ← Random.choice [true; true; true; false];
        mret ([mk_employee
                 ("EMP-" +:+ Py.fmt_0d 4 employee_id)
                 first_name last_name email
                 ("+254 7" +:+ Py.str_of_int p1 +:+ " " +:+ Py.str_of_int p2)
                 dept position
                 (mk_date (2020 + hy) hm hd)
                 (Py.round salary 2)
                 employment_type supervisor_id shift_pattern active],
              employee_id + 1)) employee_id) 1;
  mret employees.

Definition cities : list string :=
  ["Nairobi"; "Mombasa"; "Kisumu"; "Nakuru"; "Eldoret"; "Thika"; "Malindi"; "Kitale"].

Definition b2b_names : list string :=
  ["Nairobi Beauty Mart"; "Coast Cosmetics Distributors"; "Lake Region Retail";
   "Rift Valley Supplies"; "Mombasa Mall Stores"; "Kisumu City Suppliers";
   "Nakuru Wholesalers"; "Eldoret Trading Co"; "Thika Retail Hub"; "Malindi Beach Stores";
   "Kitale Northern Distributors"; "Central Kenya Suppliers"].

Definition customer_first_names : list string :=
  ["Grace"; "Faith"; "Joy"; "Hope"; "Mercy"; "Blessing"; "Victor"; "Samuel"; "Peter";
   "Joseph"; "Ruth"; "Esther"; "Naomi"; "Hannah"; "David"; "Isaac"; "Jacob"; "Daniel";
   "Stephen"; "Andrew"].

Definition customer_last_names : list string :=
  ["Mwangi"; "Kariuki"; "Ochieng"; "Odhiambo"; "Kamau"; "Wanjiru"; "Akinyi"; "Achieng";
   "Otieno"; "Omondi"].

Definition generate_customers_data : M (list customer) :=
  '(b2b, customer_id) ←
    for_each b2b_names (fun customer_id name =>
      city ← Random.choice cities;
      p1 ← Random.randint 10 99;
      p2 ← Random.randint 100000 999999;
      a1 ← Random.randint 1 999;
      a2 ← Random.choice ["Moi"; "Kenyatta"; "Uhuru"; "Koinange"];
      sy ← Random.randint 0 4;
      sm ← Random.randint 1 12;
      sd ← Random.randint 1 28;
      loyalty ← Random.randint 1000 10000;
      total ← Random.uniform 50000 500000;
      lm ← Random.randint 1 12;
      ld ← Random.randint 1 28;
      mret ([mk_customer
               ("B2B-" +:+ Py.fmt_0d 4 customer_id)
               name "Business"
               ("orders@" +:+ Py.remove_char " " (Py.lower name) +:+ ".co.ke")
               ("+254 7" +:+ Py.str_of_int p1 +:+ " " +:+ Py.str_of_int p2)
               (Py.str_of_int a1 +:+ " " +:+ a2 +:+ " Avenue")
               city "Kenya"
               (mk_date (2020 + sy) sm sd)
               loyalty (Py.round total 2)
               (mk_date 2024 lm ld)],
            customer_id + 1)) 1;
  '(b2c, _) ←
    for_each (range 50) (fun customer_id _ =>
      first ← Random.choice customer_first_names;
      last ← Random.choice customer_last_names;
      city ← Random.choice cities;
      p1 ← Random.randint 10 99;
      p2 ← Random.randint 100000 999999;
      a1 ← Random.randint 1 999;
      a2 ← Random.choice ["Street"; "Road"; "Avenue"; "Drive"];
      sy ← Random.randint 0 2;
      sm ← Random.randint 1 12;
      sd ← Random.randint 1 28;
      loyalty ← Random.randint 0 500;
      total ← Random.uniform 1000 50000;
      lm ← Random.randint 1 12;
      ld ← Random.randint 1 28;
      mret ([mk_customer
               ("B2C-" +:+ Py.fmt_0d 4 customer_id)
               (first +:+ " " +:+ last) "Individual"
               (Py.lower first +:+ "." +:+ Py.lower last +:+ "@gmail.com")
               ("+254 7" +:+ Py.str_of_int p1 +:+ " " +:+ Py.str_of_int p2)
               (Py.str_of_int a1 +:+ " " +:+ a2)
               city "Kenya"
               (mk_date (2022 + sy) sm sd)
               loyalty (Py.round total 2)
               (mk_date 2024 lm ld)],
            customer_id + 1)) customer_id;
  mret (b2b ++ b2c).

(** ** Generators of the production and inventory tables *)

Definition generate_production_batches (formulations_df : list formulation)
    (employees_df : list employee) : M (list batch) :=
  let formulations := filter (fun f => fm_status f = "Active") formulations_df in
  let production_staff :=
    map em_employee_id (filter (fun e => em_department e = "Production") employees_df) in
  '(batches, _) ←
    for_each (range 100) (fun batch_id _ =>
      formulation ← Random.choice formulations;
      pm ← Random.randint 1 12;
      pd ← Random.randint 1 28;
      planned_qty ← Random.randint 100 1000;
      noise ← Random.uniform 0.9 1.1;
      let actual_qty :=
        Py.int_of_float (inject_Z planned_qty
                         * (fm_expected_yield_percentage formulation / 100) * noise)%Q in
      let yield_pct := ((inject_Z actual_qty / inject_Z planned_qty) * 100)%Q in
      status ← Random.choice ["Completed"; "Completed"; "Completed"; "In Progress";
                              "Quality Hold"];
      let unit_cost := fm_production_cost_per_unit formulation in
      cost_noise ← Random.uniform 0.95 1.05;
      let total_cost := (inject_Z actual_qty * unit_cost * cost_noise)%Q in
      quality_noise ← Random.uniform 0.8 1.2;
      let quality_score := Py.Qmin 100 (yield_pct * quality_noise)%Q in
      equipment ← Random.randint 1 10;
      supervisor ← Random.choice production_staff;
      time_noise ← Random.uniform 0.8 1.3;
      mret ([mk_batch
               ("BATCH-" +:+ Py.fmt_0d 4 batch_id)
               (fm_formulation_id formulation)
               (mk_date 2024 pm pd)
               planned_qty
               actual_qty
               (Py.round yield_pct 2)
               status
               ("EQP-" +:+ Py.fmt_0d 3 equipment)
               supervisor
               (Py.round quality_score 1)
               (Py.round total_cost 2)
               (Py.round (fm_target_cycle_time_hours formulation * time_noise)%Q 1)],
            batch_id + 1)) 1;
  mret batches.

(** [dict(zip(keys, values))]: a later pair overwrites the value of an
    earlier one with the same key and keeps its place. *)
Definition dict_of_pairs {A} (pairs : list (string * A)) : list (string * A) :=
  fold_left (fun d '(k, v) => assoc_set k v d) pairs [].

(** [xs[0]] / [.iloc[0]] *)
Definition first_or_raise {A} (xs : list A) : M A :=
  match xs with
  | x :: _ => mret x
  | [] => raise (IndexError "single positional indexer is out-of-bounds")
  end.

Definition sum_Z (l : list Z) : Z := fold_left Z.add l 0.

Definition generate_inventory_items (batches_df : list batch)
    (formulations_df : list formulation) : M (list inventory_item) :=
  let formulation_to_product :=
    dict_of_pairs (map (fun f => (fm_formulation_id f, fm_product_name f)) formulations_df) in
  let formulation_to_category :=
    dict_of_pairs (map (fun f => (fm_formulation_id f, fm_product_category f)) formulations_df) in
  '(inventory_items, _) ←
    for_each formulation_to_product (fun (_ : unit) '(formulation_id, product_name) =>
      let category := default EmptyString (assoc_get formulation_id formulation_to_category) in
      let sku_base :=
        Py.concat_strings (map (fun word => Py.upper (Py.take 3 word)) (Py.split product_name)) in
      suffix ← Random.randint 100 999;
      let sku := sku_base +:+ "-" +:+ Py.upper (Py.take 3 category) +:+ "-" +:+ Py.str_of_int suffix in
      let formulation_batches :=
        filter (fun b => pb_formulation_id b = formulation_id) batches_df in
      let total_produced :=
        match formulation_batches with
        | [] => 0
        | _ => sum_Z (map pb_actual_quantity formulation_batches)
        end in
      formulation_row ←
        first_or_raise (filter (fun f => fm_formulation_id f = formulation_id) formulations_df);
      let unit_cost := fm_production_cost_per_unit formulation_row in
      sold ← Random.uniform 0.1 0.7;
      let current_stock := Py.int_of_float (inject_Z total_produced * sold)%Q in
      uom ← Random.choice ["pcs"; "ml"; "g"; "jar"];
      min_stock ← Random.randint 10 100;
      max_stock ← Random.randint 500 5000;
      rm ← Random.randint 1 12;
      rd ← Random.randint 1 28;
      ey ← Random.randint 0 2;
      em ← Random.randint 1 12;
      ed ← Random.randint 1 28;
      storage ← Random.choice ["Warehouse A"; "Warehouse B"; "Cold Room"; "Shelf Storage"];
      mret ([mk_inventory_item
               sku product_name category uom current_stock min_stock max_stock unit_cost
               (Py.round (inject_Z current_stock * unit_cost)%Q 2)
               (mk_date 2024 rm rd)
               (mk_date (2025 + ey) em ed)
               storage],
            tt)) tt;
  mret inventory_items.

Definition generate_inventory_transactions (inventory_items_df : list inventory_item)
    (batches_df : list batch) (employees_df : list employee)
    (formulations_df : list formulation) : M (list inventory_transaction) :=
  let inventory_staff :=
    map em_employee_id
      (filter (fun e => mem_string (em_department e) ["Supply Chain"; "Production"])
              employees_df) in
  let formulation_to_product :=
    dict_of_pairs (map (fun f => (fm_formulation_id f, fm_product_name f)) formulations_df) in
  (* Production Receipts *)
  '(receipts, transaction_id) ←
    for_each batches_df (fun transaction_id batch =>
      if String.eqb (pb_status batch) "Completed" then
        let formulation_id := pb_formulation_id batch in
        let product_name := default EmptyString (assoc_get formulation_id formulation_to_product) in
        if negb (String.eqb product_name EmptyString) then
          match filter (fun i => it_item_name i = product_name) inventory_items_df with
          | inventory_item :: _ =>
              let sku := it_sku inventory_item in
              let unit_cost := it_average_unit_cost inventory_item in
              employee ← Random.choice inventory_staff;
              mret ([mk_inventory_transaction
                       ("INV-" +:+ Py.fmt_0d 6 transaction_id)
                       (pb_production_date batch)
                       "Production Receipt"
                       sku
                       (pb_batch_id batch)
                       (pb_actual_quantity batch)
                       unit_cost
                       (Py.round (inject_Z (pb_actual_quantity batch) * unit_cost)%Q 2)
                       "WH01"
                       ("PROD-" +:+ pb_batch_id batch)
                       employee],
                    transaction_id + 1)
          | [] => mret ([], transaction_id)
          end
        else mret ([], transaction_id)
      else mret ([], transaction_id)) 1;
  (* Sales Issues *)
  '(issues, transaction_id) ←
    for_each inventory_items_df (fun transaction_id item =>
      if it_current_stock item >? 0 then
        sales_qty ← Random.randint 1 (Z.min 100 (it_current_stock item));
        n ← Random.randint 1 5;
        for_each (range (Z.to_nat n)) (fun transaction_id _ =>
          tm ← Random.randint 1 12;
          td ← Random.randint 1 28;
          b ← Random.randint 1 100;
          ref ← Random.randint 1000 9999;
          employee ← Random.choice inventory_staff;
          mret ([mk_inventory_transaction
                   ("INV-" +:+ Py.fmt_0d 6 transaction_id)
                   (mk_date 2024 tm td)
                   "Sales Issue"
                   (it_sku item)
                   ("BATCH-" +:+ Py.fmt_0d 4 b)
                   (- sales_qty)
                   (it_average_unit_cost item)
                   (Py.round (inject_Z (- sales_qty) * it_average_unit_cost item)%Q 2)
                   "WH01"
                   ("SALE-" +:+ Py.str_of_int ref)
                   employee],
                transaction_id + 1)) transaction_id
      else mret ([], transaction_id)) transaction_id;
  (* Stock Transfers *)
  '(transfers, _) ←
    for_each (range 20) (fun transaction_id _ =>
      item ← Random.choice inventory_items_df;
      tm ← Random.randint 1 12;
      td ← Random.randint 1 28;
      b ← Random.randint 1 100;
      quantity ← Random.randint 10 100;
      valued ← Random.randint 10 100;
      location ← Random.choice ["WH01"; "WH02"; "STORE01"];
      ref ← Random.randint 1000 9999;
      employee ← Random.choice inventory_staff;
      mret ([mk_inventory_transaction
               ("INV-" +:+ Py.fmt_0d 6 transaction_id)
               (mk_date 2024 tm td)
               "Stock Transfer"
               (it_sku item)
               ("BATCH-" +:+ Py.fmt_0d 4 b)
               quantity
               (it_average_unit_cost item)
               (Py.round (inject_Z valued * it_average_unit_cost item)%Q 2)
               location
               ("TRF-" +:+ Py.str_of_int ref)
               employee],
            transaction_id + 1)) transaction_id;
  mret (receipts ++ issues ++ transfers).

(** ** Generators of the sales, HR and finance tables *)

Definition generate_sales_transactions (inventory_items_df : list inventory_item)
    (customers_df : list customer) (employees_df : list employee) : M (list sale) :=
  let sales_staff :=
    map em_employee_id (filter (fun e => em_department e = "Sales & Marketing") employees_df) in
  let customers := customers_df in
  let inventory_items := inventory_items_df in
  '(sales, _) ←
    for_each (range 500) (fun transaction_id _ =>
      customer ← Random.choice customers;
      item ← Random.choice inventory_items;
      markup ← Random.uniform 1.5 3.0;
      let unit_price := Py.round (it_average_unit_cost item * markup)%Q 2 in
      quantity ← Random.randint 1 20;
      let total_amount := Py.round (unit_price * inject_Z quantity)%Q 2 in
      discount_pct ←
        (if String.eqb (cu_customer_type customer) "Business"
         then Random.uniform 0.05 0.20
         else Random.uniform 0 0.10);
      let discount_amount := Py.round (total_amount * discount_pct)%Q 2 in
      let tax_amount := Py.round ((total_amount - discount_amount) * 0.16)%Q 2 in
      let net_amount := Py.round (total_amount - discount_amount + tax_amount)%Q 2 in
      sm ← Random.randint 1 12;
      sd ← Random.randint 1 28;
      sh ← Random.randint 8 20;
      smin ← Random.randint 0 59;
      let sales_date := mk_datetime (mk_date 2024 sm sd) (mk_time sh smin 0) in
      payment_method ← Random.choice ["M-Pesa"; "Cash"; "Bank Transfer"; "Credit Card"];
      payment_status ← Random.choice ["Paid"; "Paid"; "Paid"; "Pending"; "Partial"];
      sales_channel ← Random.choice ["Retail Store"; "Online"; "Wholesale"; "Distributor"];
      employee ← Random.choice sales_staff;
      mret ([mk_sale
               ("SALE-" +:+ Py.fmt_0d 6 transaction_id)
               sales_date
               (cu_customer_id customer)
               (it_sku item)
               quantity unit_price total_amount discount_amount tax_amount net_amount
               payment_method payment_status sales_channel employee],
            transaction_id + 1)) 1;
  mret sales.

Definition generate_ecommerce_orders (customers_df : list customer) (sales_df : list sale)
  : M (list ecommerce_order) :=
  let b2c_customers := filter (fun c => cu_customer_type c = "Individual") customers_df in
  '(orders, _) ←
    for_each (range 200) (fun order_id _ =>
      customer ← Random.choice b2c_customers;
      om ← Random.randint 1 12;
      od ← Random.randint 1 28;
      oh ← Random.randint 0 23;
      omin ← Random.randint 0 59;
      let order_date := mk_datetime (mk_date 2024 om od) (mk_time oh omin 0) in
      u1 ← Random.uniform 1000 50000;
      let subtotal := Py.round u1 2 in
      u2 ← Random.uniform 200 2000;
      let shipping := Py.round u2 2 in
      let tax := Py.round (subtotal * 0.16)%Q 2 in
      u3 ← Random.uniform 0 0.15;
      let discount := Py.round (subtotal * u3)%Q 2 in
      let net_amount := Py.round (subtotal + shipping + tax - discount)%Q 2 in
      payment_status ← Random.choice ["Paid"; "Paid"; "Paid"; "Pending"; "Failed"];
      order_status ← Random.choice ["Delivered"; "Shipped"; "Processing"; "Cancelled"];
      shipping_method ← Random.choice ["Standard"; "Express"; "Pickup"; "Courier"];
      tracking ← Random.randint 1000000000 9999999999;
      session ← Random.randint 100000 999999;
      mret ([mk_ecommerce_order
               ("ECOMM-" +:+ Py.fmt_0d 6 order_id)
               order_date
               (cu_customer_id customer)
               subtotal shipping tax discount net_amount
               payment_status order_status shipping_method
               ("TRACK-" +:+ Py.str_of_int tracking)
               ("SESS-" +:+ Py.str_of_int session)],
            order_id + 1)) 1;
  mret orders.

Definition generate_attendance_data (employees_df : list employee) : M (list attendance) :=
  let active_employees := filter (fun e => em_active e = true) employees_df in
  '(attendance, _) ←
    for_each (range 30) (fun attendance_id day_offset =>
      let current_date := Datetime.add_days (mk_date 2024 6 1) day_offset in
      for_each active_employees (fun attendance_id employee =>
        (* Skip weekends with 90% probability *)
        skip ←
          (if Datetime.weekday current_date >=? 5
           then r ← Random.random; mret (Py.Qltb 0.1 r)
           else mret false);
        if (skip : bool) then mret ([], attendance_id)
        else
          let '(shift_start, shift_end) :=
            if String.eqb (em_shift_pattern employee) "Morning"
            then (mk_time 8 0 0, mk_time 17 0 0)
            else if String.eqb (em_shift_pattern employee) "Evening"
                 then (mk_time 14 0 0, mk_time 23 0 0)
                 else (mk_time 8 0 0, mk_time 17 0 0) in
          r1 ← Random.random;
          late_minutes ← (if Py.Qltb 0.8 r1 then Random.randint 0 30 else mret 0);
          r2 ← Random.random;
          early_leave ← (if Py.Qltb 0.9 r2 then Random.randint 0 60 else mret 0);
          let actual_start :=
            dt_time (Datetime.add_seconds (Datetime.combine current_date shift_start)
                                          (60 * late_minutes)) in
          let actual_end :=
            dt_time (Datetime.add_seconds (Datetime.combine current_date shift_end)
                                          (- (60 * early_leave))) in
          let hours_worked :=
            (inject_Z (Datetime.diff_seconds (Datetime.combine current_date actual_end)
                                             (Datetime.combine current_date actual_start))
             / 3600)%Q in
          let overtime := Py.Qmax 0 (hours_worked - 9)%Q in
          attendance_status ← Random.choice ["Present"; "Present"; "Present"; "Late"; "Half Day"];
          remarks ← Random.choice [""; ""; "Traffic"; "Family Emergency"; "Medical Appointment"];
          mret ([mk_attendance
                   ("ATT-" +:+ Py.fmt_0d 6 attendance_id)
                   (em_employee_id employee)
                   current_date shift_start shift_end actual_start actual_end
                   (Py.round hours_worked 2)
                   (Py.round overtime 2)
                   attendance_status remarks],
                attendance_id + 1)) attendance_id) 1;
  mret attendance.

Definition account_structure : list (string * list (string * list string)) :=
  [("Assets",
    [("Current Assets", ["Cash"; "Accounts Receivable"; "Inventory"; "Prepaid Expenses"]);
     ("Fixed Assets", ["Equipment"; "Vehicles"; "Buildings"; "Furniture & Fixtures"])]);
   ("Liabilities",
    [("Current Liabilities", ["Accounts Payable"; "Accrued Expenses"; "Short-term Loans"]);
     ("Long-term Liabilities", ["Long-term Loans"; "Mortgage Payable"])]);
   ("Equity",
    [("Owner's Equity", ["Capital"; "Retained Earnings"; "Drawings"])]);
   ("Revenue",
    [("Sales Revenue", ["Product Sales"; "Service Revenue"; "Online Sales"]);
     ("Other Revenue", ["Interest Income"; "Discounts Received"])]);
   ("Expenses",
    [("Cost of Goods Sold", ["Raw Materials"; "Direct Labor"; "Manufacturing Overhead"]);
     ("Operating Expenses", ["Salaries"; "Rent"; "Utilities"; "Marketing"; "Office Supplies"]);
     ("Financial Expenses", ["Bank Charges"; "Interest Expense"])])].

Definition generate_financial_accounts : M (list account) :=
  '(accounts, _) ←
    for_each account_structure (fun account_code '(main_category, subcategories) =>
      for_each subcategories (fun account_code '(subcategory, account_names) =>
        for_each account_names (fun account_code account_name =>
          let normal_balance :=
            if mem_string main_category ["Assets"; "Expenses"] then "Debit" else "Credit" in
          opening_balance ←
            (if String.eqb main_category "Assets" then Random.uniform 100000 1000000
             else if String.eqb main_category "Liabilities" then Random.uniform 50000 500000
             else if String.eqb main_category "Equity" then Random.uniform 500000 2000000
             else if String.eqb main_category "Revenue" then Random.uniform 0 100000
             else Random.uniform 0 500000);
          drift ← Random.uniform 0.8 1.2;
          mret ([mk_account
                   (Py.str_of_int account_code)
                   account_name main_category subcategory normal_balance
                   (Py.round opening_balance 2)
                   (Py.round (opening_balance * drift)%Q 2)
                   EmptyString true],
                account_code + 1)) account_code) account_code) 1000;
  mret accounts.

(** [next(x for x in xs if p(x))] *)
Definition next_where {A} (p : A -> bool) (xs : list A) : M A :=
  match List.find p xs with
  | Some x => mret x
  | None => raise StopIteration
  end.

Definition generate_financial_transactions (accounts_df : list account) (sales_df : list sale)
  : M (list financial_transaction) :=
  let accounts := accounts_df in
  (* Sales transactions *)
  '(postings, transaction_id) ←
    for_each sales_df (fun transaction_id sale =>
      if String.eqb (sa_payment_status sale) "Paid" then
        cash_account ←
          next_where (fun acc => Py.contains "Cash" (ac_account_name acc)
                                 || Py.contains "Bank" (ac_account_name acc)) accounts;
        sales_account ← next_where (fun acc => Py.contains "Sales" (ac_account_name acc)) accounts;
        mret ([mk_financial_transaction
                 ("FIN-" +:+ Py.fmt_0d 6 transaction_id)
                 (dt_date (sa_transaction_date sale))
                 "Sales Receipt"
                 (ac_account_code cash_account)
                 ("Sale to " +:+ sa_customer_id sale)
                 (Float (sa_net_amount sale))
                 (Int 0)
                 (ac_current_balance cash_account + sa_net_amount sale)%Q
                 (sa_transaction_id sale)
                 (sa_customer_id sale)
                 (sa_payment_method sale)
                 "Posted";
               mk_financial_transaction
                 ("FIN-" +:+ Py.fmt_0d 6 (transaction_id + 1))
                 (dt_date (sa_transaction_date sale))
                 "Sales Revenue"
                 (ac_account_code sales_account)
                 ("Sale to " +:+ sa_customer_id sale)
                 (Int 0)
                 (Float (sa_net_amount sale - sa_tax_amount sale)%Q)
                 (ac_current_balance sales_account
                  + (sa_net_amount sale - sa_tax_amount sale))%Q
                 (sa_transaction_id sale)
                 (sa_customer_id sale)
                 EmptyString
                 "Posted"],
              transaction_id + 1 + 1)
      else mret ([], transaction_id)) 1;
  (* Expense transactions *)
  '(expenses, _) ←
    for_each (range 100) (fun transaction_id _ =>
      em ← Random.randint 1 12;
      ed ← Random.randint 1 28;
      expense_account ←
        Random.choice (filter (fun acc => ac_account_type acc = "Expenses") accounts);
      u ← Random.uniform 1000 50000;
      let amount := Py.round u 2 in
      description ← Random.choice ["Office Supplies"; "Utility Bill"; "Marketing Campaign";
                                   "Equipment Maintenance"];
      ref ← Random.randint 1000 9999;
      vendor ← Random.randint 1 50;
      payment_method ← Random.choice ["Bank Transfer"; "M-Pesa"; "Cheque"];
      mret ([mk_financial_transaction
               ("FIN-" +:+ Py.fmt_0d 6 transaction_id)
               (mk_date 2024 em ed)
               "Expense Payment"
               (ac_account_code expense_account)
               description
               (Float amount)
               (Int 0)
               (ac_current_balance expense_account + amount)%Q
               ("EXP-" +:+ Py.str_of_int ref)
               ("VEND-" +:+ Py.fmt_0d 3 vendor)
               payment_method
               "Posted"],
            transaction_id + 1)) transaction_id;
  mret (postings ++ expenses).

(** ** Generators of the traffic, analytics and audit tables *)

Definition generate_website_traffic : M (list page_view) :=
  let pages := ["/"; "/products"; "/products/skincare"; "/products/haircare";
                "/about"; "/contact"; "/cart"; "/checkout"; "/blog"] in
  let devices := ["Desktop"; "Mobile"; "Tablet"] in
  let locations := ["Nairobi"; "Mombasa"; "Kisumu"; "Nakuru"; "Eldoret"; "International"] in
  '(traffic, _) ←
    for_each (range 30) (fun session_id day_offset =>
      let current_date := Datetime.add_days (mk_date 2024 6 1) day_offset in
      (* Generate sessions per day *)
      sessions ← Random.randint 50 200;
      for_each (range (Z.to_nat sessions)) (fun session_id _ =>
        sh ← Random.randint 8 22;
        smin ← Random.randint 0 59;
        let session_start := Datetime.combine current_date (mk_time sh smin 0) in
        page_views ← Random.randint 1 10;
        session_duration ← Random.randint 30 1800;
        '(views, _) ←
          for_each (range (Z.to_nat page_views)) (fun (_ : unit) view =>
            offset ← Random.randint 0 session_duration;
            let view_time := Datetime.add_seconds session_start offset in
            (* 5% conversion rate *)
            r ← Random.random;
            let converted := Py.Qltb r 0.05 in
            customer_id ←
              (if converted
               then c ← Random.randint 1000 1050; mret ("B2C-" +:+ Py.fmt_0d 4 c)
               else mret EmptyString);
            page ← Random.choice pages;
            referrer ← Random.choice ["Direct"; "Google"; "Facebook"; "Instagram"; "Email"];
            device ← Random.choice devices;
            location ← Random.choice locations;
            mret ([mk_page_view
                     ("SESS-" +:+ Py.fmt_0d 6 session_id)
                     view_time page referrer device location
                     session_duration page_views converted customer_id],
                  tt)) tt;
        mret (views, session_id + 1)) session_id) 1;
  mret traffic.

Definition generate_production_analytics (batches_df : list batch)
  : M (list production_analytic) :=
  '(analytics, _) ←
    for_each batches_df (fun analytics_id batch =>
      if String.eqb (pb_status batch) "Completed" then
        oee ← Random.uniform 70 95;
        d ← Random.uniform 0.05 0.20;
        let downtime := (pb_completion_time_hours batch * d)%Q in
        cv ← Random.uniform (-0.1) 0.1;
        en ← Random.uniform 0.05 0.15;
        mret ([mk_production_analytic
                 ("PROD-ANAL-" +:+ Py.fmt_0d 4 analytics_id)
                 (pb_production_date batch)
                 (pb_batch_id batch)
                 (pb_equipment_id batch)
                 (Py.round oee 2)
                 (Py.round (pb_yield_percentage batch) 2)
                 (Py.round (pb_completion_time_hours batch) 2)
                 (Py.round downtime 2)
                 (Py.round (pb_quality_score batch) 1)
                 (Py.round (cv * pb_total_cost batch)%Q 2)
                 (Py.round (pb_total_cost batch * en)%Q 2)
                 (Py.round (100 - pb_yield_percentage batch)%Q 2)],
              analytics_id + 1)
      else mret ([], analytics_id)) 1;
  mret analytics.

Definition generate_inventory_analytics (inventory_items_df : list inventory_item)
    (inventory_transactions_df : list inventory_transaction) : M (list inventory_analytic) :=
  '(analytics, _) ←
    for_each inventory_items_df (fun analytics_id item =>
      (* Calculate days for analysis *)
      for_each (map (fun m => m + 1) (range 12)) (fun analytics_id month =>
        let analysis_date := mk_date 2024 month 15 in
        (* Get transactions for this item *)
        let item_transactions :=
          filter (fun t => tx_sku t = it_sku item
                           ∧ Datetime.date_leb (tx_transaction_date t) analysis_date = true)
                 inventory_transactions_df in
        match item_transactions with
        | [] => mret ([], analytics_id)
        | _ =>
            (* Calculate metrics *)
            let total_issues :=
              Z.abs (sum_Z (map tx_quantity
                              (filter (fun t => tx_transaction_type t = "Sales Issue")
                                      item_transactions))) in
            let avg_inventory := it_current_stock item in
            let '(turnover_rate, days_inventory) :=
              if avg_inventory >? 0 then
                let turnover_rate := (inject_Z total_issues / inject_Z avg_inventory)%Q in
                (Float turnover_rate,
                 if Py.Qltb 0 turnover_rate then Float (365 / turnover_rate)%Q else Int 365)
              else (Int 0, Int 0) in
            (* ABC classification *)
            let abc_class :=
              if Py.Qltb 100000 (it_total_value item) then "A"
              else if Py.Qltb 50000 (it_total_value item) then "B"
              else "C" in
            so ← Random.uniform 0 0.2;
            hc ← Random.uniform 0.15 0.35;
            ex ← Random.uniform 0 0.3;
            sv ← Random.uniform 0 0.1;
            fa ← Random.uniform 0.7 0.95;
            mret ([mk_inventory_analytic
                     ("INV-ANAL-" +:+ Py.fmt_0d 4 analytics_id)
                     analysis_date
                     (it_sku item)
                     (it_category item)
                     (round_number turnover_rate 2)
                     (round_number days_inventory 1)
                     (Py.round so 3)
                     (Py.round hc 2)
                     abc_class
                     (Py.round (it_total_value item * ex)%Q 2)
                     (Py.round (it_total_value item * sv)%Q 2)
                     (Py.round fa 3)],
                  analytics_id + 1)
        end) analytics_id) 1;
  mret analytics.

Definition audit_actions : list (string * list string) :=
  [("Production", ["CREATE_BATCH"; "UPDATE_FORMULATION"; "VIEW_REPORT"; "APPROVE_QC"]);
   ("Inventory", ["ADD_STOCK"; "ISSUE_STOCK"; "TRANSFER"; "ADJUST"]);
   ("Sales", ["CREATE_ORDER"; "PROCESS_PAYMENT"; "ISSUE_INVOICE"; "VIEW_CUSTOMER"]);
   ("Finance", ["POST_TRANSACTION"; "GENERATE_REPORT"; "APPROVE_PAYMENT"; "RECONCILE"]);
   ("HR", ["ADD_EMPLOYEE"; "UPDATE_SALARY"; "APPROVE_LEAVE"; "GENERATE_PAYROLL"]);
   ("System", ["LOGIN"; "LOGOUT"; "CHANGE_SETTING"; "VIEW_AUDIT"])].

Definition generate_audit_logs (tenants_df : list tenant) (employees_df : list employee)
    (sales_df : list sale) : M (list audit_log) :=
  let users := map (fun e => (em_employee_id e, em_position e)) employees_df in
  '(logs, _) ←
    for_each (range 90) (fun log_id day_offset =>
      let log_date := Datetime.add_days (mk_date 2024 3 1) day_offset in
      (* Generate logs per day *)
      events ← Random.randint 10 50;
      for_each (range (Z.to_nat events)) (fun log_id _ =>
        '(user_id, position) ← Random.choice users;
        tenant ← Random.choice (map tn_tenant_id tenants_df);
        (* Determine module and action based on user role *)
        module ←
          (if Py.contains "Manager" position
           then Random.choice ["Production"; "Inventory"; "Sales"; "Finance"; "HR"]
           else if Py.contains "Sales" position then mret "Sales"
           else if Py.contains "Production" position then mret "Production"
           else Random.choice ["System"; "Inventory"; "HR"]);
        action ← Random.choice (default ["VIEW"; "UPDATE"] (assoc_get module audit_actions));
        (* Generate IP address *)
        ip3 ← Random.randint 1 255;
        ip4 ← Random.randint 1 255;
        let ip := "192.168." +:+ Py.str_of_int ip3 +:+ "." +:+ Py.str_of_int ip4 in
        th ← Random.randint 8 20;
        tmin ← Random.randint 0 59;
        tsec ← Random.randint 0 59;
        resource ← Random.choice ["Batch"; "Product"; "Customer"; "Order"; "Employee";
                                  "Transaction"];
        rb ← Random.randint 1 100;
        rp ← Random.randint 1 50;
        rc ← Random.randint 1 100;
        resource_id ← Random.choice ["BATCH-" +:+ Py.fmt_0d 4 rb;
                                     "PROD-" +:+ Py.fmt_0d 4 rp;
                                     "CUST-" +:+ Py.fmt_0d 4 rc];
        success ← Random.choice [true; true; true; false];
        mret ([mk_audit_log
                 ("AUDIT-" +:+ Py.fmt_0d 8 log_id)
                 (mk_datetime log_date (mk_time th tmin tsec))
                 tenant user_id position module action resource resource_id ip success
                 (action +:+ " operation on " +:+ module +:+ " module")],
              log_id + 1)) log_id) 1;
  mret logs.

(** ** The pipeline *)

(** The frames of [datasets] become objects of a fresh store. *)
Fixpoint allocate (next : loc) (frames : list (string * DataFrame)) (h : store)
  : list (string * loc) * store :=
  match frames with
  | [] => ([], h)
  | (table_name, df) :: rest =>
      let '(ds, h') := allocate (S next) rest (<[next := df]> h) in
      ((table_name, next) :: ds, h')
  end.

(** The loop [for table_name, df in datasets.items()]: each frame is
    validated in place, its report copied key by key. *)
Fixpoint validate_datasets (datasets : list (string * loc)) (h : store)
  : outcome (list (string * loc) * list (string * report)) * store :=
  match datasets with
  | [] => (Ok ([], []), h)
  | (table_name, df) :: rest =>
      let '((clean_df, rep), h1) := validate_table table_name df h in
      match row_count rep with
      | None => (Raise (KeyError "'row_count'"), h1)
      | Some n =>
          match validate_datasets rest h1 with
          | (Ok (ds, reports), h2) =>
              (Ok ((table_name, clean_df) :: ds,
                   (table_name, mk_report (Some n) (errors rep) (warnings rep) (ok rep)) :: reports),
               h2)
          | (Raise e, h2) => (Raise e, h2)
          end
      end
  end.

(** The body of the [try] block, after the seeding. *)
Definition generate_all : M (list (string * DataFrame) * list (string * report)) :=
  let tenants_df := generate_tenants_data in
  employees_df ← generate_employees_data;
  formulations_df ← generate_formulations_data;
  raw_materials_df ← generate_raw_materials_data;
  customers_df ← generate_customers_data;
  batches_df ← generate_production_batches formulations_df employees_df;
  inventory_items_df ← generate_inventory_items batches_df formulations_df;
  inventory_transactions_df ←
    generate_inventory_transactions inventory_items_df batches_df employees_df formulations_df;
  sales_df ← generate_sales_transactions inventory_items_df customers_df employees_df;
  ecommerce_orders_df ← generate_ecommerce_orders customers_df sales_df;
  attendance_df ← generate_attendance_data employees_df;
  accounts_df ← generate_financial_accounts;
  financial_transactions_df ← generate_financial_transactions accounts_df sales_df;
  website_traffic_df ← generate_website_traffic;
  production_analytics_df ← generate_production_analytics batches_df;
  inventory_analytics_df ←
    generate_inventory_analytics inventory_items_df inventory_transactions_df;
  audit_logs_df ← generate_audit_logs tenants_df employees_df sales_df;
  (* Package all data *)
  let '(datasets, h) :=
    allocate 0%nat
      [("dim_tenants", DataFrame_of (map tenant_row tenants_df));
       ("dim_employees", DataFrame_of (map employee_row employees_df));
       ("dim_formulations", DataFrame_of (map formulation_row formulations_df));
       ("dim_raw_materials", DataFrame_of (map raw_material_row raw_materials_df));
       ("dim_customers", DataFrame_of (map customer_row customers_df));
       ("fact_production_batches", DataFrame_of (map batch_row batches_df));
       ("dim_inventory_items", DataFrame_of (map inventory_item_row inventory_items_df));
       ("fact_inventory_transactions",
        DataFrame_of (map inventory_transaction_row inventory_transactions_df));
       ("fact_sales_transactions", DataFrame_of (map sale_row sales_df));
       ("fact_ecommerce_orders", DataFrame_of (map ecommerce_order_row ecommerce_orders_df));
       ("fact_attendance", DataFrame_of (map attendance_row attendance_df));
       ("dim_accounts", DataFrame_of (map account_row accounts_df));
       ("fact_financial_transactions",
        DataFrame_of (map financial_transaction_row financial_transactions_df));
       ("fact_website_traffic", DataFrame_of (map page_view_row website_traffic_df));
       ("fact_production_analytics",
        DataFrame_of (map production_analytic_row production_analytics_df));
       ("fact_inventory_analytics",
        DataFrame_of (map inventory_analytic_row inventory_analytics_df));
       ("fact_audit_logs", DataFrame_of (map audit_log_row audit_logs_df))]
      ∅ in
  (* Validate all datasets *)
  match validate_datasets datasets h with
  | (Ok (datasets, reports), h') =>
      mret (map (fun '(table_name, df) => (table_name, h' !!! df)) datasets, reports)
  | (Raise e, _) => raise e
  end.

(** [try: body / except Exception as e: raise handler(e)] *)
Definition try_except {A} (body : M A) (handler : exn -> exn) : M A :=
  fun s =>
    match body s with
    | (Ok r, s') => (Ok r, s')
    | (Raise e, s') => (Raise (handler e), s')
    end.

(** [np.random.seed(seed)] for an integer: the legacy seeding of numpy takes
    0 .. 2**32 - 1 only and raises for any other.  Nothing else in the
    program draws from the generator of numpy, so only this check is kept. *)
Definition np_random_seed (seed : Z) : M unit :=
  if (0 <=? seed) && (seed <? 2 ^ 32) then mret tt
  else raise (ValueError "Seed must be between 0 and 2**32 - 1").

Section Pipeline.

(** The raw sequence each seed stands for (the generator behind [random]). *)
Variable generator : Z -> N -> N.

(** [generate_demo_data(seed)]: the tables by name, as they are after
    validation, and the reports by name.  The two seedings come before the
    [try] block: what they raise is not wrapped. *)
Definition generate_demo_data (seed : Z)
  : M (list (string * DataFrame) * list (string * report)) :=
  _ ← np_random_seed seed;
  _ ← Random.seed generator seed;
  try_except generate_all
    (fun e => Exception ("Error generating demo data: " +:+ str_of_exn e)).

End Pipeline.

(** ** Vocabulary of the statements *)

(** A computation's results all satisfy [P]. *)
Definition returns {A} (m : M A) (P : A -> Prop) : Prop :=
  forall s a s', m s = (Ok a, s') -> P a.

(** The rows and final loop variables of [for_each], for a body whose
    effect on them is the function [spec]. *)
Fixpoint pure_for_each {S A C} (spec : S -> A -> list C * S) (xs : list A) (s : S)
  : list C * S :=
  match xs with
  | [] => ([], s)
  | x :: xs' =>
      let '(rows, s1) := spec s x in
      let '(rest, s2) := pure_for_each spec xs' s1 in
      (rows ++ rest, s2)
  end.

(** The cell of column [col] in row [i]. *)
Definition cell (t : DataFrame) (col : string) (i : nat) : option value :=
  get_column col t !! i.

(** What one round of the type loop does to the content of the frame. *)
Definition coerce_entry (t : DataFrame) (entry : string * string) : DataFrame :=
  if mem_string entry.1 (columns t) then
    match coerce_column entry.2 (get_column entry.1 t) with
    | inr cells => set_column entry.1 cells t
    | inl _ => t
    end
  else t.

Definition coerce_frame (entries : list (string * string)) (t : DataFrame) : DataFrame :=
  fold_left coerce_entry entries t.

(** The errors the type loop appends. *)
Fixpoint conversion_errors (entries : list (string * string)) (t : DataFrame) : list message :=
  match entries with
  | [] => []
  | entry :: rest =>
      (if mem_string entry.1 (columns t) then
         match coerce_column entry.2 (get_column entry.1 t) with
         | inr _ => []
         | inl e => [ConversionFailed entry.1 (str_of_exn e)]
         end
       else []) ++ conversion_errors rest (coerce_entry t entry)
  end.

(** The cell a conversion produces from the cell [v]. *)
Definition converted_cell (expected_type : string) (v : value) : value :=
  match coerce_column expected_type [v] with
  | inr [c] => c
  | _ => v
  end.

(** What the frame constructor makes of an int in a column that holds a float. *)
Definition upcast (v : value) : value :=
  match v with VInt z => VFloat (Py.float_of_int z) | _ => v end.

(** A cell of the kind the declared type names (an int counts as a float). *)
Definition kind_ok (expected_type : string) (v : value) : bool :=
  if String.eqb expected_type "date" then match v with VDate _ => true | _ => false end
  else if String.eqb expected_type "datetime" then match v with VDateTime _ => true | _ => false end
  else if String.eqb expected_type "bool" then match v with VBool _ => true | _ => false end
  else if String.eqb expected_type "int" then match v with VInt _ => true | _ => false end
  else if String.eqb expected_type "float" then
    match v with VInt _ | VFloat _ => true | _ => false end
  else if String.eqb expected_type "time" then match v with VTime _ => true | _ => false end
  else match v with VStr _ => true | _ => false end.

(** A dict with exactly the columns of the schema, each cell of its kind. *)
Definition row_conforms (entries : list (string * string)) (r : dict) : bool :=
  forallb (fun k => mem_string k (map fst entries)) (map fst r) &&
  forallb (fun entry => match dict_get entry.1 r with
                        | Some v => kind_ok entry.2 v
                        | None => false
                        end) entries.

(** What [validate_table] does to the content of the frame, and its report. *)
Definition validate_frame (table_name : string) (t : DataFrame) : DataFrame * report :=
  match assoc_get table_name SCHEMAS with
  | None => (t, mk_report None [UnknownTable] [] false)
  | Some schema =>
      let required_cols : gset string := list_to_set (map fst (required schema)) in
      let actual_cols : gset string := list_to_set (columns t) in
      let missing_cols := required_cols ∖ actual_cols in
      let extra_cols := actual_cols ∖ required_cols in
      let errs :=
        (if bool_decide (missing_cols ≠ ∅) then [MissingColumns missing_cols] else [])
        ++ conversion_errors (required schema) t in
      let t' := coerce_frame (required schema) t in
      let warns :=
        fold_left (check_nulls t') (elements required_cols)
                  (if bool_decide (extra_cols ≠ ∅) then [ExtraColumns extra_cols] else []) in
      (t', mk_report (Some (frame_len t')) errs warns (bool_decide (length errs = 0%nat)))
  end.

(** Messages that only warn. *)
Definition is_warning (m : message) : bool :=
  match m with
  | ExtraColumns _ | NullValues _ _ => true
  | UnknownTable | MissingColumns _ | ConversionFailed _ _ => false
  end.

(** The reading of "every required column that is present is coerced to its
    declared type": the conversion of the column succeeds and the returned
    frame holds its result. *)
Definition present_columns_coerced (schema : schema) (before after : DataFrame) : Prop :=
  forall col expected_type,
    (col, expected_type) ∈ required schema -> col ∈ columns before ->
    coerce_column expected_type (get_column col before) = inr (get_column col after).

(** A store with one frame, a [dim_tenants] upload whose only column holds
    text that is no date. *)
Definition bad_upload : store :=
  {[ 0%nat := mk_frame 1 [("subscription_start", [VStr "not a date"])] ]}.

(** The tables and the reports [generate_demo_data] returns for the frames
    it has packaged. *)
Definition validated_tables (frames : list (string * DataFrame)) : list (string * DataFrame) :=
  map (fun f => (f.1, (validate_frame f.1 f.2).1)) frames.

Definition validation_reports (frames : list (string * DataFrame)) : list (string * report) :=
  map (fun f => (f.1, (validate_frame f.1 f.2).2)) frames.

(** ** Properties of the generated rows *)

(** C6 on a batch record. *)
Definition batch_yield_ok (b : batch) : Prop :=
  0 < pb_planned_quantity b /\
  (Qabs (inject_Z (pb_actual_quantity b) / inject_Z (pb_planned_quantity b) * 100
         - pb_yield_percentage b) < 1 # 100)%Q.

(** C7 on a sale record. *)
Definition sale_net_ok (r : sale) : Prop :=
  (Qabs ((sa_total_amount r - sa_discount_amount r + sa_tax_amount r) - sa_net_amount r)
   < 1 # 100)%Q.

(** C8 on an inventory transaction, against the inventory items. *)
Definition issue_ok (items : list inventory_item) (r : inventory_transaction) : Prop :=
  tx_transaction_type r = "Sales Issue"%string ->
  exists item, item ∈ items /\ it_sku item = tx_sku r /\
               0 < it_current_stock item /\
               tx_quantity r < 0 /\ - tx_quantity r <= it_current_stock item.

(** The customer reference of a page view: empty unless the view converted,
    and then [B2C-] followed by a number of 1000 .. 1050. *)
Definition traffic_customer_form (r : page_view) : Prop :=
  (wt_converted r = false /\ wt_customer_id r = EmptyString) \/
  (wt_converted r = true /\
   exists c, 1000 <= c <= 1050 /\ wt_customer_id r = "B2C-" +:+ Py.fmt_0d 4 c).

(** The quantity issued for [sku] up to the day [d]: the transactions of the
    sku dated [d] or before, of those the Sales Issues, the absolute value of
    the sum of their quantities. *)
Definition issued_quantity (txs : list inventory_transaction) (sku : string) (d : date) : Z :=
  Z.abs (sum_Z (map tx_quantity
                    (filter (fun t => tx_transaction_type t = "Sales Issue"%string)
                            (filter (fun t => tx_sku t = sku
                                              ∧ Datetime.date_leb (tx_transaction_date t) d = true)
                                    txs)))).


(** C3, amended, on an analytics record, against the inventory items and
    the inventory transactions: [t] is the turnover before rounding, the
    quantity issued for the sku up to the date of the record over the stock
    of the item. *)
Definition analytic_ok (items : list inventory_item) (txs : list inventory_transaction)
    (r : inventory_analytic) : Prop :=
  exists item, item ∈ items /\ it_sku item = ia_sku r /\
    (0 < it_current_stock item ->
     exists t : Q,
       t = (inject_Z (issued_quantity txs (ia_sku r) (ia_date r))
            / inject_Z (it_current_stock item))%Q /\
       (0 <= t)%Q /\
       ia_stock_turnover_rate r = Float (Py.round t 2) /\
       ((0 < t)%Q -> ia_days_inventory_outstanding r = Float (Py.round (365 / t) 1)) /\
       ((t == 0)%Q -> ia_days_inventory_outstanding r = Int 365)) /\
    (it_current_stock item <= 0 ->
     ia_stock_turnover_rate r = Int 0 /\ ia_days_inventory_outstanding r = Int 0).

(** The part of a string before its first dash. *)
Fixpoint until_dash (s : string) : string :=
  match s with
  | EmptyString => EmptyString
  | String c s' => if Ascii.eqb c "-" then EmptyString else String c (until_dash s')
  end.

(** The first part of a sku: three letters of each word of the product name. *)
Definition sku_base (product_name : string) : string :=
  Py.concat_strings (map (fun word => Py.upper (Py.take 3 word)) (Py.split product_name)).

(** Identifier, product and category of the formulations, in order. *)
Definition formulation_catalog : list (string * string * string) :=
  (pure_for_each
     (fun formulation_id '(category, products) =>
        pure_for_each
          (fun formulation_id product =>
             ([("FMT-" +:+ Py.fmt_0d 4 formulation_id, product, category)],
              formulation_id + 1))
          products formulation_id)
     product_categories 1).1.

(** The identifiers of [dim_customers], in order. *)
Definition customer_ids : list string :=
  map (fun i => "B2B-" +:+ Py.fmt_0d 4 (1 + i)) (range 12)
  ++ map (fun i => "B2C-" +:+ Py.fmt_0d 4 (13 + i)) (range 50).

(** The first parts of the skus of [dim_inventory_items], in order. *)
Definition item_sku_bases : list string :=
  map (fun p : string * string => sku_base p.2)
      (dict_of_pairs (map (fun c : string * string * string => (c.1.1, c.1.2))
                          formulation_catalog)).

(** ** A run of the pipeline *)

(** The record lists of one run, in the order of the pipeline's packaging. *)
Record generated := mk_generated {
  g_tenants : list tenant;
  g_employees : list employee;
  g_formulations : list formulation;
  g_raw_materials : list raw_material;
  g_customers : list customer;
  g_batches : list batch;
  g_items : list inventory_item;
  g_transactions : list inventory_transaction;
  g_sales : list sale;
  g_orders : list ecommerce_order;
  g_attendance : list attendance;
  g_accounts : list account;
  g_postings : list financial_transaction;
  g_traffic : list page_view;
  g_production_analytics : list production_analytic;
  g_inventory_analytics : list inventory_analytic;
  g_logs : list audit_log
}.

Definition frames_of (g : generated) : list (string * DataFrame) :=
  [("dim_tenants", DataFrame_of (map tenant_row (g_tenants g)));
   ("dim_employees", DataFrame_of (map employee_row (g_employees g)));
   ("dim_formulations", DataFrame_of (map formulation_row (g_formulations g)));
   ("dim_raw_materials", DataFrame_of (map raw_material_row (g_raw_materials g)));
   ("dim_customers", DataFrame_of (map customer_row (g_customers g)));
   ("fact_production_batches", DataFrame_of (map batch_row (g_batches g)));
   ("dim_inventory_items", DataFrame_of (map inventory_item_row (g_items g)));
   ("fact_inventory_transactions",
    DataFrame_of (map inventory_transaction_row (g_transactions g)));
   ("fact_sales_transactions", DataFrame_of (map sale_row (g_sales g)));
   ("fact_ecommerce_orders", DataFrame_of (map ecommerce_order_row (g_orders g)));
   ("fact_attendance", DataFrame_of (map attendance_row (g_attendance g)));
   ("dim_accounts", DataFrame_of (map account_row (g_accounts g)));
   ("fact_financial_transactions",
    DataFrame_of (map financial_transaction_row (g_postings g)));
   ("fact_website_traffic", DataFrame_of (map page_view_row (g_traffic g)));
   ("fact_production_analytics",
    DataFrame_of (map production_analytic_row (g_production_analytics g)));
   ("fact_inventory_analytics",
    DataFrame_of (map inventory_analytic_row (g_inventory_analytics g)));
   ("fact_audit_logs", DataFrame_of (map audit_log_row (g_logs g)))].

(** What the generators guarantee about the records of a run. *)
Definition run_facts (g : generated) : Prop :=
  g_tenants g = generate_tenants_data /\
  (1 <= length (g_employees g))%nat /\
  map (fun f => (fm_formulation_id f, fm_product_name f, fm_product_category f))
      (g_formulations g) = formulation_catalog /\
  (1 <= length (g_raw_materials g))%nat /\
  map cu_customer_id (g_customers g) = customer_ids /\
  (Forall batch_yield_ok (g_batches g) /\ length (g_batches g) = 100%nat) /\
  map (fun it => until_dash (it_sku it)) (g_items g) = item_sku_bases /\
  (Forall (issue_ok (g_items g)) (g_transactions g) /\ (20 <= length (g_transactions g))%nat) /\
  (Forall sale_net_ok (g_sales g) /\ length (g_sales g) = 500%nat) /\
  length (g_orders g) = 200%nat /\
  (1 <= length (g_accounts g))%nat /\
  (100 <= length (g_postings g))%nat /\
  (Forall traffic_customer_form (g_traffic g) /\ (1 <= length (g_traffic g))%nat) /\
  Forall (analytic_ok (g_items g) (g_transactions g)) (g_inventory_analytics g) /\
  (1 <= length (g_logs g))%nat.

(** The keys of the dict [generate_demo_data] returns, in order. *)
Definition table_names : list string :=
  ["dim_tenants"; "dim_employees"; "dim_formulations"; "dim_raw_materials"; "dim_customers";
   "fact_production_batches"; "dim_inventory_items"; "fact_inventory_transactions";
   "fact_sales_transactions"; "fact_ecommerce_orders"; "fact_attendance"; "dim_accounts";
   "fact_financial_transactions"; "fact_website_traffic"; "fact_production_analytics";
   "fact_inventory_analytics"; "fact_audit_logs"].

(** ** Concrete runs *)

(** A sequence of raw draws for each seed: a multiplicative hash of the
    position, scaled. *)
Definition example_draws (seed : Z) (n : N) : N :=
  let x := N.land ((n + 1 + Z.to_N (Z.abs seed)) * 40503) 4294967295 in
  let y := N.lxor x (N.shiftr x 11) in
  let z := N.land (y * 2531011) 4294967295 in
  (N.lxor z (N.shiftr z 15) * 6191)%N.

(** The sequence in which every draw is 4, whatever the seed. *)
Definition constant_draws (seed : Z) (n : N) : N := 4%N.

(** The generator state before the first call. *)
Definition initial_state : rng_state := mk_rng (fun _ => 0%N) 0%N.

Definition succeeded {A} (r : outcome A * rng_state) : bool :=
  match r.1 with Ok _ => true | Raise _ => false end.

Definition tables_of {A B} (r : outcome (list A * list B) * rng_state) : list A :=
  match r.1 with Ok (tables, _) => tables | Raise _ => [] end.

Definition reports_of {A B} (r : outcome (list A * list B) * rng_state) : list B :=
  match r.1 with Ok (_, reports) => reports | Raise _ => [] end.

(** The run of seed 42 on [example_draws], and the run of seed 0 on
    [constant_draws]. *)
Abbreviation example_run := (generate_demo_data example_draws 42 initial_state).
Abbreviation constant_run := (generate_demo_data constant_draws 0 initial_state).

(** An item out of stock and a transfer of it, as [generate_inventory_items]
    and [generate_inventory_transactions] make them for a formulation
    without batches. *)
Definition idle_item : inventory_item :=
  mk_inventory_item "BODMIS-BOD-100" "Body Mist" "Bodycare" "ml" 0 10 500
                    200 0 (mk_date 2024 1 1) (mk_date 2025 1 1) "Warehouse A".



(** ** The summary of a report *)

(** [summarize_dq(report)]: ["row_count"] is read first and is missing in the
    report of an unknown table. *)
Definition summarize_dq (rep : report) : exn + DataFrame :=
  match row_count rep with
  | None => inl (KeyError "'row_count'")
  | Some n =>
      inr (mk_frame 4
             [("Metric", [VStr "Total Rows"; VStr "Errors"; VStr "Warnings";
                          VStr "Validation Status"]);
              ("Value", [VInt (Z.of_nat n);
                         VInt (Z.of_nat (length (errors rep)));
                         VInt (Z.of_nat (length (warnings rep)));
                         VStr (if ok rep then "✅ PASS" else "❌ FAIL")])])
  end.

(** The number of nulls of a column. *)
Definition null_count (cells : list value) : nat :=
  length (filter (fun v => Pandas.isnull v = true) cells).

(** The error one round of the type loop appends for the frame [t]. *)
Definition entry_errors (t : DataFrame) (entry : string * string) : list message :=
  if mem_string entry.1 (columns t) then
    match coerce_column entry.2 (get_column entry.1 t) with
    | inr _ => []
    | inl e => [ConversionFailed entry.1 (str_of_exn e)]
    end
  else [].

(** An upload of [dim_tenants] with all its columns and one more, with text
    in a number column, a date that is no date and missing cells. *)
Definition tenants_upload : store :=
  {[ 0%nat := mk_frame 2
       [("tenant_id", [VStr "TEN-001"; VStr "TEN-002"]);
        ("tenant_name", [VStr "Cinta Beauty"; VNull]);
        ("business_type", [VStr "Manufacturer"; VStr "Retailer"]);
        ("industry", [VStr "Cosmetics"; VStr "Cosmetics"]);
        ("subscription_plan", [VStr "Enterprise"; VStr "Basic"]);
        ("subscription_start", [VStr "2024-01-15"; VNull]);
        ("subscription_end", [VStr "2025-01-15"; VStr "next year"]);
        ("max_users", [VStr "50"; VStr "many"]);
        ("active_users", [VInt 12; VFloat (7 # 2)]);
        ("monthly_fee", [VStr "199.5"; VNull]);
        ("status", [VStr "Active"; VStr "Trial"]);
        ("contact_email", [VStr "a@example.com"; VNull]);
        ("contact_phone", [VStr "+254700000000"; VStr ""]);
        ("note", [VStr "x"; VStr "y"])] ]}.

(** The required columns a frame lacks, and its columns that are not required. *)
Definition missing_columns (schema : schema) (t : DataFrame) : gset string :=
  list_to_set (map fst (required schema)) ∖ list_to_set (columns t).

Definition extra_columns (schema : schema) (t : DataFrame) : gset string :=
  list_to_set (columns t) ∖ list_to_set (map fst (required schema)).

(** ** Vocabulary for the generators *)

(** The computation returns in every state, with a result that satisfies [P]. *)
Definition succeeds {A} (m : M A) (P : A -> Prop) : Prop :=
  forall s, exists a s', m s = (Ok a, s') /\ P a.

(** The computation raises [e] in every state. *)
Definition fails {A} (m : M A) (e : exn) : Prop :=
  forall s, exists s', m s = (Raise e, s').

(** The number a zero-padded decimal string stands for. *)
Definition decode_0d (s : string) : option N :=
  option_map N.of_uint (NilEmpty.uint_of_string s).

(** The identifiers [prefix-c], [prefix-(c+1)], ... of [n] consecutive rows. *)
Definition ids_from (prefix : string) (width : nat) (c : Z) (n : nat) : list string :=
  map (fun i => prefix +:+ Py.fmt_0d width i) (seqZ c (Z.of_nat n)).

(** The result of a computation that returned, [d] otherwise. *)
Definition returned {A} (r : outcome A * rng_state) : bool :=
  match r.1 with Ok _ => true | Raise _ => false end.

Definition result_of {A} (d : A) (r : outcome A * rng_state) : A :=
  match r.1 with Ok a => a | Raise _ => d end.

(** ** Properties of the generated rows, continued *)

(** A batch refers to an active formulation and to a production employee,
    and its numbers are in range. *)
Definition batch_ok (formulations : list formulation) (employees : list employee)
    (b : batch) : Prop :=
  (exists f, f ∈ formulations /\ fm_status f = "Active"%string /\
             fm_formulation_id f = pb_formulation_id b) /\
  (exists e, e ∈ employees /\ em_department e = "Production"%string /\
             em_employee_id e = pb_supervisor_id b) /\
  100 <= pb_planned_quantity b <= 1000 /\
  pb_status b ∈ ["Completed"; "In Progress"; "Quality Hold"]%string /\
  (pb_quality_score b <= 100)%Q.

(** Small inputs for the generators. *)
Definition sample_formulations : list formulation :=
  [mk_formulation "FMT-0001" "Vitamin C Serum" "Skincare" "v1.0" "Archived"
                  (mk_date 2023 1 1) 90 1200 (5 # 2) "KEBS";
   mk_formulation "FMT-0002" "Body Mist" "Bodycare" "v2.3" "Active"
                  (mk_date 2023 2 2) 95 200 4 "FDA"].

Definition sample_employees : list employee :=
  [mk_employee "EMP-0001" "John" "Smith" "john.smith@cintabeauty.co.ke" "+254 710 100000"
               "Production" "Production Manager" (mk_date 2020 1 1) 200000 "Permanent" ""
               "Morning" true;
   mk_employee "EMP-0002" "Mary" "Jones" "mary.jones@cintabeauty.co.ke" "+254 711 100001"
               "Sales & Marketing" "Sales Manager" (mk_date 2021 1 1) 180000 "Permanent" ""
               "Evening" true;
   mk_employee "EMP-0003" "Paul" "Lee" "paul.lee@cintabeauty.co.ke" "+254 712 100002"
               "Supply Chain" "Inventory Controller" (mk_date 2022 1 1) 60000 "Contract" ""
               "Night" false].

(** A sale refers to a customer, an item and a sales employee of the inputs;
    its price is the item's cost marked up by 1.5 to 3, its discount rate
    follows the customer type, and its tax is 16% of the discounted total. *)
Definition sale_ok (items : list inventory_item) (customers : list customer)
    (employees : list employee) (r : sale) : Prop :=
  (exists item markup,
     item ∈ items /\ it_sku item = sa_sku r /\ (1.5 <= markup /\ markup <= 3.0)%Q /\
     sa_unit_price r = Py.round (it_average_unit_cost item * markup) 2) /\
  (exists c rate,
     c ∈ customers /\ cu_customer_id c = sa_customer_id r /\
     (if String.eqb (cu_customer_type c) "Business"
      then (0.05 <= rate /\ rate <= 0.20)%Q else (0 <= rate /\ rate <= 0.10)%Q) /\
     sa_discount_amount r = Py.round (sa_total_amount r * rate) 2) /\
  (exists e, e ∈ employees /\ em_department e = "Sales & Marketing"%string /\
             em_employee_id e = sa_employee_id r) /\
  1 <= sa_quantity r <= 20 /\
  sa_total_amount r = Py.round (sa_unit_price r * inject_Z (sa_quantity r)) 2 /\
  sa_tax_amount r
  = Py.round ((sa_total_amount r - sa_discount_amount r) * 0.16) 2 /\
  sa_payment_status r ∈ ["Paid"; "Pending"; "Partial"]%string.

(** An order refers to an individual customer of the input; its tax is 16%
    of the subtotal, its discount at most 15% of it, and its net amount the
    rounded sum of the parts. *)
Definition order_ok (customers : list customer) (r : ecommerce_order) : Prop :=
  (exists c, c ∈ customers /\ cu_customer_type c = "Individual"%string /\
             cu_customer_id c = eo_customer_id r) /\
  (1000 <= eo_total_amount r /\ eo_total_amount r <= 50000)%Q /\
  (200 <= eo_shipping_amount r /\ eo_shipping_amount r <= 2000)%Q /\
  eo_tax_amount r = Py.round (eo_total_amount r * 0.16) 2 /\
  (exists rate, (0 <= rate /\ rate <= 0.15)%Q /\
                eo_discount_amount r = Py.round (eo_total_amount r * rate) 2) /\
  eo_net_amount r
  = Py.round (eo_total_amount r + eo_shipping_amount r + eo_tax_amount r
              - eo_discount_amount r) 2 /\
  (exists n, 100000 <= n <= 999999 /\
             eo_website_session_id r = "SESS-" +:+ Py.str_of_int n).

Definition sample_customers : list customer :=
  [mk_customer "B2B-0001" "Nairobi Beauty Mart" "Business" "orders@nairobibeautymart.co.ke"
               "+254 710 100000" "1 Moi Avenue" "Nairobi" "Kenya" (mk_date 2020 1 1) 1000
               50000 (mk_date 2024 1 1);
   mk_customer "B2C-0002" "Grace Mwangi" "Individual" "grace.mwangi@gmail.com"
               "+254 711 100001" "2 Street" "Mombasa" "Kenya" (mk_date 2022 1 1) 0
               1000 (mk_date 2024 2 2)].

Definition sample_items : list inventory_item :=
  [mk_inventory_item "VITCSER-SKI-100" "Vitamin C Serum" "Skincare" "ml" 40 10 500
                     1200 48000 (mk_date 2024 1 1) (mk_date 2025 1 1) "Cold Room";
   idle_item].

(** An inventory transaction refers to an item of the input, whose unit cost
    it carries, and to an employee of Supply Chain or Production; a receipt
    repeats a completed batch, an issue takes stock out, a transfer moves
    10 to 100 units. *)
Definition transaction_ok (items : list inventory_item) (batches : list batch)
    (employees : list employee) (r : inventory_transaction) : Prop :=
  (exists item, item ∈ items /\ it_sku item = tx_sku r /\
                it_average_unit_cost item = tx_unit_cost r) /\
  (exists e, e ∈ employees /\
             (em_department e = "Supply Chain" \/ em_department e = "Production")%string /\
             em_employee_id e = tx_employee_id r) /\
  ((tx_transaction_type r = "Production Receipt"%string /\
    exists b, b ∈ batches /\ pb_status b = "Completed"%string /\
              pb_batch_id b = tx_batch_id r /\ pb_actual_quantity b = tx_quantity r /\
              pb_production_date b = tx_transaction_date r) \/
   (tx_transaction_type r = "Sales Issue"%string /\ tx_quantity r < 0 /\
    exists b, 1 <= b <= 100 /\ tx_batch_id r = "BATCH-" +:+ Py.fmt_0d 4 b) \/
   (tx_transaction_type r = "Stock Transfer"%string /\ 10 <= tx_quantity r <= 100 /\
    exists b, 1 <= b <= 100 /\ tx_batch_id r = "BATCH-" +:+ Py.fmt_0d 4 b)).

Definition sample_batches : list batch :=
  [mk_batch "BATCH-0001" "FMT-0001" (mk_date 2024 3 4) 200 180 90 "Completed" "EQP-001"
            "EMP-0001" 95 216000 3;
   mk_batch "BATCH-0002" "FMT-0002" (mk_date 2024 5 6) 100 95 95 "In Progress" "EQP-002"
            "EMP-0001" 90 19000 4].

(** An analytics row repeats its batch. *)
Definition production_analytic_of (b : batch) (r : production_analytic) : Prop :=
  pa_batch_id r = pb_batch_id b /\ pa_date r = pb_production_date b /\
  pa_equipment_id r = pb_equipment_id b /\
  pa_yield_rate r = Py.round (pb_yield_percentage b) 2 /\
  pa_scrap_percentage r = Py.round (100 - pb_yield_percentage b) 2 /\
  pa_quality_score r = Py.round (pb_quality_score b) 1 /\
  (70 <= pa_oee_percentage r /\ pa_oee_percentage r <= 95)%Q.

(** An attendance row is that of an active employee on a day of June 2024,
    with the shift of the employee's pattern, between 7.5 and 9 hours worked
    and no overtime. *)
Definition attendance_ok (employees : list employee) (r : attendance) : Prop :=
  (exists e, e ∈ employees /\ em_active e = true /\ em_employee_id e = at_employee_id r /\
             (at_shift_start r, at_shift_end r)
             = (if String.eqb (em_shift_pattern e) "Evening"
                then (mk_time 14 0 0, mk_time 23 0 0) else (mk_time 8 0 0, mk_time 17 0 0))) /\
  (exists d, 1 <= d <= 30 /\ at_date r = mk_date 2024 6 d) /\
  (7.5 <= at_hours_worked r /\ at_hours_worked r <= 9)%Q /\
  at_overtime_hours r = 0%Q.

(** A posting is on an account of the input.  A sales receipt and a sales
    revenue repeat a paid sale, whose identifier is their reference: the
    receipt debits the net amount to the first account named Cash or Bank,
    the revenue credits the net amount less the tax to the first account
    named Sales.  An expense payment debits an amount of 1000 to 50000 to an
    account of type Expenses. *)
Definition posting_ok (accounts : list account) (sales : list sale)
    (r : financial_transaction) : Prop :=
  ft_status r = "Posted"%string /\
  exists a, a ∈ accounts /\ ac_account_code a = ft_account_code r /\
    ((ft_transaction_type r = "Sales Receipt"%string /\
      (Py.contains "Cash" (ac_account_name a) || Py.contains "Bank" (ac_account_name a)) = true /\
      exists sale, sale ∈ sales /\ sa_payment_status sale = "Paid"%string /\
        ft_reference_number r = sa_transaction_id sale /\
        ft_vendor_customer_id r = sa_customer_id sale /\
        ft_debit_amount r = Float (sa_net_amount sale) /\ ft_credit_amount r = Int 0 /\
        ft_balance r = (ac_current_balance a + sa_net_amount sale)%Q) \/
     (ft_transaction_type r = "Sales Revenue"%string /\
      Py.contains "Sales" (ac_account_name a) = true /\
      exists sale, sale ∈ sales /\ sa_payment_status sale = "Paid"%string /\
        ft_reference_number r = sa_transaction_id sale /\
        ft_vendor_customer_id r = sa_customer_id sale /\
        ft_debit_amount r = Int 0 /\
        ft_credit_amount r = Float (sa_net_amount sale - sa_tax_amount sale)%Q /\
        ft_balance r
        = (ac_current_balance a + (sa_net_amount sale - sa_tax_amount sale))%Q) \/
     (ft_transaction_type r = "Expense Payment"%string /\
      ac_account_type a = "Expenses"%string /\
      exists amount, (1000 <= amount /\ amount <= 50000)%Q /\
        ft_debit_amount r = Float amount /\ ft_credit_amount r = Int 0 /\
        ft_balance r = (ac_current_balance a + amount)%Q)).

(** The two postings of a sale, by type and reference. *)
Definition double_entry (sale : sale) : list (string * string) :=
  if String.eqb (sa_payment_status sale) "Paid"
  then [("Sales Receipt"%string, sa_transaction_id sale);
        ("Sales Revenue"%string, sa_transaction_id sale)]
  else [].

Definition sample_accounts : list account :=
  [mk_account "1000" "Cash" "Assets" "Current Assets" "Debit" 100000 120000 "" true;
   mk_account "1001" "Product Sales" "Revenue" "Sales Revenue" "Credit" 0 5000 "" true;
   mk_account "1002" "Rent" "Expenses" "Operating Expenses" "Debit" 0 7000 "" true].

Definition sample_sales : list sale :=
  [mk_sale "SALE-000001" (mk_datetime (mk_date 2024 1 2) (mk_time 9 30 0)) "B2B-0001"
           "VITCSER-SKI-100" 2 2400 4800 480 (69120 # 100) (501120 # 100)
           "M-Pesa" "Paid" "Online" "EMP-0002";
   mk_sale "SALE-000002" (mk_datetime (mk_date 2024 2 3) (mk_time 10 0 0)) "B2C-0002"
           "VITCSER-SKI-100" 1 2400 2400 0 384 2784
           "Cash" "Pending" "Retail Store" "EMP-0002"].

(** The quantity produced for a formulation. *)
Definition total_produced (batches : list batch) (formulation_id : string) : Z :=
  sum_Z (map pb_actual_quantity
             (filter (fun b => pb_formulation_id b = formulation_id) batches)).


(** The modules a position acts on. *)
Definition modules_of_position (position : string) : list string :=
  if Py.contains "Manager" position then ["Production"; "Inventory"; "Sales"; "Finance"; "HR"]
  else if Py.contains "Sales" position then ["Sales"]
  else if Py.contains "Production" position then ["Production"]
  else ["System"; "Inventory"; "HR"].

(** An audit row is that of an employee and a tenant of the input, on a
    module of the employee's position, with an action of that module. *)
Definition audit_ok (tenants : list tenant) (employees : list employee) (r : audit_log)
  : Prop :=
  (exists e, e ∈ employees /\ em_employee_id e = al_user_id r /\
             em_position e = al_user_role r) /\
  (exists t, t ∈ tenants /\ tn_tenant_id t = al_tenant_id r) /\
  al_module r ∈ modules_of_position (al_user_role r) /\
  (exists actions, assoc_get (al_module r) audit_actions = Some actions /\
                   al_action r ∈ actions) /\
  al_details r = al_action r +:+ " operation on " +:+ al_module r +:+ " module" /\
  8 <= hour (dt_time (al_timestamp r)) <= 20.

(** Identifier, department, position and whether there is no supervisor, of
    the employees in order. *)
Definition employee_catalog : list (string * string * string * bool) :=
  (pure_for_each
     (fun employee_id '(dept, positions) =>
        pure_for_each
          (fun employee_id position =>
             ([("EMP-" +:+ Py.fmt_0d 4 employee_id, dept, position, negb (employee_id >? 5))],
              employee_id + 1))
          positions employee_id)
     departments 1).1.

(** An employee's supervisor is one of the first five employees; the salary
    follows the position. *)
Definition employee_ok (e : employee) : Prop :=
  (em_supervisor_id e = EmptyString \/
   exists k, 1 <= k <= 5 /\ em_supervisor_id e = "EMP-" +:+ Py.fmt_0d 4 k) /\
  em_email e = Py.lower (em_first_name e) +:+ "." +:+ Py.lower (em_last_name e)
               +:+ "@cintabeauty.co.ke" /\
  (if Py.contains "Manager" (em_position e)
   then (150000 <= em_salary e /\ em_salary e <= 300000)%Q
   else if Py.contains "Senior" (em_position e) || Py.contains "Lead" (em_position e)
        then (80000 <= em_salary e /\ em_salary e <= 150000)%Q
        else (30000 <= em_salary e /\ em_salary e <= 80000)%Q).

(** A formulation's status and numbers are in range. *)
Definition formulation_ok (f : formulation) : Prop :=
  fm_status f ∈ ["Active"; "Archived"]%string /\
  (85 <= fm_expected_yield_percentage f /\ fm_expected_yield_percentage f <= 98)%Q /\
  (150 <= fm_production_cost_per_unit f /\ fm_production_cost_per_unit f <= 5000)%Q /\
  (2 <= fm_target_cycle_time_hours f /\ fm_target_cycle_time_hours f <= 48)%Q.

(** Identifier and type of the customers in order. *)
Definition customer_kinds : list (string * string) :=
  map (fun i => ("B2B-" +:+ Py.fmt_0d 4 (1 + i), "Business"%string)) (range 12)
  ++ map (fun i => ("B2C-" +:+ Py.fmt_0d 4 (13 + i), "Individual"%string)) (range 50).

(** Code, name, type, category and normal balance of the accounts in order. *)
Definition account_catalog : list (string * string * string * string * string) :=
  (pure_for_each
     (fun account_code '(main_category, subcategories) =>
        pure_for_each
          (fun account_code '(subcategory, account_names) =>
             pure_for_each
               (fun account_code account_name =>
                  ([(Py.str_of_int account_code, account_name, main_category, subcategory,
                     if mem_string main_category ["Assets"; "Expenses"]
                     then "Debit"%string else "Credit"%string)],
                   account_code + 1))
               account_names account_code)
          subcategories account_code)
     account_structure 1000).1.

(** Identifier, name and category of the raw materials in order. *)
Definition material_catalog : list (string * string * string) :=
  (pure_for_each
     (fun material_id '(category, items) =>
        pure_for_each
          (fun material_id item =>
             ([("MAT-" +:+ Py.fmt_0d 4 material_id, item, category)], material_id + 1))
          items material_id)
     material_categories 1).1.

(** A raw material's supplier is one of SUP-001 .. SUP-020; its unit, shelf
    life and storage are of the lists of the generator, its numbers in range. *)
Definition material_ok (r : raw_material) : Prop :=
  rm_supplier_id r ∈ ids_from "SUP-" 3 1 20 /\
  rm_unit_of_measure r ∈ ["kg"; "liters"; "pieces"; "grams"]%string /\
  (50 <= rm_unit_cost r /\ rm_unit_cost r <= 5000)%Q /\
  10 <= rm_min_stock_level r <= 100 /\
  50 <= rm_current_stock r <= 500 /\
  rm_shelf_life_days r ∈ [180; 365; 730; 1095] /\
  rm_storage_requirements r
    ∈ ["Room Temp"; "Cool Dry Place"; "Refrigerated"; "Air Tight"]%string.

(** ** Links between the tables of a run *)

(** A page view belongs to one of the sessions SESS-000001 .. SESS-006000. *)
Definition session_ok (r : page_view) : Prop :=
  exists k, 1 <= k <= 6000 /\ wt_session_id r = "SESS-" +:+ Py.fmt_0d 6 k.

(** What the generators guarantee about the records of a run, each list
    against the lists it was generated from. *)
Definition run_links (g : generated) : Prop :=
  (map (fun e => (em_employee_id e, em_department e, em_position e,
                  String.eqb (em_supervisor_id e) EmptyString)) (g_employees g)
   = employee_catalog /\ Forall employee_ok (g_employees g)) /\
  Forall formulation_ok (g_formulations g) /\
  map (fun c => (cu_customer_id c, cu_customer_type c)) (g_customers g) = customer_kinds /\
  (map pb_batch_id (g_batches g) = ids_from "BATCH-" 4 1 100 /\
   Forall (batch_ok (g_formulations g) (g_employees g)) (g_batches g)) /\
  (map tx_transaction_id (g_transactions g)
   = ids_from "INV-" 6 1 (length (g_transactions g)) /\
   Forall (transaction_ok (g_items g) (g_batches g) (g_employees g)) (g_transactions g)) /\
  (map sa_transaction_id (g_sales g) = ids_from "SALE-" 6 1 500 /\
   Forall (sale_ok (g_items g) (g_customers g) (g_employees g)) (g_sales g)) /\
  (map eo_order_id (g_orders g) = ids_from "ECOMM-" 6 1 200 /\
   Forall (order_ok (g_customers g)) (g_orders g)) /\
  (map at_attendance_id (g_attendance g)
   = ids_from "ATT-" 6 1 (length (g_attendance g)) /\
   Forall (attendance_ok (g_employees g)) (g_attendance g)) /\
  map (fun a => (ac_account_code a, ac_account_name a, ac_account_type a,
                 ac_category a, ac_normal_balance a)) (g_accounts g)
  = account_catalog /\
  (map ft_transaction_id (g_postings g) = ids_from "FIN-" 6 1 (length (g_postings g)) /\
   Forall (posting_ok (g_accounts g) (g_sales g)) (g_postings g)) /\
  Forall session_ok (g_traffic g) /\
  (Forall2 production_analytic_of
           (filter (fun b => pb_status b = "Completed"%string) (g_batches g))
           (g_production_analytics g) /\
   map pa_analytics_id (g_production_analytics g)
   = ids_from "PROD-ANAL-" 4 1 (length (g_production_analytics g))) /\
  (map al_log_id (g_logs g) = ids_from "AUDIT-" 8 1 (length (g_logs g)) /\
   (900 <= length (g_logs g) <= 4500)%nat /\
   Forall (audit_ok (g_tenants g) (g_employees g)) (g_logs g)).

(** Each value of column [col] of table [fact] is a value of column [key]
    of table [dim]. *)
Definition references (tables : list (string * DataFrame))
    (fk : string * string * string * string) : Prop :=
  exists ft dt,
    assoc_get fk.1.1.1 tables = Some ft /\ assoc_get fk.1.2 tables = Some dt /\
    forall i v, cell ft fk.1.1.2 i = Some v -> exists j, cell dt fk.2 j = Some v.

(** The references between the tables: table, column, referenced table and
    its key. *)
Definition foreign_keys : list (string * string * string * string) :=
  [("fact_production_batches", "formulation_id", "dim_formulations", "formulation_id");
   ("fact_production_batches", "supervisor_id", "dim_employees", "employee_id");
   ("fact_inventory_transactions", "sku", "dim_inventory_items", "sku");
   ("fact_inventory_transactions", "batch_id", "fact_production_batches", "batch_id");
   ("fact_inventory_transactions", "employee_id", "dim_employees", "employee_id");
   ("fact_sales_transactions", "customer_id", "dim_customers", "customer_id");
   ("fact_sales_transactions", "sku", "dim_inventory_items", "sku");
   ("fact_sales_transactions", "employee_id", "dim_employees", "employee_id");
   ("fact_ecommerce_orders", "customer_id", "dim_customers", "customer_id");
   ("fact_attendance", "employee_id", "dim_employees", "employee_id");
   ("fact_financial_transactions", "account_code", "dim_accounts", "account_code");
   ("fact_production_analytics", "batch_id", "fact_production_batches", "batch_id");
   ("fact_inventory_analytics", "sku", "dim_inventory_items", "sku");
   ("fact_audit_logs", "user_id", "dim_employees", "employee_id");
   ("fact_audit_logs", "tenant_id", "dim_tenants", "tenant_id")].

(** Column [pk.2] of table [pk.1] holds no value twice. *)
Definition unique_key (tables : list (string * DataFrame)) (pk : string * string) : Prop :=
  exists t, assoc_get pk.1 tables = Some t /\ NoDup (get_column pk.2 t).

(** The identifier column of each table that has one row per identifier. *)
Definition primary_keys : list (string * string) :=
  [("dim_tenants", "tenant_id");
   ("dim_employees", "employee_id");
   ("dim_formulations", "formulation_id");
   ("dim_customers", "customer_id");
   ("fact_production_batches", "batch_id");
   ("dim_inventory_items", "sku");
   ("fact_inventory_transactions", "transaction_id");
   ("fact_sales_transactions", "transaction_id");
   ("fact_ecommerce_orders", "order_id");
   ("fact_attendance", "attendance_id");
   ("dim_accounts", "account_code");
   ("fact_financial_transactions", "transaction_id");
   ("fact_production_analytics", "analytics_id");
   ("fact_audit_logs", "log_id")].

(** Table [entry.1] has [entry.2] rows, and its report counts as many. *)
Definition sized (tables : list (string * DataFrame)) (reports : list (string * report))
    (entry : string * nat) : Prop :=
  exists t r, assoc_get entry.1 tables = Some t /\ assoc_get entry.1 reports = Some r /\
              frame_len t = entry.2 /\ row_count r = Some entry.2.

(** The tables whose number of rows does not depend on the random draws. *)
Definition table_sizes : list (string * nat) :=
  [("dim_tenants", 3%nat); ("dim_employees", 26%nat); ("dim_formulations", 32%nat);
   ("dim_customers", 62%nat); ("fact_production_batches", 100%nat);
   ("dim_inventory_items", 32%nat); ("fact_sales_transactions", 500%nat);
   ("fact_ecommerce_orders", 200%nat); ("dim_accounts", 31%nat)].

(** The rows of a loop with a counter are the groups [groups] one after the
    other; the groups are numbered from [c] and the counter ends after the
    last; [P k g] holds of the group [g] numbered [k]. *)
Definition grouped {B} (P : Z -> list B -> Prop) (lo hi : nat) (c : Z) (r : list B * Z)
  : Prop :=
  exists groups, r.1 = concat groups /\ (lo <= length groups <= hi)%nat /\
                 r.2 = c + Z.of_nat (length groups) /\
                 forall i g, groups !! i = Some g -> P (c + Z.of_nat i) g.

(** The page views of the session numbered [k]: between 1 and 10 rows, each
    with the identifier of the session, the number of rows as [page_views]
    and the same duration of 30 .. 1800 seconds. *)
Definition session_rows (k : Z) (rows : list page_view) : Prop :=
  (1 <= length rows <= 10)%nat /\
  exists duration, 30 <= duration <= 1800 /\
    Forall (fun r => wt_session_id r = "SESS-" +:+ Py.fmt_0d 6 k /\
                     wt_page_views r = Z.of_nat (length rows) /\
                     wt_session_duration_seconds r = duration) rows.

(** An analytics row is that of an item of the input and of a month of 2024
    by whose 15th the item has a transaction; it repeats the sku and the
    category of the item and classifies it by its total value. *)
Definition analysis_of (items : list inventory_item) (txs : list inventory_transaction)
    (r : inventory_analytic) : Prop :=
  exists item month t,
    item ∈ items /\ 1 <= month <= 12 /\ t ∈ txs /\ tx_sku t = it_sku item /\
    Datetime.date_leb (tx_transaction_date t) (mk_date 2024 month 15) = true /\
    ia_sku r = it_sku item /\ ia_category r = it_category item /\
    ia_date r = mk_date 2024 month 15 /\
    ((100000 < it_total_value item)%Q -> ia_abc_classification r = "A"%string) /\
    ((50000 < it_total_value item /\ it_total_value item <= 100000)%Q ->
     ia_abc_classification r = "B"%string) /\
    ((it_total_value item <= 50000)%Q -> ia_abc_classification r = "C"%string).

(** * Proofs *)

Lemma returns_ret {A} (a : A) (P : A -> Prop) : P a -> returns (mret a) P.
Proof. intros H s a' s' E. injection E as <- _. exact H. Qed.

Lemma returns_bind {A B} (m : M A) (f : A -> M B) (P : A -> Prop) (Q : B -> Prop) :
  returns m P -> (forall a, P a -> returns (f a) Q) -> returns (m ≫= f) Q.
Proof.
  intros Hm Hf s b s' E. unfold mbind, M_bind in E.
  destruct (m s) as [[a|e] s1] eqn:Em; [|discriminate].
  exact (Hf a (Hm _ _ _ Em) _ _ _ E).
Qed.

Lemma returns_weaken {A} (m : M A) (P Q : A -> Prop) :
  returns m P -> (forall a, P a -> Q a) -> returns m Q.
Proof. intros H HPQ s a s' E. exact (HPQ _ (H _ _ _ E)). Qed.

Lemma returns_true {A} (m : M A) : returns m (fun _ => True).
Proof. intros s a s' _. exact I. Qed.

Lemma returns_raise {A} (e : exn) (P : A -> Prop) : returns (raise e) P.
Proof. intros s a s' E. discriminate E. Qed.

Lemma returns_randint (a b : Z) : returns (Random.randint a b) (fun z => a <= z <= b).
Proof.
  unfold Random.randint. destruct (b <? a) eqn:E; [apply returns_raise|].
  apply Z.ltb_ge in E.
  eapply returns_bind; [apply returns_true|]. intros n _. apply returns_ret.
  pose proof (Z.mod_pos_bound (Z.of_N n) (b - a + 1) ltac:(lia)). lia.
Qed.

Lemma returns_choice {A} (l : list A) : returns (Random.choice l) (fun x => x ∈ l).
Proof.
  unfold Random.choice. destruct l as [|x l]; [apply returns_raise|].
  eapply returns_bind; [apply returns_true|]. intros n _. apply returns_ret.
  apply list_elem_of_In, nth_In.
  pose proof (N.mod_lt n (N.of_nat (length (x :: l))) ltac:(simpl; lia)). lia.
Qed.

Lemma returns_for_each {S A B} (P : B -> Prop) (xs : list A) (body : S -> A -> M (list B * S)) :
  (forall s x, x ∈ xs -> returns (body s x) (fun r => Forall P r.1)) ->
  forall s, returns (for_each xs body s) (fun r => Forall P r.1).
Proof.
  induction xs as [|x xs IH]; intros Hb s; simpl.
  - apply returns_ret. constructor.
  - eapply returns_bind; [apply Hb; left|]. intros [rows s1] Hrows.
    eapply returns_bind; [apply IH; intros; apply Hb; by right|]. intros [rest s2] Hrest.
    apply returns_ret. simpl in *. by apply Forall_app.
Qed.

Lemma returns_for_each_spec {S A B C} (g : B -> C) (spec : S -> A -> list C * S)
    (xs : list A) (body : S -> A -> M (list B * S)) :
  (forall s x, x ∈ xs -> returns (body s x) (fun r => (map g r.1, r.2) = spec s x)) ->
  forall s, returns (for_each xs body s) (fun r => (map g r.1, r.2) = pure_for_each spec xs s).
Proof.
  induction xs as [|x xs IH]; intros Hb s; simpl.
  - by apply returns_ret.
  - eapply returns_bind; [apply Hb; left|]. intros [rows s1] Hrows. simpl in Hrows.
    rewrite <- Hrows.
    eapply returns_bind; [apply IH; intros; apply Hb; by right|]. intros [rest s2] Hrest.
    simpl in Hrest. rewrite <- Hrest.
    apply returns_ret. simpl. by rewrite map_app.
Qed.


Lemma returns_and {A} (m : M A) (P Q : A -> Prop) :
  returns m P -> returns m Q -> returns m (fun a => P a /\ Q a).
Proof. intros HP HQ s a s' E. split; [exact (HP _ _ _ E)|exact (HQ _ _ _ E)]. Qed.

Lemma returns_for_each_length {S A B} (xs : list A) (body : S -> A -> M (list B * S)) :
  (forall s x, x ∈ xs -> returns (body s x) (fun r => length r.1 = 1%nat)) ->
  forall s, returns (for_each xs body s) (fun r => length r.1 = length xs).
Proof.
  induction xs as [|x xs IH]; intros Hb s; simpl.
  - by apply returns_ret.
  - eapply returns_bind; [apply Hb; left|]. intros [rows s1] Hrows.
    eapply returns_bind; [apply IH; intros; apply Hb; by right|]. intros [rest s2] Hrest.
    apply returns_ret. simpl in *. rewrite length_app. lia.
Qed.

Lemma returns_for_each_length_ge {S A B} (xs : list A) (body : S -> A -> M (list B * S)) :
  (forall s x, x ∈ xs -> returns (body s x) (fun r => (1 <= length r.1)%nat)) ->
  forall s, returns (for_each xs body s) (fun r => (length xs <= length r.1)%nat).
Proof.
  induction xs as [|x xs IH]; intros Hb s; simpl.
  - apply returns_ret. simpl. lia.
  - eapply returns_bind; [apply Hb; left|]. intros [rows s1] Hrows.
    eapply returns_bind; [apply IH; intros; apply Hb; by right|]. intros [rest s2] Hrest.
    apply returns_ret. simpl in *. rewrite length_app. lia.
Qed.

Lemma length_range (n : nat) : length (range n) = n.
Proof. unfold range. by rewrite length_map, length_seq. Qed.

Lemma returns_for_each_head {S A B} (x : A) (xs : list A) (body : S -> A -> M (list B * S)) :
  (forall s, returns (body s x) (fun r => (1 <= length r.1)%nat)) ->
  forall s, returns (for_each (x :: xs) body s) (fun r => (1 <= length r.1)%nat).
Proof.
  intros Hb s. simpl.
  eapply returns_bind; [apply Hb|]. intros [rows s1] Hrows.
  eapply returns_bind; [apply returns_true|]. intros [rest s2] _.
  apply returns_ret. simpl in *. rewrite length_app. lia.
Qed.

Lemma pure_for_each_map {A C} (f : A -> C) (xs : list A) :
  pure_for_each (fun (_ : unit) x => ([f x], tt)) xs tt = (map f xs, tt).
Proof. induction xs as [|x xs IH]; simpl; [done|]. by rewrite IH. Qed.

Lemma round_half_even_error (y : Q) :
  (Qabs (y - inject_Z (Py.round_half_even y)) <= 1 # 2)%Q.
Proof.
  unfold Py.round_half_even.
  pose proof (Qfloor_le y) as Hlo. pose proof (Qlt_floor y) as Hhi.
  rewrite inject_Z_plus in Hhi. change (inject_Z 1) with 1%Q in Hhi.
  set (f := Qfloor y) in *.
  apply Qabs_Qle_condition.
  destruct (Qcompare (y - inject_Z f) (1 # 2)) eqn:E.
  - apply Qeq_alt in E.
    destruct (Z.even f); [|rewrite inject_Z_plus; change (inject_Z 1) with 1%Q]; lra.
  - apply Qlt_alt in E. lra.
  - apply Qgt_alt in E. rewrite inject_Z_plus. change (inject_Z 1) with 1%Q. lra.
Qed.

Lemma round_error (x : Q) (n : nat) :
  (Qabs (x - Py.round x n) <= 1 # (2 * Py.pow10 n))%Q.
Proof.
  unfold Py.round. rewrite Qred_correct.
  set (P := Py.pow10 n).
  pose proof (round_half_even_error (x * inject_Z (Zpos P))) as H.
  set (r := Py.round_half_even (x * inject_Z (Zpos P))) in *.
  assert (HP : (0 < inject_Z (Zpos P))%Q) by (unfold Qlt; simpl; lia).
  assert (Hr : (r # P == inject_Z r / inject_Z (Zpos P))%Q).
  { rewrite Qmake_Qdiv. reflexivity. }
  rewrite Hr.
  assert (E : (x - inject_Z r / inject_Z (Zpos P) ==
               (x * inject_Z (Zpos P) - inject_Z r) / inject_Z (Zpos P))%Q).
  { field. lra. }
  rewrite E. unfold Qdiv. rewrite Qabs_Qmult.
  rewrite (Qabs_pos (/ inject_Z (Z.pos P))).
  2:{ apply Qlt_le_weak, Qinv_lt_0_compat, HP. }
  assert (E2 : (1 # (2 * P) == (1 # 2) * / inject_Z (Zpos P))%Q).
  { rewrite (Qmake_Qdiv 1 (2 * P)). rewrite Pos2Z.inj_mul, inject_Z_mult. 
    change (1 # 2)%Q with (inject_Z 1 / inject_Z 2)%Q. field. lra. }
  rewrite E2. apply Qmult_le_compat_r; [exact H|].
  apply Qlt_le_weak, Qinv_lt_0_compat, HP.
Qed.

Lemma round2_close (x : Q) : (Qabs (x - Py.round x 2) < 1 # 100)%Q.
Proof.
  eapply Qle_lt_trans; [apply round_error|]. reflexivity.
Qed.

(** * Association lists and frames *)

Lemma mem_string_spec (s : string) (l : list string) : mem_string s l = true <-> s ∈ l.
Proof.
  unfold mem_string. rewrite existsb_exists. split.
  - intros (x & Hin & E). apply String.eqb_eq in E. subst. by apply list_elem_of_In.
  - intros H. exists s. split; [by apply list_elem_of_In|apply String.eqb_refl].
Qed.

Lemma mem_string_false (s : string) (l : list string) : mem_string s l = false <-> s ∉ l.
Proof.
  rewrite <- mem_string_spec. destruct (mem_string s l); split; congruence.
Qed.

Lemma assoc_set_same {A} (k : string) (v : A) (l : list (string * A)) :
  assoc_get k (assoc_set k v l) = Some v.
Proof.
  induction l as [|[k' v'] l IH]; simpl.
  - by rewrite String.eqb_refl.
  - destruct (String.eqb k k') eqn:E; simpl; rewrite ?String.eqb_refl, ?E; auto.
Qed.

Lemma assoc_set_other {A} (k k' : string) (v : A) (l : list (string * A)) :
  k <> k' -> assoc_get k (assoc_set k' v l) = assoc_get k l.
Proof.
  intros Hne. induction l as [|[k2 v2] l IH]; simpl.
  - apply String.eqb_neq in Hne. by rewrite Hne.
  - destruct (String.eqb k' k2) eqn:E; simpl.
    + apply String.eqb_eq in E. subst k2. apply String.eqb_neq in Hne. by rewrite Hne.
    + by rewrite IH.
Qed.

Lemma assoc_set_keys {A} (k : string) (v : A) (l : list (string * A)) :
  k ∈ map fst l -> map fst (assoc_set k v l) = map fst l.
Proof.
  induction l as [|[k2 v2] l IH]; simpl; intros Hin.
  - by apply elem_of_nil in Hin.
  - destruct (String.eqb k k2) eqn:E; simpl.
    + apply String.eqb_eq in E. by subst.
    + f_equal. apply IH. apply elem_of_cons in Hin as [->|Hin]; [|done].
      by rewrite String.eqb_refl in E.
Qed.

Lemma assoc_None {A} (k : string) (l : list (string * A)) :
  assoc_get k l = None <-> k ∉ map fst l.
Proof.
  induction l as [|[k2 v2] l IH]; simpl.
  - split; [intros _; apply not_elem_of_nil|done].
  - destruct (String.eqb_spec k k2) as [->|Hne].
    + split; [done|]. intros H. exfalso. apply H. left.
    + rewrite IH. rewrite not_elem_of_cons. naive_solver.
Qed.

Lemma assoc_elem_of {A} (k : string) (v : A) (l : list (string * A)) :
  assoc_get k l = Some v -> (k, v) ∈ l.
Proof.
  induction l as [|[k2 v2] l IH]; simpl; [done|].
  destruct (String.eqb_spec k k2) as [->|Hne].
  - intros [= ->]. left.
  - intros H. right. auto.
Qed.

Lemma assoc_NoDup {A} (k : string) (v : A) (l : list (string * A)) :
  NoDup (map fst l) -> (k, v) ∈ l -> assoc_get k l = Some v.
Proof.
  induction l as [|[k2 v2] l IH]; simpl; intros Hnd Hin.
  - by apply elem_of_nil in Hin.
  - apply NoDup_cons in Hnd as [Hk2 Hnd].
    apply elem_of_cons in Hin as [[= -> ->]|Hin].
    + by rewrite String.eqb_refl.
    + destruct (String.eqb_spec k k2) as [->|Hne]; [|auto].
      exfalso. apply Hk2. apply (list_elem_of_fmap_2 fst) in Hin. exact Hin.
Qed.

Lemma get_column_set_same (col : string) (cells : list value) (t : DataFrame) :
  get_column col (set_column col cells t) = cells.
Proof. unfold get_column, set_column. simpl. by rewrite assoc_set_same. Qed.

Lemma get_column_set_other (col col' : string) (cells : list value) (t : DataFrame) :
  col <> col' -> get_column col (set_column col' cells t) = get_column col t.
Proof. intros H. unfold get_column, set_column. simpl. by rewrite assoc_set_other. Qed.

Lemma columns_set_column (col : string) (cells : list value) (t : DataFrame) :
  col ∈ columns t -> columns (set_column col cells t) = columns t.
Proof. intros H. unfold columns, set_column. simpl. by apply assoc_set_keys. Qed.

(** * The type loop *)

Lemma columns_coerce_entry (t : DataFrame) (entry : string * string) :
  columns (coerce_entry t entry) = columns t.
Proof.
  unfold coerce_entry. destruct (mem_string _ _) eqn:E; [|done].
  destruct (coerce_column _ _); [done|]. apply columns_set_column. by apply mem_string_spec.
Qed.

Lemma frame_len_coerce_entry (t : DataFrame) (entry : string * string) :
  frame_len (coerce_entry t entry) = frame_len t.
Proof.
  unfold coerce_entry. destruct (mem_string _ _); [|done]. by destruct (coerce_column _ _).
Qed.

Lemma columns_coerce_frame (entries : list (string * string)) (t : DataFrame) :
  columns (coerce_frame entries t) = columns t.
Proof.
  revert t. induction entries as [|e es IH]; intros t; simpl; [done|].
  unfold coerce_frame in *. simpl. by rewrite IH, columns_coerce_entry.
Qed.

Lemma frame_len_coerce_frame (entries : list (string * string)) (t : DataFrame) :
  frame_len (coerce_frame entries t) = frame_len t.
Proof.
  revert t. induction entries as [|e es IH]; intros t; simpl; [done|].
  unfold coerce_frame in *. simpl. by rewrite IH, frame_len_coerce_entry.
Qed.

Lemma get_column_coerce_entry_other (t : DataFrame) (entry : string * string) (col : string) :
  col <> entry.1 -> get_column col (coerce_entry t entry) = get_column col t.
Proof.
  intros Hne. unfold coerce_entry. destruct (mem_string _ _); [|done].
  destruct (coerce_column _ _); [done|]. by apply get_column_set_other.
Qed.

Lemma get_column_coerce_frame_other (entries : list (string * string)) (t : DataFrame)
    (col : string) :
  col ∉ map fst entries -> get_column col (coerce_frame entries t) = get_column col t.
Proof.
  revert t. induction entries as [|e es IH]; intros t Hnot; [done|].
  simpl in Hnot. apply not_elem_of_cons in Hnot as [Hne Hnot].
  unfold coerce_frame in *. simpl. rewrite IH by done.
  by apply get_column_coerce_entry_other.
Qed.

(** The column [col] after the loop: converted when it is a required column
    that is present and whose conversion succeeds, as it was otherwise. *)
Lemma get_column_coerce_frame (entries : list (string * string)) (t : DataFrame) (col : string) :
  NoDup (map fst entries) ->
  get_column col (coerce_frame entries t) =
    match assoc_get col entries with
    | Some expected_type =>
        if mem_string col (columns t) then
          match coerce_column expected_type (get_column col t) with
          | inr cells => cells
          | inl _ => get_column col t
          end
        else get_column col t
    | None => get_column col t
    end.
Proof.
  revert t. induction entries as [|[c ty] es IH]; intros t Hnd; [done|].
  simpl in Hnd. apply NoDup_cons in Hnd as [Hc Hnd].
  change (coerce_frame ((c, ty) :: es) t) with (coerce_frame es (coerce_entry t (c, ty))).
  simpl. destruct (String.eqb_spec col c) as [->|Hne].
  - rewrite get_column_coerce_frame_other by done.
    unfold coerce_entry. simpl. destruct (mem_string c (columns t)); [|done].
    destruct (coerce_column ty (get_column c t)); [done|]. apply get_column_set_same.
  - rewrite IH by done. rewrite columns_coerce_entry.
    by rewrite get_column_coerce_entry_other.
Qed.

Lemma fold_check_type (df : loc) (entries : list (string * string)) (h : store)
    (errs : list message) (t : DataFrame) :
  h !! df = Some t ->
  fold_left (check_type df) entries (h, errs) =
    (<[df := coerce_frame entries t]> h, errs ++ conversion_errors entries t).
Proof.
  revert h errs t. induction entries as [|[c ty] es IH]; intros h errs t Hdf.
  - simpl. by rewrite insert_id, app_nil_r.
  - change (coerce_frame ((c, ty) :: es) t) with (coerce_frame es (coerce_entry t (c, ty))).
    simpl. unfold coerce_entry. simpl.
    rewrite (lookup_total_correct h df t Hdf).
    destruct (mem_string c (columns t)).
    + destruct (coerce_column ty (get_column c t)) as [e|cells].
      * rewrite (IH h _ t Hdf). by rewrite <- app_assoc.
      * rewrite (IH _ errs (set_column c cells t)) by apply lookup_insert_eq.
        by rewrite insert_insert_eq.
    + by rewrite (IH h errs t Hdf).
Qed.

(** * [validate_table] on the content of the frame *)

Lemma validate_table_frame (table_name : string) (df : loc) (h : store) (t : DataFrame) :
  h !! df = Some t ->
  validate_table table_name df h =
    ((df, (validate_frame table_name t).2), <[df := (validate_frame table_name t).1]> h).
Proof.
  intros Hdf. unfold validate_table, validate_frame.
  destruct (assoc_get table_name SCHEMAS) as [schema|]; simpl.
  - rewrite (lookup_total_correct h df t Hdf).
    rewrite (fold_check_type df _ h _ t Hdf).
    by rewrite lookup_total_insert_eq.
  - by rewrite insert_id.
Qed.

Lemma SCHEMAS_keys_NoDup :
  Forall (fun e : string * schema => NoDup (map fst (required e.2))) SCHEMAS.
Proof. apply (bool_decide_unpack _). vm_compute. exact I. Qed.

Lemma SCHEMAS_NoDup (table_name : string) (schema : schema) :
  assoc_get table_name SCHEMAS = Some schema -> NoDup (map fst (required schema)).
Proof.
  intros H. apply assoc_elem_of in H.
  exact (proj1 (Forall_forall _ _) SCHEMAS_keys_NoDup _ H).
Qed.

Lemma conversion_errors_fatal (entries : list (string * string)) (t : DataFrame) :
  Forall (fun m => is_warning m = false) (conversion_errors entries t).
Proof.
  revert t. induction entries as [|e es IH]; intros t; simpl; [constructor|].
  apply Forall_app. split; [|apply IH].
  destruct (mem_string _ _); [|constructor].
  destruct (coerce_column _ _); repeat constructor.
Qed.

Lemma check_nulls_warnings (t : DataFrame) (cols : list string) (warns : list message) :
  Forall (fun m => is_warning m = true) warns ->
  Forall (fun m => is_warning m = true) (fold_left (check_nulls t) cols warns).
Proof.
  revert warns. induction cols as [|c cs IH]; intros warns H; simpl; [done|].
  apply IH. unfold check_nulls. destruct (_ && _); [|done].
  apply Forall_app. split; [done|]. repeat constructor.
Qed.

Lemma missing_columns_spec (keys cols : list string) :
  (list_to_set keys ∖ list_to_set cols : gset string) ≠ ∅ <->
  exists col, col ∈ keys /\ col ∉ cols.
Proof.
  split.
  - intros H. apply set_choose_L in H as [col Hcol].
    exists col. set_solver.
  - intros (col & H1 & H2). apply (non_empty_inhabited_L col). set_solver.
Qed.

(** C4.  For a table name that is not in the schema registry the report has
    [ok = false] and exactly one error (and no row count), the frame returned
    is the argument, and the store, so the content of every frame, is as
    before: no column is coerced. *)
Theorem validate_table_unknown (table_name : string) (df : loc) (h : store) :
  table_name ∉ map fst SCHEMAS ->
  validate_table table_name df h = ((df, mk_report None [UnknownTable] [] false), h).
Proof.
  intros H. apply assoc_None in H. unfold validate_table. by rewrite H.
Qed.

Lemma validate_table_unknown_witness :
  ("unknown_table" ∉ map fst SCHEMAS) /\
  (validate_table "unknown_table" 0%nat bad_upload
   = ((0%nat, mk_report None [UnknownTable] [] false), bad_upload)).
Proof.
  assert (H : "unknown_table" ∉ map fst SCHEMAS).
  { apply mem_string_false. vm_compute. reflexivity. }
  split; [exact H|]. exact (validate_table_unknown "unknown_table" 0%nat bad_upload H).
Defined.

(** C5.  For a known table the report has [ok = true] exactly when its error
    list is empty; the errors are missing-column and failed-conversion
    messages only, the extra-column and null messages are all in the warning
    list; so [ok] holds exactly when no required column is missing and no
    conversion fails, whatever the extra columns and the nulls. *)
Theorem validate_table_ok_iff (table_name : string) (schema : schema) (df : loc) (h : store)
    (t : DataFrame) :
  assoc_get table_name SCHEMAS = Some schema ->
  h !! df = Some t ->
  let rep := (validate_table table_name df h).1.2 in
  (ok rep = true <-> errors rep = []) /\
  Forall (fun m => is_warning m = false) (errors rep) /\
  Forall (fun m => is_warning m = true) (warnings rep) /\
  (ok rep = true <->
   (forall col, col ∈ map fst (required schema) -> col ∈ columns t) /\
   conversion_errors (required schema) t = []).
Proof.
  intros Hs Hdf. rewrite (validate_table_frame _ _ _ _ Hdf). simpl.
  unfold validate_frame. rewrite Hs. simpl.
  set (missing := (list_to_set (map fst (required schema)) ∖ list_to_set (columns t) : gset string)).
  set (errs := (if bool_decide (missing ≠ ∅) then [MissingColumns missing] else [])
               ++ conversion_errors (required schema) t).
  assert (Hok : bool_decide (length errs = 0%nat) = true <-> errs = []).
  { rewrite bool_decide_eq_true. apply length_zero_iff_nil. }
  split; [exact Hok|]. split; [|split].
  - apply Forall_app. split; [|apply conversion_errors_fatal].
    destruct (bool_decide (missing ≠ ∅)); repeat constructor.
  - apply check_nulls_warnings.
    match goal with |- context [bool_decide ?P] => destruct (bool_decide P) end;
      repeat constructor.
  - rewrite Hok. subst errs. split.
    + intros H. apply app_eq_nil in H as [H1 H2]. split; [|done].
      destruct (bool_decide (missing ≠ ∅)) eqn:Hm; [done|]. intros col Hcol.
      destruct (decide (col ∈ columns t)) as [|Hn]; [done|].
      apply bool_decide_eq_false in Hm.
      exfalso. apply Hm. apply missing_columns_spec. eauto.
    + intros [H1 H2]. rewrite H2, app_nil_r.
      destruct (bool_decide (missing ≠ ∅)) eqn:Hm; [|done].
      apply bool_decide_eq_true, missing_columns_spec in Hm as (col & Hc & Hn).
      exfalso. auto.
Qed.

Lemma conversion_errors_elem (entries : list (string * string)) (t : DataFrame)
    (col ty : string) (e : exn) :
  NoDup (map fst entries) ->
  (col, ty) ∈ entries -> col ∈ columns t ->
  coerce_column ty (get_column col t) = inl e ->
  ConversionFailed col (str_of_exn e) ∈ conversion_errors entries t.
Proof.
  revert t. induction entries as [|[c ty'] es IH]; intros t Hnd Hin Hcol Hcast.
  - by apply elem_of_nil in Hin.
  - simpl in Hnd. apply NoDup_cons in Hnd as [Hc Hnd]. simpl.
    apply elem_of_app. apply elem_of_cons in Hin as [[= <- <-]|Hin].
    + left. apply mem_string_spec in Hcol. rewrite Hcol, Hcast. left.
    + right. assert (Hne : col <> c).
      { intros ->. apply Hc. apply (list_elem_of_fmap_2 fst) in Hin. exact Hin. }
      apply IH; [done|done|by rewrite columns_coerce_entry|].
      by rewrite get_column_coerce_entry_other.
Qed.

(** C9, as stated, fails: validating the upload [bad_upload] as [dim_tenants]
    reports the missing columns, and the required column that is present,
    [subscription_start], is not coerced to a date: its conversion raises, the
    frame (and the whole store) is left as it was. *)
Lemma validate_table_failed_cast_not_coerced :
  exists schema t,
    assoc_get "dim_tenants" SCHEMAS = Some schema /\
    bad_upload !! 0%nat = Some t /\
    (exists col, col ∈ map fst (required schema) /\ col ∉ columns t) /\
    (validate_table "dim_tenants" 0%nat bad_upload).1.1 = 0%nat /\
    ok (validate_table "dim_tenants" 0%nat bad_upload).1.2 = false /\
    (validate_table "dim_tenants" 0%nat bad_upload).2 = bad_upload /\
    ~ present_columns_coerced schema t ((validate_table "dim_tenants" 0%nat bad_upload).2 !!! 0%nat).
Proof.
  eexists _, _. split; [vm_compute; reflexivity|]. split; [vm_compute; reflexivity|].
  split.
  { exists "tenant_id". split; [apply mem_string_spec|apply mem_string_false]; vm_compute; reflexivity. }
  split; [vm_compute; reflexivity|]. split; [vm_compute; reflexivity|].
  split; [vm_compute; reflexivity|].
  intros H. specialize (H "subscription_start" "date").
  assert (Hcast : coerce_column "date" [VStr "not a date"]
                  = inl (ValueError "Unknown datetime string format, unable to parse: not a date"))
    by (vm_compute; reflexivity).
  assert (Hin : ("subscription_start", "date") ∈
                  required (default (mk_schema []) (assoc_get "dim_tenants" SCHEMAS))).
  { apply list_elem_of_In. vm_compute. tauto. }
  assert (Hcol : "subscription_start" ∈ columns (mk_frame 1 [("subscription_start", [VStr "not a date"])])).
  { apply mem_string_spec. vm_compute. reflexivity. }
  specialize (H Hin Hcol). change (get_column _ (mk_frame 1 _)) with [VStr "not a date"] in H.
  rewrite Hcast in H. discriminate H.
Qed.

(** C9, amended.  For a known table and an input that misses a required
    column, the frame returned is the input object and the report has
    [ok = false]; in that object every required column that is present and
    whose conversion succeeds holds the converted cells, and every required
    column whose conversion raises is as it was, with a conversion error in
    the report; all other columns, the column list and the row count are
    as before, and so is every other frame of the store. *)
Theorem validate_table_mutates_on_error (table_name : string) (schema : schema) (df : loc)
    (h : store) (t : DataFrame) :
  assoc_get table_name SCHEMAS = Some schema ->
  h !! df = Some t ->
  (exists col, col ∈ map fst (required schema) /\ col ∉ columns t) ->
  exists rep t',
    validate_table table_name df h = ((df, rep), <[df := t']> h) /\
    ok rep = false /\
    columns t' = columns t /\ frame_len t' = frame_len t /\
    (forall col expected_type cells,
        (col, expected_type) ∈ required schema -> col ∈ columns t ->
        coerce_column expected_type (get_column col t) = inr cells ->
        get_column col t' = cells) /\
    (forall col expected_type e,
        (col, expected_type) ∈ required schema -> col ∈ columns t ->
        coerce_column expected_type (get_column col t) = inl e ->
        get_column col t' = get_column col t /\
        ConversionFailed col (str_of_exn e) ∈ errors rep) /\
    (forall col, col ∉ map fst (required schema) -> get_column col t' = get_column col t).
Proof.
  intros Hs Hdf Hmiss. pose proof (SCHEMAS_NoDup _ _ Hs) as Hnd.
  exists (validate_frame table_name t).2, (validate_frame table_name t).1.
  split; [by apply validate_table_frame|].
  unfold validate_frame. rewrite Hs. simpl.
  apply missing_columns_spec in Hmiss. rewrite (bool_decide_eq_true_2 _ Hmiss).
  split; [done|]. split; [apply columns_coerce_frame|]. split; [apply frame_len_coerce_frame|].
  split; [|split].
  - intros col ty cells Hin Hcol Hcast.
    rewrite get_column_coerce_frame by done.
    rewrite (assoc_NoDup _ _ _ Hnd Hin). apply mem_string_spec in Hcol.
    by rewrite Hcol, Hcast.
  - intros col ty e Hin Hcol Hcast. split.
    + rewrite get_column_coerce_frame by done.
      rewrite (assoc_NoDup _ _ _ Hnd Hin). apply mem_string_spec in Hcol.
      by rewrite Hcol, Hcast.
    + right. by apply conversion_errors_elem with ty.
  - intros col Hcol. by apply get_column_coerce_frame_other.
Qed.

Lemma validate_table_mutates_on_error_witness :
  exists rep t',
    validate_table "dim_tenants" 0%nat bad_upload = ((0%nat, rep), <[0%nat := t']> bad_upload) /\
    ok rep = false.
Proof.
  destruct (validate_table_mutates_on_error "dim_tenants"
              (default (mk_schema []) (assoc_get "dim_tenants" SCHEMAS)) 0%nat bad_upload
              (mk_frame 1 [("subscription_start", [VStr "not a date"])]))
    as (rep & t' & H1 & H2 & _).
  - vm_compute. reflexivity.
  - vm_compute. reflexivity.
  - exists "tenant_id". split; [apply mem_string_spec|apply mem_string_false]; vm_compute; reflexivity.
  - exists rep, t'. split; assumption.
Defined.

(** * Frames built from records *)

Lemma add_keys_elem (ks seen : list string) (k : string) :
  k ∈ fold_left (fun acc k => if mem_string k acc then acc else acc ++ [k]) ks seen
  <-> k ∈ seen \/ k ∈ ks.
Proof.
  revert seen. induction ks as [|k0 ks IH]; intros seen; simpl.
  - rewrite elem_of_nil. tauto.
  - rewrite IH. rewrite elem_of_cons.
    destruct (mem_string k0 seen) eqn:E.
    + apply mem_string_spec in E. split; [tauto|]. intros [H|[->|H]]; tauto.
    + rewrite elem_of_app, list_elem_of_singleton. tauto.
Qed.

Lemma union_keys_elem (records : list dict) (seen : list string) (k : string) :
  k ∈ union_keys seen records <-> k ∈ seen \/ exists r, r ∈ records /\ k ∈ map fst r.
Proof.
  revert seen. induction records as [|r rs IH]; intros seen; simpl.
  - split; [tauto|]. intros [H|(r & Hr & _)]; [done|]. by apply elem_of_nil in Hr.
  - rewrite IH, add_keys_elem. split.
    + intros [[H|H]|(r' & Hr & H)]; [tauto| |].
      * right. exists r. split; [left|done].
      * right. exists r'. split; [by right|done].
    + intros [H|(r' & Hr & H)]; [tauto|].
      apply elem_of_cons in Hr as [->|Hr]; [tauto|]. right. eauto.
Qed.

Lemma columns_DataFrame_of (records : list dict) :
  columns (DataFrame_of records) = union_keys [] records.
Proof. unfold columns, DataFrame_of. simpl. rewrite map_map. simpl. apply map_id. Qed.

Lemma elem_of_columns_DataFrame_of (records : list dict) (k : string) :
  k ∈ columns (DataFrame_of records) <-> exists r, r ∈ records /\ k ∈ map fst r.
Proof.
  rewrite columns_DataFrame_of, union_keys_elem. rewrite elem_of_nil. tauto.
Qed.

Lemma assoc_get_map_key {A} (f : string -> A) (ks : list string) (k : string) :
  k ∈ ks -> assoc_get k (map (fun k => (k, f k)) ks) = Some (f k).
Proof.
  induction ks as [|k0 ks IH]; simpl; intros Hin.
  - by apply elem_of_nil in Hin.
  - destruct (String.eqb_spec k k0) as [->|Hne]; [done|].
    apply IH. apply elem_of_cons in Hin as [->|Hin]; done.
Qed.

Lemma get_column_DataFrame_of (records : list dict) (k : string) :
  k ∈ columns (DataFrame_of records) ->
  get_column k (DataFrame_of records)
  = infer_column (map (fun r => default VNull (dict_get k r)) records).
Proof.
  intros Hk. rewrite columns_DataFrame_of in Hk.
  unfold get_column, DataFrame_of. simpl.
  by rewrite (assoc_get_map_key _ _ _ Hk).
Qed.

Lemma dict_get_Some_key (k : string) (r : dict) (v : value) :
  dict_get k r = Some v -> k ∈ map fst r.
Proof.
  induction r as [|[k0 v0] r IH]; simpl; [done|].
  destruct (String.eqb_spec k k0) as [->|Hne]; [intros _; left|intros H; right; auto].
Qed.

(** * Conversions of well-kinded columns *)

Lemma kind_ok_not_null (ty : string) (v : value) : kind_ok ty v = true -> v <> VNull.
Proof.
  intros H ->. unfold kind_ok in H.
  repeat (destruct (String.eqb _ _); [discriminate|]). discriminate.
Qed.

Lemma coerce_column_cons (ty : string) (v : value) (cells : list value) :
  kind_ok ty v = true ->
  coerce_column ty (v :: cells) =
    match coerce_column ty cells with
    | inr cells' => inr (converted_cell ty v :: cells')
    | inl e => inl e
    end.
Proof.
  unfold kind_ok, converted_cell, coerce_column.
  destruct (String.eqb ty "date").
  { destruct v; try discriminate. intros _. unfold Pandas.to_datetime_date. simpl.
    by destruct (Pandas.traverse _ cells). }
  destruct (String.eqb ty "datetime").
  { destruct v; try discriminate. intros _. unfold Pandas.to_datetime. simpl.
    by destruct (Pandas.traverse _ cells). }
  destruct (String.eqb ty "bool"); [done|].
  destruct (String.eqb ty "int"); [done|].
  destruct (String.eqb ty "float"); [done|]. done.
Qed.

Lemma coerce_column_kind_ok (ty : string) (cells : list value) :
  Forall (fun v => kind_ok ty v = true) cells ->
  coerce_column ty cells = inr (map (converted_cell ty) cells).
Proof.
  induction 1 as [|v cells Hv Hcells IH].
  - unfold coerce_column. by repeat destruct (String.eqb _ _).
  - by rewrite coerce_column_cons, IH.
Qed.

Lemma converted_cell_not_null (ty : string) (v : value) :
  kind_ok ty v = true -> Pandas.isnull (converted_cell ty v) = false.
Proof.
  unfold kind_ok, converted_cell, coerce_column.
  repeat (destruct (String.eqb ty _); [by destruct v|]). by destruct v.
Qed.

Lemma infer_column_cases (cells : list value) :
  infer_column cells = cells \/
  (infer_column cells = map upcast cells /\ existsb is_float cells = true).
Proof.
  unfold infer_column. destruct (forallb is_number cells); [|by left].
  destruct (existsb is_float cells); [right|left]; done.
Qed.

Lemma infer_column_kind_ok (ty : string) (cells : list value) :
  Forall (fun v => kind_ok ty v = true) cells ->
  Forall (fun v => kind_ok ty v = true) (infer_column cells) /\
  map (converted_cell ty) (infer_column cells) = map (converted_cell ty) cells.
Proof.
  intros H. destruct (infer_column_cases cells) as [->|[-> Hex]]; [done|].
  apply existsb_exists in Hex as (x & Hx & Hfx).
  apply list_elem_of_In in Hx.
  pose proof (proj1 (Forall_forall _ _) H x Hx) as Hkx.
  destruct x; try discriminate. clear Hfx Hx.
  assert (Hty : ty = "float"%string).
  { unfold kind_ok in Hkx.
    destruct (String.eqb ty "date"); [discriminate|].
    destruct (String.eqb ty "datetime"); [discriminate|].
    destruct (String.eqb ty "bool"); [discriminate|].
    destruct (String.eqb ty "int"); [discriminate|].
    destruct (String.eqb_spec ty "float"); [done|].
    destruct (String.eqb ty "time"); discriminate. }
  subst ty. split.
  - apply Forall_fmap. eapply Forall_impl; [exact H|]. intros [] Hv; done.
  - rewrite map_map. apply map_ext_Forall. eapply Forall_impl; [exact H|].
    intros [] Hv; try discriminate; done.
Qed.

(** * Validation of a frame that conforms to its schema *)

Lemma conversion_errors_kind_ok (entries : list (string * string)) (t : DataFrame) :
  NoDup (map fst entries) ->
  (forall col ty, (col, ty) ∈ entries -> col ∈ columns t ->
                  Forall (fun v => kind_ok ty v = true) (get_column col t)) ->
  conversion_errors entries t = [].
Proof.
  revert t. induction entries as [|[c ty] es IH]; intros t Hnd Hk; [done|].
  simpl in Hnd. apply NoDup_cons in Hnd as [Hc Hnd]. simpl.
  assert (Hhead : (if mem_string c (columns t)
                   then match coerce_column ty (get_column c t) with
                        | inl e => [ConversionFailed c (str_of_exn e)]
                        | inr _ => []
                        end
                   else []) = []).
  { destruct (mem_string c (columns t)) eqn:E; [|done].
    apply mem_string_spec in E. rewrite coerce_column_kind_ok; [done|].
    apply Hk; [left|done]. }
  rewrite Hhead. simpl. apply IH; [done|].
  intros col ty' Hin Hcol. rewrite columns_coerce_entry in Hcol.
  rewrite get_column_coerce_entry_other.
  - apply Hk; [by right|done].
  - simpl. intros ->. apply Hc. apply (list_elem_of_fmap_2 fst) in Hin. exact Hin.
Qed.

Lemma check_nulls_none (t : DataFrame) (cols : list string) (warns : list message) :
  (forall col, col ∈ cols -> col ∈ columns t ->
               Forall (fun v => Pandas.isnull v = false) (get_column col t)) ->
  fold_left (check_nulls t) cols warns = warns.
Proof.
  revert warns. induction cols as [|c cs IH]; intros warns H; [done|].
  simpl. rewrite IH by (intros; apply H; [by right|done]).
  unfold check_nulls. destruct (mem_string c (columns t)) eqn:E; [|done].
  apply mem_string_spec in E. specialize (H c ltac:(left) E).
  assert (Hex : existsb Pandas.isnull (get_column c t) = false).
  { apply not_true_is_false. intros Hex. apply existsb_exists in Hex as (x & Hx & Hn).
    apply list_elem_of_In in Hx. pose proof (proj1 (Forall_forall _ _) H x Hx). congruence. }
  by rewrite Hex.
Qed.

Lemma row_conforms_spec (entries : list (string * string)) (r : dict) :
  row_conforms entries r = true ->
  (forall k, k ∈ map fst r -> k ∈ map fst entries) /\
  (forall col ty, (col, ty) ∈ entries ->
                  exists v, dict_get col r = Some v /\ kind_ok ty v = true).
Proof.
  unfold row_conforms. rewrite andb_true_iff, !forallb_forall. intros [H1 H2]. split.
  - intros k Hk. apply mem_string_spec, H1. by apply list_elem_of_In.
  - intros col ty Hin. apply list_elem_of_In, H2 in Hin. simpl in Hin.
    destruct (dict_get col r) as [v|]; [eauto|discriminate].
Qed.

(** The frame of conforming records is accepted: no error, no warning; each
    required column then holds the converted cells of the records. *)
Lemma validate_frame_conforming (table_name : string) (schema : schema) (records : list dict) :
  assoc_get table_name SCHEMAS = Some schema ->
  records <> [] ->
  Forall (fun r => row_conforms (required schema) r = true) records ->
  (validate_frame table_name (DataFrame_of records)).2
  = mk_report (Some (length records)) [] [] true /\
  frame_len (validate_frame table_name (DataFrame_of records)).1 = length records /\
  forall col ty, (col, ty) ∈ required schema ->
    get_column col (validate_frame table_name (DataFrame_of records)).1
    = map (fun r => converted_cell ty (default VNull (dict_get col r))) records.
Proof.
  intros Hs Hne Hall. pose proof (SCHEMAS_NoDup _ _ Hs) as Hnd.
  set (t := DataFrame_of records).
  assert (Hreq : forall col, col ∈ map fst (required schema) -> col ∈ columns t).
  { intros col Hcol. destruct records as [|r0 rs]; [done|].
    apply Forall_cons in Hall as [Hr0 _]. apply row_conforms_spec in Hr0 as [_ Hr0].
    apply list_elem_of_fmap in Hcol as ([c ty] & -> & Hin).
    destruct (Hr0 _ _ Hin) as (v & Hv & _).
    apply elem_of_columns_DataFrame_of. exists r0. split; [left|].
    by apply dict_get_Some_key in Hv. }
  assert (Hact : forall col, col ∈ columns t -> col ∈ map fst (required schema)).
  { intros col Hcol. apply elem_of_columns_DataFrame_of in Hcol as (r & Hr & Hk).
    pose proof (proj1 (Forall_forall _ _) Hall r Hr) as Hc.
    apply row_conforms_spec in Hc as [Hc _]. auto. }
  assert (Hcells : forall col ty, (col, ty) ∈ required schema ->
            Forall (fun v => kind_ok ty v = true)
                   (map (fun r => default VNull (dict_get col r)) records)).
  { intros col ty Hin. apply Forall_fmap. eapply Forall_impl; [exact Hall|].
    intros r Hr. apply row_conforms_spec in Hr as [_ Hr]. simpl.
    destruct (Hr _ _ Hin) as (v & -> & Hv). exact Hv. }
  assert (Hkind : forall col ty, (col, ty) ∈ required schema -> col ∈ columns t ->
            Forall (fun v => kind_ok ty v = true) (get_column col t)).
  { intros col ty Hin Hcol. unfold t. rewrite get_column_DataFrame_of by exact Hcol.
    apply infer_column_kind_ok. by apply Hcells. }
  assert (Hfinal : forall col ty, (col, ty) ∈ required schema ->
            get_column col (coerce_frame (required schema) t)
            = map (fun r => converted_cell ty (default VNull (dict_get col r))) records).
  { intros col ty Hin.
    assert (Hcol : col ∈ columns t).
    { apply Hreq. apply (list_elem_of_fmap_2 fst) in Hin. exact Hin. }
    rewrite get_column_coerce_frame by done.
    rewrite (assoc_NoDup _ _ _ Hnd Hin).
    rewrite (proj2 (mem_string_spec _ _) Hcol).
    rewrite (coerce_column_kind_ok _ _ (Hkind _ _ Hin Hcol)).
    unfold t. rewrite get_column_DataFrame_of by exact Hcol.
    rewrite (proj2 (infer_column_kind_ok ty _ (Hcells _ _ Hin))).
    by rewrite map_map. }
  unfold validate_frame. rewrite Hs. simpl. fold t.
  assert (Hmiss : (list_to_set (map fst (required schema)) ∖ list_to_set (columns t) : gset string) = ∅).
  { apply set_eq. intros x. rewrite elem_of_difference, !elem_of_list_to_set.
    split; [intros [H1 H2]; exfalso; auto|set_solver]. }
  assert (Hextra : (list_to_set (columns t) ∖ list_to_set (map fst (required schema)) : gset string) = ∅).
  { apply set_eq. intros x. rewrite elem_of_difference, !elem_of_list_to_set.
    split; [intros [H1 H2]; exfalso; auto|set_solver]. }
  rewrite Hmiss, Hextra.
  rewrite (bool_decide_eq_false_2 (∅ ≠ (∅ : gset string))) by (intros H; by apply H).
  rewrite (conversion_errors_kind_ok _ _ Hnd Hkind). simpl.
  rewrite frame_len_coerce_frame.
  split; [|split; [done|exact Hfinal]].
  rewrite check_nulls_none; [done|].
  intros col Hcol _. apply elem_of_elements, elem_of_list_to_set in Hcol.
  apply list_elem_of_fmap in Hcol as ([c ty] & -> & Hin). simpl.
  rewrite (Hfinal _ _ Hin). apply Forall_fmap.
  pose proof (Hcells _ _ Hin) as Hc. apply Forall_fmap in Hc.
  eapply Forall_impl; [exact Hc|].
  intros r Hr. simpl in *. by apply converted_cell_not_null.
Qed.

(** The frame of no records has no columns: all required columns are
    missing, and the frame is returned as it is. *)
Lemma validate_frame_empty (table_name : string) (schema : schema) :
  assoc_get table_name SCHEMAS = Some schema ->
  required schema <> [] ->
  validate_frame table_name (DataFrame_of [])
  = (DataFrame_of [],
     mk_report (Some 0%nat) [MissingColumns (list_to_set (map fst (required schema)))] [] false).
Proof.
  intros Hs Hne. unfold validate_frame. rewrite Hs.
  change (DataFrame_of []) with (mk_frame 0 []). simpl.
  assert (Hframe : forall entries, coerce_frame entries (mk_frame 0 []) = mk_frame 0 []).
  { induction entries as [|e es IH]; [done|]. exact IH. }
  assert (Herrs : forall entries, conversion_errors entries (mk_frame 0 []) = []).
  { induction entries as [|e es IH]; [done|]. exact IH. }
  rewrite Hframe, Herrs. simpl.
  replace (list_to_set (map fst (required schema)) ∖ (∅ : gset string))
    with (list_to_set (map fst (required schema)) : gset string) by set_solver.
  replace ((∅ : gset string) ∖ list_to_set (map fst (required schema)))
    with (∅ : gset string) by set_solver.
  rewrite (bool_decide_eq_false_2 (∅ ≠ (∅ : gset string))) by (intros H; by apply H).
  rewrite bool_decide_eq_true_2.
  2:{ destruct (required schema) as [|[c ty] es]; [done|]. simpl. set_solver. }
  simpl. f_equal. f_equal.
  apply check_nulls_none. intros col _ Hcol. by apply elem_of_nil in Hcol.
Qed.

(** * Packaging and the validation loop *)

Lemma allocate_spec (frames : list (string * DataFrame)) (next : loc) (h : store) :
  (forall l, (next <= l)%nat -> h !! l = None) ->
  Forall2 (fun d f => d.1 = f.1 /\ (allocate next frames h).2 !! d.2 = Some f.2)
          (allocate next frames h).1 frames /\
  NoDup (map snd (allocate next frames h).1) /\
  Forall (fun d => (next <= d.2)%nat) (allocate next frames h).1 /\
  (forall l, (l < next)%nat -> (allocate next frames h).2 !! l = h !! l).
Proof.
  revert next h. induction frames as [|[n t] rest IH]; intros next h Hfree; simpl.
  - repeat split; try constructor.
  - specialize (IH (S next) (<[next := t]> h)).
    destruct (allocate (S next) rest (<[next := t]> h)) as [ds h'] eqn:E. simpl in *.
    destruct IH as (H1 & H2 & H3 & H4).
    { intros l Hl. rewrite lookup_insert_ne by lia. apply Hfree. lia. }
    split; [|split; [|split]].
    + constructor; [|exact H1]. simpl. split; [done|].
      rewrite H4 by lia. apply lookup_insert_eq.
    + constructor; [|exact H2]. intros Hin.
      apply list_elem_of_fmap in Hin as (d & Hd & Hin).
      pose proof (proj1 (Forall_forall _ _) H3 d Hin). simpl in *. lia.
    + constructor; [simpl; lia|]. eapply Forall_impl; [exact H3|].
      intros d Hd. simpl in *. lia.
    + intros l Hl. rewrite H4 by lia. apply lookup_insert_ne. lia.
Qed.

Lemma validate_frame_row_count (n : string) (t : DataFrame) :
  is_Some (assoc_get n SCHEMAS) ->
  exists k, (validate_frame n t).2
            = mk_report (Some k) (errors (validate_frame n t).2)
                        (warnings (validate_frame n t).2) (ok (validate_frame n t).2).
Proof.
  intros [s Hs]. unfold validate_frame. rewrite Hs. simpl. eauto.
Qed.

Lemma Forall2_store_insert (ds : list (string * loc)) (frames : list (string * DataFrame))
    (h : store) (l : loc) (t : DataFrame) :
  l ∉ map snd ds ->
  Forall2 (fun d f => d.1 = f.1 /\ h !! d.2 = Some f.2) ds frames ->
  Forall2 (fun d f => d.1 = f.1 /\ <[l := t]> h !! d.2 = Some f.2) ds frames.
Proof.
  intros Hl H. induction H as [|d f ds frames [Hn Hd] H IH]; [constructor|].
  simpl in Hl. apply not_elem_of_cons in Hl as [Hne Hl].
  constructor; [|by apply IH]. split; [done|]. by rewrite lookup_insert_ne.
Qed.

Lemma validate_datasets_spec (ds : list (string * loc)) (frames : list (string * DataFrame))
    (h : store) :
  Forall2 (fun d f => d.1 = f.1 /\ h !! d.2 = Some f.2) ds frames ->
  NoDup (map snd ds) ->
  Forall (fun f => is_Some (assoc_get f.1 SCHEMAS)) frames ->
  exists h',
    validate_datasets ds h = (Ok (ds, validation_reports frames), h') /\
    (forall l, l ∉ map snd ds -> h' !! l = h !! l) /\
    map (fun '(n, df) => (n, h' !!! df)) ds = validated_tables frames.
Proof.
  intros H. revert h H. revert frames.
  induction ds as [|[n l] ds IH]; intros frames h H Hnd Hknown.
  - apply Forall2_nil_inv_l in H as ->. exists h. simpl. done.
  - apply Forall2_cons_inv_l in H as ([n' t] & rest & [Hn Hl] & H & ->). simpl in *. subst n'.
    apply NoDup_cons in Hnd as [Hl_fresh Hnd].
    apply Forall_cons in Hknown as [Hk Hknown]. simpl in Hk.
    rewrite (validate_table_frame _ _ _ _ Hl).
    destruct (validate_frame_row_count n t Hk) as (k & Hrep).
    destruct (IH rest (<[l := (validate_frame n t).1]> h)) as (h' & Hrun & Hother & Htabs);
      [|done|done|].
    { by apply Forall2_store_insert. }
    exists h'. rewrite Hrep at 1. simpl. rewrite Hrun. rewrite <- Hrep.
    split; [done|]. split.
    + intros l' Hl'. apply not_elem_of_cons in Hl' as [Hne Hl'].
      rewrite Hother by done. by apply lookup_insert_ne.
    + unfold validated_tables in *. simpl. rewrite Htabs. f_equal. f_equal.
      apply lookup_total_correct. rewrite Hother by done. apply lookup_insert_eq.
Qed.

(** The end of [generate_all]: on frames of known tables the packaging and
    the validation loop yield the validated tables and their reports. *)
Lemma package_and_validate (frames : list (string * DataFrame)) :
  Forall (fun f => is_Some (assoc_get f.1 SCHEMAS)) frames ->
  exists ds h',
    validate_datasets (allocate 0%nat frames ∅).1 (allocate 0%nat frames ∅).2
    = (Ok (ds, validation_reports frames), h') /\
    map (fun '(n, df) => (n, h' !!! df)) ds = validated_tables frames.
Proof.
  intros Hknown.
  destruct (allocate_spec frames 0%nat ∅) as (H1 & H2 & _ & _); [done|].
  destruct (validate_datasets_spec _ _ _ H1 H2 Hknown) as (h' & Hrun & _ & Htabs).
  eauto.
Qed.

Ltac mstep :=
  lazymatch goal with
  | |- returns (mret _) _ => apply returns_ret
  | |- returns (raise _) _ => apply returns_raise
  | |- returns (mbind _ (Random.randint _ _)) _ =>
      eapply returns_bind; [apply returns_randint|]; intros ? ?
  | |- returns (mbind _ (Random.choice _)) _ =>
      eapply returns_bind; [apply returns_choice|]; intros ? ?
  | |- returns (mbind _ (mret ?v)) _ =>
      eapply returns_bind; [apply (returns_ret v (fun x => x = v)); reflexivity|];
      intros ? ->
  | |- returns (mbind _ (for_each _ _ _)) _ => fail "a loop"
  | |- returns (mbind _ _) _ =>
      eapply returns_bind; [apply returns_true|]; intros ? _
  | |- returns (if ?c then _ else _) _ => destruct c eqn:?
  | |- returns (match ?x with _ => _ end) _ => destruct x eqn:?
  | |- returns (let _ := _ in _) _ => cbv zeta
  end.

Ltac mrun := repeat mstep; cbv beta in *.

(** * Sales *)

Lemma generate_sales_transactions_spec (items : list inventory_item)
    (customers : list customer) (employees : list employee) :
  returns (generate_sales_transactions items customers employees)
          (fun sales => Forall sale_net_ok sales /\ length sales = 500%nat).
Proof.
  unfold generate_sales_transactions. cbv zeta.
  eapply returns_bind.
  { apply returns_and.
    - apply (returns_for_each sale_net_ok). intros s x _. mrun.
      all: constructor; [|constructor]; unfold sale_net_ok;
        cbn [sa_total_amount sa_discount_amount sa_tax_amount sa_net_amount];
        apply round2_close.
    - apply returns_for_each_length. intros s x _. mrun; reflexivity. }
  intros [sales ?] [H1 H2]. apply returns_ret. rewrite length_range in H2. split; assumption.
Qed.

(** * Production batches *)

Lemma generate_production_batches_spec (formulations : list formulation)
    (employees : list employee) :
  returns (generate_production_batches formulations employees)
          (fun batches => Forall batch_yield_ok batches /\ length batches = 100%nat).
Proof.
  unfold generate_production_batches. cbv zeta.
  eapply returns_bind.
  { apply returns_and.
    - apply (returns_for_each batch_yield_ok). intros s x _. mrun.
      constructor; [|constructor]. split; [cbn [pb_planned_quantity]; lia|].
      cbn [pb_planned_quantity pb_actual_quantity pb_yield_percentage]. apply round2_close.
    - apply returns_for_each_length. intros s x _. mrun; reflexivity. }
  intros [batches ?] [H1 H2]. apply returns_ret. rewrite length_range in H2. split; assumption.
Qed.

(** * Inventory transactions *)

Lemma generate_inventory_transactions_spec (items : list inventory_item)
    (batches : list batch) (employees : list employee) (formulations : list formulation) :
  returns (generate_inventory_transactions items batches employees formulations)
          (fun txs => Forall (issue_ok items) txs /\ (20 <= length txs)%nat).
Proof.
  unfold generate_inventory_transactions. cbv zeta.
  eapply returns_bind.
  { apply (returns_for_each (issue_ok items)). intros s x _. mrun.
    all: repeat constructor. intros Hty. discriminate Hty. }
  intros [receipts id1] Hreceipts. cbv beta iota.
  eapply returns_bind.
  { apply (returns_for_each (issue_ok items)). intros s item Hitem. mrun.
    - apply (returns_for_each (issue_ok items)). intros s' x _. mrun.
      constructor; [|constructor]. intros _. exists item.
      cbn [tx_sku tx_quantity]. repeat split; try done; lia.
    - constructor. }
  intros [issues id2] Hissues. cbv beta iota.
  eapply returns_bind.
  { apply returns_and.
    - apply (returns_for_each (issue_ok items)). intros s x _. mrun.
      constructor; [|constructor]. intros Hty. discriminate Hty.
    - apply returns_for_each_length. intros s x _. mrun. reflexivity. }
  intros [transfers id3] [Htransfers Hlen]. cbv beta iota.
  apply returns_ret. cbn [fst] in *. split.
  - repeat (apply Forall_app; split); assumption.
  - rewrite !length_app. rewrite length_range in Hlen. lia.
Qed.

(** * Website traffic *)

Lemma generate_website_traffic_spec :
  returns generate_website_traffic
          (fun traffic => Forall traffic_customer_form traffic /\ (1 <= length traffic)%nat).
Proof.
  unfold generate_website_traffic. cbv zeta.
  eapply returns_bind.
  { apply returns_and.
    - apply (returns_for_each traffic_customer_form). intros s day _. mrun.
      apply (returns_for_each traffic_customer_form). intros s' x _. mrun.
      eapply returns_bind.
      { apply (returns_for_each traffic_customer_form). intros [] view _.
        eapply returns_bind; [apply returns_randint|]. intros offset _.
        eapply returns_bind; [apply returns_true|]. intros r _. cbv zeta.
        destruct (Py.Qltb r 0.05) eqn:E; cbv beta iota.
        + eapply returns_bind.
          { eapply returns_bind; [apply returns_randint|]. intros c Hc.
            apply (returns_ret _ (fun id => exists c, 1000 <= c <= 1050
                                            /\ id = "B2C-" +:+ Py.fmt_0d 4 c)).
            exists c. split; [exact Hc|reflexivity]. }
          intros id Hid. mrun.
          constructor; [|constructor]. right. cbn [wt_converted wt_customer_id].
          split; [reflexivity|exact Hid].
        + mrun. constructor; [|constructor]. left. cbn [wt_converted wt_customer_id]. done. }
      intros [views ?] Hviews. cbv beta iota. apply returns_ret. exact Hviews.
    - apply returns_for_each_length_ge. intros s day _. mrun.
      eapply returns_weaken.
      { apply returns_for_each_length_ge. intros s' x _. mrun.
        eapply returns_bind.
        { apply returns_for_each_length. intros [] view _. mrun; reflexivity. }
        intros [views ?] Hviews. cbv beta iota. apply returns_ret.
        cbn [fst] in *. rewrite Hviews, length_range. lia. }
      intros r Hr. cbv beta in Hr. rewrite length_range in Hr. lia. }
  intros [traffic ?] [H1 H2]. cbv beta iota. apply returns_ret.
  cbn [fst] in *. rewrite length_range in H2. split; [done|lia].
Qed.

(** * Formulations, inventory items, customers *)

Lemma generate_formulations_data_spec :
  returns generate_formulations_data
    (fun fs => map (fun f => (fm_formulation_id f, fm_product_name f, fm_product_category f)) fs
               = formulation_catalog).
Proof.
  unfold generate_formulations_data.
  eapply returns_bind.
  { apply (returns_for_each_spec
             (fun f => (fm_formulation_id f, fm_product_name f, fm_product_category f))
             (fun formulation_id '(category, products) =>
                pure_for_each
                  (fun formulation_id product =>
                     ([("FMT-" +:+ Py.fmt_0d 4 formulation_id, product, category)],
                      formulation_id + 1))
                  products formulation_id)).
    intros s [category products] _.
    apply (returns_for_each_spec
             (fun f => (fm_formulation_id f, fm_product_name f, fm_product_category f))).
    intros s' product _. mrun. reflexivity. }
  intros [fs ?] H. cbv beta iota. apply returns_ret.
  unfold formulation_catalog. cbn [fst snd] in H. by rewrite <- H.
Qed.

Lemma until_dash_app (a b : string) :
  until_dash a = a -> until_dash (a +:+ "-" +:+ b) = a.
Proof.
  induction a as [|c a IH]; simpl; [done|].
  destruct (Ascii.eqb c "-"); [discriminate|]. intros [= H]. by rewrite IH.
Qed.

Lemma generate_inventory_items_spec (batches : list batch) (formulations : list formulation) :
  Forall (fun p : string * string => until_dash (sku_base p.2) = sku_base p.2)
         (dict_of_pairs (map (fun f => (fm_formulation_id f, fm_product_name f)) formulations)) ->
  returns (generate_inventory_items batches formulations)
    (fun items =>
       map (fun it => until_dash (it_sku it)) items
       = map (fun p : string * string => sku_base p.2)
             (dict_of_pairs (map (fun f => (fm_formulation_id f, fm_product_name f))
                                 formulations))).
Proof.
  intros Hbases. unfold generate_inventory_items. cbv zeta.
  eapply returns_bind.
  { apply (returns_for_each_spec (fun it => until_dash (it_sku it))
             (fun (_ : unit) (p : string * string) => ([sku_base p.2], tt))).
    intros [] [fid name] Hin. mrun.
    cbn [map fst snd it_sku]. f_equal. f_equal.
    apply until_dash_app. exact (proj1 (Forall_forall _ _) Hbases _ Hin). }
  intros [items ?] H. cbv beta iota. apply returns_ret.
  cbn [fst snd] in H. rewrite pure_for_each_map in H. by injection H.
Qed.

Lemma generate_customers_data_spec :
  returns generate_customers_data (fun cs => map cu_customer_id cs = customer_ids).
Proof.
  unfold generate_customers_data.
  eapply returns_bind.
  { apply (returns_for_each_spec cu_customer_id
             (fun customer_id (_ : string) =>
                (["B2B-" +:+ Py.fmt_0d 4 customer_id], customer_id + 1))).
    intros s x _. mrun. reflexivity. }
  intros [b2b customer_id] Hb2b. cbv beta iota.
  eapply returns_bind.
  { apply (returns_for_each_spec cu_customer_id
             (fun customer_id (_ : Z) =>
                (["B2C-" +:+ Py.fmt_0d 4 customer_id], customer_id + 1))).
    intros s x _. mrun. reflexivity. }
  intros [b2c ?] Hb2c. cbv beta iota. apply returns_ret.
  cbn [fst snd] in *. rewrite map_app.
  assert (E1 : pure_for_each
                 (fun customer_id (_ : string) =>
                    (["B2B-" +:+ Py.fmt_0d 4 customer_id], customer_id + 1)) b2b_names 1
               = (map (fun i => "B2B-" +:+ Py.fmt_0d 4 (1 + i)) (range 12), 13))
    by (vm_compute; reflexivity).
  rewrite E1 in Hb2b. injection Hb2b as -> ->.
  assert (E2 : (pure_for_each
                 (fun customer_id (_ : Z) =>
                    (["B2C-" +:+ Py.fmt_0d 4 customer_id], customer_id + 1)) (range 50) 13).1
               = map (fun i => "B2C-" +:+ Py.fmt_0d 4 (13 + i)) (range 50))
    by (vm_compute; reflexivity).
  rewrite <- Hb2c in E2. cbn [fst] in E2. rewrite E2. reflexivity.
Qed.

(** * Inventory analytics *)

Lemma Qltb_true (a b : Q) : Py.Qltb a b = true <-> (a < b)%Q.
Proof.
  unfold Py.Qltb. rewrite negb_true_iff. split.
  - intros H. apply Qnot_le_lt. intros Hle. apply Qle_bool_iff in Hle. congruence.
  - intros H. apply not_true_is_false. intros Hle. apply Qle_bool_iff in Hle.
    exact (Qlt_not_le _ _ H Hle).
Qed.

Lemma Qdiv_nonneg (a b : Z) : 0 <= a -> 0 < b -> (0 <= inject_Z a / inject_Z b)%Q.
Proof.
  intros Ha Hb. unfold Qdiv. apply Qmult_le_0_compat.
  - unfold Qle. simpl. lia.
  - apply Qinv_le_0_compat. unfold Qle. simpl. lia.
Qed.

Lemma generate_inventory_analytics_spec (items : list inventory_item)
    (txs : list inventory_transaction) :
  returns (generate_inventory_analytics items txs) (Forall (analytic_ok items txs)).
Proof.
  unfold generate_inventory_analytics.
  eapply returns_bind.
  { apply (returns_for_each (analytic_ok items txs)). intros s item Hitem.
    apply (returns_for_each (analytic_ok items txs)). intros s' month _. cbv zeta.
    match goal with |- returns (match ?x with _ => _ end) _ => destruct x eqn:Hf end.
    { apply returns_ret. constructor. }
    destruct (it_current_stock item >? 0) eqn:Hs; cbv beta iota zeta; mrun.
    - constructor; [|constructor]. exists item. split; [exact Hitem|]. split; [reflexivity|].
      apply Z.gtb_lt in Hs.
      cbn [ia_stock_turnover_rate ia_days_inventory_outstanding]. split; [|lia].
      intros _.
      match goal with |- context [round_number (Float ?t) 2] => set (turnover := t) end.
      exists turnover.
      split; [cbn [ia_sku ia_date]; unfold issued_quantity; rewrite Hf; reflexivity|].
      split; [|split; [reflexivity|split]].
      + apply Qdiv_nonneg; [apply Z.abs_nonneg|exact Hs].
      + intros Hpos. apply Qltb_true in Hpos. rewrite Hpos. reflexivity.
      + intros Hzero.
        assert (Hn : Py.Qltb 0 turnover = false).
        { apply not_true_is_false. intros H'. apply Qltb_true in H'.
          rewrite Hzero in H'. exact (Qlt_irrefl _ H'). }
        rewrite Hn. reflexivity.
    - constructor; [|constructor]. exists item. split; [exact Hitem|]. split; [reflexivity|].
      assert (it_current_stock item <= 0).
      { destruct (Z.gtb_spec (it_current_stock item) 0); [discriminate|lia]. }
      cbn [ia_stock_turnover_rate ia_days_inventory_outstanding]. split; [lia|].
      intros _. split; reflexivity. }
  intros [analytics ?] H. cbv beta iota. apply returns_ret. exact H.
Qed.

(** * Tables that are never empty *)

Ltac head_loop :=
  lazymatch goal with
  | |- returns (for_each ?xs _ _) _ =>
      let xs' := eval hnf in xs in
      change xs with xs'; apply returns_for_each_head; intros ?
  end.

Lemma generate_employees_data_nonempty :
  returns generate_employees_data (fun es => (1 <= length es)%nat).
Proof.
  unfold generate_employees_data.
  eapply returns_bind.
  { head_loop. cbv beta iota. head_loop. mrun; cbn [fst length]; lia. }
  intros [es ?] H. cbv beta iota. apply returns_ret. exact H.
Qed.

Lemma generate_raw_materials_data_nonempty :
  returns generate_raw_materials_data (fun ms => (1 <= length ms)%nat).
Proof.
  unfold generate_raw_materials_data. cbv zeta.
  eapply returns_bind.
  { head_loop. cbv beta iota. head_loop. mrun; cbn [fst length]; lia. }
  intros [ms ?] H. cbv beta iota. apply returns_ret. exact H.
Qed.

Lemma generate_financial_accounts_nonempty :
  returns generate_financial_accounts (fun acs => (1 <= length acs)%nat).
Proof.
  unfold generate_financial_accounts.
  eapply returns_bind.
  { head_loop. cbv beta iota. head_loop. cbv beta iota. head_loop.
    mrun; cbn [fst length]; lia. }
  intros [acs ?] H. cbv beta iota. apply returns_ret. exact H.
Qed.

Lemma generate_ecommerce_orders_nonempty (customers : list customer) (sales : list sale) :
  returns (generate_ecommerce_orders customers sales) (fun os => length os = 200%nat).
Proof.
  unfold generate_ecommerce_orders. cbv zeta.
  eapply returns_bind.
  { apply returns_for_each_length. intros s x _. mrun; reflexivity. }
  intros [os ?] H. cbv beta iota. apply returns_ret. rewrite length_range in H. exact H.
Qed.

Lemma generate_financial_transactions_nonempty (accounts : list account) (sales : list sale) :
  returns (generate_financial_transactions accounts sales) (fun fts => (100 <= length fts)%nat).
Proof.
  unfold generate_financial_transactions. cbv zeta.
  eapply returns_bind; [apply returns_true|]. intros [postings id1] _. cbv beta iota.
  eapply returns_bind.
  { apply returns_for_each_length. intros s x _. mrun; reflexivity. }
  intros [expenses ?] H. cbv beta iota. apply returns_ret.
  rewrite length_range in H. rewrite length_app. cbn [fst] in H. lia.
Qed.

Lemma generate_audit_logs_nonempty (tenants : list tenant) (employees : list employee)
    (sales : list sale) :
  returns (generate_audit_logs tenants employees sales) (fun logs => (1 <= length logs)%nat).
Proof.
  unfold generate_audit_logs. cbv zeta.
  eapply returns_bind.
  { head_loop. mrun.
    match goal with H : 10 <= ?a <= 50 |- _ =>
      destruct (Z.to_nat a) as [|k] eqn:Hk; [lia|] end.
    change (range (S k)) with (0 :: map Z.of_nat (seq 1 k)).
    apply returns_for_each_head. intros s'. mrun; cbn [fst length]; lia. }
  intros [logs ?] H. cbv beta iota. apply returns_ret. exact H.
Qed.

(** * The run as a whole *)

Lemma formulation_pairs (fs : list formulation) :
  map (fun f => (fm_formulation_id f, fm_product_name f, fm_product_category f)) fs
  = formulation_catalog ->
  map (fun f => (fm_formulation_id f, fm_product_name f)) fs
  = map (fun c : string * string * string => (c.1.1, c.1.2)) formulation_catalog.
Proof. intros <-. rewrite map_map. reflexivity. Qed.

Lemma item_sku_bases_no_dash :
  Forall (fun p : string * string => until_dash (sku_base p.2) = sku_base p.2)
         (dict_of_pairs (map (fun c : string * string * string => (c.1.1, c.1.2))
                             formulation_catalog)).
Proof.
  apply Forall_forall. intros p Hp. apply list_elem_of_In in Hp.
  assert (H : forallb (fun p : string * string =>
                         String.eqb (until_dash (sku_base p.2)) (sku_base p.2))
                      (dict_of_pairs (map (fun c : string * string * string => (c.1.1, c.1.2))
                                          formulation_catalog)) = true)
    by (vm_compute; reflexivity).
  rewrite forallb_forall in H. apply String.eqb_eq. exact (H p Hp).
Qed.

Lemma known_frames (g : generated) :
  Forall (fun f : string * DataFrame => is_Some (assoc_get f.1 SCHEMAS)) (frames_of g).
Proof. unfold frames_of. repeat (constructor; [eexists; reflexivity|]). constructor. Qed.

Lemma generate_all_inv :
  returns generate_all
    (fun r => exists g, run_facts g /\
                        r = (validated_tables (frames_of g), validation_reports (frames_of g))).
Proof.
  unfold generate_all. cbv zeta.
  eapply returns_bind; [apply generate_employees_data_nonempty|]. intros employees Hemployees.
  eapply returns_bind; [apply generate_formulations_data_spec|]. intros formulations Hforms.
  eapply returns_bind; [apply generate_raw_materials_data_nonempty|]. intros raw Hraw.
  eapply returns_bind; [apply generate_customers_data_spec|]. intros customers Hcustomers.
  eapply returns_bind; [apply generate_production_batches_spec|]. intros batches Hbatches.
  eapply returns_bind.
  { apply generate_inventory_items_spec. rewrite (formulation_pairs _ Hforms).
    apply item_sku_bases_no_dash. }
  intros items Hitems. rewrite (formulation_pairs _ Hforms) in Hitems.
  eapply returns_bind; [apply generate_inventory_transactions_spec|]. intros txs Htxs.
  eapply returns_bind; [apply generate_sales_transactions_spec|]. intros sales Hsales.
  eapply returns_bind; [apply generate_ecommerce_orders_nonempty|]. intros orders Horders.
  eapply returns_bind; [apply returns_true|]. intros attendance _.
  eapply returns_bind; [apply generate_financial_accounts_nonempty|]. intros accounts Haccounts.
  eapply returns_bind; [apply generate_financial_transactions_nonempty|]. intros postings Hpostings.
  eapply returns_bind; [apply generate_website_traffic_spec|]. intros traffic Htraffic.
  eapply returns_bind; [apply returns_true|]. intros pa _.
  eapply returns_bind; [apply generate_inventory_analytics_spec|]. intros ia Hia.
  eapply returns_bind; [apply generate_audit_logs_nonempty|]. intros logs Hlogs.
  set (g := mk_generated generate_tenants_data employees formulations raw customers batches
                         items txs sales orders attendance accounts postings traffic pa ia logs).
  destruct (package_and_validate (frames_of g) (known_frames g)) as (ds & h' & Hrun & Htabs).
  unfold frames_of in Hrun. cbn [g_tenants g_employees g_formulations g_raw_materials
    g_customers g_batches g_items g_transactions g_sales g_orders g_attendance g_accounts
    g_postings g_traffic g_production_analytics g_inventory_analytics g_logs g] in Hrun.
  destruct (allocate 0%nat _ ∅) as [ds0 h0] eqn:Ealloc in Hrun |- *.
  cbn [fst snd] in Hrun. rewrite Hrun. apply returns_ret.
  exists g. split.
  - unfold run_facts. cbn [g_tenants g_employees g_formulations g_raw_materials
      g_customers g_batches g_items g_transactions g_sales g_orders g_attendance g_accounts
      g_postings g_traffic g_production_analytics g_inventory_analytics g_logs g].
    repeat split; assumption || (by destruct Hbatches) || (by destruct Htxs)
                  || (by destruct Hsales) || (by destruct Htraffic) || idtac.
  - by rewrite Htabs.
Qed.

Lemma try_except_Ok {A} (body : M A) (handler : exn -> exn) (s s' : rng_state) (r : A) :
  try_except body handler s = (Ok r, s') -> body s = (Ok r, s').
Proof.
  unfold try_except. destruct (body s) as [[a|e] s1]; [|discriminate].
  intros [= -> ->]. reflexivity.
Qed.

Lemma np_random_seed_accepts (seed : Z) (s : rng_state) :
  0 <= seed < 2 ^ 32 -> np_random_seed seed s = (Ok tt, s).
Proof.
  intros H. unfold np_random_seed.
  destruct (Z.leb_spec 0 seed); [|lia]. destruct (Z.ltb_spec seed (2 ^ 32)); [|lia].
  reflexivity.
Qed.

Lemma np_random_seed_refuses (seed : Z) (s : rng_state) :
  ~ 0 <= seed < 2 ^ 32 ->
  np_random_seed seed s = (Raise (ValueError "Seed must be between 0 and 2**32 - 1"), s).
Proof.
  intros H. unfold np_random_seed.
  destruct (Z.leb_spec 0 seed); [destruct (Z.ltb_spec seed (2 ^ 32)); [lia|]|]; reflexivity.
Qed.

(** A seed of 0 .. 2**32 - 1 is installed and the [try] block runs on its
    sequence; any other seed is refused before anything else happens. *)
Lemma generate_demo_data_seeded (gen : Z -> N -> N) (seed : Z) (s : rng_state) :
  0 <= seed < 2 ^ 32 ->
  generate_demo_data gen seed s
  = try_except generate_all
      (fun e => Exception ("Error generating demo data: " +:+ str_of_exn e))
      (mk_rng (gen seed) 0%N).
Proof.
  intros H. unfold generate_demo_data, mbind, M_bind.
  rewrite (np_random_seed_accepts _ _ H). reflexivity.
Qed.

Lemma generate_demo_data_refused (gen : Z -> N -> N) (seed : Z) (s : rng_state) :
  ~ 0 <= seed < 2 ^ 32 ->
  generate_demo_data gen seed s
  = (Raise (ValueError "Seed must be between 0 and 2**32 - 1"), s).
Proof.
  intros H. unfold generate_demo_data, mbind, M_bind.
  rewrite (np_random_seed_refuses _ _ H). reflexivity.
Qed.

Lemma generate_demo_data_returned (gen : Z -> N -> N) (seed : Z) (st st' : rng_state)
    (r : list (string * DataFrame) * list (string * report)) :
  generate_demo_data gen seed st = (Ok r, st') ->
  0 <= seed < 2 ^ 32 /\ generate_all (mk_rng (gen seed) 0%N) = (Ok r, st').
Proof.
  intros H. destruct (decide (0 <= seed < 2 ^ 32)) as [Hin|Hout].
  - split; [exact Hin|]. rewrite (generate_demo_data_seeded _ _ _ Hin) in H.
    exact (try_except_Ok _ _ _ _ _ H).
  - rewrite (generate_demo_data_refused _ _ _ Hout) in H. discriminate H.
Qed.

Lemma generate_demo_data_inv (gen : Z -> N -> N) (seed : Z) (st st' : rng_state)
    (tables : list (string * DataFrame)) (reports : list (string * report)) :
  generate_demo_data gen seed st = (Ok (tables, reports), st') ->
  exists g, run_facts g /\
            tables = validated_tables (frames_of g) /\
            reports = validation_reports (frames_of g).
Proof.
  intros H. apply generate_demo_data_returned in H as [_ H].
  destruct (generate_all_inv _ _ _ H) as (g & Hg & Hr).
  exists g. split; [exact Hg|]. split; [exact (f_equal fst Hr)|exact (f_equal snd Hr)].
Qed.

Lemma generate_demo_data_any_state (gen : Z -> N -> N) (seed : Z) (a b : rng_state) :
  0 <= seed < 2 ^ 32 ->
  generate_demo_data gen seed a = generate_demo_data gen seed b.
Proof. intros H. rewrite !(generate_demo_data_seeded _ _ _ H). reflexivity. Qed.

Lemma generate_demo_data_any_state_outcome (gen : Z -> N -> N) (seed : Z) (a b : rng_state) :
  (generate_demo_data gen seed a).1 = (generate_demo_data gen seed b).1.
Proof.
  destruct (decide (0 <= seed < 2 ^ 32)) as [Hin|Hout].
  - by rewrite (generate_demo_data_any_state gen seed a b Hin).
  - rewrite !(generate_demo_data_refused _ _ _ Hout). reflexivity.
Qed.

(** C2.  The outcome of [generate_demo_data] (the tables and the reports, or
    the exception) does not depend on the state of the generator it is
    called in: a seed of 0 .. 2**32 - 1 is installed before anything is
    drawn, and then the state the call leaves does not depend on it either;
    any other seed is refused with the same exception in every state.  So a
    second call with the same seed, made in the state the first call left,
    returns what the first returned; and what is returned on success maps
    the 17 table names, in order, to tables and to reports. *)
Theorem generate_demo_data_deterministic (gen : Z -> N -> N) (seed : Z) (st1 st2 : rng_state) :
  (generate_demo_data gen seed st1).1 = (generate_demo_data gen seed st2).1 /\
  (0 <= seed < 2 ^ 32 ->
   generate_demo_data gen seed st1 = generate_demo_data gen seed st2) /\
  (generate_demo_data gen seed (generate_demo_data gen seed st1).2).1
  = (generate_demo_data gen seed st1).1 /\
  match (generate_demo_data gen seed st1).1 with
  | Ok (tables, reports) => map fst tables = table_names /\ map fst reports = table_names
  | Raise _ => True
  end.
Proof.
  split; [apply generate_demo_data_any_state_outcome|].
  split; [apply generate_demo_data_any_state|].
  split; [apply generate_demo_data_any_state_outcome|].
  destruct (generate_demo_data gen seed st1) as [[[tables reports]|e] s1] eqn:E; [|exact I].
  destruct (generate_demo_data_inv _ _ _ _ _ _ E) as (g & _ & Ht & Hr).
  cbn [fst]. rewrite Ht, Hr. split.
  - unfold validated_tables. rewrite map_map. reflexivity.
  - unfold validation_reports. rewrite map_map. reflexivity.
Qed.

(** * Reading the validated tables *)

Lemma generated_table {A} (name : string) (schema : schema) (row : A -> dict) (xs : list A) :
  assoc_get name SCHEMAS = Some schema ->
  (forall x, row_conforms (required schema) (row x) = true) ->
  xs <> [] ->
  frame_len (validate_frame name (DataFrame_of (map row xs))).1 = length xs /\
  (validate_frame name (DataFrame_of (map row xs))).2 = mk_report (Some (length xs)) [] [] true /\
  forall col ty, assoc_get col (required schema) = Some ty ->
    get_column col (validate_frame name (DataFrame_of (map row xs))).1
    = map (fun x => converted_cell ty (default VNull (dict_get col (row x)))) xs.
Proof.
  intros Hs Hrow Hne.
  destruct (validate_frame_conforming name schema (map row xs) Hs) as (H1 & H2 & H3).
  { by destruct xs. }
  { apply Forall_fmap, Forall_forall. intros x _. apply Hrow. }
  rewrite length_map in H1, H2. split; [exact H2|]. split; [exact H1|].
  intros col ty Hcol. rewrite (H3 col ty (assoc_elem_of _ _ _ Hcol)). by rewrite map_map.
Qed.

Lemma converted_cell_int (z : Z) : converted_cell "int" (VInt z) = VInt z.
Proof. unfold converted_cell. cbn. unfold Py.int_of_float. cbn. by rewrite Z.quot_1_r. Qed.

Lemma converted_cell_float (q : Q) : converted_cell "float" (VFloat q) = VFloat q.
Proof. reflexivity. Qed.


Lemma converted_cell_str (s : string) : converted_cell "str" (VStr s) = VStr s.
Proof. reflexivity. Qed.

Lemma cell_map {A} (f : A -> value) (xs : list A) (t : DataFrame) (col : string) (i : nat) :
  get_column col t = map f xs -> cell t col i = f <$> xs !! i.
Proof. intros H. unfold cell. rewrite H. apply list_lookup_fmap. Qed.

Ltac run_facts_of Hg :=
  destruct Hg as (Htn & Hem & Hfm & Hrm & Hcu & [Hpb Hpb_len] & Hit & [Htx Htx_len]
                  & [Hsa Hsa_len] & Heo & Hac & Hft & [Hwt Hwt_len] & Hia & Hal).

Ltac nonempty_by Hlen :=
  let E := fresh in intros E; rewrite E in Hlen; cbn [length] in Hlen; lia.

Ltac conforms := intros []; repeat match goal with n : number |- _ => destruct n end; reflexivity.

(** C6.  In every run that returns, the [fact_production_batches] table has
    100 rows, and in each of them [planned_quantity] is positive and the
    stored [yield_percentage] is within 0.01 of
    [actual_quantity / planned_quantity * 100]. *)
Theorem production_batches_yield_within_rounding (gen : Z -> N -> N) (seed : Z)
    (st st' : rng_state) (tables : list (string * DataFrame))
    (reports : list (string * report)) :
  generate_demo_data gen seed st = (Ok (tables, reports), st') ->
  exists t,
    assoc_get "fact_production_batches" tables = Some t /\ frame_len t = 100%nat /\
    forall i, (i < 100)%nat ->
      exists a p y,
        cell t "actual_quantity" i = Some (VInt a) /\
        cell t "planned_quantity" i = Some (VInt p) /\
        cell t "yield_percentage" i = Some (VFloat y) /\
        0 < p /\
        (Qabs (inject_Z a / inject_Z p * 100 - y) < 1 # 100)%Q.
Proof.
  intros Hrun. destruct (generate_demo_data_inv _ _ _ _ _ _ Hrun) as (g & Hg & -> & _).
  run_facts_of Hg.
  destruct (generated_table "fact_production_batches" _ batch_row (g_batches g) eq_refl)
    as (Hlen & _ & Hcols); [conforms|nonempty_by Hpb_len|].
  exists (validate_frame "fact_production_batches"
            (DataFrame_of (map batch_row (g_batches g)))).1.
  split; [reflexivity|]. split; [by rewrite Hlen|].
  intros i Hi.
  destruct (lookup_lt_is_Some_2 (g_batches g) i) as [b Hb]; [lia|].
  destruct (proj1 (Forall_lookup _ _) Hpb i b Hb) as [Hp Hy].
  exists (pb_actual_quantity b), (pb_planned_quantity b), (pb_yield_percentage b).
  rewrite (cell_map _ _ _ _ i (Hcols "actual_quantity" "int" eq_refl)).
  rewrite (cell_map _ _ _ _ i (Hcols "planned_quantity" "int" eq_refl)).
  rewrite (cell_map _ _ _ _ i (Hcols "yield_percentage" "float" eq_refl)).
  rewrite Hb. cbn [fmap option_fmap option_map].
  split; [f_equal; apply converted_cell_int|].
  split; [f_equal; apply converted_cell_int|].
  split; [reflexivity|]. split; [exact Hp|exact Hy].
Qed.

(** C7.  In every run that returns, the [fact_sales_transactions] table has
    500 rows, and in each of them [net_amount] is within 0.01 of
    [total_amount - discount_amount + tax_amount]. *)
Theorem sales_net_amount_within_rounding (gen : Z -> N -> N) (seed : Z)
    (st st' : rng_state) (tables : list (string * DataFrame))
    (reports : list (string * report)) :
  generate_demo_data gen seed st = (Ok (tables, reports), st') ->
  exists t,
    assoc_get "fact_sales_transactions" tables = Some t /\ frame_len t = 500%nat /\
    forall i, (i < 500)%nat ->
      exists total discount tax net,
        cell t "total_amount" i = Some (VFloat total) /\
        cell t "discount_amount" i = Some (VFloat discount) /\
        cell t "tax_amount" i = Some (VFloat tax) /\
        cell t "net_amount" i = Some (VFloat net) /\
        (Qabs ((total - discount + tax) - net) < 1 # 100)%Q.
Proof.
  intros Hrun. destruct (generate_demo_data_inv _ _ _ _ _ _ Hrun) as (g & Hg & -> & _).
  run_facts_of Hg.
  destruct (generated_table "fact_sales_transactions" _ sale_row (g_sales g) eq_refl)
    as (Hlen & _ & Hcols); [conforms|nonempty_by Hsa_len|].
  exists (validate_frame "fact_sales_transactions"
            (DataFrame_of (map sale_row (g_sales g)))).1.
  split; [reflexivity|]. split; [by rewrite Hlen|].
  intros i Hi.
  destruct (lookup_lt_is_Some_2 (g_sales g) i) as [r Hr]; [lia|].
  pose proof (proj1 (Forall_lookup _ _) Hsa i r Hr) as Hnet.
  exists (sa_total_amount r), (sa_discount_amount r), (sa_tax_amount r), (sa_net_amount r).
  rewrite (cell_map _ _ _ _ i (Hcols "total_amount" "float" eq_refl)).
  rewrite (cell_map _ _ _ _ i (Hcols "discount_amount" "float" eq_refl)).
  rewrite (cell_map _ _ _ _ i (Hcols "tax_amount" "float" eq_refl)).
  rewrite (cell_map _ _ _ _ i (Hcols "net_amount" "float" eq_refl)).
  rewrite Hr. cbn [fmap option_fmap option_map].
  split; [reflexivity|]. split; [reflexivity|]. split; [reflexivity|].
  split; [reflexivity|exact Hnet].
Qed.

(** * Inventory: skus are unique *)

Lemma item_sku_bases_NoDup : NoDup item_sku_bases.
Proof. apply (bool_decide_unpack _). vm_compute. exact I. Qed.

Lemma item_skus_NoDup (items : list inventory_item) :
  map (fun it => until_dash (it_sku it)) items = item_sku_bases -> NoDup (map it_sku items).
Proof.
  intros H. apply (NoDup_fmap_1 until_dash).
  change (NoDup (map until_dash (map it_sku items))).
  rewrite map_map, H. apply item_sku_bases_NoDup.
Qed.

Lemma item_skus_length (items : list inventory_item) :
  map (fun it => until_dash (it_sku it)) items = item_sku_bases -> length items = 32%nat.
Proof.
  intros H. apply (f_equal length) in H. rewrite length_map in H. rewrite H.
  vm_compute. reflexivity.
Qed.

(** C8.  In every run that returns, each "Sales Issue" row of
    [fact_inventory_transactions] has a negative quantity and carries the sku
    of a row of [dim_inventory_items] whose [current_stock] is positive and at
    least the magnitude of the quantity; and no "Sales Issue" row carries the
    sku of an item whose [current_stock] is 0. *)
Theorem sales_issues_bounded_by_stock (gen : Z -> N -> N) (seed : Z)
    (st st' : rng_state) (tables : list (string * DataFrame))
    (reports : list (string * report)) :
  generate_demo_data gen seed st = (Ok (tables, reports), st') ->
  exists txs items,
    assoc_get "fact_inventory_transactions" tables = Some txs /\
    assoc_get "dim_inventory_items" tables = Some items /\
    (forall i, cell txs "transaction_type" i = Some (VStr "Sales Issue") ->
       exists j sku q stock,
         cell txs "sku" i = Some (VStr sku) /\ cell txs "quantity" i = Some (VInt q) /\
         cell items "sku" j = Some (VStr sku) /\
         cell items "current_stock" j = Some (VInt stock) /\
         q < 0 /\ - q <= stock) /\
    (forall j sku,
       cell items "sku" j = Some (VStr sku) ->
       cell items "current_stock" j = Some (VInt 0) ->
       forall i, cell txs "sku" i = Some (VStr sku) ->
                 cell txs "transaction_type" i <> Some (VStr "Sales Issue")).
Proof.
  intros Hrun. destruct (generate_demo_data_inv _ _ _ _ _ _ Hrun) as (g & Hg & -> & _).
  run_facts_of Hg.
  pose proof (item_skus_NoDup _ Hit) as Hnd.
  pose proof (item_skus_length _ Hit) as Hit_len.
  destruct (generated_table "fact_inventory_transactions" _ inventory_transaction_row
              (g_transactions g) eq_refl)
    as (_ & _ & Htxs); [conforms|nonempty_by Htx_len|].
  destruct (generated_table "dim_inventory_items" _ inventory_item_row (g_items g) eq_refl)
    as (_ & _ & Hitems); [conforms|nonempty_by Hit_len|].
  exists (validate_frame "fact_inventory_transactions"
            (DataFrame_of (map inventory_transaction_row (g_transactions g)))).1,
         (validate_frame "dim_inventory_items"
            (DataFrame_of (map inventory_item_row (g_items g)))).1.
  split; [reflexivity|]. split; [reflexivity|].
  assert (Hissue : forall i r, g_transactions g !! i = Some r ->
                     tx_transaction_type r = "Sales Issue"%string ->
                     exists j item, g_items g !! j = Some item /\ it_sku item = tx_sku r /\
                                    0 < it_current_stock item /\
                                    tx_quantity r < 0 /\ - tx_quantity r <= it_current_stock item).
  { intros i r Hr Hty.
    destruct (proj1 (Forall_lookup _ _) Htx i r Hr Hty) as (item & Hin & H1 & H2 & H3 & H4).
    apply list_elem_of_lookup in Hin as [j Hj]. eauto 10. }
  split.
  - intros i Hty.
    rewrite (cell_map _ _ _ _ i (Htxs "transaction_type" "str" eq_refl)) in Hty.
    destruct (g_transactions g !! i) as [r|] eqn:Hr; [|discriminate].
    cbn [fmap option_fmap option_map] in Hty. injection Hty as Hty.
    destruct (Hissue i r Hr Hty) as (j & item & Hj & Hsku & Hpos & Hneg & Hle).
    exists j, (tx_sku r), (tx_quantity r), (it_current_stock item).
    rewrite (cell_map _ _ _ _ i (Htxs "sku" "str" eq_refl)).
    rewrite (cell_map _ _ _ _ i (Htxs "quantity" "int" eq_refl)).
    rewrite (cell_map _ _ _ _ j (Hitems "sku" "str" eq_refl)).
    rewrite (cell_map _ _ _ _ j (Hitems "current_stock" "int" eq_refl)).
    rewrite Hr, Hj. cbn [fmap option_fmap option_map].
    split; [reflexivity|]. split; [f_equal; apply converted_cell_int|].
    split; [f_equal; change (VStr (it_sku item) = VStr (tx_sku r)); by rewrite Hsku|].
    split; [f_equal; apply converted_cell_int|]. split; assumption.
  - intros j sku Hsku Hzero i Hi Hty.
    rewrite (cell_map _ _ _ _ j (Hitems "sku" "str" eq_refl)) in Hsku.
    rewrite (cell_map _ _ _ _ j (Hitems "current_stock" "int" eq_refl)) in Hzero.
    rewrite (cell_map _ _ _ _ i (Htxs "sku" "str" eq_refl)) in Hi.
    rewrite (cell_map _ _ _ _ i (Htxs "transaction_type" "str" eq_refl)) in Hty.
    destruct (g_items g !! j) as [item|] eqn:Hj; [|discriminate].
    destruct (g_transactions g !! i) as [r|] eqn:Hr; [|discriminate].
    cbn [fmap option_fmap option_map] in *.
    injection Hty as Hty. injection Hsku as Hsku. injection Hi as Hi.
    change (Some (converted_cell "int" (VInt (it_current_stock item))) = Some (VInt 0)) in Hzero.
    rewrite converted_cell_int in Hzero. injection Hzero as Hzero.
    destruct (Hissue i r Hr Hty) as (j' & item' & Hj' & Hsku' & Hpos & _).
    assert (j = j').
    { apply (NoDup_lookup _ _ _ sku Hnd).
      - change (map it_sku (g_items g)) with (it_sku <$> g_items g).
        by rewrite list_lookup_fmap, Hj; cbn; rewrite Hsku.
      - change (map it_sku (g_items g)) with (it_sku <$> g_items g).
        by rewrite list_lookup_fmap, Hj'; cbn; rewrite Hsku', Hi. }
    subst j'. rewrite Hj in Hj'. injection Hj' as <-. lia.
Qed.

(** * Customer references of the website traffic *)

Lemma traffic_ids_unmatched :
  Forall (fun c => "B2C-" +:+ Py.fmt_0d 4 c ∉ customer_ids) (seqZ 1000 51).
Proof. apply (bool_decide_unpack _). vm_compute. exact I. Qed.

Lemma customer_ids_length : length customer_ids = 62%nat.
Proof. vm_compute. reflexivity. Qed.

(** C1 fails on the website traffic.  In every run that returns, a page view
    that converted carries a non-empty [customer_id], and no non-empty
    [customer_id] of [fact_website_traffic] is the [customer_id] of a row of
    [dim_customers]. *)
Theorem website_traffic_customers_unmatched (gen : Z -> N -> N) (seed : Z)
    (st st' : rng_state) (tables : list (string * DataFrame))
    (reports : list (string * report)) :
  generate_demo_data gen seed st = (Ok (tables, reports), st') ->
  exists traffic customers,
    assoc_get "fact_website_traffic" tables = Some traffic /\
    assoc_get "dim_customers" tables = Some customers /\
    (forall i, cell traffic "converted" i = Some (VBool true) ->
       exists cid, cell traffic "customer_id" i = Some (VStr cid) /\ cid <> EmptyString) /\
    (forall i cid, cell traffic "customer_id" i = Some (VStr cid) -> cid <> EmptyString ->
       forall j, cell customers "customer_id" j <> Some (VStr cid)).
Proof.
  intros Hrun. destruct (generate_demo_data_inv _ _ _ _ _ _ Hrun) as (g & Hg & -> & _).
  run_facts_of Hg.
  assert (Hcu_len : length (g_customers g) = 62%nat).
  { rewrite <- customer_ids_length, <- Hcu. by rewrite length_map. }
  destruct (generated_table "fact_website_traffic" _ page_view_row (g_traffic g) eq_refl)
    as (_ & _ & Htraffic); [conforms|nonempty_by Hwt_len|].
  destruct (generated_table "dim_customers" _ customer_row (g_customers g) eq_refl)
    as (_ & _ & Hcustomers); [conforms|nonempty_by Hcu_len|].
  exists (validate_frame "fact_website_traffic"
            (DataFrame_of (map page_view_row (g_traffic g)))).1,
         (validate_frame "dim_customers" (DataFrame_of (map customer_row (g_customers g)))).1.
  split; [reflexivity|]. split; [reflexivity|]. split.
  - intros i Hconv.
    rewrite (cell_map _ _ _ _ i (Htraffic "converted" "bool" eq_refl)) in Hconv.
    rewrite (cell_map _ _ _ _ i (Htraffic "customer_id" "str" eq_refl)).
    destruct (g_traffic g !! i) as [r|] eqn:Hr; [|discriminate].
    cbn [fmap option_fmap option_map] in *. injection Hconv as Hconv.
    exists (wt_customer_id r). split; [reflexivity|].
    destruct (proj1 (Forall_lookup _ _) Hwt i r Hr) as [[Hc _]|[_ (c & _ & ->)]].
    + congruence.
    + discriminate.
  - intros i cid Hcid Hne j Hj.
    rewrite (cell_map _ _ _ _ i (Htraffic "customer_id" "str" eq_refl)) in Hcid.
    rewrite (cell_map _ _ _ _ j (Hcustomers "customer_id" "str" eq_refl)) in Hj.
    destruct (g_traffic g !! i) as [r|] eqn:Hr; [|discriminate].
    destruct (g_customers g !! j) as [c|] eqn:Hc; [|discriminate].
    cbn [fmap option_fmap option_map] in *.
    injection Hcid as Hcid. injection Hj as Hj.
    destruct (proj1 (Forall_lookup _ _) Hwt i r Hr) as [[_ He]|[_ (n & Hn & Hid)]].
    + congruence.
    + assert (Hin : cid ∈ customer_ids).
      { rewrite <- Hcu. apply list_elem_of_In, in_map_iff. exists c.
        split; [exact Hj|]. by apply list_elem_of_In, list_elem_of_lookup_2 with j. }
      assert (Hseq : n ∈ seqZ 1000 51) by (apply elem_of_seqZ; lia).
      apply (proj1 (Forall_forall _ _) traffic_ids_unmatched n Hseq).
      rewrite <- Hid, Hcid. exact Hin.
Qed.

(** * Inventory analytics *)






(** * The reports of a run *)

Lemma generated_entry {A} (name : string) (schema : schema) (row : A -> dict) (xs : list A) :
  assoc_get name SCHEMAS = Some schema ->
  (forall x, row_conforms (required schema) (row x) = true) ->
  required schema <> [] ->
  frame_len (validate_frame name (DataFrame_of (map row xs))).1 = length xs /\
  row_count (validate_frame name (DataFrame_of (map row xs))).2 = Some (length xs) /\
  ((1 <= length xs)%nat ->
   ok (validate_frame name (DataFrame_of (map row xs))).2 = true /\
   errors (validate_frame name (DataFrame_of (map row xs))).2 = [] /\
   warnings (validate_frame name (DataFrame_of (map row xs))).2 = []) /\
  (length xs = 0%nat ->
   ok (validate_frame name (DataFrame_of (map row xs))).2 = false /\
   exists missing,
     errors (validate_frame name (DataFrame_of (map row xs))).2 = [MissingColumns missing]).
Proof.
  intros Hs Hrow Hreq. destruct xs as [|x xs].
  - cbn [map]. rewrite (validate_frame_empty name schema Hs Hreq).
    cbn [fst snd frame_len DataFrame_of length row_count ok errors warnings].
    split; [reflexivity|]. split; [reflexivity|]. split; [intros; lia|].
    intros _. split; [reflexivity|]. eexists. reflexivity.
  - destruct (generated_table name schema row (x :: xs) Hs Hrow) as (H1 & H2 & _);
      [discriminate|].
    rewrite H1, H2. cbn [length row_count ok errors warnings].
    split; [reflexivity|]. split; [reflexivity|]. split; [|intros; lia].
    intros _. split; [reflexivity|]. split; reflexivity.
Qed.

Lemma table_report {A} (name : string) (schema : schema) (row : A -> dict) (xs : list A)
    (tables : list (string * DataFrame)) :
  assoc_get name SCHEMAS = Some schema ->
  (forall x, row_conforms (required schema) (row x) = true) ->
  required schema <> [] ->
  assoc_get name tables = Some (validate_frame name (DataFrame_of (map row xs))).1 ->
  (name ∉ ["fact_attendance"; "fact_production_analytics"; "fact_inventory_analytics"] ->
   (1 <= length xs)%nat) ->
  exists t,
    assoc_get name tables = Some t /\
    row_count (validate_frame name (DataFrame_of (map row xs))).2 = Some (frame_len t) /\
    (name ∉ ["fact_attendance"; "fact_production_analytics"; "fact_inventory_analytics"] ->
     (1 <= frame_len t)%nat) /\
    ((1 <= frame_len t)%nat ->
     ok (validate_frame name (DataFrame_of (map row xs))).2 = true /\
     errors (validate_frame name (DataFrame_of (map row xs))).2 = [] /\
     warnings (validate_frame name (DataFrame_of (map row xs))).2 = []) /\
    (frame_len t = 0%nat ->
     ok (validate_frame name (DataFrame_of (map row xs))).2 = false /\
     exists missing,
       errors (validate_frame name (DataFrame_of (map row xs))).2 = [MissingColumns missing]).
Proof.
  intros Hs Hrow Hreq Htable Hlen.
  destruct (generated_entry name schema row xs Hs Hrow Hreq) as (Hl & Hrc & Hgood & Hbad).
  exists (validate_frame name (DataFrame_of (map row xs))).1.
  split; [exact Htable|]. rewrite Hl. split; [exact Hrc|]. split; [exact Hlen|].
  split; assumption.
Qed.

Ltac entry row xs tac :=
  match goal with
  | |- exists t, assoc_get ?name _ = Some t /\ _ =>
      apply (table_report name _ row xs _ eq_refl); [conforms|discriminate|reflexivity|tac]
  end.

Ltac never_empty := intros _; lia.

Ltac may_be_empty :=
  let Hnot := fresh in
  intros Hnot; exfalso; apply Hnot; apply list_elem_of_In; cbn; tauto.

(** X3.  In every run that returns there are 17 reports, one per
    table name; the report of a table with at least one row has [ok = true]
    and neither errors nor warnings; every table other than
    [fact_attendance], [fact_production_analytics] and
    [fact_inventory_analytics] has at least one row; and the report of a table
    without rows (a frame without columns) has [ok = false], its one error
    naming the missing columns. *)
Theorem generate_demo_data_reports (gen : Z -> N -> N) (seed : Z)
    (st st' : rng_state) (tables : list (string * DataFrame))
    (reports : list (string * report)) :
  generate_demo_data gen seed st = (Ok (tables, reports), st') ->
  map fst reports = table_names /\
  forall name rep, (name, rep) ∈ reports ->
    exists t,
      assoc_get name tables = Some t /\
      row_count rep = Some (frame_len t) /\
      (name ∉ ["fact_attendance"; "fact_production_analytics"; "fact_inventory_analytics"] ->
       (1 <= frame_len t)%nat) /\
      ((1 <= frame_len t)%nat -> ok rep = true /\ errors rep = [] /\ warnings rep = []) /\
      (frame_len t = 0%nat ->
       ok rep = false /\ exists missing, errors rep = [MissingColumns missing]).
Proof.
  intros Hrun. destruct (generate_demo_data_inv _ _ _ _ _ _ Hrun) as (g & Hg & -> & ->).
  run_facts_of Hg.
  pose proof (item_skus_length _ Hit) as Hit_len.
  assert (Hcu_len : length (g_customers g) = 62%nat).
  { rewrite <- customer_ids_length, <- Hcu. by rewrite length_map. }
  assert (Hfm_len : length (g_formulations g) = 32%nat).
  { apply (f_equal length) in Hfm. rewrite length_map in Hfm. rewrite Hfm.
    vm_compute. reflexivity. }
  assert (Htn_len : length (g_tenants g) = 3%nat) by (rewrite Htn; reflexivity).
  split.
  { unfold validation_reports. rewrite map_map. reflexivity. }
  intros name rep Hin. unfold validation_reports, frames_of in Hin. cbn [map fst snd] in Hin.
  repeat (apply elem_of_cons in Hin as [Hin|Hin];
          [apply pair_equal_spec in Hin as [-> ->]|]).
  - entry tenant_row (g_tenants g) never_empty.
  - entry employee_row (g_employees g) never_empty.
  - entry formulation_row (g_formulations g) never_empty.
  - entry raw_material_row (g_raw_materials g) never_empty.
  - entry customer_row (g_customers g) never_empty.
  - entry batch_row (g_batches g) never_empty.
  - entry inventory_item_row (g_items g) never_empty.
  - entry inventory_transaction_row (g_transactions g) never_empty.
  - entry sale_row (g_sales g) never_empty.
  - entry ecommerce_order_row (g_orders g) never_empty.
  - entry attendance_row (g_attendance g) may_be_empty.
  - entry account_row (g_accounts g) never_empty.
  - entry financial_transaction_row (g_postings g) never_empty.
  - entry page_view_row (g_traffic g) never_empty.
  - entry production_analytic_row (g_production_analytics g) may_be_empty.
  - entry inventory_analytic_row (g_inventory_analytics g) may_be_empty.
  - entry audit_log_row (g_logs g) never_empty.
  - exfalso. exact (proj1 (elem_of_nil _) Hin).
Qed.

(** * Concrete runs *)

Lemma succeeded_run {A B} (r : outcome (list A * list B) * rng_state) :
  succeeded r = true -> r = (Ok (tables_of r, reports_of r), r.2).
Proof.
  destruct r as [[[tables reports]|e] s]; unfold succeeded, tables_of, reports_of; cbn [fst snd].
  - reflexivity.
  - discriminate.
Qed.

Lemma example_run_succeeded : succeeded example_run = true.
Proof. vm_compute. reflexivity. Qed.

Lemma example_run_returns :
  example_run = (Ok (tables_of example_run, reports_of example_run), example_run.2).
Proof. exact (succeeded_run example_run example_run_succeeded). Qed.

Lemma website_traffic_customers_unmatched_witness :
  example_run = (Ok (tables_of example_run, reports_of example_run), example_run.2) /\
  (exists traffic customers,
    assoc_get "fact_website_traffic" (tables_of example_run) = Some traffic /\
    assoc_get "dim_customers" (tables_of example_run) = Some customers /\
    (forall i, cell traffic "converted" i = Some (VBool true) ->
       exists cid, cell traffic "customer_id" i = Some (VStr cid) /\ cid <> EmptyString) /\
    (forall i cid, cell traffic "customer_id" i = Some (VStr cid) -> cid <> EmptyString ->
       forall j, cell customers "customer_id" j <> Some (VStr cid))).
Proof.
  exact (conj example_run_returns
           (website_traffic_customers_unmatched example_draws 42 initial_state example_run.2
              (tables_of example_run) (reports_of example_run) example_run_returns)).
Defined.


Lemma production_batches_yield_within_rounding_witness :
  example_run = (Ok (tables_of example_run, reports_of example_run), example_run.2) /\
  (exists t,
    assoc_get "fact_production_batches" (tables_of example_run) = Some t /\ frame_len t = 100%nat /\
    forall i, (i < 100)%nat ->
      exists a p y,
        cell t "actual_quantity" i = Some (VInt a) /\
        cell t "planned_quantity" i = Some (VInt p) /\
        cell t "yield_percentage" i = Some (VFloat y) /\
        0 < p /\
        (Qabs (inject_Z a / inject_Z p * 100 - y) < 1 # 100)%Q).
Proof.
  exact (conj example_run_returns
           (production_batches_yield_within_rounding example_draws 42 initial_state example_run.2
              (tables_of example_run) (reports_of example_run) example_run_returns)).
Defined.

Lemma sales_net_amount_within_rounding_witness :
  example_run = (Ok (tables_of example_run, reports_of example_run), example_run.2) /\
  (exists t,
    assoc_get "fact_sales_transactions" (tables_of example_run) = Some t /\ frame_len t = 500%nat /\
    forall i, (i < 500)%nat ->
      exists total discount tax net,
        cell t "total_amount" i = Some (VFloat total) /\
        cell t "discount_amount" i = Some (VFloat discount) /\
        cell t "tax_amount" i = Some (VFloat tax) /\
        cell t "net_amount" i = Some (VFloat net) /\
        (Qabs ((total - discount + tax) - net) < 1 # 100)%Q).
Proof.
  exact (conj example_run_returns
           (sales_net_amount_within_rounding example_draws 42 initial_state example_run.2
              (tables_of example_run) (reports_of example_run) example_run_returns)).
Defined.

Lemma sales_issues_bounded_by_stock_witness :
  example_run = (Ok (tables_of example_run, reports_of example_run), example_run.2) /\
  (exists txs items,
    assoc_get "fact_inventory_transactions" (tables_of example_run) = Some txs /\
    assoc_get "dim_inventory_items" (tables_of example_run) = Some items /\
    (forall i, cell txs "transaction_type" i = Some (VStr "Sales Issue") ->
       exists j sku q stock,
         cell txs "sku" i = Some (VStr sku) /\ cell txs "quantity" i = Some (VInt q) /\
         cell items "sku" j = Some (VStr sku) /\
         cell items "current_stock" j = Some (VInt stock) /\
         q < 0 /\ - q <= stock) /\
    (forall j sku,
       cell items "sku" j = Some (VStr sku) ->
       cell items "current_stock" j = Some (VInt 0) ->
       forall i, cell txs "sku" i = Some (VStr sku) ->
                 cell txs "transaction_type" i <> Some (VStr "Sales Issue"))).
Proof.
  exact (conj example_run_returns
           (sales_issues_bounded_by_stock example_draws 42 initial_state example_run.2
              (tables_of example_run) (reports_of example_run) example_run_returns)).
Defined.

Lemma generate_demo_data_reports_witness :
  example_run = (Ok (tables_of example_run, reports_of example_run), example_run.2) /\
  (map fst (reports_of example_run) = table_names /\
  forall name rep, (name, rep) ∈ (reports_of example_run) ->
    exists t,
      assoc_get name (tables_of example_run) = Some t /\
      row_count rep = Some (frame_len t) /\
      (name ∉ ["fact_attendance"; "fact_production_analytics"; "fact_inventory_analytics"] ->
       (1 <= frame_len t)%nat) /\
      ((1 <= frame_len t)%nat -> ok rep = true /\ errors rep = [] /\ warnings rep = []) /\
      (frame_len t = 0%nat ->
       ok rep = false /\ exists missing, errors rep = [MissingColumns missing])).
Proof.
  exact (conj example_run_returns
           (generate_demo_data_reports example_draws 42 initial_state example_run.2
              (tables_of example_run) (reports_of example_run) example_run_returns)).
Defined.

Lemma validate_table_ok_iff_witness :
  exists schema t,
    assoc_get "dim_tenants" SCHEMAS = Some schema /\
    bad_upload !! 0%nat = Some t /\
    let rep := (validate_table "dim_tenants" 0%nat bad_upload).1.2 in
    (ok rep = true <-> errors rep = []) /\
    Forall (fun m => is_warning m = false) (errors rep) /\
    Forall (fun m => is_warning m = true) (warnings rep) /\
    (ok rep = true <->
     (forall col, col ∈ map fst (required schema) -> col ∈ columns t) /\
     conversion_errors (required schema) t = []).
Proof.
  eexists _, _. split; [reflexivity|]. split; [reflexivity|].
  exact (validate_table_ok_iff "dim_tenants" _ 0%nat bad_upload _ eq_refl eq_refl).
Defined.

(** In the run [example_run] the first page view converted; its customer
    reference is [B2C-1006], and [dim_customers] has 62 rows. *)
Lemma example_run_converted_view :
  match assoc_get "fact_website_traffic" (tables_of example_run),
        assoc_get "dim_customers" (tables_of example_run) with
  | Some traffic, Some customers =>
      (cell traffic "converted" 0, cell traffic "customer_id" 0, frame_len customers)
  | _, _ => (None, None, 0%nat)
  end = (Some (VBool true), Some (VStr "B2C-1006"), 62%nat).
Proof. vm_compute. reflexivity. Qed.


(** A sequence of draws on which a table is empty: in the run of seed 0 on
    the draws that are all 4 every batch is on quality hold,
    [fact_production_analytics] has no row, and its report has [ok = false]
    with one error.  No seed of the generator of [random] is known to give
    such a run. *)
Lemma constant_run_empty_table_not_ok :
  succeeded constant_run = true /\
  option_map (fun rep => (row_count rep, ok rep, length (errors rep)))
             (assoc_get "fact_production_analytics" (reports_of constant_run))
  = Some (Some 0%nat, false, 1%nat).
Proof. split; vm_compute; reflexivity. Qed.

(** * More on the validator *)

Lemma conversion_errors_flat (entries : list (string * string)) (t : DataFrame) :
  NoDup (map fst entries) ->
  conversion_errors entries t = flat_map (entry_errors t) entries.
Proof.
  revert t. induction entries as [|[c ty] es IH]; intros t Hnd; [reflexivity|].
  cbn [map fst] in Hnd. apply NoDup_cons in Hnd as [Hc Hnd].
  cbn [conversion_errors flat_map]. f_equal. rewrite (IH _ Hnd).
  clear IH. induction es as [|[c' ty'] es IH]; [reflexivity|].
  cbn [map fst] in Hc, Hnd. apply not_elem_of_cons in Hc as [Hne Hc].
  apply NoDup_cons in Hnd as [_ Hnd].
  cbn [flat_map]. rewrite (IH Hc Hnd). f_equal.
  unfold entry_errors. cbn [fst snd].
  rewrite columns_coerce_entry, get_column_coerce_entry_other; [reflexivity|].
  cbn [fst]. congruence.
Qed.

Lemma entry_errors_elem (t : DataFrame) (entry : string * string) (m : message) :
  m ∈ entry_errors t entry <->
  entry.1 ∈ columns t /\
  exists e, coerce_column entry.2 (get_column entry.1 t) = inl e /\
            m = ConversionFailed entry.1 (str_of_exn e).
Proof.
  unfold entry_errors. destruct (mem_string entry.1 (columns t)) eqn:Hmem.
  - apply mem_string_spec in Hmem.
    destruct (coerce_column entry.2 (get_column entry.1 t)) as [e|cells].
    + rewrite list_elem_of_singleton. split.
      * intros ->. split; [exact Hmem|]. exists e. split; reflexivity.
      * intros (_ & e' & [= <-] & ->). reflexivity.
    + split; [intros H; by apply elem_of_nil in H|]. intros (_ & e & He & _). discriminate He.
  - apply mem_string_false in Hmem.
    split; [intros H; by apply elem_of_nil in H|]. intros [H _]. contradiction.
Qed.

Lemma conversion_errors_spec (entries : list (string * string)) (t : DataFrame) (m : message) :
  NoDup (map fst entries) ->
  m ∈ conversion_errors entries t <->
  exists col ty e, (col, ty) ∈ entries /\ col ∈ columns t /\
                   coerce_column ty (get_column col t) = inl e /\
                   m = ConversionFailed col (str_of_exn e).
Proof.
  intros Hnd. rewrite (conversion_errors_flat _ _ Hnd).
  rewrite list_elem_of_In, in_flat_map. split.
  - intros ([col ty] & Hin & Hm). apply list_elem_of_In, entry_errors_elem in Hm.
    destruct Hm as (Hcol & e & He & ->). exists col, ty, e.
    split; [by apply list_elem_of_In|]. split; [exact Hcol|]. split; [exact He|reflexivity].
  - intros (col & ty & e & Hin & Hcol & He & ->). exists (col, ty).
    split; [by apply list_elem_of_In|]. apply list_elem_of_In, entry_errors_elem.
    split; [exact Hcol|]. exists e. split; [exact He|reflexivity].
Qed.

Lemma check_nulls_spec (t : DataFrame) (cols : list string) (warns : list message)
    (m : message) :
  m ∈ fold_left (check_nulls t) cols warns <->
  m ∈ warns \/
  exists col, col ∈ cols /\ col ∈ columns t /\
              (1 <= null_count (get_column col t))%nat /\
              m = NullValues col (null_count (get_column col t)).
Proof.
  revert warns. induction cols as [|c cs IH]; intros warns; cbn [fold_left].
  - split; [by left|]. intros [H|(col & H & _)]; [exact H|by apply elem_of_nil in H].
  - rewrite IH. unfold check_nulls at 1.
    assert (Hnull : existsb Pandas.isnull (get_column c t) = true
                    <-> (1 <= null_count (get_column c t))%nat).
    { unfold null_count. generalize (get_column c t). intros l.
      induction l as [|v l IHl].
      - rewrite filter_nil. cbn [existsb length]. split; [discriminate|lia].
      - cbn [existsb]. rewrite orb_true_iff, IHl. rewrite filter_cons.
        destruct (decide (Pandas.isnull v = true)) as [E|E]; cbn [length].
        + rewrite E. split; [lia|by left].
        + apply not_true_is_false in E. rewrite E. split; [intros [?|?]; [done|lia]|by right]. }
    destruct (mem_string c (columns t)) eqn:Hmem; cbn [andb].
    + apply mem_string_spec in Hmem.
      destruct (existsb Pandas.isnull (get_column c t)) eqn:Hex.
      * rewrite elem_of_app, list_elem_of_singleton. split.
        -- intros [[H| ->]|(col & Hin & Hrest)].
           ++ by left.
           ++ right. exists c. split; [left|]. split; [exact Hmem|].
              split; [by apply Hnull|reflexivity].
           ++ right. exists col. split; [by right|exact Hrest].
        -- intros [H|(col & Hin & Hcol & Hn & ->)]; [by left; left|].
           apply elem_of_cons in Hin as [->|Hin]; [left; by right|].
           right. exists col. done.
      * split.
        -- intros [H|(col & Hin & Hrest)]; [by left|].
           right. exists col. split; [by right|exact Hrest].
        -- intros [H|(col & Hin & Hcol & Hn & ->)]; [by left|].
           apply elem_of_cons in Hin as [->|Hin].
           ++ apply Hnull in Hn. congruence.
           ++ right. exists col. done.
    + apply mem_string_false in Hmem. split.
      * intros [H|(col & Hin & Hrest)]; [by left|].
        right. exists col. split; [by right|exact Hrest].
      * intros [H|(col & Hin & Hcol & Hn & ->)]; [by left|].
        apply elem_of_cons in Hin as [->|Hin]; [contradiction|].
        right. exists col. done.
Qed.

Lemma validate_frame_known (table_name : string) (schema : schema) (t : DataFrame) :
  assoc_get table_name SCHEMAS = Some schema ->
  validate_frame table_name t =
    (coerce_frame (required schema) t,
     mk_report
       (Some (frame_len t))
       ((if bool_decide (missing_columns schema t ≠ ∅)
         then [MissingColumns (missing_columns schema t)] else [])
        ++ conversion_errors (required schema) t)
       (fold_left (check_nulls (coerce_frame (required schema) t))
                  (elements (list_to_set (map fst (required schema)) : gset string))
                  (if bool_decide (extra_columns schema t ≠ ∅)
                   then [ExtraColumns (extra_columns schema t)] else []))
       (bool_decide
          (length ((if bool_decide (missing_columns schema t ≠ ∅)
                    then [MissingColumns (missing_columns schema t)] else [])
                   ++ conversion_errors (required schema) t) = 0%nat))).
Proof.
  intros Hs. unfold validate_frame. rewrite Hs. cbv zeta.
  rewrite frame_len_coerce_frame. reflexivity.
Qed.

Lemma validate_frame_errors (table_name : string) (schema : schema) (t : DataFrame)
    (m : message) :
  assoc_get table_name SCHEMAS = Some schema ->
  m ∈ errors (validate_frame table_name t).2 <->
  (missing_columns schema t ≠ ∅ /\ m = MissingColumns (missing_columns schema t)) \/
  (exists col ty e, (col, ty) ∈ required schema /\ col ∈ columns t /\
                    coerce_column ty (get_column col t) = inl e /\
                    m = ConversionFailed col (str_of_exn e)).
Proof.
  intros Hs. rewrite (validate_frame_known _ _ _ Hs). cbn [snd errors].
  rewrite elem_of_app, (conversion_errors_spec _ _ _ (SCHEMAS_NoDup _ _ Hs)).
  apply or_iff_compat_r.
  destruct (bool_decide (missing_columns schema t ≠ ∅)) eqn:E.
  - apply bool_decide_eq_true in E. rewrite list_elem_of_singleton. tauto.
  - apply bool_decide_eq_false in E. split; [intros H; by apply elem_of_nil in H|tauto].
Qed.

Lemma validate_frame_warnings (table_name : string) (schema : schema) (t : DataFrame)
    (m : message) :
  assoc_get table_name SCHEMAS = Some schema ->
  m ∈ warnings (validate_frame table_name t).2 <->
  (extra_columns schema t ≠ ∅ /\ m = ExtraColumns (extra_columns schema t)) \/
  (exists col, col ∈ map fst (required schema) /\ col ∈ columns t /\
     (1 <= null_count (get_column col (validate_frame table_name t).1))%nat /\
     m = NullValues col (null_count (get_column col (validate_frame table_name t).1))).
Proof.
  intros Hs. rewrite (validate_frame_known _ _ _ Hs). cbn [fst snd warnings].
  rewrite check_nulls_spec.
  assert (Hextra : m ∈ (if bool_decide (extra_columns schema t ≠ ∅)
                        then [ExtraColumns (extra_columns schema t)] else [])
                   <-> extra_columns schema t ≠ ∅ /\ m = ExtraColumns (extra_columns schema t)).
  { destruct (bool_decide (extra_columns schema t ≠ ∅)) eqn:E.
    - apply bool_decide_eq_true in E. rewrite list_elem_of_singleton. tauto.
    - apply bool_decide_eq_false in E. split; [intros H; by apply elem_of_nil in H|tauto]. }
  rewrite Hextra. clear Hextra.
  split; (intros [H|(col & Hin & Hcol & Hrest)]; [by left|right; exists col]).
  - apply elem_of_elements, elem_of_list_to_set in Hin.
    rewrite columns_coerce_frame in Hcol. done.
  - split; [by apply elem_of_elements, elem_of_list_to_set|].
    rewrite columns_coerce_frame. done.
Qed.

(** A converted column converts to itself. *)
Lemma traverse_to_datetime1 (l : list (option datetime)) (f : datetime -> value)
    (n : datetime -> datetime) :
  (forall dt, Pandas.to_datetime1 (f dt) = inr (Some (n dt))) ->
  Pandas.traverse Pandas.to_datetime1
    (map (fun o => match o with Some dt => f dt | None => VNull end) l)
  = inr (map (option_map n) l).
Proof.
  intros Hf. induction l as [|o l IH]; [reflexivity|].
  cbn [map Pandas.traverse]. rewrite IH.
  destruct o as [dt|]; [rewrite Hf|]; reflexivity.
Qed.

Lemma int_of_float_inject (z : Z) : Py.int_of_float (inject_Z z) = z.
Proof. unfold Py.int_of_float, inject_Z. cbn [Qnum Qden]. apply Z.quot_1_r. Qed.

Lemma coerce_column_idempotent (ty : string) (cells cells' : list value) :
  coerce_column ty cells = inr cells' -> coerce_column ty cells' = inr cells'.
Proof.
  unfold coerce_column.
  destruct (String.eqb ty "date").
  { unfold Pandas.to_datetime_date.
    destruct (Pandas.traverse Pandas.to_datetime1 cells) as [e|l]; [discriminate|].
    intros [= <-].
    rewrite (traverse_to_datetime1 l (fun dt => VDate (dt_date dt))
               (fun dt => mk_datetime (dt_date dt) (mk_time 0 0 0))) by reflexivity.
    f_equal. rewrite map_map. apply map_ext. intros [dt|]; reflexivity. }
  destruct (String.eqb ty "datetime").
  { unfold Pandas.to_datetime.
    destruct (Pandas.traverse Pandas.to_datetime1 cells) as [e|l]; [discriminate|].
    intros [= <-].
    rewrite (traverse_to_datetime1 l VDateTime (fun dt => dt)) by reflexivity.
    f_equal. rewrite map_map. apply map_ext. intros [dt|]; reflexivity. }
  destruct (String.eqb ty "bool").
  { unfold Pandas.astype_bool. intros [= <-]. f_equal. rewrite map_map. reflexivity. }
  destruct (String.eqb ty "int").
  { unfold Pandas.to_numeric_int. intros [= <-]. f_equal. rewrite map_map.
    apply map_ext. intros v. cbn [Pandas.to_numeric1 default]. f_equal.
    apply int_of_float_inject. }
  destruct (String.eqb ty "float").
  { unfold Pandas.to_numeric_float. intros [= <-]. f_equal. rewrite map_map. reflexivity. }
  unfold Pandas.astype_str. intros [= <-]. f_equal. rewrite map_map. reflexivity.
Qed.

Lemma assoc_set_id {A} (k : string) (v : A) (l : list (string * A)) :
  assoc_get k l = Some v -> assoc_set k v l = l.
Proof.
  induction l as [|[k' v'] l IH]; cbn [assoc_get assoc_set]; [discriminate|].
  destruct (String.eqb_spec k k') as [->|Hne].
  - intros [= ->]. reflexivity.
  - intros H. by rewrite IH.
Qed.

Lemma set_column_same (col : string) (t : DataFrame) :
  col ∈ columns t -> set_column col (get_column col t) t = t.
Proof.
  intros Hcol. destruct t as [n cols]. unfold set_column, get_column, columns in *.
  cbn [frame_len frame_cols] in *. f_equal. apply assoc_set_id.
  destruct (assoc_get col cols) as [cells|] eqn:E; [reflexivity|].
  apply assoc_None in E. contradiction.
Qed.

Lemma coerce_frame_entry_fixed (entries : list (string * string)) (t : DataFrame)
    (entry : string * string) :
  NoDup (map fst entries) -> entry ∈ entries ->
  coerce_entry (coerce_frame entries t) entry = coerce_frame entries t /\
  entry_errors (coerce_frame entries t) entry = entry_errors t entry.
Proof.
  intros Hnd Hin. destruct entry as [col ty].
  unfold coerce_entry, entry_errors. cbn [fst snd].
  rewrite columns_coerce_frame, (get_column_coerce_frame _ _ _ Hnd).
  rewrite (assoc_NoDup _ _ _ Hnd Hin).
  destruct (mem_string col (columns t)) eqn:Hmem; [|done].
  destruct (coerce_column ty (get_column col t)) as [e|cells] eqn:E.
  - rewrite E. done.
  - rewrite (coerce_column_idempotent _ _ _ E). split; [|reflexivity].
    assert (Hcells : cells = get_column col (coerce_frame entries t)).
    { rewrite (get_column_coerce_frame _ _ _ Hnd), (assoc_NoDup _ _ _ Hnd Hin), Hmem, E.
      reflexivity. }
    rewrite Hcells. apply set_column_same. rewrite columns_coerce_frame.
    by apply mem_string_spec.
Qed.

Lemma coerce_frame_fixed (entries : list (string * string)) (t : DataFrame) :
  Forall (fun entry => coerce_entry t entry = t) entries -> coerce_frame entries t = t.
Proof.
  unfold coerce_frame. induction 1 as [|entry es He _ IH]; [reflexivity|].
  cbn [fold_left]. by rewrite He.
Qed.

Lemma conversion_errors_fixed (entries : list (string * string)) (t : DataFrame) :
  Forall (fun entry => coerce_entry t entry = t) entries ->
  conversion_errors entries t = flat_map (entry_errors t) entries.
Proof.
  induction 1 as [|entry es He _ IH]; [reflexivity|].
  cbn [conversion_errors flat_map]. rewrite He, IH. reflexivity.
Qed.

Lemma flat_map_ext_elem {A B} (f g : A -> list B) (l : list A) :
  (forall a, a ∈ l -> f a = g a) -> flat_map f l = flat_map g l.
Proof.
  induction l as [|a l IH]; intros H; [reflexivity|].
  cbn [flat_map]. rewrite (H a) by left. f_equal. apply IH. intros b Hb. apply H. by right.
Qed.

Lemma validate_frame_idempotent (table_name : string) (t : DataFrame) :
  validate_frame table_name (validate_frame table_name t).1 = validate_frame table_name t.
Proof.
  destruct (assoc_get table_name SCHEMAS) as [schema|] eqn:Hs.
  - pose proof (SCHEMAS_NoDup _ _ Hs) as Hnd.
    rewrite !(validate_frame_known _ _ _ Hs). cbn [fst].
    set (t1 := coerce_frame (required schema) t).
    assert (Hfixed : Forall (fun entry => coerce_entry t1 entry = t1) (required schema)).
    { apply Forall_forall. intros entry Hin.
      exact (proj1 (coerce_frame_entry_fixed _ t _ Hnd Hin)). }
    assert (Hmissing : missing_columns schema t1 = missing_columns schema t).
    { unfold missing_columns, t1. by rewrite columns_coerce_frame. }
    assert (Hextra : extra_columns schema t1 = extra_columns schema t).
    { unfold extra_columns, t1. by rewrite columns_coerce_frame. }
    assert (Herrs : conversion_errors (required schema) t1
                    = conversion_errors (required schema) t).
    { rewrite (conversion_errors_fixed _ _ Hfixed), (conversion_errors_flat _ _ Hnd).
      apply flat_map_ext_elem. intros entry Hin.
      exact (proj2 (coerce_frame_entry_fixed _ t _ Hnd Hin)). }
    rewrite (coerce_frame_fixed _ _ Hfixed), Hmissing, Hextra, Herrs.
    unfold t1 at 2. rewrite frame_len_coerce_frame. reflexivity.
  - unfold validate_frame. rewrite Hs. cbn [fst]. reflexivity.
Qed.

Lemma traverse_length {A} (f : value -> exn + A) (cells : list value) (l : list A) :
  Pandas.traverse f cells = inr l -> length l = length cells.
Proof.
  revert l. induction cells as [|v cells IH]; intros l; cbn [Pandas.traverse].
  - intros [= <-]. reflexivity.
  - destruct (f v); [discriminate|].
    destruct (Pandas.traverse f cells) as [e|l']; [discriminate|].
    intros [= <-]. cbn [length]. by rewrite (IH l' eq_refl).
Qed.

Lemma coerce_column_length (ty : string) (cells cells' : list value) :
  coerce_column ty cells = inr cells' -> length cells' = length cells.
Proof.
  unfold coerce_column, Pandas.to_datetime_date, Pandas.to_datetime, Pandas.astype_bool,
    Pandas.to_numeric_int, Pandas.to_numeric_float, Pandas.astype_str.
  repeat match goal with |- context [String.eqb ty ?s] => destruct (String.eqb ty s) end;
    try (destruct (Pandas.traverse Pandas.to_datetime1 cells) as [e|l] eqn:E; [discriminate|]);
    intros [= <-]; rewrite length_map; try reflexivity; by apply traverse_length in E.
Qed.

(** X1.  Validating a known table changes neither the shape of the frame
    nor the columns outside the schema: the frame returned is the input
    object, with the same column names in the same order and the same number
    of rows, every column keeps its length, a column the schema does not name
    keeps its cells, all other frames of the store are untouched, and the
    report's [row_count] is the number of rows of the input. *)
Theorem validate_table_preserves_shape (table_name : string) (schema : schema) (df : loc)
    (h : store) (t : DataFrame) :
  assoc_get table_name SCHEMAS = Some schema ->
  h !! df = Some t ->
  exists rep t',
    validate_table table_name df h = ((df, rep), <[df := t']> h) /\
    row_count rep = Some (frame_len t) /\
    columns t' = columns t /\ frame_len t' = frame_len t /\
    (forall col, length (get_column col t') = length (get_column col t)) /\
    (forall col, col ∉ map fst (required schema) -> get_column col t' = get_column col t).
Proof.
  intros Hs Hdf. pose proof (SCHEMAS_NoDup _ _ Hs) as Hnd.
  exists (validate_frame table_name t).2, (validate_frame table_name t).1.
  split; [by apply validate_table_frame|].
  rewrite (validate_frame_known _ _ _ Hs). cbn [fst snd row_count].
  split; [reflexivity|]. split; [apply columns_coerce_frame|].
  split; [apply frame_len_coerce_frame|]. split.
  - intros col. rewrite (get_column_coerce_frame _ _ _ Hnd).
    destruct (assoc_get col (required schema)) as [ty|]; [|reflexivity].
    destruct (mem_string col (columns t)); [|reflexivity].
    destruct (coerce_column ty (get_column col t)) as [e|cells] eqn:E; [reflexivity|].
    by apply coerce_column_length in E.
  - intros col Hcol. by apply get_column_coerce_frame_other.
Qed.

Lemma validate_table_preserves_shape_witness :
  exists schema t rep t',
    assoc_get "dim_tenants" SCHEMAS = Some schema /\
    tenants_upload !! 0%nat = Some t /\
    validate_table "dim_tenants" 0%nat tenants_upload
    = ((0%nat, rep), <[0%nat := t']> tenants_upload) /\
    row_count rep = Some (frame_len t) /\
    columns t' = columns t /\ frame_len t' = frame_len t /\
    (forall col, length (get_column col t') = length (get_column col t)) /\
    (forall col, col ∉ map fst (required schema) -> get_column col t' = get_column col t).
Proof.
  eexists _, _.
  destruct (validate_table_preserves_shape "dim_tenants" _ 0%nat tenants_upload _
              eq_refl eq_refl) as (rep & t' & H).
  exists rep, t'. split; [reflexivity|]. split; [reflexivity|]. exact H.
Defined.

(** X2.  The messages of a report for a known table are exactly these: one
    missing-columns error when a required column is absent, naming the set of
    absent ones; one conversion error for each required column that is
    present and whose conversion raises, carrying the column name and the
    text of the exception; one extra-columns warning when a column is not
    required, naming the set of those; and one null warning for each
    required column that is present and holds a null after the conversions,
    carrying the number of its nulls. *)
Theorem validate_table_messages (table_name : string) (schema : schema) (df : loc)
    (h : store) (t : DataFrame) :
  assoc_get table_name SCHEMAS = Some schema ->
  h !! df = Some t ->
  exists rep t',
    validate_table table_name df h = ((df, rep), <[df := t']> h) /\
    (forall m, m ∈ errors rep <->
       (missing_columns schema t ≠ ∅ /\ m = MissingColumns (missing_columns schema t)) \/
       (exists col ty e, (col, ty) ∈ required schema /\ col ∈ columns t /\
                         coerce_column ty (get_column col t) = inl e /\
                         m = ConversionFailed col (str_of_exn e))) /\
    (forall m, m ∈ warnings rep <->
       (extra_columns schema t ≠ ∅ /\ m = ExtraColumns (extra_columns schema t)) \/
       (exists col, col ∈ map fst (required schema) /\ col ∈ columns t /\
                    (1 <= null_count (get_column col t'))%nat /\
                    m = NullValues col (null_count (get_column col t')))).
Proof.
  intros Hs Hdf.
  exists (validate_frame table_name t).2, (validate_frame table_name t).1.
  split; [by apply validate_table_frame|]. split.
  - intros m. by apply validate_frame_errors.
  - intros m. by apply validate_frame_warnings.
Qed.

Lemma validate_table_messages_witness :
  exists schema t rep t',
    assoc_get "dim_tenants" SCHEMAS = Some schema /\
    tenants_upload !! 0%nat = Some t /\
    validate_table "dim_tenants" 0%nat tenants_upload
    = ((0%nat, rep), <[0%nat := t']> tenants_upload) /\
    (forall m, m ∈ errors rep <->
       (missing_columns schema t ≠ ∅ /\ m = MissingColumns (missing_columns schema t)) \/
       (exists col ty e, (col, ty) ∈ required schema /\ col ∈ columns t /\
                         coerce_column ty (get_column col t) = inl e /\
                         m = ConversionFailed col (str_of_exn e))) /\
    (forall m, m ∈ warnings rep <->
       (extra_columns schema t ≠ ∅ /\ m = ExtraColumns (extra_columns schema t)) \/
       (exists col, col ∈ map fst (required schema) /\ col ∈ columns t /\
                    (1 <= null_count (get_column col t'))%nat /\
                    m = NullValues col (null_count (get_column col t')))).
Proof.
  eexists _, _.
  destruct (validate_table_messages "dim_tenants" _ 0%nat tenants_upload _
              eq_refl eq_refl) as (rep & t' & H).
  exists rep, t'. split; [reflexivity|]. split; [reflexivity|]. exact H.
Defined.

(** X4.  Validation is idempotent: validating the table a validation
    returned, in the store it left, returns the same report and leaves every
    frame as it is. *)
Theorem validate_table_idempotent (table_name : string) (df df' : loc) (h h' : store)
    (rep : report) :
  is_Some (h !! df) ->
  validate_table table_name df h = ((df', rep), h') ->
  validate_table table_name df' h' = ((df', rep), h').
Proof.
  intros [t Hdf]. rewrite (validate_table_frame _ _ _ _ Hdf).
  intros [= <- <- <-].
  rewrite (validate_table_frame _ _ _ (validate_frame table_name t).1)
    by apply lookup_insert_eq.
  rewrite validate_frame_idempotent, insert_insert_eq. reflexivity.
Qed.

Lemma validate_table_idempotent_witness :
  exists df' rep h',
    validate_table "dim_tenants" 0%nat tenants_upload = ((df', rep), h') /\
    validate_table "dim_tenants" df' h' = ((df', rep), h').
Proof.
  assert (E : validate_table "dim_tenants" 0%nat tenants_upload
              = (((validate_table "dim_tenants" 0%nat tenants_upload).1.1,
                  (validate_table "dim_tenants" 0%nat tenants_upload).1.2),
                 (validate_table "dim_tenants" 0%nat tenants_upload).2)).
  { destruct (validate_table "dim_tenants" 0%nat tenants_upload) as [[? ?] ?]. reflexivity. }
  eexists _, _, _. split; [exact E|].
  apply (validate_table_idempotent "dim_tenants" 0%nat _ tenants_upload _ _
           (ex_intro _ _ eq_refl) E).
Defined.

(** X5.  The summary of a validation report: for a table name outside the
    schema registry the report has no row count and [summarize_dq] raises
    [KeyError]; for a known table it returns the four metrics in order: the
    number of rows of the validated table, the number of errors, the number
    of warnings, and the status, which is PASS exactly when the report has
    no error. *)
Theorem summarize_dq_validate_table (table_name : string) (df : loc) (h : store)
    (t : DataFrame) :
  h !! df = Some t ->
  let rep := (validate_table table_name df h).1.2 in
  (table_name ∉ map fst SCHEMAS -> summarize_dq rep = inl (KeyError "'row_count'")) /\
  (table_name ∈ map fst SCHEMAS ->
   exists summary,
     summarize_dq rep = inr summary /\
     columns summary = ["Metric"; "Value"] /\
     get_column "Metric" summary
     = [VStr "Total Rows"; VStr "Errors"; VStr "Warnings"; VStr "Validation Status"] /\
     get_column "Value" summary
     = [VInt (Z.of_nat (frame_len t));
        VInt (Z.of_nat (length (errors rep)));
        VInt (Z.of_nat (length (warnings rep)));
        VStr (if bool_decide (errors rep = []) then "✅ PASS" else "❌ FAIL")]).
Proof.
  intros Hdf rep. subst rep. rewrite (validate_table_frame _ _ _ _ Hdf). cbn [fst snd].
  split.
  - intros Hname. apply assoc_None in Hname. unfold validate_frame. rewrite Hname.
    reflexivity.
  - intros Hname. destruct (assoc_get table_name SCHEMAS) as [schema|] eqn:Hs.
    + rewrite (validate_frame_known _ _ _ Hs). cbn [snd].
      eexists. split; [reflexivity|]. split; [reflexivity|]. split; [reflexivity|].
      cbn [get_column frame_cols assoc_get String.eqb Ascii.eqb Bool.eqb default errors
           warnings ok].
      repeat f_equal.
      match goal with |- context [length ?l = 0%nat] => generalize l end.
      intros l. destruct l; reflexivity.
    + apply assoc_None in Hs. contradiction.
Qed.

Lemma summarize_dq_validate_table_witness :
  tenants_upload !! 0%nat
  = Some (default (mk_frame 0 []) (tenants_upload !! 0%nat)) /\
  (exists summary,
     summarize_dq (validate_table "dim_tenants" 0%nat tenants_upload).1.2 = inr summary /\
     columns summary = ["Metric"; "Value"]).
Proof.
  split; [reflexivity|].
  destruct (proj2 (summarize_dq_validate_table "dim_tenants" 0%nat tenants_upload _
                     (eq_refl : tenants_upload !! 0%nat
                                = Some (default (mk_frame 0 []) (tenants_upload !! 0%nat))))
              ltac:(apply list_elem_of_In; vm_compute; tauto))
    as (summary & H1 & H2 & _).
  exists summary. split; [exact H1|exact H2].
Defined.

(** * Formatted identifiers *)

Lemma uint_of_string_zeros (k : nat) (s : string) (d : Decimal.uint) :
  NilEmpty.uint_of_string s = Some d ->
  exists d', NilEmpty.uint_of_string (Py.zeros k +:+ s) = Some d' /\ N.of_uint d' = N.of_uint d.
Proof.
  intros Hs. induction k as [|k (d' & Hd' & E)]; cbn [Py.zeros].
  - exists d. split; [exact Hs|reflexivity].
  - exists (Decimal.D0 d'). split.
    + change (String "0" (Py.zeros k) +:+ s) with (String "0" (Py.zeros k +:+ s)).
      cbn [NilEmpty.uint_of_string]. rewrite Hd'. reflexivity.
    + rewrite <- E. reflexivity.
Qed.

Lemma decode_fmt_0d (w : nat) (z : Z) : 0 <= z -> decode_0d (Py.fmt_0d w z) = Some (Z.to_N z).
Proof.
  intros Hz. unfold decode_0d, Py.fmt_0d.
  assert (Hd : forall k, option_map N.of_uint
                 (NilEmpty.uint_of_string (Py.zeros k +:+ Py.str_of_N (Z.to_N z)))
               = Some (Z.to_N z)).
  { intros k. unfold Py.str_of_N.
    destruct (uint_of_string_zeros k _ _ (NilEmpty.usu (N.to_uint (Z.to_N z))))
      as (d' & -> & E).
    cbn [option_map]. rewrite E. f_equal. apply DecimalN.Unsigned.of_to. }
  destruct z as [|p|p]; [apply Hd|apply Hd|lia].
Qed.

Lemma fmt_0d_inj (w : nat) (a b : Z) :
  0 <= a -> 0 <= b -> Py.fmt_0d w a = Py.fmt_0d w b -> a = b.
Proof.
  intros Ha Hb E. apply (f_equal decode_0d) in E.
  rewrite !decode_fmt_0d in E by assumption. injection E as E. lia.
Qed.

Lemma string_app_inv_head (p s1 s2 : string) : p +:+ s1 = p +:+ s2 -> s1 = s2.
Proof.
  induction p as [|c p IH]; cbn; [done|]. intros [= H]. by apply IH.
Qed.

Lemma ids_from_length (prefix : string) (w : nat) (c : Z) (n : nat) :
  length (ids_from prefix w c n) = n.
Proof. unfold ids_from. rewrite length_map, length_seqZ. apply Nat2Z.id. Qed.

Lemma ids_from_NoDup (prefix : string) (w : nat) (c : Z) (n : nat) :
  0 <= c -> NoDup (ids_from prefix w c n).
Proof.
  intros Hc. unfold ids_from. apply NoDup_fmap_2_strong; [|apply NoDup_seqZ].
  intros a b Ha Hb E. apply elem_of_seqZ in Ha, Hb.
  apply string_app_inv_head in E. apply (fmt_0d_inj w); [lia|lia|exact E].
Qed.

Lemma ids_from_app (prefix : string) (w : nat) (c : Z) (n1 n2 : nat) :
  ids_from prefix w c (n1 + n2) = ids_from prefix w c n1 ++ ids_from prefix w (c + Z.of_nat n1) n2.
Proof.
  unfold ids_from. rewrite Nat2Z.inj_add, seqZ_app by lia. apply map_app.
Qed.

Lemma ids_from_lookup (prefix : string) (w : nat) (c : Z) (n i : nat) :
  (i < n)%nat -> ids_from prefix w c n !! i = Some (prefix +:+ Py.fmt_0d w (c + Z.of_nat i)).
Proof.
  intros Hi. unfold ids_from. rewrite list_lookup_fmap, lookup_seqZ_lt by lia. reflexivity.
Qed.

(** * Loops that number their rows *)

Lemma returns_for_each_counter {A B K} (key : B -> K) (f : Z -> K) (xs : list A)
    (body : Z -> A -> M (list B * Z)) :
  (forall c x, x ∈ xs ->
     returns (body c x)
             (fun r => map key r.1 = map f (seqZ c (Z.of_nat (length r.1))) /\
                       r.2 = c + Z.of_nat (length r.1))) ->
  forall c, returns (for_each xs body c)
                    (fun r => map key r.1 = map f (seqZ c (Z.of_nat (length r.1))) /\
                              r.2 = c + Z.of_nat (length r.1)).
Proof.
  induction xs as [|x xs IH]; intros Hb c; cbn [for_each].
  - apply returns_ret. cbn. split; [reflexivity|lia].
  - eapply returns_bind; [apply Hb; left|]. intros [rows c1] [Hrows Hc1].
    eapply returns_bind; [apply IH; intros; apply Hb; by right|]. intros [rest c2] [Hrest Hc2].
    apply returns_ret. cbn [fst snd] in *. subst c1 c2.
    rewrite length_app, Nat2Z.inj_add, seqZ_app, !map_app by lia.
    rewrite Hrows, Hrest. split; [reflexivity|lia].
Qed.

Lemma returns_for_each_count {S A B} (lo hi : nat) (xs : list A)
    (body : S -> A -> M (list B * S)) :
  (forall s x, x ∈ xs -> returns (body s x) (fun r => (lo <= length r.1 <= hi)%nat)) ->
  forall s, returns (for_each xs body s)
                    (fun r => (lo * length xs <= length r.1 <= hi * length xs)%nat).
Proof.
  induction xs as [|x xs IH]; intros Hb s; cbn [for_each].
  - apply returns_ret. cbn. lia.
  - eapply returns_bind; [apply Hb; left|]. intros [rows s1] Hrows.
    eapply returns_bind; [apply IH; intros; apply Hb; by right|]. intros [rest s2] Hrest.
    apply returns_ret. cbn [fst length] in *. rewrite length_app. lia.
Qed.

(** * Draws *)

Lemma random_range (n : N) :
  (0 <= Qred (Z.of_N (n mod 2 ^ 53) # 2 ^ 53) /\ Qred (Z.of_N (n mod 2 ^ 53) # 2 ^ 53) < 1)%Q.
Proof.
  rewrite Qred_correct.
  pose proof (N.mod_lt n (2 ^ 53) ltac:(discriminate)) as H.
  set (k := (n mod 2 ^ 53)%N) in *.
  apply N2Z.inj_lt in H. pose proof (N2Z.is_nonneg k) as Hk.
  change (Z.of_N (2 ^ 53)) with (Z.pos (2 ^ 53)) in H.
  unfold Qle, Qlt. cbn [Qnum Qden]. lia.
Qed.

Lemma returns_random : returns Random.random (fun r => (0 <= r /\ r < 1)%Q).
Proof.
  unfold Random.random. eapply returns_bind; [apply returns_true|]. intros n _.
  apply returns_ret. apply random_range.
Qed.

Lemma uniform_range (a b r : Q) :
  (a <= b)%Q -> (0 <= r)%Q -> (r < 1)%Q ->
  (a <= Qred (a + (b - a) * r) /\ Qred (a + (b - a) * r) <= b)%Q.
Proof.
  intros Hab H0 H1. rewrite Qred_correct.
  assert (H : (0 <= (b - a) * r /\ (b - a) * r <= b - a)%Q) by nra.
  lra.
Qed.

Lemma returns_uniform (a b : Q) :
  (a <= b)%Q -> returns (Random.uniform a b) (fun q => (a <= q /\ q <= b)%Q).
Proof.
  intros Hab. unfold Random.uniform.
  eapply returns_bind; [apply returns_random|]. intros r [H0 H1].
  apply returns_ret. by apply uniform_range.
Qed.

(** * Rounding is monotone at the integers *)

Lemma round_half_even_le (y : Q) (m : Z) :
  (y <= inject_Z m)%Q -> Py.round_half_even y <= m.
Proof.
  intros Hy. unfold Py.round_half_even.
  pose proof (Qfloor_le y) as Hlo.
  assert (Hf : Qfloor y <= m).
  { apply Qfloor_resp_le in Hy. by rewrite Qfloor_Z in Hy. }
  destruct (Z.eq_dec (Qfloor y) m) as [E|E].
  - assert (Hz : (y - inject_Z (Qfloor y) == 0)%Q) by (rewrite E in *; lra).
    assert (Hc : Qcompare (y - inject_Z (Qfloor y)) (1 # 2) = Lt).
    { apply Qlt_alt. rewrite Hz. reflexivity. }
    rewrite Hc. exact Hf.
  - destruct (Qcompare _ _); [destruct (Z.even _)| |]; lia.
Qed.

Lemma round_half_even_ge (y : Q) (m : Z) :
  (inject_Z m <= y)%Q -> m <= Py.round_half_even y.
Proof.
  intros Hy. unfold Py.round_half_even.
  assert (Hf : m <= Qfloor y).
  { apply Qfloor_resp_le in Hy. by rewrite Qfloor_Z in Hy. }
  destruct (Qcompare _ _); [destruct (Z.even _)| |]; lia.
Qed.

Lemma round_le (x : Q) (n : nat) (m : Z) : (x <= inject_Z m)%Q -> (Py.round x n <= inject_Z m)%Q.
Proof.
  intros Hx. unfold Py.round. rewrite Qred_correct.
  set (P := Py.pow10 n).
  assert (H : Py.round_half_even (x * inject_Z (Z.pos P)) <= m * Z.pos P).
  { apply round_half_even_le. rewrite inject_Z_mult.
    apply Qmult_le_compat_r; [exact Hx|]. unfold Qle. cbn. lia. }
  unfold Qle. cbn [Qnum Qden inject_Z]. lia.
Qed.

Lemma round_ge (x : Q) (n : nat) (m : Z) : (inject_Z m <= x)%Q -> (inject_Z m <= Py.round x n)%Q.
Proof.
  intros Hx. unfold Py.round. rewrite Qred_correct.
  set (P := Py.pow10 n).
  assert (H : m * Z.pos P <= Py.round_half_even (x * inject_Z (Z.pos P))).
  { apply round_half_even_ge. rewrite inject_Z_mult.
    apply Qmult_le_compat_r; [exact Hx|]. unfold Qle. cbn. lia. }
  unfold Qle. cbn [Qnum Qden inject_Z]. lia.
Qed.

Lemma Qmin_le_l (a b : Q) : (Py.Qmin a b <= a)%Q.
Proof.
  unfold Py.Qmin. destruct (Qle_bool a b) eqn:E; [lra|].
  destruct (Qlt_le_dec b a) as [H|H]; [lra|]. apply Qle_bool_iff in H. congruence.
Qed.

(** * Computations that always return, computations that always raise *)

Lemma succeeds_ret {A} (a : A) (P : A -> Prop) : P a -> succeeds (mret a) P.
Proof. intros H s. exists a, s. split; [reflexivity|exact H]. Qed.

Lemma succeeds_bind {A B} (m : M A) (f : A -> M B) (P : A -> Prop) (Q : B -> Prop) :
  succeeds m P -> (forall a, P a -> succeeds (f a) Q) -> succeeds (m ≫= f) Q.
Proof.
  intros Hm Hf s. destruct (Hm s) as (a & s1 & E & Ha).
  destruct (Hf a Ha s1) as (b & s2 & E2 & Hb).
  exists b, s2. split; [|exact Hb]. unfold mbind, M_bind. rewrite E. exact E2.
Qed.

Lemma succeeds_weaken {A} (m : M A) (P Q : A -> Prop) :
  succeeds m P -> (forall a, P a -> Q a) -> succeeds m Q.
Proof. intros H HPQ s. destruct (H s) as (a & s' & E & Ha). exists a, s'. auto. Qed.

Lemma succeeds_returns {A} (m : M A) (P Q : A -> Prop) :
  succeeds m P -> returns m Q -> succeeds m (fun a => P a /\ Q a).
Proof.
  intros Ht Hr s. destruct (Ht s) as (a & s' & E & Ha). exists a, s'.
  split; [exact E|]. split; [exact Ha|exact (Hr _ _ _ E)].
Qed.

Lemma succeeds_draw : succeeds draw (fun _ => True).
Proof. intros s. eexists _, _. split; [reflexivity|exact I]. Qed.

Lemma succeeds_random : succeeds Random.random (fun r => (0 <= r /\ r < 1)%Q).
Proof.
  unfold Random.random. eapply succeeds_bind; [apply succeeds_draw|]. intros n _.
  apply succeeds_ret. apply random_range.
Qed.

Lemma succeeds_uniform (a b : Q) :
  (a <= b)%Q -> succeeds (Random.uniform a b) (fun q => (a <= q /\ q <= b)%Q).
Proof.
  intros Hab. unfold Random.uniform. eapply succeeds_bind; [apply succeeds_random|].
  intros r [H0 H1]. apply succeeds_ret. by apply uniform_range.
Qed.

Lemma succeeds_randint (a b : Z) : a <= b -> succeeds (Random.randint a b) (fun z => a <= z <= b).
Proof.
  intros Hab. unfold Random.randint.
  destruct (b <? a) eqn:E; [apply Z.ltb_lt in E; lia|].
  eapply succeeds_bind; [apply succeeds_draw|]. intros n _. apply succeeds_ret.
  pose proof (Z.mod_pos_bound (Z.of_N n) (b - a + 1) ltac:(lia)). lia.
Qed.

Lemma succeeds_choice {A} (l : list A) : l <> [] -> succeeds (Random.choice l) (fun x => x ∈ l).
Proof.
  intros Hl. unfold Random.choice. destruct l as [|x l]; [done|].
  eapply succeeds_bind; [apply succeeds_draw|]. intros n _. apply succeeds_ret.
  apply list_elem_of_In, nth_In.
  pose proof (N.mod_lt n (N.of_nat (length (x :: l))) ltac:(simpl; lia)). lia.
Qed.

Lemma succeeds_for_each {S A B} (xs : list A) (body : S -> A -> M (list B * S)) :
  (forall s x, x ∈ xs -> succeeds (body s x) (fun _ => True)) ->
  forall s, succeeds (for_each xs body s) (fun _ => True).
Proof.
  induction xs as [|x xs IH]; intros Hb s; cbn [for_each].
  - by apply succeeds_ret.
  - eapply succeeds_bind; [apply Hb; left|]. intros [rows s1] _.
    eapply succeeds_bind; [apply IH; intros; apply Hb; by right|]. intros [rest s2] _.
    by apply succeeds_ret.
Qed.

Lemma fails_raise {A} (e : exn) : fails (raise e : M A) e.
Proof. intros s. exists s. reflexivity. Qed.

Lemma fails_bind_l {A B} (m : M A) (f : A -> M B) (e : exn) :
  fails m e -> fails (m ≫= f) e.
Proof.
  intros Hm s. destruct (Hm s) as (s' & E). exists s'. unfold mbind, M_bind. by rewrite E.
Qed.

Lemma fails_bind_r {A B} (m : M A) (f : A -> M B) (P : A -> Prop) (e : exn) :
  succeeds m P -> (forall a, P a -> fails (f a) e) -> fails (m ≫= f) e.
Proof.
  intros Hm Hf s. destruct (Hm s) as (a & s1 & E & Ha).
  destruct (Hf a Ha s1) as (s2 & E2). exists s2. unfold mbind, M_bind. rewrite E. exact E2.
Qed.

Lemma fails_choice_nil {A} :
  fails (Random.choice (@nil A)) (IndexError "Cannot choose from an empty sequence").
Proof. apply fails_raise. Qed.

Lemma fails_for_each_head {S A B} (x : A) (xs : list A) (body : S -> A -> M (list B * S))
    (s : S) (e : exn) :
  fails (body s x) e -> fails (for_each (x :: xs) body s) e.
Proof. intros H. cbn [for_each]. by apply fails_bind_l. Qed.

Ltac tstep :=
  lazymatch goal with
  | |- succeeds (mret _) _ => apply succeeds_ret
  | |- succeeds (mbind _ (Random.randint _ _)) _ =>
      eapply succeeds_bind; [apply succeeds_randint; lia|]; intros ? ?
  | |- succeeds (mbind _ (Random.uniform _ _)) _ =>
      eapply succeeds_bind; [apply succeeds_uniform; discriminate|]; intros ? ?
  | |- succeeds (mbind _ Random.random) _ =>
      eapply succeeds_bind; [apply succeeds_random|]; intros ? ?
  | |- succeeds (mbind _ (Random.choice ?l)) _ =>
      eapply succeeds_bind;
      [apply succeeds_choice;
       first [discriminate | let l' := eval hnf in l in change l with l'; discriminate]|];
      intros ? ?
  | |- succeeds (mbind _ (mret ?v)) _ =>
      eapply succeeds_bind; [apply (succeeds_ret v (fun x => x = v)); reflexivity|];
      intros ? ->
  | |- succeeds (if ?c then _ else _) _ => destruct c eqn:?
  | |- succeeds (match ?x with _ => _ end) _ => destruct x eqn:?
  | |- succeeds (let _ := _ in _) _ => cbv zeta
  end.

Ltac trun := repeat tstep; cbv beta in *.

Ltac gstep :=
  lazymatch goal with
  | |- returns (mbind _ (Random.uniform ?a ?b)) _ =>
      eapply returns_bind; [apply (returns_uniform a b); discriminate|]; intros ? ?
  | |- returns (mbind _ Random.random) _ =>
      eapply returns_bind; [apply returns_random|]; intros ? ?
  | _ => mstep
  end.

Ltac grun := repeat gstep; cbv beta in *.

Lemma returned_result {A} (d : A) (r : outcome A * rng_state) :
  returned r = true -> r = (Ok (result_of d r), r.2).
Proof.
  destruct r as [[a|e] s]; unfold returned, result_of; cbn [fst snd]; [reflexivity|discriminate].
Qed.

Lemma succeeds_returns_eq {A} (m : M A) (P : A -> Prop) (s : rng_state) :
  succeeds m P -> exists a s', m s = (Ok a, s').
Proof. intros H. destruct (H s) as (a & s' & E & _). by exists a, s'. Qed.

(** * Production batches *)

Lemma generate_production_batches_ids (formulations : list formulation)
    (employees : list employee) :
  returns (generate_production_batches formulations employees)
          (fun batches => map pb_batch_id batches = ids_from "BATCH-" 4 1 100).
Proof.
  unfold generate_production_batches. cbv zeta.
  eapply returns_bind.
  { apply returns_and.
    - apply (returns_for_each_counter pb_batch_id (fun i => "BATCH-" +:+ Py.fmt_0d 4 i)).
      intros c x _. mrun. cbn [fst snd map length pb_batch_id].
      split; [reflexivity|lia].
    - apply returns_for_each_length. intros c x _. mrun; reflexivity. }
  intros [batches c] [[Hids _] Hlen]. cbv beta iota. apply returns_ret.
  cbn [fst] in *. rewrite length_range in Hlen. rewrite Hids, Hlen. reflexivity.
Qed.

Lemma generate_production_batches_ok (formulations : list formulation)
    (employees : list employee) :
  returns (generate_production_batches formulations employees)
          (Forall (batch_ok formulations employees)).
Proof.
  unfold generate_production_batches. cbv zeta.
  eapply returns_bind.
  { apply (returns_for_each (batch_ok formulations employees)). intros c x _. mrun.
    match goal with
    | Hf : ?f ∈ filter _ formulations |- _ =>
        apply list_elem_of_filter in Hf as [Hactive Hf]; rename f into formulation
    end.
    match goal with
    | Hs : _ ∈ map em_employee_id _ |- _ =>
        apply list_elem_of_fmap in Hs as (e & -> & He);
        apply list_elem_of_filter in He as [Hdept He]
    end.
    match goal with
    | Hs : ?st ∈ [_; _; _; _; _] |- _ => rename Hs into Hstatus
    end.
    constructor; [|constructor].
    unfold batch_ok. cbn [pb_formulation_id pb_supervisor_id pb_planned_quantity pb_status
                          pb_quality_score].
    split; [exists formulation; done|]. split; [exists e; done|]. split; [lia|]. split.
    - repeat (apply elem_of_cons in Hstatus as [->|Hstatus]);
        [| | | | |by apply elem_of_nil in Hstatus];
        apply list_elem_of_In; cbn; tauto.
    - apply (round_le _ 1 100). apply Qmin_le_l. }
  intros [batches c] H. cbv beta iota. apply returns_ret. exact H.
Qed.

(** X6.  The batches of a run of [generate_production_batches]: there are
    100, their identifiers are BATCH-0001 .. BATCH-0100 in order, hence
    pairwise distinct; each batch carries the identifier of a formulation of
    the input whose status is Active and, as supervisor, the identifier of an
    employee of the Production department; its planned quantity lies in
    100 .. 1000, its status is one of the three of the source, and its
    quality score is at most 100. *)
Theorem generate_production_batches_rows (formulations : list formulation)
    (employees : list employee) (s s' : rng_state) (batches : list batch) :
  generate_production_batches formulations employees s = (Ok batches, s') ->
  length batches = 100%nat /\
  map pb_batch_id batches = ids_from "BATCH-" 4 1 100 /\
  NoDup (map pb_batch_id batches) /\
  Forall (batch_ok formulations employees) batches.
Proof.
  intros Hrun.
  pose proof (generate_production_batches_ids formulations employees _ _ _ Hrun) as Hids.
  pose proof (generate_production_batches_ok formulations employees _ _ _ Hrun) as Hok.
  cbv beta in Hids. split; [|split; [exact Hids|split; [|exact Hok]]].
  - apply (f_equal length) in Hids. by rewrite length_map, ids_from_length in Hids.
  - rewrite Hids. apply ids_from_NoDup. lia.
Qed.

Lemma generate_production_batches_rows_witness :
  let batches :=
    result_of [] (generate_production_batches sample_formulations sample_employees
                                              initial_state) in
  length batches = 100%nat /\
  map pb_batch_id batches = ids_from "BATCH-" 4 1 100 /\
  NoDup (map pb_batch_id batches) /\
  Forall (batch_ok sample_formulations sample_employees) batches.
Proof.
  exact (generate_production_batches_rows sample_formulations sample_employees
           initial_state _ _
           (returned_result []
              (generate_production_batches sample_formulations sample_employees
                                           initial_state)
              ltac:(vm_compute; reflexivity))).
Defined.

Lemma generate_production_batches_succeeds (formulations : list formulation)
    (employees : list employee) :
  (exists f, f ∈ formulations /\ fm_status f = "Active"%string) ->
  (exists e, e ∈ employees /\ em_department e = "Production"%string) ->
  succeeds (generate_production_batches formulations employees) (fun _ => True).
Proof.
  intros (f & Hf & Hfs) (e & He & Hed). unfold generate_production_batches. cbv zeta.
  set (active := filter (fun f => fm_status f = "Active"%string) formulations).
  set (staff := map em_employee_id
                    (filter (fun e => em_department e = "Production"%string) employees)).
  assert (Ha : active <> []).
  { intros E. assert (H : f ∈ active) by (by apply list_elem_of_filter).
    rewrite E in H. by apply elem_of_nil in H. }
  assert (Hs : staff <> []).
  { intros E. assert (H : em_employee_id e ∈ staff).
    { apply list_elem_of_fmap. exists e. split; [reflexivity|]. by apply list_elem_of_filter. }
    rewrite E in H. by apply elem_of_nil in H. }
  eapply succeeds_bind.
  { apply succeeds_for_each. intros c x _.
    eapply succeeds_bind; [by apply succeeds_choice|]. intros f' _.
    repeat tstep.
    eapply succeeds_bind; [by apply succeeds_choice|]. intros sup _.
    trun. exact I. }
  intros [batches c] _. by apply succeeds_ret.
Qed.

Lemma generate_production_batches_fails (formulations : list formulation)
    (employees : list employee) :
  ~ ((exists f, f ∈ formulations /\ fm_status f = "Active"%string) /\
     (exists e, e ∈ employees /\ em_department e = "Production"%string)) ->
  fails (generate_production_batches formulations employees)
        (IndexError "Cannot choose from an empty sequence").
Proof.
  unfold generate_production_batches. cbv zeta.
  set (active := filter (fun f => fm_status f = "Active"%string) formulations).
  set (staff := map em_employee_id
                    (filter (fun e => em_department e = "Production"%string) employees)).
  assert (Hactive : active <> [] -> exists f, f ∈ formulations /\ fm_status f = "Active"%string).
  { intros H. destruct active as [|f l] eqn:E; [done|]. exists f.
    assert (Hf : f ∈ active) by (rewrite E; left).
    apply list_elem_of_filter in Hf. tauto. }
  assert (Hstaff : staff <> [] ->
                   exists e, e ∈ employees /\ em_department e = "Production"%string).
  { intros H. destruct staff as [|i l] eqn:E; [done|].
    assert (Hi : i ∈ staff) by (rewrite E; left).
    apply list_elem_of_fmap in Hi as (e & _ & He).
    apply list_elem_of_filter in He. exists e. tauto. }
  intros Hnot. apply fails_bind_l. change (range 100) with (0 :: map Z.of_nat (seq 1 99)).
  apply fails_for_each_head.
  destruct active as [|f l]; [apply fails_bind_l, fails_choice_nil|].
  destruct staff as [|i l'];
    [|exfalso; apply Hnot; split; [apply Hactive|apply Hstaff]; discriminate].
  eapply fails_bind_r; [by apply succeeds_choice|]. intros f' _.
  eapply fails_bind_r; [apply succeeds_randint; lia|]. intros pm _.
  eapply fails_bind_r; [apply succeeds_randint; lia|]. intros pd _.
  eapply fails_bind_r; [apply succeeds_randint; lia|]. intros planned _.
  eapply fails_bind_r; [apply succeeds_uniform; discriminate|]. intros noise _. cbv zeta.
  eapply fails_bind_r; [by apply succeeds_choice|]. intros status _. cbv zeta.
  eapply fails_bind_r; [apply succeeds_uniform; discriminate|]. intros cn _. cbv zeta.
  eapply fails_bind_r; [apply succeeds_uniform; discriminate|]. intros qn _. cbv zeta.
  eapply fails_bind_r; [apply succeeds_randint; lia|]. intros eq _.
  apply fails_bind_l, fails_choice_nil.
Qed.

(** X7.  [generate_production_batches] returns exactly when the input has
    a formulation whose status is Active and an employee of the Production
    department; otherwise it raises the [IndexError] of [random.choice] on an
    empty list, in every generator state. *)
Theorem generate_production_batches_outcome (formulations : list formulation)
    (employees : list employee) (s : rng_state) :
  ((exists f, f ∈ formulations /\ fm_status f = "Active"%string) /\
   (exists e, e ∈ employees /\ em_department e = "Production"%string) ->
   exists batches s',
     generate_production_batches formulations employees s = (Ok batches, s')) /\
  (~ ((exists f, f ∈ formulations /\ fm_status f = "Active"%string) /\
      (exists e, e ∈ employees /\ em_department e = "Production"%string)) ->
   exists s',
     generate_production_batches formulations employees s
     = (Raise (IndexError "Cannot choose from an empty sequence"), s')).
Proof.
  split.
  - intros [Ha Hs].
    destruct (generate_production_batches_succeeds _ _ Ha Hs s) as (batches & s' & E & _).
    exists batches, s'. exact E.
  - intros Hnot. exact (generate_production_batches_fails _ _ Hnot s).
Qed.

Lemma filter_nonempty {A} (P : A -> Prop) `{forall x, Decision (P x)} (l : list A) :
  filter P l <> [] <-> exists x, x ∈ l /\ P x.
Proof.
  split.
  - intros Hne. destruct (filter P l) as [|x l'] eqn:E; [done|]. exists x.
    assert (Hx : x ∈ filter P l) by (rewrite E; left).
    apply list_elem_of_filter in Hx. tauto.
  - intros (x & Hx & HP) E. assert (Hin : x ∈ filter P l) by (by apply list_elem_of_filter).
    rewrite E in Hin. by apply elem_of_nil in Hin.
Qed.

Lemma map_nonempty {A B} (f : A -> B) (l : list A) : map f l <> [] <-> l <> [].
Proof. destruct l; cbn; split; congruence. Qed.

Lemma nonempty_elem {A} (l : list A) : l <> [] <-> exists x, x ∈ l.
Proof.
  destruct l as [|x l]; split; try done.
  - intros [x Hx]. by apply elem_of_nil in Hx.
  - intros _. exists x. left.
Qed.

Ltac fstep :=
  lazymatch goal with
  | |- fails (mbind _ (Random.randint _ _)) _ =>
      eapply fails_bind_r; [apply succeeds_randint; lia|]; intros ? _
  | |- fails (mbind _ (Random.uniform _ _)) _ =>
      eapply fails_bind_r; [apply succeeds_uniform; discriminate|]; intros ? _
  | |- fails (mbind _ Random.random) _ =>
      eapply fails_bind_r; [apply succeeds_random|]; intros ? _
  | |- fails (mbind _ (Random.choice (_ :: _))) _ =>
      eapply fails_bind_r; [apply succeeds_choice; discriminate|]; intros ? _
  | |- fails (mbind _ (Random.choice [])) _ => apply fails_bind_l, fails_choice_nil
  | |- fails (mbind _ (if ?c then _ else _)) _ => destruct c eqn:?
  | |- fails (let _ := _ in _) _ => cbv zeta
  end.

Ltac first_round n :=
  apply fails_bind_l;
  change (range (S n)) with (0 :: map Z.of_nat (seq 1 n));
  apply fails_for_each_head.

(** * Sales *)

Lemma generate_sales_transactions_ids (items : list inventory_item)
    (customers : list customer) (employees : list employee) :
  returns (generate_sales_transactions items customers employees)
          (fun sales => map sa_transaction_id sales = ids_from "SALE-" 6 1 500).
Proof.
  unfold generate_sales_transactions. cbv zeta.
  eapply returns_bind.
  { apply returns_and.
    - apply (returns_for_each_counter sa_transaction_id (fun i => "SALE-" +:+ Py.fmt_0d 6 i)).
      intros c x _. mrun; (split; [reflexivity|cbn; lia]).
    - apply returns_for_each_length. intros c x _. mrun; reflexivity. }
  intros [sales c] [[Hids _] Hlen]. cbv beta iota. apply returns_ret.
  cbn [fst] in *. rewrite length_range in Hlen. rewrite Hids, Hlen. reflexivity.
Qed.

Lemma generate_sales_transactions_ok (items : list inventory_item)
    (customers : list customer) (employees : list employee) :
  returns (generate_sales_transactions items customers employees)
          (Forall (sale_ok items customers employees)).
Proof.
  unfold generate_sales_transactions. cbv zeta.
  eapply returns_bind.
  { apply (returns_for_each (sale_ok items customers employees)). intros c x _.
    eapply returns_bind; [apply returns_choice|]. intros customer Hcustomer.
    eapply returns_bind; [apply returns_choice|]. intros item Hitem.
    eapply returns_bind; [apply (returns_uniform 1.5 3.0); discriminate|].
    intros markup Hmarkup. cbv zeta.
    eapply returns_bind; [apply returns_randint|]. intros quantity Hquantity. cbv zeta.
    eapply returns_bind.
    { instantiate (1 := fun rate =>
        if String.eqb (cu_customer_type customer) "Business"
        then (0.05 <= rate /\ rate <= 0.20)%Q else (0 <= rate /\ rate <= 0.10)%Q).
      destruct (String.eqb (cu_customer_type customer) "Business").
      - apply (returns_uniform 0.05 0.20). discriminate.
      - apply (returns_uniform 0 0.10). discriminate. }
    intros rate Hrate. grun.
    match goal with
    | Hs : _ ∈ map em_employee_id _ |- _ =>
        apply list_elem_of_fmap in Hs as (e & -> & He);
        apply list_elem_of_filter in He as [Hdept He]
    end.
    match goal with
    | Hs : ?st ∈ [_; _; _; _; _] |- _ => rename Hs into Hstatus
    end.
    constructor; [|constructor].
    unfold sale_ok.
    cbn [sa_sku sa_unit_price sa_customer_id sa_discount_amount sa_total_amount
         sa_employee_id sa_quantity sa_tax_amount sa_payment_status].
    split; [exists item, markup; done|].
    split; [exists customer, rate; done|].
    split; [exists e; done|]. split; [lia|]. split; [reflexivity|]. split; [reflexivity|].
    repeat (apply elem_of_cons in Hstatus as [->|Hstatus]);
      [| | | | |by apply elem_of_nil in Hstatus];
      apply list_elem_of_In; cbn; tauto. }
  intros [sales c] H. cbv beta iota. apply returns_ret. exact H.
Qed.

(** X8.  The rows of a run of [generate_sales_transactions]: there are
    500, numbered SALE-000001 .. SALE-000500 in order, hence pairwise
    distinct; each row carries the sku of an item of the input, whose cost
    marked up by a factor of 1.5 to 3 is its unit price, the identifier of a
    customer of the input, whose type fixes the range of the discount rate
    (5% to 20% for a Business, 0 to 10% otherwise), and the identifier of an
    employee of Sales & Marketing; the quantity lies in 1 .. 20, the total is
    the rounded product of price and quantity, and the tax is 16% of the
    discounted total, rounded. *)
Theorem generate_sales_transactions_rows (items : list inventory_item)
    (customers : list customer) (employees : list employee) (s s' : rng_state)
    (sales : list sale) :
  generate_sales_transactions items customers employees s = (Ok sales, s') ->
  map sa_transaction_id sales = ids_from "SALE-" 6 1 500 /\
  NoDup (map sa_transaction_id sales) /\
  Forall (sale_ok items customers employees) sales.
Proof.
  intros Hrun.
  pose proof (generate_sales_transactions_ids items customers employees _ _ _ Hrun) as Hids.
  pose proof (generate_sales_transactions_ok items customers employees _ _ _ Hrun) as Hok.
  cbv beta in Hids. split; [exact Hids|]. split; [|exact Hok].
  rewrite Hids. apply ids_from_NoDup. lia.
Qed.

Lemma generate_sales_transactions_rows_witness :
  let sales :=
    result_of [] (generate_sales_transactions sample_items sample_customers sample_employees
                                              initial_state) in
  map sa_transaction_id sales = ids_from "SALE-" 6 1 500 /\
  NoDup (map sa_transaction_id sales) /\
  Forall (sale_ok sample_items sample_customers sample_employees) sales.
Proof.
  exact (generate_sales_transactions_rows sample_items sample_customers sample_employees
           initial_state _ _
           (returned_result []
              (generate_sales_transactions sample_items sample_customers sample_employees
                                           initial_state)
              ltac:(vm_compute; reflexivity))).
Defined.

Lemma sales_staff (employees : list employee) :
  map em_employee_id
      (filter (fun e => em_department e = "Sales & Marketing"%string) employees) <> [] <->
  exists e, e ∈ employees /\ em_department e = "Sales & Marketing"%string.
Proof. rewrite map_nonempty. apply filter_nonempty. Qed.

Lemma generate_sales_transactions_succeeds (items : list inventory_item)
    (customers : list customer) (employees : list employee) :
  customers <> [] -> items <> [] ->
  (exists e, e ∈ employees /\ em_department e = "Sales & Marketing"%string) ->
  succeeds (generate_sales_transactions items customers employees) (fun _ => True).
Proof.
  intros Hc Hi Hs. apply sales_staff in Hs.
  unfold generate_sales_transactions. cbv zeta.
  eapply succeeds_bind.
  { apply succeeds_for_each. intros c x _.
    eapply succeeds_bind; [by apply succeeds_choice|]. intros customer _.
    eapply succeeds_bind; [by apply succeeds_choice|]. intros item _.
    repeat tstep.
    eapply succeeds_bind.
    { instantiate (1 := fun _ => True).
      destruct (String.eqb _ _);
        (eapply succeeds_weaken; [apply succeeds_uniform; discriminate|done]). }
    intros rate _. repeat tstep.
    eapply succeeds_bind; [by apply succeeds_choice|]. intros employee _.
    trun. exact I. }
  intros [sales c] _. by apply succeeds_ret.
Qed.

(** X9.  [generate_sales_transactions] returns exactly when the input has
    a customer, an inventory item and an employee of Sales & Marketing;
    otherwise it raises the [IndexError] of [random.choice] on an empty list. *)
Theorem generate_sales_transactions_outcome (items : list inventory_item)
    (customers : list customer) (employees : list employee) (s : rng_state) :
  (customers <> [] /\ items <> [] /\
   (exists e, e ∈ employees /\ em_department e = "Sales & Marketing"%string) ->
   exists sales s', generate_sales_transactions items customers employees s = (Ok sales, s')) /\
  (~ (customers <> [] /\ items <> [] /\
      (exists e, e ∈ employees /\ em_department e = "Sales & Marketing"%string)) ->
   exists s',
     generate_sales_transactions items customers employees s
     = (Raise (IndexError "Cannot choose from an empty sequence"), s')).
Proof.
  split.
  - intros (Hc & Hi & Hs).
    destruct (generate_sales_transactions_succeeds _ _ _ Hc Hi Hs s) as (sales & s' & E & _).
    exists sales, s'. exact E.
  - intros Hnot.
    assert (F : fails (generate_sales_transactions items customers employees)
                      (IndexError "Cannot choose from an empty sequence")); [|exact (F s)].
    rewrite <- sales_staff in Hnot. unfold generate_sales_transactions. cbv zeta.
    set (staff := map em_employee_id
                      (filter (fun e => em_department e = "Sales & Marketing"%string)
                              employees)) in *.
    first_round 499%nat.
    destruct customers as [|c0 cs]; [apply fails_bind_l, fails_choice_nil|].
    eapply fails_bind_r; [by apply succeeds_choice|]. intros customer _.
    destruct items as [|i0 items0]; [apply fails_bind_l, fails_choice_nil|].
    eapply fails_bind_r; [by apply succeeds_choice|]. intros item _.
    destruct staff as [|e0 es]; [|exfalso; apply Hnot; done].
    repeat fstep.
Qed.

(** * E-commerce orders *)

Lemma generate_ecommerce_orders_ids (customers : list customer) (sales : list sale) :
  returns (generate_ecommerce_orders customers sales)
          (fun orders => map eo_order_id orders = ids_from "ECOMM-" 6 1 200).
Proof.
  unfold generate_ecommerce_orders. cbv zeta.
  eapply returns_bind.
  { apply returns_and.
    - apply (returns_for_each_counter eo_order_id (fun i => "ECOMM-" +:+ Py.fmt_0d 6 i)).
      intros c x _. mrun; (split; [reflexivity|cbn; lia]).
    - apply returns_for_each_length. intros c x _. mrun; reflexivity. }
  intros [orders c] [[Hids _] Hlen]. cbv beta iota. apply returns_ret.
  cbn [fst] in *. rewrite length_range in Hlen. rewrite Hids, Hlen. reflexivity.
Qed.

Lemma generate_ecommerce_orders_ok (customers : list customer) (sales : list sale) :
  returns (generate_ecommerce_orders customers sales) (Forall (order_ok customers)).
Proof.
  unfold generate_ecommerce_orders. cbv zeta.
  eapply returns_bind.
  { apply (returns_for_each (order_ok customers)). intros c x _. grun.
    match goal with
    | Hc : ?cu ∈ filter _ customers |- _ =>
        apply list_elem_of_filter in Hc as [Htype Hc]; rename cu into customer
    end.
    constructor; [|constructor]. unfold order_ok.
    cbn [eo_customer_id eo_total_amount eo_shipping_amount eo_tax_amount eo_discount_amount
         eo_net_amount eo_website_session_id].
    split; [exists customer; done|].
    repeat match goal with H : (_ <= _ /\ _ <= _)%Q |- _ => destruct H end.
    split; [split; [by apply (round_ge _ 2 1000)|by apply (round_le _ 2 50000)]|].
    split; [split; [by apply (round_ge _ 2 200)|by apply (round_le _ 2 2000)]|].
    split; [reflexivity|]. split; [eexists; split; [|reflexivity]; done|].
    split; [reflexivity|]. eexists. split; [|reflexivity]. lia. }
  intros [orders c] H. cbv beta iota. apply returns_ret. exact H.
Qed.

(** X10.  The rows of a run of [generate_ecommerce_orders]: there are 200,
    numbered ECOMM-000001 .. ECOMM-000200 in order, hence pairwise distinct;
    each order carries the identifier of a customer of the input whose type
    is Individual; the subtotal lies in 1000 .. 50000, the shipping in
    200 .. 2000, the tax is 16% of the subtotal, the discount at most 15% of
    it, the net amount is subtotal + shipping + tax - discount (each rounded
    to 2 places), and the session reference is SESS- followed by a number of
    100000 .. 999999. *)
Theorem generate_ecommerce_orders_rows (customers : list customer) (sales : list sale)
    (s s' : rng_state) (orders : list ecommerce_order) :
  generate_ecommerce_orders customers sales s = (Ok orders, s') ->
  map eo_order_id orders = ids_from "ECOMM-" 6 1 200 /\
  NoDup (map eo_order_id orders) /\
  Forall (order_ok customers) orders.
Proof.
  intros Hrun.
  pose proof (generate_ecommerce_orders_ids customers sales _ _ _ Hrun) as Hids.
  pose proof (generate_ecommerce_orders_ok customers sales _ _ _ Hrun) as Hok.
  cbv beta in Hids. split; [exact Hids|]. split; [|exact Hok].
  rewrite Hids. apply ids_from_NoDup. lia.
Qed.

Lemma generate_ecommerce_orders_rows_witness :
  let orders :=
    result_of [] (generate_ecommerce_orders sample_customers [] initial_state) in
  map eo_order_id orders = ids_from "ECOMM-" 6 1 200 /\
  NoDup (map eo_order_id orders) /\
  Forall (order_ok sample_customers) orders.
Proof.
  exact (generate_ecommerce_orders_rows sample_customers [] initial_state _ _
           (returned_result []
              (generate_ecommerce_orders sample_customers [] initial_state)
              ltac:(vm_compute; reflexivity))).
Defined.

Lemma generate_ecommerce_orders_succeeds (customers : list customer) (sales : list sale) :
  (exists c, c ∈ customers /\ cu_customer_type c = "Individual"%string) ->
  succeeds (generate_ecommerce_orders customers sales) (fun _ => True).
Proof.
  rewrite <- (filter_nonempty (fun c => cu_customer_type c = "Individual"%string)).
  intros Hb. unfold generate_ecommerce_orders. cbv zeta.
  eapply succeeds_bind.
  { apply succeeds_for_each. intros c x _.
    eapply succeeds_bind; [by apply succeeds_choice|]. intros customer _.
    trun. exact I. }
  intros [orders c] _. by apply succeeds_ret.
Qed.

(** X11.  [generate_ecommerce_orders] returns exactly when the input has a
    customer whose type is Individual, whatever the sales passed to it;
    otherwise it raises the [IndexError] of [random.choice] on an empty list
    before anything is drawn. *)
Theorem generate_ecommerce_orders_outcome (customers : list customer) (sales : list sale)
    (s : rng_state) :
  ((exists c, c ∈ customers /\ cu_customer_type c = "Individual"%string) ->
   exists orders s', generate_ecommerce_orders customers sales s = (Ok orders, s')) /\
  (~ (exists c, c ∈ customers /\ cu_customer_type c = "Individual"%string) ->
   generate_ecommerce_orders customers sales s
   = (Raise (IndexError "Cannot choose from an empty sequence"), s)).
Proof.
  split.
  - intros Hb.
    destruct (generate_ecommerce_orders_succeeds _ sales Hb s) as (orders & s' & E & _).
    exists orders, s'. exact E.
  - unfold generate_ecommerce_orders. cbv zeta.
    rewrite <- (filter_nonempty (fun c => cu_customer_type c = "Individual"%string)).
    set (b2c := filter (fun c => cu_customer_type c = "Individual"%string) customers).
    intros Hnot. destruct b2c as [|c0 cs]; [reflexivity|]. exfalso. by apply Hnot.
Qed.

(** * Inventory transactions *)

Lemma counter_one {B K} (key : B -> K) (f : Z -> K) (c : Z) (b : B) :
  key b = f c ->
  map key [b] = map f (seqZ c (Z.of_nat (length [b]))) /\ c + 1 = c + Z.of_nat (length [b]).
Proof. intros H. cbn. rewrite H. split; [reflexivity|lia]. Qed.

Lemma counter_none {B K} (key : B -> K) (f : Z -> K) (c : Z) :
  map key [] = map f (seqZ c (Z.of_nat (length (@nil B)))) /\ c = c + Z.of_nat (length (@nil B)).
Proof. cbn. split; [reflexivity|lia]. Qed.

Lemma staff_department (employees : list employee) (i : string) :
  i ∈ map em_employee_id
        (filter (fun e => mem_string (em_department e) ["Supply Chain"; "Production"])
                employees) ->
  exists e, e ∈ employees /\
            (em_department e = "Supply Chain" \/ em_department e = "Production")%string /\
            em_employee_id e = i.
Proof.
  intros Hi. apply list_elem_of_fmap in Hi as (e & -> & He).
  apply list_elem_of_filter in He as [Hdept He]. exists e. split; [exact He|].
  split; [|reflexivity]. apply Is_true_true in Hdept. apply mem_string_spec in Hdept.
  apply elem_of_cons in Hdept as [->|Hdept]; [by left|].
  apply elem_of_cons in Hdept as [->|Hdept]; [by right|]. by apply elem_of_nil in Hdept.
Qed.

Lemma generate_inventory_transactions_ids (items : list inventory_item)
    (batches : list batch) (employees : list employee) (formulations : list formulation) :
  returns (generate_inventory_transactions items batches employees formulations)
          (fun txs => map tx_transaction_id txs = ids_from "INV-" 6 1 (length txs)).
Proof.
  unfold generate_inventory_transactions. cbv zeta.
  pose (f := fun i => "INV-" +:+ Py.fmt_0d 6 i).
  eapply returns_bind.
  { apply (returns_for_each_counter tx_transaction_id f).
    intros c b _. mrun; first [by apply counter_one|apply counter_none]. }
  intros [receipts c1] [H1 E1]. cbv beta iota.
  eapply returns_bind.
  { apply (returns_for_each_counter tx_transaction_id f).
    intros c item _. mrun; [|apply counter_none].
    apply (returns_for_each_counter tx_transaction_id f).
    intros c' x _. mrun. by apply counter_one. }
  intros [issues c2] [H2 E2]. cbv beta iota.
  eapply returns_bind.
  { apply (returns_for_each_counter tx_transaction_id f).
    intros c x _. mrun. by apply counter_one. }
  intros [transfers c3] [H3 E3]. cbv beta iota. apply returns_ret.
  cbn [fst snd] in *. subst c1 c2.
  rewrite !map_app, !length_app, !ids_from_app. unfold ids_from.
  rewrite H1, H2, H3. repeat f_equal; lia.
Qed.

Lemma generate_inventory_transactions_ok (items : list inventory_item)
    (batches : list batch) (employees : list employee) (formulations : list formulation) :
  returns (generate_inventory_transactions items batches employees formulations)
          (Forall (transaction_ok items batches employees)).
Proof.
  unfold generate_inventory_transactions. cbv zeta.
  eapply returns_bind.
  { apply (returns_for_each (transaction_ok items batches employees)). intros c b Hb.
    destruct (String.eqb (pb_status b) "Completed") eqn:Hstatus; [|mrun; constructor].
    apply String.eqb_eq in Hstatus.
    destruct (negb _); [|mrun; constructor].
    destruct (filter _ items) as [|item rest] eqn:Hitems; [mrun; constructor|].
    assert (Hitem : item ∈ items).
    { assert (H : item ∈ filter
                    (fun i => it_item_name i
                              = default EmptyString
                                  (assoc_get (pb_formulation_id b)
                                     (dict_of_pairs
                                        (map (fun f => (fm_formulation_id f, fm_product_name f))
                                             formulations)))) items)
        by (rewrite Hitems; left).
      apply list_elem_of_filter in H. tauto. }
    mrun. match goal with H : _ ∈ map em_employee_id _ |- _ =>
                 apply staff_department in H as (e & He & Hdept & <-) end.
    constructor; [|constructor]. unfold transaction_ok.
    cbn [tx_sku tx_unit_cost tx_employee_id tx_transaction_type tx_batch_id tx_quantity
         tx_transaction_date].
    split; [exists item; done|]. split; [exists e; done|].
    left. split; [reflexivity|]. exists b. done. }
  intros [receipts c1] H1. cbv beta iota.
  eapply returns_bind.
  { apply (returns_for_each (transaction_ok items batches employees)). intros c item Hitem.
    mrun; [|constructor].
    apply (returns_for_each (transaction_ok items batches employees)). intros c' x _. mrun.
    match goal with H : _ ∈ map em_employee_id _ |- _ =>
                 apply staff_department in H as (e & He & Hdept & <-) end.
    constructor; [|constructor]. unfold transaction_ok.
    cbn [tx_sku tx_unit_cost tx_employee_id tx_transaction_type tx_batch_id tx_quantity
         tx_transaction_date].
    split; [exists item; done|]. split; [exists e; done|].
    right; left. split; [reflexivity|]. split; [lia|]. eexists. split; [|reflexivity]. lia. }
  intros [issues c2] H2. cbv beta iota.
  eapply returns_bind.
  { apply (returns_for_each (transaction_ok items batches employees)). intros c x _. mrun.
    match goal with H : _ ∈ map em_employee_id _ |- _ =>
                 apply staff_department in H as (e & He & Hdept & <-) end.
    match goal with H : ?i ∈ items |- _ => rename i into item end.
    constructor; [|constructor]. unfold transaction_ok.
    cbn [tx_sku tx_unit_cost tx_employee_id tx_transaction_type tx_batch_id tx_quantity
         tx_transaction_date].
    split; [exists item; done|]. split; [exists e; done|].
    right; right. split; [reflexivity|]. split; [lia|]. eexists. split; [|reflexivity]. lia. }
  intros [transfers c3] H3. cbv beta iota. apply returns_ret.
  cbn [fst] in *. repeat (apply Forall_app; split); assumption.
Qed.

(** X12.  The rows of a run of [generate_inventory_transactions]: their
    identifiers are INV-000001, INV-000002, ... in order across the three
    passes (receipts, issues, transfers), hence pairwise distinct; there are
    at least 20 rows; each row carries the sku and the unit cost of an item
    of the input and the identifier of an employee of Supply Chain or
    Production; a Production Receipt repeats the identifier, the quantity
    and the date of a Completed batch of the input, a Sales Issue has a
    negative quantity, a Stock Transfer a quantity of 10 .. 100, and both
    name a batch BATCH-0001 .. BATCH-0100. *)
Theorem generate_inventory_transactions_rows (items : list inventory_item)
    (batches : list batch) (employees : list employee) (formulations : list formulation)
    (s s' : rng_state) (txs : list inventory_transaction) :
  generate_inventory_transactions items batches employees formulations s = (Ok txs, s') ->
  map tx_transaction_id txs = ids_from "INV-" 6 1 (length txs) /\
  NoDup (map tx_transaction_id txs) /\
  (20 <= length txs)%nat /\
  Forall (transaction_ok items batches employees) txs.
Proof.
  intros Hrun.
  pose proof (generate_inventory_transactions_ids _ _ _ _ _ _ _ Hrun) as Hids.
  pose proof (generate_inventory_transactions_ok _ _ _ _ _ _ _ Hrun) as Hok.
  pose proof (generate_inventory_transactions_spec _ _ _ _ _ _ _ Hrun) as [_ Hlen].
  cbv beta in Hids. split; [exact Hids|]. split; [|split; [exact Hlen|exact Hok]].
  rewrite Hids. apply ids_from_NoDup. lia.
Qed.

Lemma generate_inventory_transactions_rows_witness :
  let txs :=
    result_of [] (generate_inventory_transactions sample_items sample_batches
                    sample_employees sample_formulations initial_state) in
  map tx_transaction_id txs = ids_from "INV-" 6 1 (length txs) /\
  NoDup (map tx_transaction_id txs) /\
  (20 <= length txs)%nat /\
  Forall (transaction_ok sample_items sample_batches sample_employees) txs.
Proof.
  exact (generate_inventory_transactions_rows sample_items sample_batches sample_employees
           sample_formulations initial_state _ _
           (returned_result []
              (generate_inventory_transactions sample_items sample_batches
                 sample_employees sample_formulations initial_state)
              ltac:(vm_compute; reflexivity))).
Defined.

(** * Loops that keep some of their inputs *)

Lemma returns_for_each_filter {S A B} (P : A -> Prop) `{forall x, Decision (P x)}
    (R : A -> B -> Prop) (xs : list A) (body : S -> A -> M (list B * S)) :
  (forall s x, x ∈ xs ->
     returns (body s x)
             (fun r => if decide (P x) then exists b, r.1 = [b] /\ R x b else r.1 = [])) ->
  forall s, returns (for_each xs body s) (fun r => Forall2 R (filter P xs) r.1).
Proof.
  induction xs as [|x xs IH]; intros Hb s; cbn [for_each].
  - apply returns_ret. constructor.
  - eapply returns_bind; [apply Hb; left|]. intros [rows s1] Hrows.
    eapply returns_bind; [apply IH; intros; apply Hb; by right|]. intros [rest s2] Hrest.
    apply returns_ret. cbn [fst] in *. rewrite filter_cons.
    destruct (decide (P x)).
    + destruct Hrows as (b & -> & HR). constructor; assumption.
    + rewrite Hrows. exact Hrest.
Qed.

(** * Production analytics *)

Lemma generate_production_analytics_rows (batches : list batch) :
  returns (generate_production_analytics batches)
          (fun rows =>
             Forall2 production_analytic_of
                     (filter (fun b => pb_status b = "Completed"%string) batches) rows /\
             map pa_analytics_id rows = ids_from "PROD-ANAL-" 4 1 (length rows)).
Proof.
  unfold generate_production_analytics.
  eapply returns_bind.
  { apply returns_and.
    - apply (returns_for_each_filter (fun b => pb_status b = "Completed"%string)
               production_analytic_of).
      intros c b _. destruct (decide (pb_status b = "Completed"%string)) as [E|E].
      + rewrite (proj2 (String.eqb_eq _ _) E). grun. eexists. split; [reflexivity|].
        unfold production_analytic_of.
        cbn [pa_batch_id pa_date pa_equipment_id pa_yield_rate pa_scrap_percentage
             pa_quality_score pa_oee_percentage].
        repeat (split; [reflexivity|]).
        match goal with H : (70 <= _ /\ _ <= 95)%Q |- _ => destruct H end.
        split; [by apply (round_ge _ 2 70)|by apply (round_le _ 2 95)].
      + rewrite (proj2 (String.eqb_neq _ _) E). grun. reflexivity.
    - apply (returns_for_each_counter pa_analytics_id
               (fun i => "PROD-ANAL-" +:+ Py.fmt_0d 4 i)).
      intros c b _. mrun; first [by apply counter_one|apply counter_none]. }
  intros [rows c] [H1 [H2 _]]. cbv beta iota. apply returns_ret. split; [exact H1|exact H2].
Qed.

Lemma generate_production_analytics_succeeds (batches : list batch) :
  succeeds (generate_production_analytics batches) (fun _ => True).
Proof.
  unfold generate_production_analytics.
  eapply succeeds_bind.
  { apply succeeds_for_each. intros c b _. trun; exact I. }
  intros [rows c] _. by apply succeeds_ret.
Qed.

(** X13.  [generate_production_analytics] returns for every list of batches
    and in every generator state; its rows are, in order, one per batch
    whose status is Completed: each repeats the identifier, the date and the
    equipment of its batch, gives the batch's yield rounded to 2 places, as
    scrap 100 minus that yield, rounded, and an OEE of 70 .. 95; the rows
    are numbered PROD-ANAL-0001, PROD-ANAL-0002, ...; so the table is empty
    exactly when no batch is Completed. *)
Theorem generate_production_analytics_per_completed_batch (batches : list batch)
    (s : rng_state) :
  exists rows s',
    generate_production_analytics batches s = (Ok rows, s') /\
    Forall2 production_analytic_of
            (filter (fun b => pb_status b = "Completed"%string) batches) rows /\
    map pa_analytics_id rows = ids_from "PROD-ANAL-" 4 1 (length rows) /\
    (rows = [] <-> Forall (fun b => pb_status b <> "Completed"%string) batches).
Proof.
  destruct (succeeds_returns _ _ _ (generate_production_analytics_succeeds batches)
              (generate_production_analytics_rows batches) s)
    as (rows & s' & Hrun & _ & Hrows & Hids).
  exists rows, s'. split; [exact Hrun|]. split; [exact Hrows|]. split; [exact Hids|].
  apply Forall2_length in Hrows. split.
  - intros ->. cbn [length] in Hrows. apply Forall_forall. intros b Hb E.
    assert (Hin : b ∈ filter (fun b => pb_status b = "Completed"%string) batches)
      by (by apply list_elem_of_filter).
    destruct (filter _ batches); [by apply elem_of_nil in Hin|discriminate].
  - intros Hall. destruct rows as [|r rows]; [reflexivity|]. exfalso.
    destruct (filter _ batches) as [|b l] eqn:E; [discriminate|].
    assert (Hin : b ∈ filter (fun b => pb_status b = "Completed"%string) batches)
      by (rewrite E; left).
    apply list_elem_of_filter in Hin as [Hst Hin].
    exact (proj1 (Forall_forall _ _) Hall b Hin Hst).
Qed.

(** * Times of day *)

Lemma seconds_of_time_of_seconds (x : Z) :
  0 <= x < 86400 -> Datetime.seconds_of_time (Datetime.time_of_seconds x) = x.
Proof.
  intros Hx. unfold Datetime.seconds_of_time, Datetime.time_of_seconds.
  cbn [hour minute second]. Z.div_mod_to_equations. lia.
Qed.

Lemma shift_seconds (d : date) (shift_start shift_end : time) (late early : Z) :
  0 <= Datetime.seconds_of_time shift_start ->
  Datetime.seconds_of_time shift_end = Datetime.seconds_of_time shift_start + 32400 ->
  Datetime.seconds_of_time shift_end < 86400 ->
  0 <= late <= 30 -> 0 <= early <= 60 ->
  Datetime.diff_seconds
    (Datetime.combine d
       (dt_time (Datetime.add_seconds (Datetime.combine d shift_end) (- (60 * early)))))
    (Datetime.combine d
       (dt_time (Datetime.add_seconds (Datetime.combine d shift_start) (60 * late))))
  = 32400 - 60 * (late + early).
Proof.
  intros H0 Hend Hlt Hlate Hearly.
  unfold Datetime.diff_seconds, Datetime.add_seconds, Datetime.combine.
  cbn [dt_date dt_time].
  rewrite !seconds_of_time_of_seconds by (apply Z.mod_pos_bound; lia).
  rewrite Hend. Z.div_mod_to_equations. lia.
Qed.

Lemma june_days (d : Z) :
  d ∈ range 30 ->
  exists k, 1 <= k <= 30 /\ Datetime.add_days (mk_date 2024 6 1) d = mk_date 2024 6 k.
Proof.
  intros Hd.
  assert (H : map (Datetime.add_days (mk_date 2024 6 1)) (range 30)
              = map (fun i => mk_date 2024 6 (1 + i)) (range 30))
    by (vm_compute; reflexivity).
  apply list_elem_of_lookup in Hd as [i Hi].
  assert (Hlt : (i < 30)%nat).
  { apply lookup_lt_Some in Hi. by rewrite length_range in Hi. }
  apply (f_equal (fun l => l !! i)) in H. rewrite !list_lookup_fmap, Hi in H.
  change (Some (Datetime.add_days (mk_date 2024 6 1) d) = Some (mk_date 2024 6 (1 + d))) in H.
  apply (inj Some) in H.
  assert (Hd : d = Z.of_nat i).
  { unfold range in Hi. rewrite list_lookup_fmap, lookup_seq_lt in Hi by exact Hlt.
    cbn in Hi. by injection Hi as <-. }
  exists (1 + d). split; [lia|exact H].
Qed.

(** * Rounding is monotone *)

Lemma round_half_even_mono (x y : Q) :
  (x <= y)%Q -> Py.round_half_even x <= Py.round_half_even y.
Proof.
  intros Hxy. unfold Py.round_half_even.
  pose proof (Qfloor_le x) as Hx1. pose proof (Qlt_floor x) as Hx2.
  pose proof (Qfloor_le y) as Hy1. pose proof (Qlt_floor y) as Hy2.
  rewrite inject_Z_plus in Hx2, Hy2. change (inject_Z 1) with 1%Q in Hx2, Hy2.
  pose proof (Qfloor_resp_le _ _ Hxy) as Hf.
  destruct (Z.eq_dec (Qfloor x) (Qfloor y)) as [E|E].
  - rewrite <- E in *. set (f := Qfloor x) in *.
    destruct (Qcompare (x - inject_Z f) (1 # 2)) eqn:Ex;
      destruct (Qcompare (y - inject_Z f) (1 # 2)) eqn:Ey;
      repeat match goal with
             | H : Qcompare _ _ = Eq |- _ => apply Qeq_alt in H
             | H : Qcompare _ _ = Lt |- _ => apply Qlt_alt in H
             | H : Qcompare _ _ = Gt |- _ => apply Qgt_alt in H
             end;
      try (destruct (Z.even f)); try lia; exfalso; lra.
  - assert (Hlt : Qfloor x + 1 <= Qfloor y) by lia.
    destruct (Qcompare (x - _) _); destruct (Qcompare (y - _) _);
      try (destruct (Z.even (Qfloor x))); try (destruct (Z.even (Qfloor y))); lia.
Qed.

Lemma round_mono (x y : Q) (n : nat) : (x <= y)%Q -> (Py.round x n <= Py.round y n)%Q.
Proof.
  intros Hxy. unfold Py.round. rewrite !Qred_correct.
  set (P := Py.pow10 n).
  assert (H : Py.round_half_even (x * inject_Z (Z.pos P))
              <= Py.round_half_even (y * inject_Z (Z.pos P))).
  { apply round_half_even_mono. apply Qmult_le_compat_r; [exact Hxy|].
    unfold Qle. cbn. lia. }
  unfold Qle. cbn [Qnum Qden]. nia.
Qed.

Lemma worked_hours (k : Z) :
  0 <= k <= 90 ->
  (7.5 <= Py.round (inject_Z (32400 - 60 * k) / 3600) 2 /\
   Py.round (inject_Z (32400 - 60 * k) / 3600) 2 <= 9)%Q /\
  Py.round (Py.Qmax 0 (inject_Z (32400 - 60 * k) / 3600 - 9)) 2 = 0%Q.
Proof.
  intros Hk.
  assert (Hn : (inject_Z 27000 <= inject_Z (32400 - 60 * k) /\
                inject_Z (32400 - 60 * k) <= inject_Z 32400)%Q).
  { rewrite <- !Zle_Qle. lia. }
  set (n := inject_Z (32400 - 60 * k)) in *.
  change (inject_Z 27000) with 27000%Q in Hn. change (inject_Z 32400) with 32400%Q in Hn.
  assert (Hh : (7.5 <= n / 3600 /\ n / 3600 <= 9)%Q).
  { split.
    - apply Qle_shift_div_l; [reflexivity|]. lra.
    - apply Qle_shift_div_r; [reflexivity|]. lra. }
  split; [split|].
  - eapply Qle_trans; [|apply round_mono, Hh]. apply Qle_bool_iff. vm_compute. reflexivity.
  - apply (round_le _ 2 9). apply Hh.
  - unfold Py.Qmax. destruct (Qle_bool 0 (n / 3600 - 9)) eqn:E; [|reflexivity].
    apply Qle_bool_iff in E.
    assert (Hz : k = 0).
    { assert (H9 : (32400 <= n)%Q).
      { assert (H : (9 <= n / 3600)%Q) by lra.
        apply (Qmult_le_compat_r _ _ 3600) in H; [|discriminate].
        assert (Hs : (n / 3600 * 3600 == n)%Q) by (field).
        rewrite Hs in H. exact H. }
      unfold n in H9. change 32400%Q with (inject_Z 32400) in H9.
      rewrite <- Zle_Qle in H9. lia. }
    unfold n. rewrite Hz. vm_compute. reflexivity.
Qed.

(** * Attendance *)

Lemma returns_minutes (c : bool) (b : Z) :
  0 <= b -> returns (if c then Random.randint 0 b else mret 0) (fun z => 0 <= z <= b).
Proof.
  intros Hb. destruct c; [apply returns_randint|apply returns_ret; lia].
Qed.

Lemma generate_attendance_data_ok (employees : list employee) :
  returns (generate_attendance_data employees) (Forall (attendance_ok employees)).
Proof.
  unfold generate_attendance_data. cbv zeta.
  eapply returns_bind.
  { apply (returns_for_each (attendance_ok employees)). intros c day Hday.
    apply (returns_for_each (attendance_ok employees)). intros c' e He.
    apply list_elem_of_filter in He as [Hactive He].
    eapply returns_bind; [apply returns_true|]. intros skip _.
    destruct skip; [apply returns_ret; constructor|].
    assert (Hshift :
      exists shift_start shift_end,
        (if String.eqb (em_shift_pattern e) "Morning"
         then (mk_time 8 0 0, mk_time 17 0 0)
         else if String.eqb (em_shift_pattern e) "Evening"
              then (mk_time 14 0 0, mk_time 23 0 0)
              else (mk_time 8 0 0, mk_time 17 0 0)) = (shift_start, shift_end) /\
        (shift_start, shift_end)
        = (if String.eqb (em_shift_pattern e) "Evening"
           then (mk_time 14 0 0, mk_time 23 0 0) else (mk_time 8 0 0, mk_time 17 0 0)) /\
        0 <= Datetime.seconds_of_time shift_start /\
        Datetime.seconds_of_time shift_end = Datetime.seconds_of_time shift_start + 32400 /\
        Datetime.seconds_of_time shift_end < 86400).
    { destruct (String.eqb_spec (em_shift_pattern e) "Morning") as [E|E].
      - rewrite E. eexists _, _. split; [reflexivity|]. split; [reflexivity|].
        unfold Datetime.seconds_of_time. cbn [hour minute second]. lia.
      - destruct (String.eqb (em_shift_pattern e) "Evening");
          (eexists _, _; split; [reflexivity|]; split; [reflexivity|];
           unfold Datetime.seconds_of_time; cbn [hour minute second]; lia). }
    destruct Hshift as (shift_start & shift_end & -> & Hpair & H0 & Hend & Hlt).
    cbv beta iota.
    eapply returns_bind; [apply returns_true|]. intros r1 _.
    eapply returns_bind; [apply (returns_minutes _ 30); lia|]. intros late Hlate.
    eapply returns_bind; [apply returns_true|]. intros r2 _.
    eapply returns_bind; [apply (returns_minutes _ 60); lia|]. intros early Hearly.
    cbv beta zeta. mrun. constructor; [|constructor].
    unfold attendance_ok.
    cbn [at_employee_id at_shift_start at_shift_end at_date at_hours_worked
         at_overtime_hours].
    split; [exists e; done|]. split; [by apply june_days|].
    rewrite (shift_seconds _ _ _ _ _ H0 Hend Hlt Hlate Hearly).
    apply worked_hours. lia. }
  intros [rows c] H. cbv beta iota. apply returns_ret. exact H.
Qed.

Lemma generate_attendance_data_ids (employees : list employee) :
  returns (generate_attendance_data employees)
          (fun rows => map at_attendance_id rows = ids_from "ATT-" 6 1 (length rows)).
Proof.
  unfold generate_attendance_data. cbv zeta.
  pose (f := fun i => "ATT-" +:+ Py.fmt_0d 6 i).
  eapply returns_bind.
  { apply (returns_for_each_counter at_attendance_id f). intros c day _.
    apply (returns_for_each_counter at_attendance_id f). intros c' e _.
    eapply returns_bind; [apply returns_true|]. intros skip _.
    destruct skip; [apply returns_ret; apply counter_none|].
    destruct (if String.eqb (em_shift_pattern e) "Morning"
              then (mk_time 8 0 0, mk_time 17 0 0)
              else if String.eqb (em_shift_pattern e) "Evening"
                   then (mk_time 14 0 0, mk_time 23 0 0)
                   else (mk_time 8 0 0, mk_time 17 0 0)) as [shift_start shift_end].
    mrun. by apply counter_one. }
  intros [rows c] [H _]. cbv beta iota. apply returns_ret. exact H.
Qed.

Lemma generate_attendance_data_succeeds (employees : list employee) :
  succeeds (generate_attendance_data employees) (fun _ => True).
Proof.
  unfold generate_attendance_data. cbv zeta.
  eapply succeeds_bind.
  { apply succeeds_for_each. intros c day _.
    apply succeeds_for_each. intros c' e _.
    eapply succeeds_bind.
    { instantiate (1 := fun _ => True). destruct (_ >=? _); trun; exact I. }
    intros skip _. destruct skip; [by apply succeeds_ret|].
    destruct (if String.eqb (em_shift_pattern e) "Morning"
              then (mk_time 8 0 0, mk_time 17 0 0)
              else if String.eqb (em_shift_pattern e) "Evening"
                   then (mk_time 14 0 0, mk_time 23 0 0)
                   else (mk_time 8 0 0, mk_time 17 0 0)) as [shift_start shift_end].
    eapply succeeds_bind; [apply succeeds_random|]. intros r1 _.
    eapply succeeds_bind.
    { instantiate (1 := fun _ => True). destruct (Py.Qltb _ _); trun.
      - eapply succeeds_weaken; [apply succeeds_randint; lia|done].
      - exact I. }
    intros late _.
    eapply succeeds_bind; [apply succeeds_random|]. intros r2 _.
    eapply succeeds_bind.
    { instantiate (1 := fun _ => True). destruct (Py.Qltb _ _); trun.
      - eapply succeeds_weaken; [apply succeeds_randint; lia|done].
      - exact I. }
    intros early _. trun. exact I. }
  intros [rows c] _. by apply succeeds_ret.
Qed.

(** X14.  [generate_attendance_data] returns for every list of employees
    and in every generator state; its rows are numbered ATT-000001,
    ATT-000002, ... in order; each row is that of an employee of the input
    who is active, on a day of June 2024, with the shift 14:00-23:00 for the
    Evening pattern and 08:00-17:00 for every other; the hours worked lie
    between 7.5 and 9, and the overtime is always 0, since a shift lasts 9
    hours and lateness and early leave only shorten it. *)
Theorem generate_attendance_data_rows (employees : list employee) (s : rng_state) :
  exists rows s',
    generate_attendance_data employees s = (Ok rows, s') /\
    map at_attendance_id rows = ids_from "ATT-" 6 1 (length rows) /\
    Forall (attendance_ok employees) rows.
Proof.
  destruct (succeeds_returns _ _ _
              (succeeds_returns _ _ _ (generate_attendance_data_succeeds employees)
                 (generate_attendance_data_ids employees))
              (generate_attendance_data_ok employees) s)
    as (rows & s' & Hrun & [_ Hids] & Hok).
  exists rows, s'. split; [exact Hrun|]. split; [exact Hids|exact Hok].
Qed.

(** * Financial transactions *)

Lemma returns_for_each_flat_map {S A B C} (g : B -> C) (h : A -> list C) (xs : list A)
    (body : S -> A -> M (list B * S)) :
  (forall s x, x ∈ xs -> returns (body s x) (fun r => map g r.1 = h x)) ->
  forall s, returns (for_each xs body s) (fun r => map g r.1 = flat_map h xs).
Proof.
  induction xs as [|x xs IH]; intros Hb s; cbn [for_each flat_map].
  - by apply returns_ret.
  - eapply returns_bind; [apply Hb; left|]. intros [rows s1] Hrows.
    eapply returns_bind; [apply IH; intros; apply Hb; by right|]. intros [rest s2] Hrest.
    apply returns_ret. cbn [fst] in *. by rewrite map_app, Hrows, Hrest.
Qed.

Lemma returns_next_where {A} (p : A -> bool) (xs : list A) :
  returns (next_where p xs) (fun x => x ∈ xs /\ p x = true).
Proof.
  unfold next_where. destruct (find p xs) as [x|] eqn:E; [|apply returns_raise].
  apply returns_ret. apply find_some in E as [Hin Hp]. split; [by apply list_elem_of_In|exact Hp].
Qed.

Lemma generate_financial_transactions_ok (accounts : list account) (sales : list sale) :
  returns (generate_financial_transactions accounts sales)
          (Forall (posting_ok accounts sales)).
Proof.
  unfold generate_financial_transactions. cbv zeta.
  eapply returns_bind.
  { apply (returns_for_each (posting_ok accounts sales)). intros c sale Hsale.
    destruct (String.eqb_spec (sa_payment_status sale) "Paid") as [Hpaid|Hpaid];
      [|apply returns_ret; constructor].
    eapply returns_bind; [apply returns_next_where|]. intros cash [Hcash Hcash_name].
    eapply returns_bind; [apply returns_next_where|]. intros rev [Hrev Hrev_name].
    apply returns_ret. constructor; [|constructor; [|constructor]].
    - split; [reflexivity|]. exists cash. split; [exact Hcash|]. split; [reflexivity|].
      left. split; [reflexivity|]. split; [exact Hcash_name|]. exists sale. done.
    - split; [reflexivity|]. exists rev. split; [exact Hrev|]. split; [reflexivity|].
      right; left. split; [reflexivity|]. split; [exact Hrev_name|]. exists sale. done. }
  intros [postings c1] H1. cbv beta iota.
  eapply returns_bind.
  { apply (returns_for_each (posting_ok accounts sales)). intros c x _. grun.
    match goal with
    | H : ?a ∈ filter _ accounts |- _ =>
        apply list_elem_of_filter in H as [Htype Hacc]; rename a into account
    end.
    match goal with H : (1000 <= _ /\ _ <= 50000)%Q |- _ => destruct H as [Hlo Hhi] end.
    constructor; [|constructor]. split; [reflexivity|].
    exists account. split; [exact Hacc|]. split; [reflexivity|].
    right; right. split; [reflexivity|]. split; [exact Htype|].
    eexists. split; [|done].
    split; [by apply (round_ge _ 2 1000)|by apply (round_le _ 2 50000)]. }
  intros [expenses c2] H2. cbv beta iota. apply returns_ret.
  apply Forall_app. split; assumption.
Qed.

Lemma generate_financial_transactions_structure (accounts : list account)
    (sales : list sale) :
  returns (generate_financial_transactions accounts sales)
          (fun rows =>
             map ft_transaction_id rows = ids_from "FIN-" 6 1 (length rows) /\
             exists postings expenses,
               rows = postings ++ expenses /\ length expenses = 100%nat /\
               Forall (fun r => ft_transaction_type r = "Expense Payment"%string) expenses /\
               map (fun r => (ft_transaction_type r, ft_reference_number r)) postings
               = flat_map double_entry sales).
Proof.
  unfold generate_financial_transactions. cbv zeta.
  pose (f := fun i => "FIN-" +:+ Py.fmt_0d 6 i).
  eapply returns_bind.
  { apply returns_and.
    - apply (returns_for_each_counter ft_transaction_id f). intros c sale _.
      mrun; [|apply counter_none]. cbn [fst snd map length ft_transaction_id].
      change (Z.of_nat 2) with 2. rewrite (seqZ_cons c 2) by lia.
      change (Z.pred 2) with 1. rewrite (seqZ_cons (Z.succ c) 1) by lia.
      change (Z.pred 1) with 0. rewrite seqZ_nil by lia. cbn [map].
      replace (Z.succ c) with (c + 1) by lia. split; [reflexivity|lia].
    - apply (returns_for_each_flat_map
               (fun r => (ft_transaction_type r, ft_reference_number r)) double_entry).
      intros c sale _. unfold double_entry. mrun; reflexivity. }
  intros [postings c1] [[Hids1 Hc1] Hpairs]. cbv beta iota.
  eapply returns_bind.
  { apply returns_and.
    - apply returns_and.
      + apply (returns_for_each_counter ft_transaction_id f). intros c x _.
        mrun. by apply counter_one.
      + apply returns_for_each_length. intros c x _. mrun. reflexivity.
    - apply (returns_for_each (fun r => ft_transaction_type r = "Expense Payment"%string)).
      intros c x _. mrun. constructor; [reflexivity|constructor]. }
  intros [expenses c2] [[[Hids2 _] Hlen] Htypes]. cbv beta iota. apply returns_ret.
  cbn [fst snd] in *. subst c1. rewrite length_range in Hlen. split.
  - rewrite map_app, length_app, ids_from_app. unfold ids_from. by rewrite Hids1, Hids2.
  - exists postings, expenses. done.
Qed.

(** X15.  The rows of a run of [generate_financial_transactions]: they are
    numbered FIN-000001, FIN-000002, ... in order, hence pairwise distinct;
    first come, for each sale whose payment status is Paid and in the order
    of the sales, two rows that carry the sale's identifier as reference,
    a Sales Receipt followed by a Sales Revenue, then 100 rows that are all
    of type Expense Payment;
    every row is Posted on an account of the input: the receipt debits the
    sale's net amount to an account named Cash or Bank, the revenue credits
    the net amount less the tax to an account named Sales, and an expense
    debits 1000 to 50000 to an account of type Expenses. *)
Theorem generate_financial_transactions_rows (accounts : list account) (sales : list sale)
    (s s' : rng_state) (rows : list financial_transaction) :
  generate_financial_transactions accounts sales s = (Ok rows, s') ->
  map ft_transaction_id rows = ids_from "FIN-" 6 1 (length rows) /\
  NoDup (map ft_transaction_id rows) /\
  (exists postings expenses,
     rows = postings ++ expenses /\ length expenses = 100%nat /\
     Forall (fun r => ft_transaction_type r = "Expense Payment"%string) expenses /\
     map (fun r => (ft_transaction_type r, ft_reference_number r)) postings
     = flat_map double_entry sales) /\
  Forall (posting_ok accounts sales) rows.
Proof.
  intros Hrun.
  pose proof (generate_financial_transactions_structure _ _ _ _ _ Hrun) as [Hids Hst].
  pose proof (generate_financial_transactions_ok _ _ _ _ _ Hrun) as Hok.
  split; [exact Hids|]. split; [|split; [exact Hst|exact Hok]].
  rewrite Hids. apply ids_from_NoDup. lia.
Qed.

Lemma generate_financial_transactions_rows_witness :
  let rows :=
    result_of [] (generate_financial_transactions sample_accounts sample_sales
                                                  initial_state) in
  map ft_transaction_id rows = ids_from "FIN-" 6 1 (length rows) /\
  NoDup (map ft_transaction_id rows) /\
  (exists postings expenses,
     rows = postings ++ expenses /\ length expenses = 100%nat /\
     Forall (fun r => ft_transaction_type r = "Expense Payment"%string) expenses /\
     map (fun r => (ft_transaction_type r, ft_reference_number r)) postings
     = flat_map double_entry sample_sales) /\
  Forall (posting_ok sample_accounts sample_sales) rows.
Proof.
  exact (generate_financial_transactions_rows sample_accounts sample_sales initial_state _ _
           (returned_result []
              (generate_financial_transactions sample_accounts sample_sales initial_state)
              ltac:(vm_compute; reflexivity))).
Defined.

(** * Inventory items *)


Lemma assoc_set_fresh {A} (k : string) (v : A) (l : list (string * A)) :
  k ∉ map fst l -> assoc_set k v l = l ++ [(k, v)].
Proof.
  induction l as [|[k' v'] l IH]; cbn [assoc_set map fst]; [reflexivity|].
  intros Hk. apply not_elem_of_cons in Hk as [Hne Hk].
  apply String.eqb_neq in Hne. rewrite Hne. cbn [app]. by rewrite IH.
Qed.

Lemma dict_of_pairs_NoDup {A} (pairs : list (string * A)) :
  NoDup (map fst pairs) -> dict_of_pairs pairs = pairs.
Proof.
  unfold dict_of_pairs. intros Hnd.
  assert (H : forall acc, NoDup (map fst (acc ++ pairs)) ->
                          fold_left (fun d '(k, v) => assoc_set k v d) pairs acc = acc ++ pairs).
  { clear Hnd. induction pairs as [|[k v] ps IH]; intros acc Hnd; cbn [fold_left].
    - by rewrite app_nil_r.
    - rewrite assoc_set_fresh.
      + rewrite IH; rewrite <- app_assoc; [reflexivity|exact Hnd].
      + rewrite map_app in Hnd. apply NoDup_app in Hnd as (_ & Hdis & _).
        intros Hk. apply (Hdis k Hk). left. }
  exact (H [] Hnd).
Qed.

Lemma returns_for_each_Forall2 {S A B} (R : A -> B -> Prop) (xs : list A)
    (body : S -> A -> M (list B * S)) :
  (forall s x, x ∈ xs -> returns (body s x) (fun r => exists b, r.1 = [b] /\ R x b)) ->
  forall s, returns (for_each xs body s) (fun r => Forall2 R xs r.1).
Proof.
  induction xs as [|x xs IH]; intros Hb s; cbn [for_each].
  - apply returns_ret. constructor.
  - eapply returns_bind; [apply Hb; left|]. intros [rows s1] (b & Hrows & HR).
    eapply returns_bind; [apply IH; intros; apply Hb; by right|]. intros [rest s2] Hrest.
    apply returns_ret. cbn [fst] in *. rewrite Hrows. by constructor.
Qed.






Lemma generate_inventory_items_succeeds (batches : list batch)
    (formulations : list formulation) :
  NoDup (map fm_formulation_id formulations) ->
  succeeds (generate_inventory_items batches formulations) (fun _ => True).
Proof.
  intros Hnd. unfold generate_inventory_items. cbv zeta.
  assert (Hkeys : forall (g : formulation -> string),
             map fst (map (fun f => (fm_formulation_id f, g f)) formulations)
             = map fm_formulation_id formulations).
  { intros g. rewrite map_map. reflexivity. }
  rewrite !dict_of_pairs_NoDup by (rewrite Hkeys; exact Hnd).
  eapply succeeds_bind.
  { apply succeeds_for_each. intros [] [fid name] Hp.
    apply list_elem_of_fmap in Hp as (f & [= -> ->] & Hf).
    eapply succeeds_bind; [apply succeeds_randint; lia|]. intros suffix _. cbv zeta.
    destruct (filter (fun f0 => fm_formulation_id f0 = fm_formulation_id f) formulations)
      as [|f' rest] eqn:E.
    { exfalso.
      assert (Hin : f ∈ filter (fun f0 => fm_formulation_id f0 = fm_formulation_id f)
                               formulations) by (by apply list_elem_of_filter).
      rewrite E in Hin. by apply elem_of_nil in Hin. }
    cbn [first_or_raise]. trun. exact I. }
  intros [items []] _. by apply succeeds_ret.
Qed.



(** * Audit logs *)

Lemma returns_module (position : string) :
  returns (if Py.contains "Manager" position
           then Random.choice ["Production"; "Inventory"; "Sales"; "Finance"; "HR"]
           else if Py.contains "Sales" position then mret "Sales"
           else if Py.contains "Production" position then mret "Production"
           else Random.choice ["System"; "Inventory"; "HR"])%string
          (fun module => module ∈ modules_of_position position).
Proof.
  unfold modules_of_position.
  destruct (Py.contains "Manager" position); [apply returns_choice|].
  destruct (Py.contains "Sales" position); [apply returns_ret; left|].
  destruct (Py.contains "Production" position); [apply returns_ret; left|].
  apply returns_choice.
Qed.

Lemma modules_known (position module : string) :
  module ∈ modules_of_position position ->
  exists actions, assoc_get module audit_actions = Some actions /\
                  default ["VIEW"; "UPDATE"]%string (assoc_get module audit_actions) = actions.
Proof.
  unfold modules_of_position. intros H.
  assert (Hm : module ∈ ["Production"; "Inventory"; "Sales"; "Finance"; "HR"; "System"]%string).
  { destruct (Py.contains "Manager" position);
      [|destruct (Py.contains "Sales" position);
        [|destruct (Py.contains "Production" position)]];
      repeat (apply elem_of_cons in H as [->|H]; [apply list_elem_of_In; cbn; tauto|]);
      by apply elem_of_nil in H. }
  repeat (apply elem_of_cons in Hm as [->|Hm]; [eexists; split; reflexivity|]).
  by apply elem_of_nil in Hm.
Qed.

Lemma generate_audit_logs_ok (tenants : list tenant) (employees : list employee)
    (sales : list sale) :
  returns (generate_audit_logs tenants employees sales) (Forall (audit_ok tenants employees)).
Proof.
  unfold generate_audit_logs. cbv zeta.
  eapply returns_bind.
  { apply (returns_for_each (audit_ok tenants employees)). intros c day _.
    eapply returns_bind; [apply returns_randint|]. intros events _.
    apply (returns_for_each (audit_ok tenants employees)). intros c' x _.
    eapply returns_bind; [apply returns_choice|]. intros [user_id position] Huser.
    apply list_elem_of_fmap in Huser as (e & [= -> ->] & He).
    eapply returns_bind; [apply returns_choice|]. intros tenant Htenant.
    apply list_elem_of_fmap in Htenant as (t & -> & Ht).
    eapply returns_bind; [apply returns_module|]. intros module Hmodule.
    destruct (modules_known _ _ Hmodule) as (actions & Hactions & Hdefault).
    rewrite Hdefault.
    eapply returns_bind; [apply returns_choice|]. intros action Haction.
    mrun. constructor; [|constructor]. unfold audit_ok.
    cbn [al_user_id al_user_role al_tenant_id al_module al_action al_details al_timestamp
         dt_time hour].
    split; [exists e; done|]. split; [exists t; done|]. split; [exact Hmodule|].
    split; [exists actions; done|]. split; [reflexivity|lia]. }
  intros [logs c] H. cbv beta iota. apply returns_ret. exact H.
Qed.

Lemma generate_audit_logs_ids (tenants : list tenant) (employees : list employee)
    (sales : list sale) :
  returns (generate_audit_logs tenants employees sales)
          (fun logs => map al_log_id logs = ids_from "AUDIT-" 8 1 (length logs) /\
                       (900 <= length logs <= 4500)%nat).
Proof.
  unfold generate_audit_logs. cbv zeta.
  pose (f := fun i => "AUDIT-" +:+ Py.fmt_0d 8 i).
  eapply returns_bind.
  { apply returns_and.
    - apply (returns_for_each_counter al_log_id f). intros c day _.
      eapply returns_bind; [apply returns_randint|]. intros events _.
      apply (returns_for_each_counter al_log_id f). intros c' x _.
      eapply returns_bind; [apply returns_choice|]. intros [user_id position] _.
      mrun. by apply counter_one.
    - apply (returns_for_each_count 10 50). intros c day _.
      eapply returns_bind; [apply returns_randint|]. intros events Hevents.
      eapply returns_weaken.
      { apply returns_for_each_length. intros c' x _.
        eapply returns_bind; [apply returns_choice|]. intros [user_id position] _.
        mrun. reflexivity. }
      intros r Hr. cbv beta in Hr, Hevents. rewrite length_range in Hr. lia. }
  intros [logs c] [[Hids _] Hlen]. cbv beta iota. apply returns_ret.
  cbn [fst] in *. rewrite length_range in Hlen. split; [exact Hids|lia].
Qed.

(** X17.  The rows of a run of [generate_audit_logs]: between 900 and 4500
    (10 to 50 for each of 90 days), numbered AUDIT-00000001, AUDIT-00000002,
    ... in order, hence pairwise distinct; each row carries the identifier
    and the position of an employee of the input and the identifier of a
    tenant of the input; its module is one the position acts on (any of
    five for a manager, else Sales or Production by the position's name,
    else System, Inventory or HR); its action is always one of the
    vocabulary of that module, never the fallback pair VIEW/UPDATE; the
    details repeat action and module, and the hour lies in 8 .. 20. *)
Theorem generate_audit_logs_rows (tenants : list tenant) (employees : list employee)
    (sales : list sale) (s s' : rng_state) (logs : list audit_log) :
  generate_audit_logs tenants employees sales s = (Ok logs, s') ->
  map al_log_id logs = ids_from "AUDIT-" 8 1 (length logs) /\
  NoDup (map al_log_id logs) /\
  (900 <= length logs <= 4500)%nat /\
  Forall (audit_ok tenants employees) logs.
Proof.
  intros Hrun.
  pose proof (generate_audit_logs_ids _ _ _ _ _ _ Hrun) as [Hids Hlen].
  pose proof (generate_audit_logs_ok _ _ _ _ _ _ Hrun) as Hok.
  split; [exact Hids|]. split; [|split; [exact Hlen|exact Hok]].
  rewrite Hids. apply ids_from_NoDup. lia.
Qed.

Lemma generate_audit_logs_rows_witness :
  let logs :=
    result_of [] (generate_audit_logs generate_tenants_data sample_employees []
                                      initial_state) in
  map al_log_id logs = ids_from "AUDIT-" 8 1 (length logs) /\
  NoDup (map al_log_id logs) /\
  (900 <= length logs <= 4500)%nat /\
  Forall (audit_ok generate_tenants_data sample_employees) logs.
Proof.
  exact (generate_audit_logs_rows generate_tenants_data sample_employees [] initial_state _ _
           (returned_result []
              (generate_audit_logs generate_tenants_data sample_employees [] initial_state)
              ltac:(vm_compute; reflexivity))).
Defined.

(** * The dimension tables *)

Ltac status_in H :=
  repeat (apply elem_of_cons in H as [->|H]; [apply list_elem_of_In; cbn; tauto|]);
  by apply elem_of_nil in H.

Lemma generate_formulations_data_ok :
  returns generate_formulations_data (Forall formulation_ok).
Proof.
  unfold generate_formulations_data.
  eapply returns_bind.
  { apply (returns_for_each formulation_ok). intros c [category products] _.
    apply (returns_for_each formulation_ok). intros c' product _. grun.
    constructor; [|constructor]. unfold formulation_ok.
    cbn [fm_status fm_expected_yield_percentage fm_production_cost_per_unit
         fm_target_cycle_time_hours].
    repeat match goal with H : (_ <= _ /\ _ <= _)%Q |- _ => destruct H end.
    split; [match goal with H : _ ∈ [_; _; _; _] |- _ => status_in H end|].
    split; [split; [by apply (round_ge _ 2 85)|by apply (round_le _ 2 98)]|].
    split; [split; [by apply (round_ge _ 2 150)|by apply (round_le _ 2 5000)]|].
    split; [by apply (round_ge _ 1 2)|by apply (round_le _ 1 48)]. }
  intros [fs c] H. cbv beta iota. apply returns_ret. exact H.
Qed.

Lemma generate_formulations_data_succeeds :
  succeeds generate_formulations_data (fun _ => True).
Proof.
  unfold generate_formulations_data.
  eapply succeeds_bind.
  { apply succeeds_for_each. intros c [category products] _.
    apply succeeds_for_each. intros c' product _. trun. exact I. }
  intros [fs c] _. by apply succeeds_ret.
Qed.

(** X18.  [generate_formulations_data] returns in every generator state,
    with 32 formulations: one per product of the four categories, in the
    order of the catalogue, numbered FMT-0001 .. FMT-0032, hence pairwise
    distinct; each has the status Active or Archived, an expected yield of
    85 .. 98, a unit cost of 150 .. 5000 and a cycle time of 2 .. 48. *)
Theorem generate_formulations_data_rows (s : rng_state) :
  exists fs s',
    generate_formulations_data s = (Ok fs, s') /\
    map (fun f => (fm_formulation_id f, fm_product_name f, fm_product_category f)) fs
    = formulation_catalog /\
    map fm_formulation_id fs = ids_from "FMT-" 4 1 32 /\
    NoDup (map fm_formulation_id fs) /\
    Forall formulation_ok fs.
Proof.
  destruct (succeeds_returns _ _ _
              (succeeds_returns _ _ _ generate_formulations_data_succeeds
                 generate_formulations_data_spec)
              generate_formulations_data_ok s)
    as (fs & s' & Hrun & [_ Hcat] & Hok).
  exists fs, s'. split; [exact Hrun|]. split; [exact Hcat|].
  assert (Hids : map fm_formulation_id fs = ids_from "FMT-" 4 1 32).
  { assert (H : map fm_formulation_id fs
                = map (fun c : string * string * string => c.1.1) formulation_catalog)
      by (rewrite <- Hcat, map_map; reflexivity).
    rewrite H. vm_compute. reflexivity. }
  split; [exact Hids|]. split; [|exact Hok].
  rewrite Hids. apply ids_from_NoDup. lia.
Qed.

(** ** Employees *)

Lemma returns_supervisor (employee_id : Z) :
  returns (if employee_id >? 5
           then s ← Random.randint 1 5; mret ("EMP-" +:+ Py.fmt_0d 4 s)
           else mret EmptyString)
          (fun sup =>
             String.eqb sup EmptyString = negb (employee_id >? 5) /\
             (sup = EmptyString \/ exists k, 1 <= k <= 5 /\ sup = "EMP-" +:+ Py.fmt_0d 4 k)).
Proof.
  destruct (employee_id >? 5).
  - eapply returns_bind; [apply returns_randint|]. intros k Hk. apply returns_ret.
    split; [reflexivity|]. right. by exists k.
  - apply returns_ret. split; [reflexivity|by left].
Qed.

Lemma returns_salary (position : string) :
  returns (if Py.contains "Manager" position then Random.uniform 150000 300000
           else if Py.contains "Senior" position || Py.contains "Lead" position
                then Random.uniform 80000 150000
                else Random.uniform 30000 80000)
          (fun salary =>
             if Py.contains "Manager" position
             then (150000 <= Py.round salary 2 /\ Py.round salary 2 <= 300000)%Q
             else if Py.contains "Senior" position || Py.contains "Lead" position
                  then (80000 <= Py.round salary 2 /\ Py.round salary 2 <= 150000)%Q
                  else (30000 <= Py.round salary 2 /\ Py.round salary 2 <= 80000)%Q).
Proof.
  destruct (Py.contains "Manager" position);
    [|destruct (Py.contains "Senior" position || Py.contains "Lead" position)];
    (eapply returns_weaken; [apply returns_uniform; discriminate|]);
    intros q [Hlo Hhi]; cbv beta.
  - split; [by apply (round_ge _ 2 150000)|by apply (round_le _ 2 300000)].
  - split; [by apply (round_ge _ 2 80000)|by apply (round_le _ 2 150000)].
  - split; [by apply (round_ge _ 2 30000)|by apply (round_le _ 2 80000)].
Qed.

Lemma generate_employees_data_catalog :
  returns generate_employees_data
    (fun es =>
       map (fun e => (em_employee_id e, em_department e, em_position e,
                      String.eqb (em_supervisor_id e) EmptyString)) es
       = employee_catalog /\ Forall employee_ok es).
Proof.
  unfold generate_employees_data.
  pose (g := fun e => (em_employee_id e, em_department e, em_position e,
                       String.eqb (em_supervisor_id e) EmptyString)).
  eapply returns_bind.
  { apply returns_and.
    - apply (returns_for_each_spec g
               (fun employee_id '(dept, positions) =>
                  pure_for_each
                    (fun employee_id position =>
                       ([("EMP-" +:+ Py.fmt_0d 4 employee_id, dept, position,
                          negb (employee_id >? 5))],
                        employee_id + 1))
                    positions employee_id)).
      intros c [dept positions] _.
      apply (returns_for_each_spec g). intros c' position _.
      do 2 mstep. cbv zeta. do 3 mstep.
      eapply returns_bind; [apply returns_true|]. intros salary _.
      do 3 mstep.
      eapply returns_bind; [apply returns_supervisor|]. intros sup [Hsup _].
      mrun. unfold g. cbn [map fst snd em_employee_id em_department em_position
                            em_supervisor_id].
      rewrite Hsup. reflexivity.
    - apply (returns_for_each employee_ok). intros c [dept positions] _.
      apply (returns_for_each employee_ok). intros c' position _.
      do 2 mstep. cbv zeta. do 3 mstep.
      eapply returns_bind; [apply returns_salary|]. intros salary Hsalary.
      do 3 mstep.
      eapply returns_bind; [apply returns_supervisor|]. intros sup [_ Hsup].
      mrun. constructor; [|constructor]. unfold employee_ok.
      cbn [em_supervisor_id em_email em_first_name em_last_name em_position em_salary].
      split; [exact Hsup|]. split; [reflexivity|exact Hsalary]. }
  intros [es c] [H1 H2]. cbv beta iota. apply returns_ret. split; [|exact H2].
  unfold employee_catalog. cbn [fst snd] in H1. by rewrite <- H1.
Qed.

Lemma generate_employees_data_succeeds : succeeds generate_employees_data (fun _ => True).
Proof.
  unfold generate_employees_data.
  eapply succeeds_bind.
  { apply succeeds_for_each. intros c [dept positions] _.
    apply succeeds_for_each. intros c' position _.
    repeat tstep.
    eapply succeeds_bind.
    { instantiate (1 := fun _ => True).
      destruct (Py.contains "Manager" position);
        [|destruct (Py.contains "Senior" position || Py.contains "Lead" position)];
        (eapply succeeds_weaken; [apply succeeds_uniform; discriminate|done]). }
    intros salary _. repeat tstep.
    eapply succeeds_bind.
    { instantiate (1 := fun _ => True). destruct (c' >? 5); trun; exact I. }
    intros sup _. trun. exact I. }
  intros [es c] _. by apply succeeds_ret.
Qed.

(** X19.  [generate_employees_data] returns in every generator state, with
    26 employees numbered EMP-0001 .. EMP-0026 in the order of the fixed
    departments and positions; the first five (all of Production) have no
    supervisor and every other employee has one of EMP-0001 .. EMP-0005 as
    supervisor, so a supervisor reference always names an employee of the
    table; the e-mail is made of the lower-case names, and the salary lies in
    the band of the position (150000 .. 300000 when it names a Manager,
    80000 .. 150000 when it names a Senior or a Lead, 30000 .. 80000
    otherwise). *)
Theorem generate_employees_data_rows (s : rng_state) :
  exists es s',
    generate_employees_data s = (Ok es, s') /\
    map (fun e => (em_employee_id e, em_department e, em_position e,
                   String.eqb (em_supervisor_id e) EmptyString)) es
    = employee_catalog /\
    map em_employee_id es = ids_from "EMP-" 4 1 26 /\
    Forall employee_ok es /\
    Forall (fun e => em_supervisor_id e = EmptyString \/
                     em_supervisor_id e ∈ map em_employee_id (take 5 es)) es.
Proof.
  destruct (succeeds_returns _ _ _ generate_employees_data_succeeds
              generate_employees_data_catalog s)
    as (es & s' & Hrun & _ & Hcat & Hok).
  exists es, s'. split; [exact Hrun|]. split; [exact Hcat|].
  assert (Hids : map em_employee_id es = ids_from "EMP-" 4 1 26).
  { assert (H : map em_employee_id es
                = map (fun c : string * string * string * bool => c.1.1.1) employee_catalog)
      by (rewrite <- Hcat, map_map; reflexivity).
    rewrite H. vm_compute. reflexivity. }
  split; [exact Hids|]. split; [exact Hok|].
  assert (Hfive : map em_employee_id (take 5 es) = ids_from "EMP-" 4 1 5).
  { rewrite <- firstn_map, Hids. vm_compute. reflexivity. }
  rewrite Hfive. eapply Forall_impl; [exact Hok|].
  intros e [[Hnone|(k & Hk & Hsup)] _]; [by left|right].
  rewrite Hsup. apply list_elem_of_fmap. exists k. split; [reflexivity|].
  apply elem_of_seqZ. lia.
Qed.

(** ** Customers *)

Lemma generate_customers_data_kinds :
  returns generate_customers_data
    (fun cs => map (fun c => (cu_customer_id c, cu_customer_type c)) cs = customer_kinds).
Proof.
  unfold generate_customers_data.
  pose (g := fun c => (cu_customer_id c, cu_customer_type c)).
  eapply returns_bind.
  { apply (returns_for_each_spec g
             (fun customer_id (_ : string) =>
                ([("B2B-" +:+ Py.fmt_0d 4 customer_id, "Business"%string)], customer_id + 1))).
    intros s x _. mrun. reflexivity. }
  intros [b2b customer_id] Hb2b. cbv beta iota.
  eapply returns_bind.
  { apply (returns_for_each_spec g
             (fun customer_id (_ : Z) =>
                ([("B2C-" +:+ Py.fmt_0d 4 customer_id, "Individual"%string)],
                 customer_id + 1))).
    intros s x _. mrun. reflexivity. }
  intros [b2c ?] Hb2c. cbv beta iota. apply returns_ret.
  cbn [fst snd] in *. rewrite map_app.
  assert (E1 : pure_for_each
                 (fun customer_id (_ : string) =>
                    ([("B2B-" +:+ Py.fmt_0d 4 customer_id, "Business"%string)],
                     customer_id + 1)) b2b_names 1
               = (map (fun i => ("B2B-" +:+ Py.fmt_0d 4 (1 + i), "Business"%string)) (range 12),
                  13))
    by (vm_compute; reflexivity).
  rewrite E1 in Hb2b. injection Hb2b as Hb2b ->.
  assert (E2 : (pure_for_each
                 (fun customer_id (_ : Z) =>
                    ([("B2C-" +:+ Py.fmt_0d 4 customer_id, "Individual"%string)],
                     customer_id + 1)) (range 50) 13).1
               = map (fun i => ("B2C-" +:+ Py.fmt_0d 4 (13 + i), "Individual"%string))
                     (range 50))
    by (vm_compute; reflexivity).
  rewrite <- Hb2c in E2. cbn [fst] in E2. unfold customer_kinds, g in *.
  rewrite Hb2b, E2. reflexivity.
Qed.

Lemma generate_customers_data_succeeds : succeeds generate_customers_data (fun _ => True).
Proof.
  unfold generate_customers_data.
  eapply succeeds_bind.
  { apply succeeds_for_each. intros c x _. trun. exact I. }
  intros [b2b c] _. cbv beta iota.
  eapply succeeds_bind.
  { apply succeeds_for_each. intros c' x _. trun. exact I. }
  intros [b2c c'] _. by apply succeeds_ret.
Qed.

(** X20.  [generate_customers_data] returns in every generator state, with
    62 customers: twelve of type Business numbered B2B-0001 .. B2B-0012,
    then fifty of type Individual numbered B2C-0013 .. B2C-0062 (one counter
    runs over both groups), all identifiers pairwise distinct. *)
Theorem generate_customers_data_rows (s : rng_state) :
  exists cs s',
    generate_customers_data s = (Ok cs, s') /\
    map (fun c => (cu_customer_id c, cu_customer_type c)) cs = customer_kinds /\
    length cs = 62%nat /\
    NoDup (map cu_customer_id cs).
Proof.
  destruct (succeeds_returns _ _ _ generate_customers_data_succeeds
              generate_customers_data_kinds s)
    as (cs & s' & Hrun & _ & Hkinds).
  exists cs, s'. split; [exact Hrun|]. split; [exact Hkinds|].
  assert (Hids : map cu_customer_id cs = map fst customer_kinds)
    by (rewrite <- Hkinds, map_map; reflexivity).
  split.
  - apply (f_equal length) in Hids. rewrite !length_map in Hids. rewrite Hids.
    vm_compute. reflexivity.
  - rewrite Hids. apply (bool_decide_unpack _). vm_compute. exact I.
Qed.

(** ** Accounts *)

Lemma generate_financial_accounts_catalog :
  returns generate_financial_accounts
    (fun acs =>
       map (fun a => (ac_account_code a, ac_account_name a, ac_account_type a,
                      ac_category a, ac_normal_balance a)) acs
       = account_catalog).
Proof.
  unfold generate_financial_accounts.
  pose (g := fun a => (ac_account_code a, ac_account_name a, ac_account_type a,
                       ac_category a, ac_normal_balance a)).
  eapply returns_bind.
  { apply (returns_for_each_spec g
             (fun account_code '(main_category, subcategories) =>
                pure_for_each
                  (fun account_code '(subcategory, account_names) =>
                     pure_for_each
                       (fun account_code account_name =>
                          ([(Py.str_of_int account_code, account_name, main_category,
                             subcategory,
                             if mem_string main_category ["Assets"; "Expenses"]
                             then "Debit"%string else "Credit"%string)],
                           account_code + 1))
                       account_names account_code)
                  subcategories account_code)).
    intros c [main_category subcategories] _.
    apply (returns_for_each_spec g
             (fun account_code '(subcategory, account_names) =>
                pure_for_each
                  (fun account_code account_name =>
                     ([(Py.str_of_int account_code, account_name, main_category,
                        subcategory,
                        if mem_string main_category ["Assets"; "Expenses"]
                        then "Debit"%string else "Credit"%string)],
                      account_code + 1))
                  account_names account_code)).
    intros c' [subcategory account_names] _.
    apply (returns_for_each_spec g). intros c'' account_name _. mrun. reflexivity. }
  intros [acs c] H. cbv beta iota. apply returns_ret.
  unfold account_catalog. cbn [fst snd] in H. by rewrite <- H.
Qed.

Lemma generate_financial_accounts_succeeds :
  succeeds generate_financial_accounts (fun _ => True).
Proof.
  unfold generate_financial_accounts.
  eapply succeeds_bind.
  { apply succeeds_for_each. intros c [main_category subcategories] _.
    apply succeeds_for_each. intros c' [subcategory account_names] _.
    apply succeeds_for_each. intros c'' account_name _. cbv zeta.
    eapply succeeds_bind.
    { instantiate (1 := fun _ => True).
      repeat match goal with
             | |- context [String.eqb main_category ?x] =>
                 destruct (String.eqb main_category x)
             end;
        (eapply succeeds_weaken; [apply succeeds_uniform; discriminate|done]). }
    intros opening _. trun. exact I. }
  intros [acs c] _. by apply succeeds_ret.
Qed.

(** X21.  [generate_financial_accounts] returns in every generator state,
    with the 31 accounts of the fixed chart in order, their codes the
    consecutive numbers 1000 .. 1030, hence pairwise distinct; the normal
    balance is Debit for the accounts of type Assets and Expenses and Credit
    for all others. *)
Theorem generate_financial_accounts_rows (s : rng_state) :
  exists acs s',
    generate_financial_accounts s = (Ok acs, s') /\
    map (fun a => (ac_account_code a, ac_account_name a, ac_account_type a,
                   ac_category a, ac_normal_balance a)) acs
    = account_catalog /\
    map ac_account_code acs = map (fun i => Py.str_of_int (1000 + i)) (range 31) /\
    NoDup (map ac_account_code acs) /\
    Forall (fun a => ac_normal_balance a
                     = if mem_string (ac_account_type a) ["Assets"; "Expenses"]
                       then "Debit"%string else "Credit"%string) acs.
Proof.
  destruct (succeeds_returns _ _ _ generate_financial_accounts_succeeds
              generate_financial_accounts_catalog s)
    as (acs & s' & Hrun & _ & Hcat).
  exists acs, s'. split; [exact Hrun|]. split; [exact Hcat|].
  assert (Hcodes : map ac_account_code acs
                   = map (fun c : string * string * string * string * string => c.1.1.1.1)
                         account_catalog)
    by (rewrite <- Hcat, map_map; reflexivity).
  split; [rewrite Hcodes; vm_compute; reflexivity|].
  split; [rewrite Hcodes; apply (bool_decide_unpack _); vm_compute; exact I|].
  assert (Hall : Forall (fun c : string * string * string * string * string =>
                           c.2 = if mem_string c.1.1.2 ["Assets"; "Expenses"]
                                 then "Debit"%string else "Credit"%string) account_catalog).
  { apply (bool_decide_unpack _). vm_compute. exact I. }
  rewrite <- Hcat in Hall. apply Forall_fmap in Hall.
  eapply Forall_impl; [exact Hall|]. intros a Ha. exact Ha.
Qed.

(** * Sessions of the website traffic *)

Lemma returns_for_each_window {A B} (step : Z) (P : Z -> B -> Prop) (xs : list A)
    (body : Z -> A -> M (list B * Z)) :
  0 <= step ->
  (forall c x, x ∈ xs ->
     returns (body c x)
             (fun r => c <= r.2 <= c + step /\
                       Forall (fun b => exists k, c <= k < r.2 /\ P k b) r.1)) ->
  forall c, returns (for_each xs body c)
                    (fun r => c <= r.2 <= c + step * Z.of_nat (length xs) /\
                              Forall (fun b => exists k, c <= k < r.2 /\ P k b) r.1).
Proof.
  intros Hstep. induction xs as [|x xs IH]; intros Hb c; cbn [for_each].
  - apply returns_ret. cbn. split; [lia|constructor].
  - eapply returns_bind; [apply Hb; left|]. intros [rows c1] [Hc1 Hrows].
    eapply returns_bind; [apply IH; intros; apply Hb; by right|]. intros [rest c2] [Hc2 Hrest].
    apply returns_ret. cbn [fst snd length] in *. split; [nia|].
    apply Forall_app. split.
    + eapply Forall_impl; [exact Hrows|]. intros b (k & Hk & HP). exists k. split; [lia|done].
    + eapply Forall_impl; [exact Hrest|]. intros b (k & Hk & HP). exists k. split; [lia|done].
Qed.

Lemma generate_website_traffic_sessions :
  returns generate_website_traffic (Forall session_ok).
Proof.
  unfold generate_website_traffic. cbv zeta.
  pose (P := fun (k : Z) (r : page_view) => wt_session_id r = "SESS-" +:+ Py.fmt_0d 6 k).
  eapply returns_bind.
  { apply (returns_for_each_window 200 P); [lia|]. intros c day _.
    eapply returns_bind; [apply returns_randint|]. intros sessions Hsessions.
    eapply returns_weaken.
    { apply (returns_for_each_window 1 P); [lia|]. intros c' x _. mrun.
      eapply returns_bind.
      { apply (returns_for_each (fun r => P c' r)). intros [] view _. mrun;
          (constructor; [reflexivity|constructor]). }
      intros [views []] Hviews. cbv beta iota. apply returns_ret. cbn [fst snd].
      split; [lia|]. eapply Forall_impl; [exact Hviews|].
      intros r Hr. exists c'. split; [lia|exact Hr]. }
    intros r [Hc Hrows]. cbv beta in *. rewrite length_range in Hc. split; [lia|exact Hrows]. }
  intros [traffic c] [Hc Htraffic]. cbv beta iota. apply returns_ret.
  cbn [fst snd] in *. rewrite length_range in Hc.
  eapply Forall_impl; [exact Htraffic|]. intros r (k & Hk & HP). exists k. split; [lia|exact HP].
Qed.

(** * The links of a run *)

Lemma generate_all_links :
  returns generate_all
    (fun r => exists g, run_facts g /\ run_links g /\
                        r = (validated_tables (frames_of g), validation_reports (frames_of g))).
Proof.
  unfold generate_all. cbv zeta.
  eapply returns_bind;
    [apply (returns_and _ _ _ generate_employees_data_nonempty
              generate_employees_data_catalog)|].
  intros employees [Hemployees Hemployees'].
  eapply returns_bind;
    [apply (returns_and _ _ _ generate_formulations_data_spec generate_formulations_data_ok)|].
  intros formulations [Hforms Hforms'].
  eapply returns_bind; [apply generate_raw_materials_data_nonempty|]. intros raw Hraw.
  eapply returns_bind;
    [apply (returns_and _ _ _ generate_customers_data_spec generate_customers_data_kinds)|].
  intros customers [Hcustomers Hcustomers'].
  eapply returns_bind;
    [apply (returns_and _ _ _ (generate_production_batches_spec _ _)
              (returns_and _ _ _ (generate_production_batches_ids _ _)
                 (generate_production_batches_ok _ _)))|].
  intros batches [Hbatches Hbatches'].
  eapply returns_bind.
  { apply generate_inventory_items_spec. rewrite (formulation_pairs _ Hforms).
    apply item_sku_bases_no_dash. }
  intros items Hitems. rewrite (formulation_pairs _ Hforms) in Hitems.
  eapply returns_bind;
    [apply (returns_and _ _ _ (generate_inventory_transactions_spec _ _ _ _)
              (returns_and _ _ _ (generate_inventory_transactions_ids _ _ _ _)
                 (generate_inventory_transactions_ok _ _ _ _)))|].
  intros txs [Htxs Htxs'].
  eapply returns_bind;
    [apply (returns_and _ _ _ (generate_sales_transactions_spec _ _ _)
              (returns_and _ _ _ (generate_sales_transactions_ids _ _ _)
                 (generate_sales_transactions_ok _ _ _)))|].
  intros sales [Hsales Hsales'].
  eapply returns_bind;
    [apply (returns_and _ _ _ (generate_ecommerce_orders_nonempty _ _)
              (returns_and _ _ _ (generate_ecommerce_orders_ids _ _)
                 (generate_ecommerce_orders_ok _ _)))|].
  intros orders [Horders Horders'].
  eapply returns_bind;
    [apply (returns_and _ _ _ (generate_attendance_data_ids _)
              (generate_attendance_data_ok _))|].
  intros attendance Hattendance.
  eapply returns_bind;
    [apply (returns_and _ _ _ generate_financial_accounts_nonempty
              generate_financial_accounts_catalog)|].
  intros accounts [Haccounts Haccounts'].
  eapply returns_bind;
    [apply (returns_and _ _ _ (generate_financial_transactions_nonempty _ _)
              (returns_and _ _ _ (generate_financial_transactions_structure _ _)
                 (generate_financial_transactions_ok _ _)))|].
  intros postings [Hpostings [[Hpostings1 _] Hpostings2]].
  eapply returns_bind;
    [apply (returns_and _ _ _ generate_website_traffic_spec
              generate_website_traffic_sessions)|].
  intros traffic [Htraffic Htraffic'].
  eapply returns_bind; [apply generate_production_analytics_rows|]. intros pa Hpa.
  eapply returns_bind; [apply generate_inventory_analytics_spec|]. intros ia Hia.
  eapply returns_bind;
    [apply (returns_and _ _ _ (generate_audit_logs_nonempty _ _ _)
              (returns_and _ _ _ (generate_audit_logs_ids _ _ _)
                 (generate_audit_logs_ok _ _ _)))|].
  intros logs [Hlogs [[Hlogs1 Hlogs2] Hlogs3]].
  set (g := mk_generated generate_tenants_data employees formulations raw customers batches
                         items txs sales orders attendance accounts postings traffic pa ia logs).
  destruct (package_and_validate (frames_of g) (known_frames g)) as (ds & h' & Hrun & Htabs).
  unfold frames_of in Hrun. cbn [g_tenants g_employees g_formulations g_raw_materials
    g_customers g_batches g_items g_transactions g_sales g_orders g_attendance g_accounts
    g_postings g_traffic g_production_analytics g_inventory_analytics g_logs g] in Hrun.
  destruct (allocate 0%nat _ ∅) as [ds0 h0] eqn:Ealloc in Hrun |- *.
  cbn [fst snd] in Hrun. rewrite Hrun. apply returns_ret.
  exists g. split; [|split].
  - unfold run_facts. cbn [g_tenants g_employees g_formulations g_raw_materials
      g_customers g_batches g_items g_transactions g_sales g_orders g_attendance g_accounts
      g_postings g_traffic g_production_analytics g_inventory_analytics g_logs g].
    repeat split; assumption || (by destruct Hbatches) || (by destruct Htxs)
                  || (by destruct Hsales) || (by destruct Htraffic) || idtac.
  - unfold run_links. cbn [g_tenants g_employees g_formulations g_raw_materials
      g_customers g_batches g_items g_transactions g_sales g_orders g_attendance g_accounts
      g_postings g_traffic g_production_analytics g_inventory_analytics g_logs g].
    split; [exact Hemployees'|]. split; [exact Hforms'|]. split; [exact Hcustomers'|].
    split; [exact Hbatches'|]. split; [exact Htxs'|]. split; [exact Hsales'|].
    split; [exact Horders'|]. split; [exact Hattendance|]. split; [exact Haccounts'|].
    split; [split; [exact Hpostings1|exact Hpostings2]|]. split; [exact Htraffic'|].
    split; [exact Hpa|]. split; [exact Hlogs1|]. split; [exact Hlogs2|exact Hlogs3].
  - by rewrite Htabs.
Qed.

Lemma generate_demo_data_links (gen : Z -> N -> N) (seed : Z) (st st' : rng_state)
    (tables : list (string * DataFrame)) (reports : list (string * report)) :
  generate_demo_data gen seed st = (Ok (tables, reports), st') ->
  exists g, run_facts g /\ run_links g /\
            tables = validated_tables (frames_of g) /\
            reports = validation_reports (frames_of g).
Proof.
  intros H. apply generate_demo_data_returned in H as [_ H].
  destruct (generate_all_links _ _ _ H) as (g & Hg & Hl & Hr).
  exists g. split; [exact Hg|]. split; [exact Hl|].
  split; [exact (f_equal fst Hr)|exact (f_equal snd Hr)].
Qed.

(** * Cells of the validated tables *)

Lemma cell_generated {A} (name : string) (schema : schema) (row : A -> dict) (xs : list A)
    (col ty : string) (i : nat) (v : value) :
  assoc_get name SCHEMAS = Some schema ->
  (forall x, row_conforms (required schema) (row x) = true) ->
  assoc_get col (required schema) = Some ty ->
  cell (validate_frame name (DataFrame_of (map row xs))).1 col i = Some v ->
  exists x, xs !! i = Some x /\
            v = converted_cell ty (default VNull (dict_get col (row x))).
Proof.
  intros Hs Hrow Hcol Hcell.
  destruct (decide (xs = [])) as [->|Hne].
  - cbn [map] in Hcell. rewrite (validate_frame_empty name schema Hs) in Hcell.
    + unfold cell in Hcell. cbn in Hcell. discriminate Hcell.
    + intros E. rewrite E in Hcol. discriminate Hcol.
  - destruct (generated_table name schema row xs Hs Hrow Hne) as (_ & _ & Hcols).
    rewrite (cell_map _ _ _ _ i (Hcols col ty Hcol)) in Hcell.
    destruct (xs !! i) as [x|]; [|discriminate Hcell].
    exists x. split; [reflexivity|]. cbn in Hcell. by injection Hcell as <-.
Qed.

Lemma generated_cell {A} (name : string) (schema : schema) (row : A -> dict) (xs : list A)
    (col ty : string) (i : nat) (x : A) :
  assoc_get name SCHEMAS = Some schema ->
  (forall x, row_conforms (required schema) (row x) = true) ->
  assoc_get col (required schema) = Some ty ->
  xs !! i = Some x ->
  cell (validate_frame name (DataFrame_of (map row xs))).1 col i
  = Some (converted_cell ty (default VNull (dict_get col (row x)))).
Proof.
  intros Hs Hrow Hcol Hx.
  assert (Hne : xs <> []) by (intros ->; discriminate Hx).
  destruct (generated_table name schema row xs Hs Hrow Hne) as (_ & _ & Hcols).
  rewrite (cell_map _ _ _ _ i (Hcols col ty Hcol)), Hx. reflexivity.
Qed.

Lemma references_generated {A B} (tables : list (string * DataFrame))
    (fact col dim key : string) (schemaf schemad : schema)
    (rowf : A -> dict) (xsf : list A) (rowd : B -> dict) (xsd : list B)
    (pf : A -> string) (pd : B -> string) :
  assoc_get fact tables = Some (validate_frame fact (DataFrame_of (map rowf xsf))).1 ->
  assoc_get dim tables = Some (validate_frame dim (DataFrame_of (map rowd xsd))).1 ->
  assoc_get fact SCHEMAS = Some schemaf ->
  assoc_get dim SCHEMAS = Some schemad ->
  (forall x, row_conforms (required schemaf) (rowf x) = true) ->
  (forall y, row_conforms (required schemad) (rowd y) = true) ->
  assoc_get col (required schemaf) = Some "str"%string ->
  assoc_get key (required schemad) = Some "str"%string ->
  (forall x, dict_get col (rowf x) = Some (VStr (pf x))) ->
  (forall y, dict_get key (rowd y) = Some (VStr (pd y))) ->
  Forall (fun x => exists y, y ∈ xsd /\ pd y = pf x) xsf ->
  references tables (fact, col, dim, key).
Proof.
  intros Hft Hdt Hsf Hsd Hrf Hrd Hcol Hkey Hpf Hpd Hall.
  eexists _, _. split; [exact Hft|]. split; [exact Hdt|]. cbn [fst snd].
  intros i v Hcell.
  destruct (cell_generated _ _ _ _ _ _ _ _ Hsf Hrf Hcol Hcell) as (x & Hx & ->).
  destruct (proj1 (Forall_lookup _ _) Hall i x Hx) as (y & Hy & E).
  apply list_elem_of_lookup in Hy as [j Hj]. exists j.
  rewrite (generated_cell _ _ _ _ _ _ _ _ Hsd Hrd Hkey Hj), Hpf, Hpd, E. reflexivity.
Qed.

Lemma batch_id_known (batches : list batch) (b : Z) :
  map pb_batch_id batches = ids_from "BATCH-" 4 1 100 ->
  1 <= b <= 100 ->
  exists y, y ∈ batches /\ pb_batch_id y = "BATCH-" +:+ Py.fmt_0d 4 b.
Proof.
  intros Hids Hb.
  assert (Hin : "BATCH-" +:+ Py.fmt_0d 4 b ∈ map pb_batch_id batches).
  { rewrite Hids. unfold ids_from. apply list_elem_of_fmap. exists b.
    split; [reflexivity|]. apply elem_of_seqZ. lia. }
  apply list_elem_of_fmap in Hin as (y & E & Hy). exists y. split; [exact Hy|by rewrite E].
Qed.

Ltac link row_f xs_f row_d xs_d p_f p_d :=
  match goal with
  | |- references ?tables (?fact, ?col, ?dim, ?key) =>
      eapply (references_generated tables fact col dim key _ _
                row_f xs_f row_d xs_d p_f p_d);
      [reflexivity|reflexivity|reflexivity|reflexivity|conforms|conforms
      |reflexivity|reflexivity|intros []; reflexivity|intros []; reflexivity|]
  end.

(** X22.  In every run that returns, the references between the tables
    listed in [foreign_keys] hold: every formulation and supervisor of a
    batch, every sku, batch and employee of an inventory transaction, every
    customer, sku and employee of a sale, every customer of an e-commerce
    order, every employee of an attendance row, every account of a
    financial transaction, every batch of a production analytics row, every
    sku of an inventory analytics row and every user and tenant of an audit
    log is the key of a row of the table it refers to. *)
Theorem generate_demo_data_references (gen : Z -> N -> N) (seed : Z)
    (st st' : rng_state) (tables : list (string * DataFrame))
    (reports : list (string * report)) :
  generate_demo_data gen seed st = (Ok (tables, reports), st') ->
  Forall (references tables) foreign_keys.
Proof.
  intros Hrun.
  destruct (generate_demo_data_links _ _ _ _ _ _ Hrun) as (g & Hg & Hl & -> & _).
  run_facts_of Hg.
  destruct Hl as (_ & _ & _ & [Hbatch_ids Hbatches] & [_ Htxs] & [_ Hsales] & [_ Horders]
                  & [_ Hatt] & _ & [_ Hpostings] & _ & [Hpa _] & _ & _ & Hlogs).
  unfold foreign_keys. repeat (apply Forall_cons; split); [..|exact (Forall_nil_2 _)].
  - link batch_row (g_batches g) formulation_row (g_formulations g)
         pb_formulation_id fm_formulation_id.
    eapply Forall_impl; [exact Hbatches|]. intros b ((f & Hf & _ & E) & _). exists f; split; [exact Hf|exact E].
  - link batch_row (g_batches g) employee_row (g_employees g)
         pb_supervisor_id em_employee_id.
    eapply Forall_impl; [exact Hbatches|]. intros b (_ & (e & He & _ & E) & _). exists e; split; [eassumption|exact E].
  - link inventory_transaction_row (g_transactions g) inventory_item_row (g_items g)
         tx_sku it_sku.
    eapply Forall_impl; [exact Htxs|]. intros r ((item & Hitem & E & _) & _). exists item; split; [eassumption|exact E].
  - link inventory_transaction_row (g_transactions g) batch_row (g_batches g)
         tx_batch_id pb_batch_id.
    eapply Forall_impl; [exact Htxs|].
    intros r (_ & _ & [(_ & b & Hb & _ & E & _)|[(_ & _ & b & Hb & E)|(_ & _ & b & Hb & E)]]).
    + exists b; split; [eassumption|exact E].
    + rewrite E. apply batch_id_known; [exact Hbatch_ids|exact Hb].
    + rewrite E. apply batch_id_known; [exact Hbatch_ids|exact Hb].
  - link inventory_transaction_row (g_transactions g) employee_row (g_employees g)
         tx_employee_id em_employee_id.
    eapply Forall_impl; [exact Htxs|]. intros r (_ & (e & He & _ & E) & _). exists e; split; [eassumption|exact E].
  - link sale_row (g_sales g) customer_row (g_customers g) sa_customer_id cu_customer_id.
    eapply Forall_impl; [exact Hsales|]. intros r (_ & (c & rate & Hc & E & _) & _).
    exists c; split; [eassumption|exact E].
  - link sale_row (g_sales g) inventory_item_row (g_items g) sa_sku it_sku.
    eapply Forall_impl; [exact Hsales|]. intros r ((item & m & Hitem & E & _) & _).
    exists item; split; [eassumption|exact E].
  - link sale_row (g_sales g) employee_row (g_employees g) sa_employee_id em_employee_id.
    eapply Forall_impl; [exact Hsales|]. intros r (_ & _ & (e & He & _ & E) & _). exists e; split; [eassumption|exact E].
  - link ecommerce_order_row (g_orders g) customer_row (g_customers g)
         eo_customer_id cu_customer_id.
    eapply Forall_impl; [exact Horders|]. intros r ((c & Hc & _ & E) & _). exists c; split; [eassumption|exact E].
  - link attendance_row (g_attendance g) employee_row (g_employees g)
         at_employee_id em_employee_id.
    eapply Forall_impl; [exact Hatt|]. intros r ((e & He & _ & E & _) & _). exists e; split; [eassumption|exact E].
  - link financial_transaction_row (g_postings g) account_row (g_accounts g)
         ft_account_code ac_account_code.
    eapply Forall_impl; [exact Hpostings|]. intros r (_ & a & Ha & E & _). exists a; split; [eassumption|exact E].
  - link production_analytic_row (g_production_analytics g) batch_row (g_batches g)
         pa_batch_id pb_batch_id.
    apply Forall_forall. intros r Hr. apply list_elem_of_lookup in Hr as [i Hi].
    destruct (Forall2_lookup_r _ _ _ _ _ Hpa Hi) as (b & Hb & E & _).
    apply list_elem_of_lookup_2, list_elem_of_filter in Hb as [_ Hb].
    exists b. split; [exact Hb|symmetry; exact E].
  - link inventory_analytic_row (g_inventory_analytics g) inventory_item_row (g_items g)
         ia_sku it_sku.
    eapply Forall_impl; [exact Hia|]. intros r (item & Hitem & E & _). exists item; split; [eassumption|exact E].
  - link audit_log_row (g_logs g) employee_row (g_employees g) al_user_id em_employee_id.
    eapply Forall_impl; [exact Hlogs|]. intros r ((e & He & E & _) & _). exists e; split; [eassumption|exact E].
  - link audit_log_row (g_logs g) tenant_row (g_tenants g) al_tenant_id tn_tenant_id.
    eapply Forall_impl; [exact Hlogs|]. intros r (_ & (t & Ht & E) & _). exists t; split; [eassumption|exact E].
Qed.

Lemma unique_generated {A} (tables : list (string * DataFrame)) (name col : string)
    (schema : schema) (row : A -> dict) (xs : list A) (p : A -> string) :
  assoc_get name tables = Some (validate_frame name (DataFrame_of (map row xs))).1 ->
  assoc_get name SCHEMAS = Some schema ->
  (forall x, row_conforms (required schema) (row x) = true) ->
  assoc_get col (required schema) = Some "str"%string ->
  (forall x, dict_get col (row x) = Some (VStr (p x))) ->
  NoDup (map p xs) ->
  unique_key tables (name, col).
Proof.
  intros Ht Hs Hrow Hcol Hp Hnd. eexists. split; [exact Ht|]. cbn [fst snd].
  destruct (decide (xs = [])) as [->|Hne].
  - cbn [map]. rewrite (validate_frame_empty name schema Hs).
    + exact (NoDup_nil_2).
    + intros E. rewrite E in Hcol. discriminate Hcol.
  - destruct (generated_table name schema row xs Hs Hrow Hne) as (_ & _ & Hcols).
    rewrite (Hcols col _ Hcol).
    rewrite (map_ext _ (fun x => VStr (p x))) by (intros x; rewrite Hp; reflexivity).
    change (NoDup (VStr ∘ p <$> xs)). rewrite list_fmap_compose.
    apply NoDup_fmap_2; [|exact Hnd]. intros a b [= E]. exact E.
Qed.

Lemma NoDup_map_of {A B C} (f : A -> B) (h : B -> C) (xs : list A) :
  NoDup (map (fun x => h (f x)) xs) -> NoDup (map f xs).
Proof.
  intros H. change (NoDup ((h ∘ f) <$> xs)) in H. rewrite list_fmap_compose in H.
  exact (NoDup_fmap_1 h _ H).
Qed.

Ltac key row xs p :=
  match goal with
  | |- unique_key ?tables (?name, ?col) =>
      eapply (unique_generated tables name col _ row xs p);
      [reflexivity|reflexivity|conforms|reflexivity|intros []; reflexivity|]
  end.

Ltac consecutive H := rewrite H; apply ids_from_NoDup; lia.

Lemma NoDup_strings (l : list string) : bool_decide (NoDup l) = true -> NoDup l.
Proof. intros H. apply bool_decide_eq_true in H. exact H. Qed.

Ltac listed H := rewrite H; apply NoDup_strings; vm_compute; reflexivity.

Ltac projected H f :=
  match type of H with
  | map ?t ?xs = _ =>
      match goal with
      | |- NoDup (map ?p xs) =>
          let E := fresh "E" in
          assert (E : map p xs = map f (map t xs)) by (rewrite map_map; reflexivity);
          rewrite E, H; apply NoDup_strings; vm_compute; reflexivity
      end
  end.

(** X23.  In every run that returns, the identifier column of each table
    listed in [primary_keys] holds no value twice: tenants, employees,
    formulations, customers, batches, inventory items (the sku),
    inventory transactions, sales, e-commerce orders, attendance rows,
    accounts, financial transactions, production analytics rows and audit
    logs. *)
Theorem generate_demo_data_unique_keys (gen : Z -> N -> N) (seed : Z)
    (st st' : rng_state) (tables : list (string * DataFrame))
    (reports : list (string * report)) :
  generate_demo_data gen seed st = (Ok (tables, reports), st') ->
  Forall (unique_key tables) primary_keys.
Proof.
  intros Hrun.
  destruct (generate_demo_data_links _ _ _ _ _ _ Hrun) as (g & Hg & Hl & -> & _).
  run_facts_of Hg.
  destruct Hl as ([Hemployees _] & _ & _ & [Hbatch_ids _] & [Htx_ids _] & [Hsale_ids _]
                  & [Horder_ids _] & [Hatt_ids _] & Haccounts & [Hpost_ids _] & _
                  & [_ Hpa_ids] & Hlog_ids & _).
  unfold primary_keys. repeat (apply Forall_cons; split); [..|exact (Forall_nil_2 _)].
  - key tenant_row (g_tenants g) tn_tenant_id. listed Htn.
  - key employee_row (g_employees g) em_employee_id.
    projected Hemployees (fun c : string * string * string * bool => c.1.1.1).
  - key formulation_row (g_formulations g) fm_formulation_id.
    projected Hfm (fun c : string * string * string => c.1.1).
  - key customer_row (g_customers g) cu_customer_id. listed Hcu.
  - key batch_row (g_batches g) pb_batch_id. consecutive Hbatch_ids.
  - key inventory_item_row (g_items g) it_sku.
    apply (NoDup_map_of _ until_dash). listed Hit.
  - key inventory_transaction_row (g_transactions g) tx_transaction_id. consecutive Htx_ids.
  - key sale_row (g_sales g) sa_transaction_id. consecutive Hsale_ids.
  - key ecommerce_order_row (g_orders g) eo_order_id. consecutive Horder_ids.
  - key attendance_row (g_attendance g) at_attendance_id. consecutive Hatt_ids.
  - key account_row (g_accounts g) ac_account_code.
    projected Haccounts (fun c : string * string * string * string * string => c.1.1.1.1).
  - key financial_transaction_row (g_postings g) ft_transaction_id. consecutive Hpost_ids.
  - key production_analytic_row (g_production_analytics g) pa_analytics_id.
    consecutive Hpa_ids.
  - key audit_log_row (g_logs g) al_log_id. consecutive Hlog_ids.
Qed.

Lemma sized_generated {A} (tables : list (string * DataFrame))
    (reports : list (string * report)) (name : string) (n : nat)
    (schema : schema) (row : A -> dict) (xs : list A) :
  assoc_get name tables = Some (validate_frame name (DataFrame_of (map row xs))).1 ->
  assoc_get name reports = Some (validate_frame name (DataFrame_of (map row xs))).2 ->
  assoc_get name SCHEMAS = Some schema ->
  (forall x, row_conforms (required schema) (row x) = true) ->
  length xs = S n ->
  sized tables reports (name, S n).
Proof.
  intros Ht Hr Hs Hrow Hlen. eexists _, _. split; [exact Ht|]. split; [exact Hr|].
  cbn [fst snd].
  destruct (generated_table name schema row xs Hs Hrow) as (H1 & H2 & _).
  { intros ->. discriminate Hlen. }
  rewrite H1, H2, Hlen. split; reflexivity.
Qed.

Ltac size row xs :=
  match goal with
  | |- sized ?tables ?reports (?name, S ?n) =>
      eapply (sized_generated tables reports name n _ row xs);
      [reflexivity|reflexivity|reflexivity|conforms|]
  end.

Ltac counted H :=
  match type of H with
  | map ?t ?xs = _ =>
      rewrite <- (length_map t xs), H; vm_compute; reflexivity
  end.

(** X24.  In every run that returns, whatever the random draws, the
    tables listed in [table_sizes] have the same number of rows, which the
    report of each repeats as its row count: 3 tenants, 26 employees,
    32 formulations, 62 customers, 100 batches, 32 inventory items,
    500 sales, 200 e-commerce orders and 31 accounts. *)
Theorem generate_demo_data_row_counts (gen : Z -> N -> N) (seed : Z)
    (st st' : rng_state) (tables : list (string * DataFrame))
    (reports : list (string * report)) :
  generate_demo_data gen seed st = (Ok (tables, reports), st') ->
  Forall (sized tables reports) table_sizes.
Proof.
  intros Hrun.
  destruct (generate_demo_data_links _ _ _ _ _ _ Hrun) as (g & Hg & Hl & -> & ->).
  run_facts_of Hg.
  destruct Hl as ([Hemployees _] & _ & _ & _ & _ & _ & _ & _ & Haccounts & _).
  unfold table_sizes. repeat (apply Forall_cons; split); [..|exact (Forall_nil_2 _)].
  - size tenant_row (g_tenants g). rewrite Htn. reflexivity.
  - size employee_row (g_employees g). counted Hemployees.
  - size formulation_row (g_formulations g). counted Hfm.
  - size customer_row (g_customers g). counted Hcu.
  - size batch_row (g_batches g). exact Hpb_len.
  - size inventory_item_row (g_items g). counted Hit.
  - size sale_row (g_sales g). exact Hsa_len.
  - size ecommerce_order_row (g_orders g). exact Heo.
  - size account_row (g_accounts g). counted Haccounts.
Qed.

Lemma session_ids_differ (n k : Z) :
  100000 <= n -> 1 <= k <= 6000 ->
  "SESS-" +:+ Py.str_of_int n <> "SESS-" +:+ Py.fmt_0d 6 k.
Proof.
  intros Hn Hk E. apply string_app_inv_head in E. apply (f_equal decode_0d) in E.
  change (Py.str_of_int n) with (Py.fmt_0d 0 n) in E.
  rewrite !decode_fmt_0d in E by lia. apply (inj Some) in E. lia.
Qed.

(** X25.  In every run that returns, no [website_session_id] of the 200
    rows of [fact_ecommerce_orders] is a [session_id] of
    [fact_website_traffic]: the orders draw theirs from SESS-100000 to
    SESS-999999, the page views are numbered from SESS-000001 and stay
    below SESS-006001. *)
Theorem generate_demo_data_order_sessions_unmatched (gen : Z -> N -> N) (seed : Z)
    (st st' : rng_state) (tables : list (string * DataFrame))
    (reports : list (string * report)) :
  generate_demo_data gen seed st = (Ok (tables, reports), st') ->
  exists orders traffic,
    assoc_get "fact_ecommerce_orders" tables = Some orders /\
    assoc_get "fact_website_traffic" tables = Some traffic /\
    frame_len orders = 200%nat /\
    forall i j v, cell orders "website_session_id" i = Some v ->
                  cell traffic "session_id" j <> Some v.
Proof.
  intros Hrun.
  destruct (generate_demo_data_links _ _ _ _ _ _ Hrun) as (g & Hg & Hl & -> & _).
  run_facts_of Hg.
  destruct Hl as (_ & _ & _ & _ & _ & _ & [_ Horders] & _ & _ & _ & Hsessions & _).
  destruct (generated_table "fact_ecommerce_orders" _ ecommerce_order_row (g_orders g)
              eq_refl) as (Hlen & _ & _); [conforms|nonempty_by Heo|].
  exists (validate_frame "fact_ecommerce_orders"
            (DataFrame_of (map ecommerce_order_row (g_orders g)))).1,
         (validate_frame "fact_website_traffic"
            (DataFrame_of (map page_view_row (g_traffic g)))).1.
  split; [reflexivity|]. split; [reflexivity|].
  split; [rewrite Hlen; exact Heo|].
  intros i j v Hi.
  destruct (cell_generated "fact_ecommerce_orders" _ ecommerce_order_row (g_orders g)
              "website_session_id" "str" i v eq_refl) as (o & Ho & ->);
    [conforms|reflexivity|exact Hi|].
  intros Hj.
  destruct (cell_generated "fact_website_traffic" _ page_view_row (g_traffic g)
              "session_id" "str" j _ eq_refl ltac:(conforms) eq_refl Hj) as (p & Hp & E).
  destruct (proj1 (Forall_lookup _ _) Horders i o Ho)
    as (_ & _ & _ & _ & _ & _ & n & Hn & En).
  destruct (proj1 (Forall_lookup _ _) Hsessions j p Hp) as (k & Hk & Ek).
  destruct o, p. cbn in E, En, Ek. injection E as E.
  rewrite En, Ek in E. exact (session_ids_differ n k (proj1 Hn) Hk E).
Qed.

(** X26.  In every run that returns, the shift times of [fact_attendance]
    are text after the validation, not times: in every row [shift_start] and
    [shift_end] are either the strings 08:00:00 and 17:00:00 or the strings
    14:00:00 and 23:00:00.  The schema declares them of type time, which the
    validation converts as it converts str. *)
Theorem generate_demo_data_attendance_shifts_text (gen : Z -> N -> N) (seed : Z)
    (st st' : rng_state) (tables : list (string * DataFrame))
    (reports : list (string * report)) :
  generate_demo_data gen seed st = (Ok (tables, reports), st') ->
  exists t,
    assoc_get "fact_attendance" tables = Some t /\
    forall i a b,
      cell t "shift_start" i = Some a -> cell t "shift_end" i = Some b ->
      (a = VStr "08:00:00" /\ b = VStr "17:00:00") \/
      (a = VStr "14:00:00" /\ b = VStr "23:00:00").
Proof.
  intros Hrun.
  destruct (generate_demo_data_links _ _ _ _ _ _ Hrun) as (g & Hg & Hl & -> & _).
  destruct Hl as (_ & _ & _ & _ & _ & _ & _ & [_ Hatt] & _).
  exists (validate_frame "fact_attendance"
            (DataFrame_of (map attendance_row (g_attendance g)))).1.
  split; [reflexivity|]. intros i a b Ha Hb.
  destruct (cell_generated "fact_attendance" _ attendance_row (g_attendance g)
              "shift_start" "time" i a eq_refl) as (r & Hr & ->);
    [conforms|reflexivity|exact Ha|].
  destruct (cell_generated "fact_attendance" _ attendance_row (g_attendance g)
              "shift_end" "time" i b eq_refl) as (r' & Hr' & ->);
    [conforms|reflexivity|exact Hb|].
  rewrite Hr in Hr'. apply (inj Some) in Hr'. subst r'.
  destruct (proj1 (Forall_lookup _ _) Hatt i r Hr) as ((e & _ & _ & _ & E) & _).
  destruct r. cbn in E |- *.
  destruct (String.eqb (em_shift_pattern e) "Evening"); injection E as -> ->.
  - right. split; reflexivity.
  - left. split; reflexivity.
Qed.

(** * Generators that return in every state *)

Lemma generate_raw_materials_data_succeeds :
  succeeds generate_raw_materials_data (fun _ => True).
Proof.
  unfold generate_raw_materials_data. cbv zeta.
  eapply succeeds_bind.
  { apply succeeds_for_each. intros c [category items] _.
    apply succeeds_for_each. intros c' item _. trun. exact I. }
  intros [ms c] _. by apply succeeds_ret.
Qed.

Lemma generate_inventory_transactions_succeeds (items : list inventory_item)
    (batches : list batch) (employees : list employee) (formulations : list formulation) :
  items <> [] ->
  (exists e, e ∈ employees /\ em_department e = "Production"%string) ->
  succeeds (generate_inventory_transactions items batches employees formulations)
           (fun _ => True).
Proof.
  intros Hitems (e & He & Hd). unfold generate_inventory_transactions. cbv zeta.
  set (staff := map em_employee_id (filter _ employees)).
  assert (Hstaff : staff <> []).
  { unfold staff. apply map_nonempty, nonempty_elem. exists e.
    apply list_elem_of_filter. split; [|exact He]. rewrite Hd. reflexivity. }
  eapply succeeds_bind.
  { apply succeeds_for_each. intros c b _.
    destruct (String.eqb (pb_status b) "Completed"); [|by apply succeeds_ret].
    cbv zeta. destruct (negb _); [|by apply succeeds_ret].
    destruct (filter _ items) as [|item rest]; [by apply succeeds_ret|].
    eapply succeeds_bind; [apply succeeds_choice; exact Hstaff|]. intros employee _.
    by apply succeeds_ret. }
  intros [receipts c] _.
  eapply succeeds_bind.
  { apply succeeds_for_each. intros c' item _.
    destruct (it_current_stock item >? 0) eqn:E; [|by apply succeeds_ret].
    apply Z.gtb_lt in E.
    eapply succeeds_bind; [apply succeeds_randint; lia|]. intros qty _.
    eapply succeeds_bind; [apply succeeds_randint; lia|]. intros n _.
    apply succeeds_for_each. intros c'' k _. repeat tstep.
    eapply succeeds_bind; [apply succeeds_choice; exact Hstaff|]. intros employee _.
    by apply succeeds_ret. }
  intros [issues c'] _.
  eapply succeeds_bind.
  { apply succeeds_for_each. intros c'' k _.
    eapply succeeds_bind; [apply succeeds_choice; exact Hitems|]. intros item _.
    repeat tstep.
    eapply succeeds_bind; [apply succeeds_choice; exact Hstaff|]. intros employee _.
    by apply succeeds_ret. }
  intros [transfers c''] _. by apply succeeds_ret.
Qed.

Lemma succeeds_next_where {A} (p : A -> bool) (xs : list A) :
  (exists x, x ∈ xs /\ p x = true) -> succeeds (next_where p xs) (fun _ => True).
Proof.
  intros (x & Hx & Hp). unfold next_where.
  destruct (find p xs) as [y|] eqn:E; [by apply succeeds_ret|].
  exfalso. apply list_elem_of_In in Hx.
  pose proof (find_none _ _ E x Hx) as H. congruence.
Qed.

Lemma generate_financial_transactions_succeeds (accounts : list account)
    (sales : list sale) :
  (exists a, a ∈ accounts /\
             Py.contains "Cash" (ac_account_name a) || Py.contains "Bank" (ac_account_name a)
             = true) ->
  (exists a, a ∈ accounts /\ Py.contains "Sales" (ac_account_name a) = true) ->
  (exists a, a ∈ accounts /\ ac_account_type a = "Expenses"%string) ->
  succeeds (generate_financial_transactions accounts sales) (fun _ => True).
Proof.
  intros Hcash Hsales Hexp. unfold generate_financial_transactions. cbv zeta.
  eapply succeeds_bind.
  { apply succeeds_for_each. intros c sale _.
    destruct (String.eqb (sa_payment_status sale) "Paid"); [|by apply succeeds_ret].
    eapply succeeds_bind; [apply succeeds_next_where; exact Hcash|]. intros cash _.
    eapply succeeds_bind; [apply succeeds_next_where; exact Hsales|]. intros revenue _.
    by apply succeeds_ret. }
  intros [postings c] _.
  eapply succeeds_bind.
  { apply succeeds_for_each. intros c' k _. repeat tstep.
    eapply succeeds_bind.
    { apply succeeds_choice. apply nonempty_elem. destruct Hexp as (acc & Hacc & Htype).
      exists acc. by apply list_elem_of_filter. }
    intros account _. trun. exact I. }
  intros [expenses c'] _. by apply succeeds_ret.
Qed.

Lemma generate_website_traffic_succeeds : succeeds generate_website_traffic (fun _ => True).
Proof.
  unfold generate_website_traffic. cbv zeta.
  eapply succeeds_bind.
  { apply succeeds_for_each. intros c day _.
    eapply succeeds_bind; [apply succeeds_randint; lia|]. intros sessions _.
    apply succeeds_for_each. intros c' k _. repeat tstep.
    eapply succeeds_bind.
    { apply succeeds_for_each. intros [] view _. cbv beta in *. repeat tstep.
      eapply succeeds_bind.
      { instantiate (1 := fun _ => True). destruct (Py.Qltb _ _); trun; exact I. }
      intros customer _. trun. exact I. }
    intros [views []] _. by apply succeeds_ret. }
  intros [traffic c] _. by apply succeeds_ret.
Qed.

Lemma generate_inventory_analytics_succeeds (items : list inventory_item)
    (txs : list inventory_transaction) :
  succeeds (generate_inventory_analytics items txs) (fun _ => True).
Proof.
  unfold generate_inventory_analytics.
  eapply succeeds_bind.
  { apply succeeds_for_each. intros c item _.
    apply succeeds_for_each. intros c' month _. cbv zeta.
    destruct (filter _ txs) as [|t rest]; [by apply succeeds_ret|].
    destruct (if it_current_stock item >? 0 then _ else _) as [rate days].
    trun. exact I. }
  intros [rows c] _. by apply succeeds_ret.
Qed.

Lemma audit_actions_nonempty (module : string) :
  default ["VIEW"; "UPDATE"]%string (assoc_get module audit_actions) <> [].
Proof.
  unfold audit_actions. cbn [assoc_get].
  repeat (destruct (String.eqb _ _); [discriminate|]). discriminate.
Qed.

Lemma generate_audit_logs_succeeds (tenants : list tenant) (employees : list employee)
    (sales : list sale) :
  tenants <> [] -> employees <> [] ->
  succeeds (generate_audit_logs tenants employees sales) (fun _ => True).
Proof.
  intros Ht He. unfold generate_audit_logs. cbv zeta.
  eapply succeeds_bind.
  { apply succeeds_for_each. intros c day _.
    eapply succeeds_bind; [apply succeeds_randint; lia|]. intros events _.
    apply succeeds_for_each. intros c' k _.
    eapply succeeds_bind; [apply succeeds_choice; by apply map_nonempty|].
    intros [user position] _.
    eapply succeeds_bind; [apply succeeds_choice; by apply map_nonempty|]. intros tenant _.
    eapply succeeds_bind.
    { instantiate (1 := fun _ => True).
      destruct (Py.contains "Manager" position);
        [|destruct (Py.contains "Sales" position);
          [|destruct (Py.contains "Production" position)]];
        first [by apply succeeds_ret
              |eapply succeeds_weaken; [apply succeeds_choice; discriminate|done]]. }
    intros module _.
    eapply succeeds_bind; [apply succeeds_choice, audit_actions_nonempty|]. intros action _.
    trun. exact I. }
  intros [logs c] _. by apply succeeds_ret.
Qed.

(** * The outcome of the pipeline *)

Lemma catalog_elem {A C} (t : A -> C) (xs : list A) (cat : list C) (p : C -> bool) :
  map t xs = cat -> existsb p cat = true -> exists x, x ∈ xs /\ p (t x) = true.
Proof.
  intros <- H. apply existsb_exists in H as (c & Hc & Hp).
  apply in_map_iff in Hc as (x & <- & Hx). exists x.
  split; [by apply list_elem_of_In|exact Hp].
Qed.

Lemma catalog_nonempty {A C} (t : A -> C) (xs : list A) (c : C) (cat : list C) :
  map t xs = c :: cat -> xs <> [].
Proof. intros H ->. discriminate H. Qed.

Lemma outcome_bind {A B} (m : M A) (f : A -> M B) (P : A -> Prop) (e : exn) :
  succeeds m P ->
  (forall a, P a -> forall s,
      (exists b s', f a s = (Ok b, s')) \/ (exists s', f a s = (Raise e, s'))) ->
  forall s, (exists b s', (m ≫= f) s = (Ok b, s')) \/
            (exists s', (m ≫= f) s = (Raise e, s')).
Proof.
  intros Hm Hf s. destruct (Hm s) as (a & s1 & E & Ha).
  unfold mbind, M_bind. rewrite E. exact (Hf a Ha s1).
Qed.

Lemma generate_all_outcome (s : rng_state) :
  (exists r s', generate_all s = (Ok r, s')) \/
  (exists s',
     generate_all s = (Raise (IndexError "Cannot choose from an empty sequence"), s')).
Proof.
  revert s. unfold generate_all. cbv zeta.
  eapply outcome_bind;
    [apply (succeeds_returns _ _ _ generate_employees_data_succeeds
              generate_employees_data_catalog)|].
  intros employees [_ [Hemployees _]].
  eapply outcome_bind;
    [apply (succeeds_returns _ _ _ generate_formulations_data_succeeds
              generate_formulations_data_spec)|].
  intros formulations [_ Hforms].
  eapply outcome_bind; [apply generate_raw_materials_data_succeeds|]. intros raw _.
  eapply outcome_bind;
    [apply (succeeds_returns _ _ _ generate_customers_data_succeeds
              generate_customers_data_kinds)|].
  intros customers [_ Hcustomers].
  assert (Hproduction : exists e, e ∈ employees /\ em_department e = "Production"%string).
  { destruct (catalog_elem _ _ _
                (fun c : string * string * string * bool => String.eqb c.1.1.2 "Production")
                Hemployees eq_refl) as (e & He & Hd).
    exists e. split; [exact He|]. apply String.eqb_eq. exact Hd. }
  assert (Hsales_staff : exists e, e ∈ employees /\
                                   em_department e = "Sales & Marketing"%string).
  { destruct (catalog_elem _ _ _
                (fun c : string * string * string * bool =>
                   String.eqb c.1.1.2 "Sales & Marketing")
                Hemployees eq_refl) as (e & He & Hd).
    exists e. split; [exact He|]. apply String.eqb_eq. exact Hd. }
  assert (Hindividual : exists c, c ∈ customers /\ cu_customer_type c = "Individual"%string).
  { destruct (catalog_elem _ _ _
                (fun c : string * string => String.eqb c.2 "Individual")
                Hcustomers eq_refl) as (c & Hc & Hd).
    exists c. split; [exact Hc|]. apply String.eqb_eq. exact Hd. }
  destruct (decide (Exists (fun f => fm_status f = "Active"%string) formulations))
    as [Hactive|Hnone].
  2: { intros s. right. apply fails_bind_l, generate_production_batches_fails.
       intros [(f & Hf & Hs) _]. apply Hnone, Exists_exists. by exists f. }
  apply Exists_exists in Hactive.
  eapply outcome_bind;
    [apply (generate_production_batches_succeeds _ _ Hactive Hproduction)|].
  intros batches _.
  eapply outcome_bind.
  { apply succeeds_returns.
    - apply generate_inventory_items_succeeds.
      assert (E : map fm_formulation_id formulations
                  = map (fun c : string * string * string => c.1.1)
                        (map (fun f => (fm_formulation_id f, fm_product_name f,
                                        fm_product_category f)) formulations))
        by (rewrite map_map; reflexivity).
      rewrite E, Hforms. apply (bool_decide_eq_true_1 (NoDup _)). vm_compute. reflexivity.
    - apply generate_inventory_items_spec. rewrite (formulation_pairs _ Hforms).
      apply item_sku_bases_no_dash. }
  intros items [_ Hitems]. rewrite (formulation_pairs _ Hforms) in Hitems.
  assert (Hitems_ne : items <> []).
  { intros ->. vm_compute in Hitems. discriminate Hitems. }
  eapply outcome_bind;
    [apply (generate_inventory_transactions_succeeds _ _ _ _ Hitems_ne Hproduction)|].
  intros txs _.
  eapply outcome_bind.
  { apply generate_sales_transactions_succeeds; [|exact Hitems_ne|exact Hsales_staff].
    apply nonempty_elem. destruct Hindividual as (c & Hc & _). by exists c. }
  intros sales _.
  eapply outcome_bind; [apply generate_ecommerce_orders_succeeds; exact Hindividual|].
  intros orders _.
  eapply outcome_bind; [apply generate_attendance_data_succeeds|]. intros attendance _.
  eapply outcome_bind;
    [apply (succeeds_returns _ _ _ generate_financial_accounts_succeeds
              generate_financial_accounts_catalog)|].
  intros accounts [_ Haccounts].
  eapply outcome_bind.
  { apply generate_financial_transactions_succeeds.
    - exact (catalog_elem _ _ _
               (fun c : string * string * string * string * string =>
                  Py.contains "Cash" c.1.1.1.2 || Py.contains "Bank" c.1.1.1.2)
               Haccounts eq_refl).
    - exact (catalog_elem _ _ _
               (fun c : string * string * string * string * string =>
                  Py.contains "Sales" c.1.1.1.2)
               Haccounts eq_refl).
    - destruct (catalog_elem _ _ _
                  (fun c : string * string * string * string * string =>
                     String.eqb c.1.1.2 "Expenses")
                  Haccounts eq_refl) as (a & Ha & Ht).
      exists a. split; [exact Ha|]. apply String.eqb_eq. exact Ht. }
  intros postings _.
  eapply outcome_bind; [apply generate_website_traffic_succeeds|]. intros traffic _.
  eapply outcome_bind; [apply generate_production_analytics_succeeds|]. intros pa _.
  eapply outcome_bind; [apply generate_inventory_analytics_succeeds|]. intros ia _.
  eapply outcome_bind.
  { apply generate_audit_logs_succeeds.
    - discriminate.
    - apply nonempty_elem. destruct Hproduction as (e & He & _). by exists e. }
  intros logs _ s. left.
  set (g := mk_generated generate_tenants_data employees formulations raw customers batches
                         items txs sales orders attendance accounts postings traffic pa ia logs).
  destruct (package_and_validate (frames_of g) (known_frames g)) as (ds & h' & Hrun & Htabs).
  unfold frames_of in Hrun. cbn [g_tenants g_employees g_formulations g_raw_materials
    g_customers g_batches g_items g_transactions g_sales g_orders g_attendance g_accounts
    g_postings g_traffic g_production_analytics g_inventory_analytics g_logs g] in Hrun.
  destruct (allocate 0%nat _ ∅) as [ds0 h0] eqn:Ealloc in Hrun |- *.
  cbn [fst snd] in Hrun. rewrite Hrun. eexists _, _. reflexivity.
Qed.

(** X27.  For a seed of 0 .. 2**32 - 1, whatever the draws and the state
    of the generator, [generate_demo_data] either returns its tables and
    reports or raises the exception with the message Error generating demo
    data: Cannot choose from an empty sequence: no other exception leaves it.
    For any other seed it raises, before the [try] block and in a state it
    leaves untouched, the [ValueError] of [np.random.seed]. *)
Theorem generate_demo_data_outcome (gen : Z -> N -> N) (seed : Z) (st : rng_state) :
  (0 <= seed < 2 ^ 32 ->
   (exists tables reports st',
      generate_demo_data gen seed st = (Ok (tables, reports), st')) \/
   (exists st',
      generate_demo_data gen seed st
      = (Raise (Exception
                  "Error generating demo data: Cannot choose from an empty sequence"),
         st'))) /\
  (~ 0 <= seed < 2 ^ 32 ->
   generate_demo_data gen seed st
   = (Raise (ValueError "Seed must be between 0 and 2**32 - 1"), st)).
Proof.
  split; [|apply generate_demo_data_refused].
  intros Hseed. rewrite (generate_demo_data_seeded _ _ _ Hseed). unfold try_except.
  destruct (generate_all_outcome (mk_rng (gen seed) 0%N)) as [([tables reports] & s' & E)|[s' E]];
    rewrite E.
  - left. exists tables, reports, s'. reflexivity.
  - right. exists s'. reflexivity.
Qed.

(** * Raw materials *)

Lemma generate_raw_materials_data_catalog :
  returns generate_raw_materials_data
    (fun ms => map (fun r => (rm_material_id r, rm_material_name r, rm_category r)) ms
               = material_catalog).
Proof.
  unfold generate_raw_materials_data. cbv zeta.
  eapply returns_bind.
  { apply (returns_for_each_spec
             (fun r => (rm_material_id r, rm_material_name r, rm_category r))
             (fun material_id '(category, items) =>
                pure_for_each
                  (fun material_id item =>
                     ([("MAT-" +:+ Py.fmt_0d 4 material_id, item, category)], material_id + 1))
                  items material_id)).
    intros s [category items] _.
    apply (returns_for_each_spec
             (fun r => (rm_material_id r, rm_material_name r, rm_category r))).
    intros s' item _. mrun. reflexivity. }
  intros [ms ?] H. cbv beta iota. apply returns_ret.
  unfold material_catalog. cbn [fst snd] in H. by rewrite <- H.
Qed.

Lemma generate_raw_materials_data_ok :
  returns generate_raw_materials_data (Forall material_ok).
Proof.
  unfold generate_raw_materials_data. cbv zeta.
  eapply returns_bind.
  { apply (returns_for_each material_ok). intros c [category items] _.
    apply (returns_for_each material_ok). intros c' item _. grun.
    constructor; [|constructor]. unfold material_ok.
    cbn [rm_supplier_id rm_unit_of_measure rm_unit_cost rm_min_stock_level rm_current_stock
         rm_shelf_life_days rm_storage_requirements].
    repeat match goal with H : (_ <= _ /\ _ <= _)%Q |- _ => destruct H end.
    repeat split; try assumption; try lia.
    - by apply (round_ge _ 2 50).
    - by apply (round_le _ 2 5000). }
  intros [ms c] H. cbv beta iota. apply returns_ret. exact H.
Qed.

(** X28.  [generate_raw_materials_data] returns in every generator state,
    with 42 materials: one per item of the six categories, in the order of
    the catalogue, numbered MAT-0001 .. MAT-0042 across the categories,
    hence pairwise distinct; each has a supplier of SUP-001 .. SUP-020, a
    unit cost of 50 .. 5000, a minimum stock of 10 .. 100, a current stock
    of 50 .. 500, and a unit, a shelf life and a storage requirement of the
    lists of the generator. *)
Theorem generate_raw_materials_data_rows (s : rng_state) :
  exists ms s',
    generate_raw_materials_data s = (Ok ms, s') /\
    map (fun r => (rm_material_id r, rm_material_name r, rm_category r)) ms
    = material_catalog /\
    map rm_material_id ms = ids_from "MAT-" 4 1 42 /\
    NoDup (map rm_material_id ms) /\
    Forall material_ok ms.
Proof.
  destruct (succeeds_returns _ _ _
              (succeeds_returns _ _ _ generate_raw_materials_data_succeeds
                 generate_raw_materials_data_catalog)
              generate_raw_materials_data_ok s)
    as (ms & s' & Hrun & [_ Hcat] & Hok).
  exists ms, s'. split; [exact Hrun|]. split; [exact Hcat|].
  assert (Hids : map rm_material_id ms = ids_from "MAT-" 4 1 42).
  { assert (H : map rm_material_id ms
                = map (fun c : string * string * string => c.1.1) material_catalog)
      by (rewrite <- Hcat, map_map; reflexivity).
    rewrite H. vm_compute. reflexivity. }
  split; [exact Hids|]. split; [|exact Hok].
  rewrite Hids. apply ids_from_NoDup. lia.
Qed.

(** * Website traffic *)

Lemma returns_for_each_grouped {A B} (P : Z -> list B -> Prop) (lo hi : nat) (xs : list A)
    (body : Z -> A -> M (list B * Z)) :
  (forall c x, x ∈ xs -> returns (body c x) (grouped P lo hi c)) ->
  forall c, returns (for_each xs body c)
                    (grouped P (lo * length xs) (hi * length xs) c).
Proof.
  induction xs as [|x xs IH]; intros Hb c; cbn [for_each].
  - apply returns_ret. exists []. cbn. repeat split; try lia. intros i g Hi. discriminate Hi.
  - eapply returns_bind; [apply Hb; left|]. intros [rows c1] (g1 & E1 & Hn1 & Hc1 & HP1).
    eapply returns_bind; [apply IH; intros; apply Hb; by right|].
    intros [rest c2] (g2 & E2 & Hn2 & Hc2 & HP2).
    apply returns_ret. cbn [fst snd length] in *. exists (g1 ++ g2). cbn [fst snd].
    rewrite concat_app, length_app, E1, E2. split; [reflexivity|]. split; [lia|].
    split; [lia|]. intros i g Hi. apply lookup_app_Some in Hi as [Hi|[Hge Hi]].
    + exact (HP1 i g Hi).
    + replace (c + Z.of_nat i) with (c1 + Z.of_nat (i - length g1)) by lia.
      exact (HP2 _ g Hi).
Qed.

Lemma grouped_one {B} (P : Z -> list B -> Prop) (c : Z) (rows : list B) :
  P c rows -> grouped P 1 1 c (rows, c + 1).
Proof.
  intros H. exists [rows]. cbn. rewrite app_nil_r. repeat split; try lia.
  intros [|i] g Hi; [|discriminate Hi]. injection Hi as <-. by rewrite Z.add_0_r.
Qed.

Lemma generate_website_traffic_grouped :
  returns generate_website_traffic
    (fun traffic => exists sessions,
       traffic = concat sessions /\ 1500 <= Z.of_nat (length sessions) <= 6000 /\
       forall i rows, sessions !! i = Some rows -> session_rows (Z.of_nat i + 1) rows).
Proof.
  unfold generate_website_traffic. cbv zeta.
  eapply returns_bind.
  { apply (returns_for_each_grouped session_rows 50 200). intros c day _.
    eapply returns_bind; [apply returns_randint|]. intros sessions Hsessions.
    eapply returns_weaken.
    { apply (returns_for_each_grouped session_rows 1 1). intros c' x _.
      eapply returns_bind; [apply returns_randint|]. intros sh _.
      eapply returns_bind; [apply returns_randint|]. intros smin _. cbv zeta.
      eapply returns_bind; [apply returns_randint|]. intros page_views Hviews.
      eapply returns_bind; [apply returns_randint|]. intros duration Hduration.
      eapply returns_bind.
      { apply returns_and.
        - apply (returns_for_each
                   (fun r => wt_session_id r = "SESS-" +:+ Py.fmt_0d 6 c' /\
                             wt_page_views r = page_views /\
                             wt_session_duration_seconds r = duration)).
          intros [] view _. mrun; (constructor; [|constructor]); repeat split.
        - apply returns_for_each_length. intros [] view _. mrun; reflexivity. }
      intros [views []] [Hrows Hlen]. cbv beta iota. apply returns_ret.
      cbn [fst snd] in *. rewrite length_range in Hlen. apply grouped_one.
      split; [lia|]. exists duration. split; [exact Hduration|].
      eapply Forall_impl; [exact Hrows|]. intros r (H1 & H2 & H3). repeat split; try assumption.
      rewrite H2. lia. }
    intros [rows cc] (groups & E & Hn & Hc & HP). cbv beta in *. cbn [fst snd] in *.
    rewrite length_range in Hn. exists groups. cbn [fst snd].
    split; [exact E|]. split; [lia|]. split; [exact Hc|exact HP]. }
  intros [traffic c] (groups & E & Hn & _ & HP). cbv beta iota. apply returns_ret.
  rewrite length_range in Hn. cbn [fst] in E. exists groups.
  split; [exact E|]. split; [lia|]. intros i rows Hi.
  replace (Z.of_nat i + 1) with (1 + Z.of_nat i) by lia. exact (HP i rows Hi).
Qed.

(** X29.  [generate_website_traffic] returns in every generator state.  Its
    rows are those of 1500 .. 6000 sessions, one session after the other,
    the sessions numbered SESS-000001, SESS-000002, ... in order: a session
    has 1 .. 10 rows, which all carry its identifier, the same duration of
    30 .. 1800 seconds, and as [page_views] the number of rows of the
    session. *)
Theorem generate_website_traffic_by_session (s : rng_state) :
  exists traffic s',
    generate_website_traffic s = (Ok traffic, s') /\
    exists sessions,
      traffic = concat sessions /\ 1500 <= Z.of_nat (length sessions) <= 6000 /\
      forall i rows, sessions !! i = Some rows -> session_rows (Z.of_nat i + 1) rows.
Proof.
  destruct (succeeds_returns _ _ _ generate_website_traffic_succeeds
              generate_website_traffic_grouped s) as (traffic & s' & Hrun & _ & H).
  exists traffic, s'. split; [exact Hrun|exact H].
Qed.

(** * Inventory analytics *)

Lemma months_elem (m : Z) : m ∈ map (fun m => m + 1) (range 12) <-> 1 <= m <= 12.
Proof.
  unfold range. rewrite map_map. split.
  - intros H. apply list_elem_of_fmap in H as (k & -> & Hk). apply elem_of_seq in Hk. lia.
  - intros H. apply list_elem_of_fmap. exists (Z.to_nat (m - 1)).
    split; [lia|]. apply elem_of_seq. lia.
Qed.

Lemma returns_for_each_monotone {S A B} (Q : A -> list B -> Prop) (xs : list A)
    (body : S -> A -> M (list B * S)) :
  (forall x l l', Q x l -> (forall b, b ∈ l -> b ∈ l') -> Q x l') ->
  (forall s x, x ∈ xs -> returns (body s x) (fun r => Q x r.1)) ->
  forall s, returns (for_each xs body s) (fun r => forall x, x ∈ xs -> Q x r.1).
Proof.
  intros Hmono. induction xs as [|x xs IH]; intros Hb s; cbn [for_each].
  - apply returns_ret. intros x Hx. by apply elem_of_nil in Hx.
  - eapply returns_bind; [apply Hb; left|]. intros [rows s1] Hrows.
    eapply returns_bind; [apply IH; intros; apply Hb; by right|]. intros [rest s2] Hrest.
    apply returns_ret. cbn [fst] in *. intros y Hy. apply elem_of_cons in Hy as [->|Hy].
    + apply (Hmono _ _ _ Hrows). intros b Hb'. apply elem_of_app. by left.
    + apply (Hmono _ _ _ (Hrest y Hy)). intros b Hb'. apply elem_of_app. by right.
Qed.

Lemma abc_classification (v : Q) :
  ((100000 < v)%Q ->
   (if Py.Qltb 100000 v then "A" else if Py.Qltb 50000 v then "B" else "C") = "A"%string) /\
  ((50000 < v /\ v <= 100000)%Q ->
   (if Py.Qltb 100000 v then "A" else if Py.Qltb 50000 v then "B" else "C") = "B"%string) /\
  ((v <= 50000)%Q ->
   (if Py.Qltb 100000 v then "A" else if Py.Qltb 50000 v then "B" else "C") = "C"%string).
Proof.
  destruct (Py.Qltb 100000 v) eqn:E1; destruct (Py.Qltb 50000 v) eqn:E2;
    try apply Qltb_true in E1; try apply Qltb_true in E2;
    try (apply not_true_iff_false in E1; rewrite Qltb_true in E1);
    try (apply not_true_iff_false in E2; rewrite Qltb_true in E2);
    repeat split; intros; try reflexivity; exfalso; lra.
Qed.

Lemma generate_inventory_analytics_of (items : list inventory_item)
    (txs : list inventory_transaction) :
  returns (generate_inventory_analytics items txs) (Forall (analysis_of items txs)).
Proof.
  unfold generate_inventory_analytics.
  eapply returns_bind.
  { apply (returns_for_each (analysis_of items txs)). intros c item Hitem.
    apply (returns_for_each (analysis_of items txs)). intros c' month Hmonth. cbv zeta.
    apply months_elem in Hmonth.
    destruct (filter _ txs) as [|t rest] eqn:E; [apply returns_ret; constructor|].
    assert (Ht : t ∈ filter (fun t => tx_sku t = it_sku item
                   ∧ Datetime.date_leb (tx_transaction_date t) (mk_date 2024 month 15) = true)
                   txs) by (rewrite E; left).
    apply list_elem_of_filter in Ht as [[Hsku Hdate] Ht].
    mrun; (constructor; [|constructor]); exists item, month, t;
      (split; [exact Hitem|]); (split; [exact Hmonth|]); (split; [exact Ht|]);
      (split; [exact Hsku|]); (split; [exact Hdate|]);
      (split; [reflexivity|]); (split; [reflexivity|]); (split; [reflexivity|]);
      apply abc_classification. }
  intros [rows c] H. cbv beta iota. apply returns_ret. exact H.
Qed.

Lemma generate_inventory_analytics_covers (items : list inventory_item)
    (txs : list inventory_transaction) :
  returns (generate_inventory_analytics items txs)
    (fun rows =>
       forall item, item ∈ items ->
         forall month, month ∈ map (fun m => m + 1) (range 12) ->
           (exists t, t ∈ txs /\ tx_sku t = it_sku item /\
                      Datetime.date_leb (tx_transaction_date t) (mk_date 2024 month 15) = true) ->
           exists r, r ∈ rows /\ ia_sku r = it_sku item /\ ia_date r = mk_date 2024 month 15).
Proof.
  unfold generate_inventory_analytics.
  eapply returns_bind.
  { apply (returns_for_each_monotone
             (fun item rows =>
                forall month, month ∈ map (fun m => m + 1) (range 12) ->
                  (exists t, t ∈ txs /\ tx_sku t = it_sku item /\
                     Datetime.date_leb (tx_transaction_date t) (mk_date 2024 month 15) = true) ->
                  exists r, r ∈ rows /\ ia_sku r = it_sku item /\
                            ia_date r = mk_date 2024 month 15)).
    { intros item l l' H Hsub month Hm Ht. destruct (H month Hm Ht) as (r & Hr & Hkey).
      exists r. split; [exact (Hsub r Hr)|exact Hkey]. }
    intros c item _.
    apply (returns_for_each_monotone
             (fun month rows =>
                (exists t, t ∈ txs /\ tx_sku t = it_sku item /\
                   Datetime.date_leb (tx_transaction_date t) (mk_date 2024 month 15) = true) ->
                exists r, r ∈ rows /\ ia_sku r = it_sku item /\
                          ia_date r = mk_date 2024 month 15)).
    { intros month l l' H Hsub Ht. destruct (H Ht) as (r & Hr & Hkey).
      exists r. split; [exact (Hsub r Hr)|exact Hkey]. }
    intros c' month _. cbv zeta.
    destruct (filter _ txs) as [|t rest] eqn:E.
    - apply returns_ret. intros (t & Ht & Hsku & Hdate). exfalso.
      assert (H : t ∈ filter (fun t => tx_sku t = it_sku item
                    ∧ Datetime.date_leb (tx_transaction_date t) (mk_date 2024 month 15) = true)
                    txs) by (by apply list_elem_of_filter).
      rewrite E in H. by apply elem_of_nil in H.
    - mrun; intros _; eexists; (split; [left|]); split; reflexivity. }
  intros [rows c] H. cbv beta iota. apply returns_ret. exact H.
Qed.

Lemma generate_inventory_analytics_ids (items : list inventory_item)
    (txs : list inventory_transaction) :
  returns (generate_inventory_analytics items txs)
    (fun rows => map ia_analytics_id rows = ids_from "INV-ANAL-" 4 1 (length rows) /\
                 (length rows <= 12 * length items)%nat).
Proof.
  unfold generate_inventory_analytics.
  pose (f := fun i => "INV-ANAL-" +:+ Py.fmt_0d 4 i).
  eapply returns_bind.
  { apply returns_and.
    - apply (returns_for_each_counter ia_analytics_id f). intros c item _.
      apply (returns_for_each_counter ia_analytics_id f). intros c' month _.
      mrun; first [by apply counter_one|apply counter_none].
    - apply (returns_for_each_count 0 12). intros c item _.
      eapply returns_weaken.
      { apply (returns_for_each_count 0 1). intros c' month _.
        mrun; cbn [fst length]; lia. }
      intros r Hr. cbv beta in Hr. rewrite length_map, length_range in Hr. lia. }
  intros [rows c] [[Hids _] Hlen]. cbv beta iota. apply returns_ret. cbn [fst] in *.
  split; [exact Hids|lia].
Qed.

(** X30.  [generate_inventory_analytics] returns for every input and in
    every generator state.  Each of its rows is that of an item of the input
    and of a month of 2024, dated the 15th of the month, for which the item
    has a transaction dated the 15th or before; it repeats the sku and the
    category of the item and classes it A when its total value is above
    100000, B when above 50000, C otherwise.  Conversely every item and
    month with such a transaction has a row.  The rows are numbered
    INV-ANAL-0001, INV-ANAL-0002, ... in order, and there are at most 12
    times as many rows as items. *)
Theorem generate_inventory_analytics_rows (items : list inventory_item)
    (txs : list inventory_transaction) (s : rng_state) :
  exists rows s',
    generate_inventory_analytics items txs s = (Ok rows, s') /\
    Forall (analysis_of items txs) rows /\
    (forall item month t,
       item ∈ items -> 1 <= month <= 12 -> t ∈ txs -> tx_sku t = it_sku item ->
       Datetime.date_leb (tx_transaction_date t) (mk_date 2024 month 15) = true ->
       exists r, r ∈ rows /\ ia_sku r = it_sku item /\ ia_date r = mk_date 2024 month 15) /\
    map ia_analytics_id rows = ids_from "INV-ANAL-" 4 1 (length rows) /\
    (length rows <= 12 * length items)%nat.
Proof.
  destruct (succeeds_returns _ _ _
              (succeeds_returns _ _ _
                 (succeeds_returns _ _ _ (generate_inventory_analytics_succeeds items txs)
                    (generate_inventory_analytics_of items txs))
                 (generate_inventory_analytics_covers items txs))
              (generate_inventory_analytics_ids items txs) s)
    as (rows & s' & Hrun & [[_ Hof] Hcov] & Hids & Hlen).
  exists rows, s'. split; [exact Hrun|]. split; [exact Hof|].
  split; [|split; [exact Hids|exact Hlen]].
  intros item month t Hitem Hmonth Ht Hsku Hdate.
  apply (Hcov item Hitem month (proj2 (months_elem month) Hmonth)).
  exists t. split; [exact Ht|]. split; [exact Hsku|exact Hdate].
Qed.

(** * The sample run and the links between its tables *)

Lemma generate_demo_data_references_witness :
  example_run = (Ok (tables_of example_run, reports_of example_run), example_run.2) /\
  Forall (references (tables_of example_run)) foreign_keys.
Proof.
  exact (conj example_run_returns
           (generate_demo_data_references example_draws 42 initial_state example_run.2
              (tables_of example_run) (reports_of example_run) example_run_returns)).
Defined.

Lemma generate_demo_data_unique_keys_witness :
  example_run = (Ok (tables_of example_run, reports_of example_run), example_run.2) /\
  Forall (unique_key (tables_of example_run)) primary_keys.
Proof.
  exact (conj example_run_returns
           (generate_demo_data_unique_keys example_draws 42 initial_state example_run.2
              (tables_of example_run) (reports_of example_run) example_run_returns)).
Defined.

Lemma generate_demo_data_row_counts_witness :
  example_run = (Ok (tables_of example_run, reports_of example_run), example_run.2) /\
  Forall (sized (tables_of example_run) (reports_of example_run)) table_sizes.
Proof.
  exact (conj example_run_returns
           (generate_demo_data_row_counts example_draws 42 initial_state example_run.2
              (tables_of example_run) (reports_of example_run) example_run_returns)).
Defined.

Lemma generate_demo_data_order_sessions_unmatched_witness :
  example_run = (Ok (tables_of example_run, reports_of example_run), example_run.2) /\
  (exists orders traffic,
    assoc_get "fact_ecommerce_orders" (tables_of example_run) = Some orders /\
    assoc_get "fact_website_traffic" (tables_of example_run) = Some traffic /\
    frame_len orders = 200%nat /\
    forall i j v, cell orders "website_session_id" i = Some v ->
                  cell traffic "session_id" j <> Some v).
Proof.
  exact (conj example_run_returns
           (generate_demo_data_order_sessions_unmatched example_draws 42 initial_state
              example_run.2 (tables_of example_run) (reports_of example_run)
              example_run_returns)).
Defined.

Lemma generate_demo_data_attendance_shifts_text_witness :
  example_run = (Ok (tables_of example_run, reports_of example_run), example_run.2) /\
  (exists t,
    assoc_get "fact_attendance" (tables_of example_run) = Some t /\
    forall i a b,
      cell t "shift_start" i = Some a -> cell t "shift_end" i = Some b ->
      (a = VStr "08:00:00" /\ b = VStr "17:00:00") \/
      (a = VStr "14:00:00" /\ b = VStr "23:00:00")).
Proof.
  exact (conj example_run_returns
           (generate_demo_data_attendance_shifts_text example_draws 42 initial_state
              example_run.2 (tables_of example_run) (reports_of example_run)
              example_run_returns)).
Defined.

